(** * projectplans: the model, layout, command log and mutation controller

    A shallow embedding of the Python sources under [src/projectplans]
    ([model.py], [layout.py], [commands.py], [controller.py], the anchor
    helpers of [items.py] and [persistence.py]) together with the
    properties that the specification states about them.

    Conventions of the embedding.
    - A Python [int] is a [Z], a [str] is a [string], [T | None] is
      [option T].
    - A Python [float] is a rational [Q], and NaN and the infinities
      are absent.  In the model, the controller and the anchor geometry
      arithmetic is carried out without rounding.  The week columns of
      [layout.py] are given a second time with binary64 rounding
      ([Binary64], [Number], [Layout64]): the statements about turning
      a canvas x into a week are made about these.
      Comparisons between floats are the numeric ones ([Qeq_bool],
      [Qle_bool]); two representations of one rational are the same float.
    - Values read from a JSON file that the code converts or compares
      are [JScalar]s of any JSON type; [int()] and [float()] raise on
      them as the interpreter does.
    - A [dict] is an association list in insertion order, as Python
      iterates it.
    - The controller's mutable attributes are threaded through a
      [Controller.t] value: every method takes the state and returns the
      next one. *)

From Stdlib Require Import ZArith QArith Qround Qabs Qpower Lia Lqa.
From Stdlib Require Import Bool List String Ascii Permutation Sorted.
Import ListNotations.

#[local] Open Scope Z_scope.
#[local] Open Scope string_scope.
#[local] Open Scope list_scope.
#[local] Set Warnings "-register-all".

(** ** Constants

    [constants.py] is not among the sources at hand; the names imported
    from it are taken as parameters of the development. *)

Class Constants : Type := {
  SCHEMA_VERSION : Z;
  DEFAULT_SIZE : Z;
  DEFAULT_CLASSIFICATION : string;
  CLASSIFICATION_SIZE_DEFAULT : Z;
  CLASSIFICATION_SIZE_MIN : Z;
  CLASSIFICATION_SIZE_MAX : Z;
  CANVAS_ROW_ID : string;
  LINK_LINE_COLOR : string;
  CONNECTOR_DEFAULT_COLOR : string;
  DEADLINE_DEFAULT_COLOR : string;
  TEXTBOX_DEFAULT_COLOR : string;
  TEXTBOX_DEFAULT_OPACITY : Q;
  TEXTBOX_NEW_OPACITY : Q;
  TEXTBOX_MIN_WIDTH : Q;
  TEXTBOX_MIN_HEIGHT : Q
}.

(** [int(s)] and [float(s)] on a string read a numeral.  The two
    parsers belong to the interpreter; they are parameters of the
    development, [None] standing for the [ValueError] of a string that is
    no numeral. *)
Class Numerals : Type := {
  int_of_str : string -> option Z;
  float_of_str : string -> option Q
}.

(** ** Python built-ins used by the sources *)

Module Py.

(** [a < b] on floats. *)
Definition ltb (a b : Q) : bool := negb (Qle_bool b a).

(** [min(a, b)] and [max(a, b)]: the first argument wins a tie. *)
Definition min (a b : Q) : Q := if ltb b a then b else a.
Definition max (a b : Q) : Q := if ltb a b then b else a.

(** [int(q)] truncates toward zero; [math.floor] rounds down. *)
Definition int (q : Q) : Z := Z.quot (Qnum q) (Zpos (Qden q)).
Definition floor (q : Q) : Z := Qfloor q.

(** [v or d] for an optional float: [None] and [0.0] are falsy. *)
Definition or_float (v : option Q) (d : Q) : Q :=
  match v with
  | Some q => if Qeq_bool q 0 then d else q
  | None => d
  end.

(** [v if v is not None else d]. *)
Definition if_not_none {A : Type} (v : option A) (d : A) : A :=
  match v with Some a => a | None => d end.

(** Truthiness of an optional string: [None] and [""] are falsy. *)
Definition truthy (v : option string) : bool :=
  match v with
  | Some s => negb (String.eqb s "")
  | None => false
  end.

(** [v == s] where [v] may be [None]. *)
Definition eq_opt (v : option string) (s : string) : bool :=
  match v with Some t => String.eqb t s | None => false end.

(** [==] on optional values. *)
Definition option_eqb {A : Type} (e : A -> A -> bool) (a b : option A) : bool :=
  match a, b with
  | Some u, Some v => e u v
  | None, None => true
  | _, _ => false
  end.

(** [s in (a, b, ...)]. *)
Definition str_in (s : string) (l : list string) : bool :=
  existsb (String.eqb s) l.

(** ASCII whitespace, as [str.strip] removes it. *)
Definition is_space (c : ascii) : bool :=
  let n := nat_of_ascii c in
  (Nat.eqb n 32 || (Nat.leb 9 n && Nat.leb n 13) || (Nat.leb 28 n && Nat.leb n 31))%bool.

Fixpoint lstrip (s : string) : string :=
  match s with
  | String c r => if is_space c then lstrip r else s
  | EmptyString => EmptyString
  end.

Fixpoint rstrip (s : string) : string :=
  match s with
  | String c r =>
      match rstrip r with
      | EmptyString => if is_space c then EmptyString else String c EmptyString
      | r' => String c r'
      end
  | EmptyString => EmptyString
  end.

Definition strip (s : string) : string := rstrip (lstrip s).

Definition lower_ascii (c : ascii) : ascii :=
  let n := nat_of_ascii c in
  if (Nat.leb 65 n && Nat.leb n 90)%bool then ascii_of_nat (n + 32) else c.

Fixpoint lower (s : string) : string :=
  match s with
  | String c r => String (lower_ascii c) (lower r)
  | EmptyString => EmptyString
  end.

(** Results of code that may raise. *)
Inductive exception : Type :=
| ValueError (msg : string)
| KeyError (key : string)
| TypeError (msg : string)
| AttributeError (name : string)
| OverflowError (msg : string).

Inductive result (A : Type) : Type :=
| Return (a : A)
| Raise (e : exception).
Arguments Return {A} a.
Arguments Raise {A} e.

Definition bind {A B : Type} (r : result A) (k : A -> result B) : result B :=
  match r with
  | Return a => k a
  | Raise e => Raise e
  end.

(** [d[key]] for a key that may be missing. *)
Definition item {A : Type} (key : string) (v : option A) : result A :=
  match v with
  | Some a => Return a
  | None => Raise (KeyError key)
  end.

Fixpoint map_result {A B : Type} (f : A -> result B) (l : list A) : result (list B) :=
  match l with
  | [] => Return []
  | a :: r => bind (f a) (fun b => bind (map_result f r) (fun bs => Return (b :: bs)))
  end.

End Py.

(** ** [dict]: an association list that keeps insertion order *)

Module Dict.
Section Dict.
Context {V : Type}.

Definition t : Type := list (string * V).

Fixpoint get (k : string) (d : t) : option V :=
  match d with
  | [] => None
  | (k', v) :: r => if String.eqb k k' then Some v else get k r
  end.

Definition contains (k : string) (d : t) : bool :=
  match get k d with Some _ => true | None => false end.

(** [d[k] = v]: an existing key keeps its position, a new one is appended. *)
Fixpoint set (k : string) (v : V) (d : t) : t :=
  match d with
  | [] => [(k, v)]
  | (k', v') :: r => if String.eqb k k' then (k', v) :: r else (k', v') :: set k v r
  end.

(** [del d[k]] (for a key that is present; otherwise nothing changes). *)
Fixpoint del (k : string) (d : t) : t :=
  match d with
  | [] => []
  | (k', v') :: r => if String.eqb k k' then r else (k', v') :: del k r
  end.

Definition keys (d : t) : list string := map fst d.
Definition values (d : t) : list V := map snd d.

End Dict.
Arguments t V : clear implicits.
End Dict.

(** ** [model.py] *)

Module Model.

Import Py.

Definition DEFAULT_TOPIC_COLORS : list string :=
  ["#4E79A7"; "#F28E2B"; "#E15759"; "#76B7B2"; "#59A14F";
   "#EDC949"; "#AF7AA1"; "#FF9DA7"; "#9C755F"; "#BAB0AC"].

Definition normalize_arrow_direction (value : string) : string :=
  let direction := lower (strip (if String.eqb value "" then "none" else value)) in
  if negb (str_in direction ["none"; "left"; "right"]) then "none" else direction.

Record Deliverable : Type := mkDeliverable {
  deliverable_id : string;
  deliverable_name : string
}.

Record Topic : Type := mkTopic {
  topic_id : string;
  topic_name : string;
  topic_color : string;
  collapsed : bool;
  deliverables : list Deliverable
}.

Record CanvasObject : Type := mkCanvasObject {
  id : string;
  kind : string;
  row_id : string;
  start_week : Z;
  end_week : Z;
  text : string;
  text_align : string;
  text_html : option string;
  notes : string;
  notes_html : option string;
  scope : string;
  scope_html : option string;
  risks : string;
  risks_html : option string;
  color : string;
  size : Z;
  z_index : Z;
  target_row_id : option string;
  target_week : option Z;
  arrow_mid_week : option Z;
  arrow_head_start : bool;
  arrow_head_end : bool;
  arrow_direction : string;
  x : option Q;
  y : option Q;
  width : option Q;
  height : option Q;
  opacity : Q;
  link_source_id : option string;
  link_target_id : option string;
  link_source_side : option string;
  link_source_offset : option Q;
  link_offset_x : option Q;
  link_offset_y : option Q;
  connector_source_id : option string;
  connector_target_id : option string;
  connector_source_side : option string;
  connector_source_offset : option Q;
  connector_target_side : option string;
  connector_target_offset : option Q
}.

Definition set_id (v : string) (o : CanvasObject) : CanvasObject :=
  mkCanvasObject
    v o.(kind) o.(row_id) o.(start_week) o.(end_week) o.(text) o.(text_align)
    o.(text_html) o.(notes) o.(notes_html) o.(scope) o.(scope_html) o.(risks)
    o.(risks_html) o.(color) o.(size) o.(z_index) o.(target_row_id) o.(target_week)
    o.(arrow_mid_week) o.(arrow_head_start) o.(arrow_head_end) o.(arrow_direction)
    o.(x) o.(y) o.(width) o.(height) o.(opacity) o.(link_source_id) o.(link_target_id)
    o.(link_source_side) o.(link_source_offset) o.(link_offset_x) o.(link_offset_y)
    o.(connector_source_id) o.(connector_target_id) o.(connector_source_side)
    o.(connector_source_offset) o.(connector_target_side) o.(connector_target_offset).

Definition set_kind (v : string) (o : CanvasObject) : CanvasObject :=
  mkCanvasObject
    o.(id) v o.(row_id) o.(start_week) o.(end_week) o.(text) o.(text_align)
    o.(text_html) o.(notes) o.(notes_html) o.(scope) o.(scope_html) o.(risks)
    o.(risks_html) o.(color) o.(size) o.(z_index) o.(target_row_id) o.(target_week)
    o.(arrow_mid_week) o.(arrow_head_start) o.(arrow_head_end) o.(arrow_direction)
    o.(x) o.(y) o.(width) o.(height) o.(opacity) o.(link_source_id) o.(link_target_id)
    o.(link_source_side) o.(link_source_offset) o.(link_offset_x) o.(link_offset_y)
    o.(connector_source_id) o.(connector_target_id) o.(connector_source_side)
    o.(connector_source_offset) o.(connector_target_side) o.(connector_target_offset).

Definition set_row_id (v : string) (o : CanvasObject) : CanvasObject :=
  mkCanvasObject
    o.(id) o.(kind) v o.(start_week) o.(end_week) o.(text) o.(text_align) o.(text_html)
    o.(notes) o.(notes_html) o.(scope) o.(scope_html) o.(risks) o.(risks_html)
    o.(color) o.(size) o.(z_index) o.(target_row_id) o.(target_week) o.(arrow_mid_week)
    o.(arrow_head_start) o.(arrow_head_end) o.(arrow_direction) o.(x) o.(y) o.(width)
    o.(height) o.(opacity) o.(link_source_id) o.(link_target_id) o.(link_source_side)
    o.(link_source_offset) o.(link_offset_x) o.(link_offset_y) o.(connector_source_id)
    o.(connector_target_id) o.(connector_source_side) o.(connector_source_offset)
    o.(connector_target_side) o.(connector_target_offset).

Definition set_start_week (v : Z) (o : CanvasObject) : CanvasObject :=
  mkCanvasObject
    o.(id) o.(kind) o.(row_id) v o.(end_week) o.(text) o.(text_align) o.(text_html)
    o.(notes) o.(notes_html) o.(scope) o.(scope_html) o.(risks) o.(risks_html)
    o.(color) o.(size) o.(z_index) o.(target_row_id) o.(target_week) o.(arrow_mid_week)
    o.(arrow_head_start) o.(arrow_head_end) o.(arrow_direction) o.(x) o.(y) o.(width)
    o.(height) o.(opacity) o.(link_source_id) o.(link_target_id) o.(link_source_side)
    o.(link_source_offset) o.(link_offset_x) o.(link_offset_y) o.(connector_source_id)
    o.(connector_target_id) o.(connector_source_side) o.(connector_source_offset)
    o.(connector_target_side) o.(connector_target_offset).

Definition set_end_week (v : Z) (o : CanvasObject) : CanvasObject :=
  mkCanvasObject
    o.(id) o.(kind) o.(row_id) o.(start_week) v o.(text) o.(text_align) o.(text_html)
    o.(notes) o.(notes_html) o.(scope) o.(scope_html) o.(risks) o.(risks_html)
    o.(color) o.(size) o.(z_index) o.(target_row_id) o.(target_week) o.(arrow_mid_week)
    o.(arrow_head_start) o.(arrow_head_end) o.(arrow_direction) o.(x) o.(y) o.(width)
    o.(height) o.(opacity) o.(link_source_id) o.(link_target_id) o.(link_source_side)
    o.(link_source_offset) o.(link_offset_x) o.(link_offset_y) o.(connector_source_id)
    o.(connector_target_id) o.(connector_source_side) o.(connector_source_offset)
    o.(connector_target_side) o.(connector_target_offset).

Definition set_text (v : string) (o : CanvasObject) : CanvasObject :=
  mkCanvasObject
    o.(id) o.(kind) o.(row_id) o.(start_week) o.(end_week) v o.(text_align)
    o.(text_html) o.(notes) o.(notes_html) o.(scope) o.(scope_html) o.(risks)
    o.(risks_html) o.(color) o.(size) o.(z_index) o.(target_row_id) o.(target_week)
    o.(arrow_mid_week) o.(arrow_head_start) o.(arrow_head_end) o.(arrow_direction)
    o.(x) o.(y) o.(width) o.(height) o.(opacity) o.(link_source_id) o.(link_target_id)
    o.(link_source_side) o.(link_source_offset) o.(link_offset_x) o.(link_offset_y)
    o.(connector_source_id) o.(connector_target_id) o.(connector_source_side)
    o.(connector_source_offset) o.(connector_target_side) o.(connector_target_offset).

Definition set_text_html (v : option string) (o : CanvasObject) : CanvasObject :=
  mkCanvasObject
    o.(id) o.(kind) o.(row_id) o.(start_week) o.(end_week) o.(text) o.(text_align) v
    o.(notes) o.(notes_html) o.(scope) o.(scope_html) o.(risks) o.(risks_html)
    o.(color) o.(size) o.(z_index) o.(target_row_id) o.(target_week) o.(arrow_mid_week)
    o.(arrow_head_start) o.(arrow_head_end) o.(arrow_direction) o.(x) o.(y) o.(width)
    o.(height) o.(opacity) o.(link_source_id) o.(link_target_id) o.(link_source_side)
    o.(link_source_offset) o.(link_offset_x) o.(link_offset_y) o.(connector_source_id)
    o.(connector_target_id) o.(connector_source_side) o.(connector_source_offset)
    o.(connector_target_side) o.(connector_target_offset).

Definition set_notes_html (v : option string) (o : CanvasObject) : CanvasObject :=
  mkCanvasObject
    o.(id) o.(kind) o.(row_id) o.(start_week) o.(end_week) o.(text) o.(text_align)
    o.(text_html) o.(notes) v o.(scope) o.(scope_html) o.(risks) o.(risks_html)
    o.(color) o.(size) o.(z_index) o.(target_row_id) o.(target_week) o.(arrow_mid_week)
    o.(arrow_head_start) o.(arrow_head_end) o.(arrow_direction) o.(x) o.(y) o.(width)
    o.(height) o.(opacity) o.(link_source_id) o.(link_target_id) o.(link_source_side)
    o.(link_source_offset) o.(link_offset_x) o.(link_offset_y) o.(connector_source_id)
    o.(connector_target_id) o.(connector_source_side) o.(connector_source_offset)
    o.(connector_target_side) o.(connector_target_offset).

Definition set_scope_html (v : option string) (o : CanvasObject) : CanvasObject :=
  mkCanvasObject
    o.(id) o.(kind) o.(row_id) o.(start_week) o.(end_week) o.(text) o.(text_align)
    o.(text_html) o.(notes) o.(notes_html) o.(scope) v o.(risks) o.(risks_html)
    o.(color) o.(size) o.(z_index) o.(target_row_id) o.(target_week) o.(arrow_mid_week)
    o.(arrow_head_start) o.(arrow_head_end) o.(arrow_direction) o.(x) o.(y) o.(width)
    o.(height) o.(opacity) o.(link_source_id) o.(link_target_id) o.(link_source_side)
    o.(link_source_offset) o.(link_offset_x) o.(link_offset_y) o.(connector_source_id)
    o.(connector_target_id) o.(connector_source_side) o.(connector_source_offset)
    o.(connector_target_side) o.(connector_target_offset).

Definition set_risks_html (v : option string) (o : CanvasObject) : CanvasObject :=
  mkCanvasObject
    o.(id) o.(kind) o.(row_id) o.(start_week) o.(end_week) o.(text) o.(text_align)
    o.(text_html) o.(notes) o.(notes_html) o.(scope) o.(scope_html) o.(risks) v
    o.(color) o.(size) o.(z_index) o.(target_row_id) o.(target_week) o.(arrow_mid_week)
    o.(arrow_head_start) o.(arrow_head_end) o.(arrow_direction) o.(x) o.(y) o.(width)
    o.(height) o.(opacity) o.(link_source_id) o.(link_target_id) o.(link_source_side)
    o.(link_source_offset) o.(link_offset_x) o.(link_offset_y) o.(connector_source_id)
    o.(connector_target_id) o.(connector_source_side) o.(connector_source_offset)
    o.(connector_target_side) o.(connector_target_offset).

Definition set_color (v : string) (o : CanvasObject) : CanvasObject :=
  mkCanvasObject
    o.(id) o.(kind) o.(row_id) o.(start_week) o.(end_week) o.(text) o.(text_align)
    o.(text_html) o.(notes) o.(notes_html) o.(scope) o.(scope_html) o.(risks)
    o.(risks_html) v o.(size) o.(z_index) o.(target_row_id) o.(target_week)
    o.(arrow_mid_week) o.(arrow_head_start) o.(arrow_head_end) o.(arrow_direction)
    o.(x) o.(y) o.(width) o.(height) o.(opacity) o.(link_source_id) o.(link_target_id)
    o.(link_source_side) o.(link_source_offset) o.(link_offset_x) o.(link_offset_y)
    o.(connector_source_id) o.(connector_target_id) o.(connector_source_side)
    o.(connector_source_offset) o.(connector_target_side) o.(connector_target_offset).

Definition set_size (v : Z) (o : CanvasObject) : CanvasObject :=
  mkCanvasObject
    o.(id) o.(kind) o.(row_id) o.(start_week) o.(end_week) o.(text) o.(text_align)
    o.(text_html) o.(notes) o.(notes_html) o.(scope) o.(scope_html) o.(risks)
    o.(risks_html) o.(color) v o.(z_index) o.(target_row_id) o.(target_week)
    o.(arrow_mid_week) o.(arrow_head_start) o.(arrow_head_end) o.(arrow_direction)
    o.(x) o.(y) o.(width) o.(height) o.(opacity) o.(link_source_id) o.(link_target_id)
    o.(link_source_side) o.(link_source_offset) o.(link_offset_x) o.(link_offset_y)
    o.(connector_source_id) o.(connector_target_id) o.(connector_source_side)
    o.(connector_source_offset) o.(connector_target_side) o.(connector_target_offset).

Definition set_z_index (v : Z) (o : CanvasObject) : CanvasObject :=
  mkCanvasObject
    o.(id) o.(kind) o.(row_id) o.(start_week) o.(end_week) o.(text) o.(text_align)
    o.(text_html) o.(notes) o.(notes_html) o.(scope) o.(scope_html) o.(risks)
    o.(risks_html) o.(color) o.(size) v o.(target_row_id) o.(target_week)
    o.(arrow_mid_week) o.(arrow_head_start) o.(arrow_head_end) o.(arrow_direction)
    o.(x) o.(y) o.(width) o.(height) o.(opacity) o.(link_source_id) o.(link_target_id)
    o.(link_source_side) o.(link_source_offset) o.(link_offset_x) o.(link_offset_y)
    o.(connector_source_id) o.(connector_target_id) o.(connector_source_side)
    o.(connector_source_offset) o.(connector_target_side) o.(connector_target_offset).

Definition set_target_row_id (v : option string) (o : CanvasObject) : CanvasObject :=
  mkCanvasObject
    o.(id) o.(kind) o.(row_id) o.(start_week) o.(end_week) o.(text) o.(text_align)
    o.(text_html) o.(notes) o.(notes_html) o.(scope) o.(scope_html) o.(risks)
    o.(risks_html) o.(color) o.(size) o.(z_index) v o.(target_week) o.(arrow_mid_week)
    o.(arrow_head_start) o.(arrow_head_end) o.(arrow_direction) o.(x) o.(y) o.(width)
    o.(height) o.(opacity) o.(link_source_id) o.(link_target_id) o.(link_source_side)
    o.(link_source_offset) o.(link_offset_x) o.(link_offset_y) o.(connector_source_id)
    o.(connector_target_id) o.(connector_source_side) o.(connector_source_offset)
    o.(connector_target_side) o.(connector_target_offset).

Definition set_target_week (v : option Z) (o : CanvasObject) : CanvasObject :=
  mkCanvasObject
    o.(id) o.(kind) o.(row_id) o.(start_week) o.(end_week) o.(text) o.(text_align)
    o.(text_html) o.(notes) o.(notes_html) o.(scope) o.(scope_html) o.(risks)
    o.(risks_html) o.(color) o.(size) o.(z_index) o.(target_row_id) v
    o.(arrow_mid_week) o.(arrow_head_start) o.(arrow_head_end) o.(arrow_direction)
    o.(x) o.(y) o.(width) o.(height) o.(opacity) o.(link_source_id) o.(link_target_id)
    o.(link_source_side) o.(link_source_offset) o.(link_offset_x) o.(link_offset_y)
    o.(connector_source_id) o.(connector_target_id) o.(connector_source_side)
    o.(connector_source_offset) o.(connector_target_side) o.(connector_target_offset).

Definition set_arrow_mid_week (v : option Z) (o : CanvasObject) : CanvasObject :=
  mkCanvasObject
    o.(id) o.(kind) o.(row_id) o.(start_week) o.(end_week) o.(text) o.(text_align)
    o.(text_html) o.(notes) o.(notes_html) o.(scope) o.(scope_html) o.(risks)
    o.(risks_html) o.(color) o.(size) o.(z_index) o.(target_row_id) o.(target_week) v
    o.(arrow_head_start) o.(arrow_head_end) o.(arrow_direction) o.(x) o.(y) o.(width)
    o.(height) o.(opacity) o.(link_source_id) o.(link_target_id) o.(link_source_side)
    o.(link_source_offset) o.(link_offset_x) o.(link_offset_y) o.(connector_source_id)
    o.(connector_target_id) o.(connector_source_side) o.(connector_source_offset)
    o.(connector_target_side) o.(connector_target_offset).

Definition set_arrow_head_start (v : bool) (o : CanvasObject) : CanvasObject :=
  mkCanvasObject
    o.(id) o.(kind) o.(row_id) o.(start_week) o.(end_week) o.(text) o.(text_align)
    o.(text_html) o.(notes) o.(notes_html) o.(scope) o.(scope_html) o.(risks)
    o.(risks_html) o.(color) o.(size) o.(z_index) o.(target_row_id) o.(target_week)
    o.(arrow_mid_week) v o.(arrow_head_end) o.(arrow_direction) o.(x) o.(y) o.(width)
    o.(height) o.(opacity) o.(link_source_id) o.(link_target_id) o.(link_source_side)
    o.(link_source_offset) o.(link_offset_x) o.(link_offset_y) o.(connector_source_id)
    o.(connector_target_id) o.(connector_source_side) o.(connector_source_offset)
    o.(connector_target_side) o.(connector_target_offset).

Definition set_arrow_head_end (v : bool) (o : CanvasObject) : CanvasObject :=
  mkCanvasObject
    o.(id) o.(kind) o.(row_id) o.(start_week) o.(end_week) o.(text) o.(text_align)
    o.(text_html) o.(notes) o.(notes_html) o.(scope) o.(scope_html) o.(risks)
    o.(risks_html) o.(color) o.(size) o.(z_index) o.(target_row_id) o.(target_week)
    o.(arrow_mid_week) o.(arrow_head_start) v o.(arrow_direction) o.(x) o.(y) o.(width)
    o.(height) o.(opacity) o.(link_source_id) o.(link_target_id) o.(link_source_side)
    o.(link_source_offset) o.(link_offset_x) o.(link_offset_y) o.(connector_source_id)
    o.(connector_target_id) o.(connector_source_side) o.(connector_source_offset)
    o.(connector_target_side) o.(connector_target_offset).

Definition set_arrow_direction (v : string) (o : CanvasObject) : CanvasObject :=
  mkCanvasObject
    o.(id) o.(kind) o.(row_id) o.(start_week) o.(end_week) o.(text) o.(text_align)
    o.(text_html) o.(notes) o.(notes_html) o.(scope) o.(scope_html) o.(risks)
    o.(risks_html) o.(color) o.(size) o.(z_index) o.(target_row_id) o.(target_week)
    o.(arrow_mid_week) o.(arrow_head_start) o.(arrow_head_end) v o.(x) o.(y) o.(width)
    o.(height) o.(opacity) o.(link_source_id) o.(link_target_id) o.(link_source_side)
    o.(link_source_offset) o.(link_offset_x) o.(link_offset_y) o.(connector_source_id)
    o.(connector_target_id) o.(connector_source_side) o.(connector_source_offset)
    o.(connector_target_side) o.(connector_target_offset).

Definition set_x (v : option Q) (o : CanvasObject) : CanvasObject :=
  mkCanvasObject
    o.(id) o.(kind) o.(row_id) o.(start_week) o.(end_week) o.(text) o.(text_align)
    o.(text_html) o.(notes) o.(notes_html) o.(scope) o.(scope_html) o.(risks)
    o.(risks_html) o.(color) o.(size) o.(z_index) o.(target_row_id) o.(target_week)
    o.(arrow_mid_week) o.(arrow_head_start) o.(arrow_head_end) o.(arrow_direction) v
    o.(y) o.(width) o.(height) o.(opacity) o.(link_source_id) o.(link_target_id)
    o.(link_source_side) o.(link_source_offset) o.(link_offset_x) o.(link_offset_y)
    o.(connector_source_id) o.(connector_target_id) o.(connector_source_side)
    o.(connector_source_offset) o.(connector_target_side) o.(connector_target_offset).

Definition set_y (v : option Q) (o : CanvasObject) : CanvasObject :=
  mkCanvasObject
    o.(id) o.(kind) o.(row_id) o.(start_week) o.(end_week) o.(text) o.(text_align)
    o.(text_html) o.(notes) o.(notes_html) o.(scope) o.(scope_html) o.(risks)
    o.(risks_html) o.(color) o.(size) o.(z_index) o.(target_row_id) o.(target_week)
    o.(arrow_mid_week) o.(arrow_head_start) o.(arrow_head_end) o.(arrow_direction)
    o.(x) v o.(width) o.(height) o.(opacity) o.(link_source_id) o.(link_target_id)
    o.(link_source_side) o.(link_source_offset) o.(link_offset_x) o.(link_offset_y)
    o.(connector_source_id) o.(connector_target_id) o.(connector_source_side)
    o.(connector_source_offset) o.(connector_target_side) o.(connector_target_offset).

Definition set_width (v : option Q) (o : CanvasObject) : CanvasObject :=
  mkCanvasObject
    o.(id) o.(kind) o.(row_id) o.(start_week) o.(end_week) o.(text) o.(text_align)
    o.(text_html) o.(notes) o.(notes_html) o.(scope) o.(scope_html) o.(risks)
    o.(risks_html) o.(color) o.(size) o.(z_index) o.(target_row_id) o.(target_week)
    o.(arrow_mid_week) o.(arrow_head_start) o.(arrow_head_end) o.(arrow_direction)
    o.(x) o.(y) v o.(height) o.(opacity) o.(link_source_id) o.(link_target_id)
    o.(link_source_side) o.(link_source_offset) o.(link_offset_x) o.(link_offset_y)
    o.(connector_source_id) o.(connector_target_id) o.(connector_source_side)
    o.(connector_source_offset) o.(connector_target_side) o.(connector_target_offset).

Definition set_height (v : option Q) (o : CanvasObject) : CanvasObject :=
  mkCanvasObject
    o.(id) o.(kind) o.(row_id) o.(start_week) o.(end_week) o.(text) o.(text_align)
    o.(text_html) o.(notes) o.(notes_html) o.(scope) o.(scope_html) o.(risks)
    o.(risks_html) o.(color) o.(size) o.(z_index) o.(target_row_id) o.(target_week)
    o.(arrow_mid_week) o.(arrow_head_start) o.(arrow_head_end) o.(arrow_direction)
    o.(x) o.(y) o.(width) v o.(opacity) o.(link_source_id) o.(link_target_id)
    o.(link_source_side) o.(link_source_offset) o.(link_offset_x) o.(link_offset_y)
    o.(connector_source_id) o.(connector_target_id) o.(connector_source_side)
    o.(connector_source_offset) o.(connector_target_side) o.(connector_target_offset).

Definition set_opacity (v : Q) (o : CanvasObject) : CanvasObject :=
  mkCanvasObject
    o.(id) o.(kind) o.(row_id) o.(start_week) o.(end_week) o.(text) o.(text_align)
    o.(text_html) o.(notes) o.(notes_html) o.(scope) o.(scope_html) o.(risks)
    o.(risks_html) o.(color) o.(size) o.(z_index) o.(target_row_id) o.(target_week)
    o.(arrow_mid_week) o.(arrow_head_start) o.(arrow_head_end) o.(arrow_direction)
    o.(x) o.(y) o.(width) o.(height) v o.(link_source_id) o.(link_target_id)
    o.(link_source_side) o.(link_source_offset) o.(link_offset_x) o.(link_offset_y)
    o.(connector_source_id) o.(connector_target_id) o.(connector_source_side)
    o.(connector_source_offset) o.(connector_target_side) o.(connector_target_offset).

Definition set_link_source_id (v : option string) (o : CanvasObject) : CanvasObject :=
  mkCanvasObject
    o.(id) o.(kind) o.(row_id) o.(start_week) o.(end_week) o.(text) o.(text_align)
    o.(text_html) o.(notes) o.(notes_html) o.(scope) o.(scope_html) o.(risks)
    o.(risks_html) o.(color) o.(size) o.(z_index) o.(target_row_id) o.(target_week)
    o.(arrow_mid_week) o.(arrow_head_start) o.(arrow_head_end) o.(arrow_direction)
    o.(x) o.(y) o.(width) o.(height) o.(opacity) v o.(link_target_id)
    o.(link_source_side) o.(link_source_offset) o.(link_offset_x) o.(link_offset_y)
    o.(connector_source_id) o.(connector_target_id) o.(connector_source_side)
    o.(connector_source_offset) o.(connector_target_side) o.(connector_target_offset).

Definition set_link_target_id (v : option string) (o : CanvasObject) : CanvasObject :=
  mkCanvasObject
    o.(id) o.(kind) o.(row_id) o.(start_week) o.(end_week) o.(text) o.(text_align)
    o.(text_html) o.(notes) o.(notes_html) o.(scope) o.(scope_html) o.(risks)
    o.(risks_html) o.(color) o.(size) o.(z_index) o.(target_row_id) o.(target_week)
    o.(arrow_mid_week) o.(arrow_head_start) o.(arrow_head_end) o.(arrow_direction)
    o.(x) o.(y) o.(width) o.(height) o.(opacity) o.(link_source_id) v
    o.(link_source_side) o.(link_source_offset) o.(link_offset_x) o.(link_offset_y)
    o.(connector_source_id) o.(connector_target_id) o.(connector_source_side)
    o.(connector_source_offset) o.(connector_target_side) o.(connector_target_offset).

Definition set_link_source_side (v : option string) (o : CanvasObject) : CanvasObject :=
  mkCanvasObject
    o.(id) o.(kind) o.(row_id) o.(start_week) o.(end_week) o.(text) o.(text_align)
    o.(text_html) o.(notes) o.(notes_html) o.(scope) o.(scope_html) o.(risks)
    o.(risks_html) o.(color) o.(size) o.(z_index) o.(target_row_id) o.(target_week)
    o.(arrow_mid_week) o.(arrow_head_start) o.(arrow_head_end) o.(arrow_direction)
    o.(x) o.(y) o.(width) o.(height) o.(opacity) o.(link_source_id) o.(link_target_id)
    v o.(link_source_offset) o.(link_offset_x) o.(link_offset_y)
    o.(connector_source_id) o.(connector_target_id) o.(connector_source_side)
    o.(connector_source_offset) o.(connector_target_side) o.(connector_target_offset).

Definition set_link_source_offset (v : option Q) (o : CanvasObject) : CanvasObject :=
  mkCanvasObject
    o.(id) o.(kind) o.(row_id) o.(start_week) o.(end_week) o.(text) o.(text_align)
    o.(text_html) o.(notes) o.(notes_html) o.(scope) o.(scope_html) o.(risks)
    o.(risks_html) o.(color) o.(size) o.(z_index) o.(target_row_id) o.(target_week)
    o.(arrow_mid_week) o.(arrow_head_start) o.(arrow_head_end) o.(arrow_direction)
    o.(x) o.(y) o.(width) o.(height) o.(opacity) o.(link_source_id) o.(link_target_id)
    o.(link_source_side) v o.(link_offset_x) o.(link_offset_y) o.(connector_source_id)
    o.(connector_target_id) o.(connector_source_side) o.(connector_source_offset)
    o.(connector_target_side) o.(connector_target_offset).

Definition set_link_offset_x (v : option Q) (o : CanvasObject) : CanvasObject :=
  mkCanvasObject
    o.(id) o.(kind) o.(row_id) o.(start_week) o.(end_week) o.(text) o.(text_align)
    o.(text_html) o.(notes) o.(notes_html) o.(scope) o.(scope_html) o.(risks)
    o.(risks_html) o.(color) o.(size) o.(z_index) o.(target_row_id) o.(target_week)
    o.(arrow_mid_week) o.(arrow_head_start) o.(arrow_head_end) o.(arrow_direction)
    o.(x) o.(y) o.(width) o.(height) o.(opacity) o.(link_source_id) o.(link_target_id)
    o.(link_source_side) o.(link_source_offset) v o.(link_offset_y)
    o.(connector_source_id) o.(connector_target_id) o.(connector_source_side)
    o.(connector_source_offset) o.(connector_target_side) o.(connector_target_offset).

Definition set_link_offset_y (v : option Q) (o : CanvasObject) : CanvasObject :=
  mkCanvasObject
    o.(id) o.(kind) o.(row_id) o.(start_week) o.(end_week) o.(text) o.(text_align)
    o.(text_html) o.(notes) o.(notes_html) o.(scope) o.(scope_html) o.(risks)
    o.(risks_html) o.(color) o.(size) o.(z_index) o.(target_row_id) o.(target_week)
    o.(arrow_mid_week) o.(arrow_head_start) o.(arrow_head_end) o.(arrow_direction)
    o.(x) o.(y) o.(width) o.(height) o.(opacity) o.(link_source_id) o.(link_target_id)
    o.(link_source_side) o.(link_source_offset) o.(link_offset_x) v
    o.(connector_source_id) o.(connector_target_id) o.(connector_source_side)
    o.(connector_source_offset) o.(connector_target_side) o.(connector_target_offset).

Definition set_connector_source_offset (v : option Q) (o : CanvasObject) : CanvasObject :=
  mkCanvasObject
    o.(id) o.(kind) o.(row_id) o.(start_week) o.(end_week) o.(text) o.(text_align)
    o.(text_html) o.(notes) o.(notes_html) o.(scope) o.(scope_html) o.(risks)
    o.(risks_html) o.(color) o.(size) o.(z_index) o.(target_row_id) o.(target_week)
    o.(arrow_mid_week) o.(arrow_head_start) o.(arrow_head_end) o.(arrow_direction)
    o.(x) o.(y) o.(width) o.(height) o.(opacity) o.(link_source_id) o.(link_target_id)
    o.(link_source_side) o.(link_source_offset) o.(link_offset_x) o.(link_offset_y)
    o.(connector_source_id) o.(connector_target_id) o.(connector_source_side) v
    o.(connector_target_side) o.(connector_target_offset).

Definition set_connector_target_offset (v : option Q) (o : CanvasObject) : CanvasObject :=
  mkCanvasObject
    o.(id) o.(kind) o.(row_id) o.(start_week) o.(end_week) o.(text) o.(text_align)
    o.(text_html) o.(notes) o.(notes_html) o.(scope) o.(scope_html) o.(risks)
    o.(risks_html) o.(color) o.(size) o.(z_index) o.(target_row_id) o.(target_week)
    o.(arrow_mid_week) o.(arrow_head_start) o.(arrow_head_end) o.(arrow_direction)
    o.(x) o.(y) o.(width) o.(height) o.(opacity) o.(link_source_id) o.(link_target_id)
    o.(link_source_side) o.(link_source_offset) o.(link_offset_x) o.(link_offset_y)
    o.(connector_source_id) o.(connector_target_id) o.(connector_source_side)
    o.(connector_source_offset) o.(connector_target_side) v.

Definition set_text_align (v : string) (o : CanvasObject) : CanvasObject :=
  mkCanvasObject
    o.(id) o.(kind) o.(row_id) o.(start_week) o.(end_week) o.(text) v o.(text_html)
    o.(notes) o.(notes_html) o.(scope) o.(scope_html) o.(risks) o.(risks_html) o.(color)
    o.(size) o.(z_index) o.(target_row_id) o.(target_week) o.(arrow_mid_week)
    o.(arrow_head_start) o.(arrow_head_end) o.(arrow_direction) o.(x) o.(y) o.(width)
    o.(height) o.(opacity) o.(link_source_id) o.(link_target_id) o.(link_source_side)
    o.(link_source_offset) o.(link_offset_x) o.(link_offset_y) o.(connector_source_id)
    o.(connector_target_id) o.(connector_source_side) o.(connector_source_offset)
    o.(connector_target_side) o.(connector_target_offset).

Definition set_notes (v : string) (o : CanvasObject) : CanvasObject :=
  mkCanvasObject
    o.(id) o.(kind) o.(row_id) o.(start_week) o.(end_week) o.(text) o.(text_align)
    o.(text_html) v o.(notes_html) o.(scope) o.(scope_html) o.(risks) o.(risks_html)
    o.(color) o.(size) o.(z_index) o.(target_row_id) o.(target_week) o.(arrow_mid_week)
    o.(arrow_head_start) o.(arrow_head_end) o.(arrow_direction) o.(x) o.(y) o.(width)
    o.(height) o.(opacity) o.(link_source_id) o.(link_target_id) o.(link_source_side)
    o.(link_source_offset) o.(link_offset_x) o.(link_offset_y) o.(connector_source_id)
    o.(connector_target_id) o.(connector_source_side) o.(connector_source_offset)
    o.(connector_target_side) o.(connector_target_offset).

Definition set_scope (v : string) (o : CanvasObject) : CanvasObject :=
  mkCanvasObject
    o.(id) o.(kind) o.(row_id) o.(start_week) o.(end_week) o.(text) o.(text_align)
    o.(text_html) o.(notes) o.(notes_html) v o.(scope_html) o.(risks) o.(risks_html)
    o.(color) o.(size) o.(z_index) o.(target_row_id) o.(target_week) o.(arrow_mid_week)
    o.(arrow_head_start) o.(arrow_head_end) o.(arrow_direction) o.(x) o.(y) o.(width)
    o.(height) o.(opacity) o.(link_source_id) o.(link_target_id) o.(link_source_side)
    o.(link_source_offset) o.(link_offset_x) o.(link_offset_y) o.(connector_source_id)
    o.(connector_target_id) o.(connector_source_side) o.(connector_source_offset)
    o.(connector_target_side) o.(connector_target_offset).

Definition set_risks (v : string) (o : CanvasObject) : CanvasObject :=
  mkCanvasObject
    o.(id) o.(kind) o.(row_id) o.(start_week) o.(end_week) o.(text) o.(text_align)
    o.(text_html) o.(notes) o.(notes_html) o.(scope) o.(scope_html) v o.(risks_html)
    o.(color) o.(size) o.(z_index) o.(target_row_id) o.(target_week) o.(arrow_mid_week)
    o.(arrow_head_start) o.(arrow_head_end) o.(arrow_direction) o.(x) o.(y) o.(width)
    o.(height) o.(opacity) o.(link_source_id) o.(link_target_id) o.(link_source_side)
    o.(link_source_offset) o.(link_offset_x) o.(link_offset_y) o.(connector_source_id)
    o.(connector_target_id) o.(connector_source_side) o.(connector_source_offset)
    o.(connector_target_side) o.(connector_target_offset).

Definition set_connector_source_id (v : option string) (o : CanvasObject) : CanvasObject :=
  mkCanvasObject
    o.(id) o.(kind) o.(row_id) o.(start_week) o.(end_week) o.(text) o.(text_align)
    o.(text_html) o.(notes) o.(notes_html) o.(scope) o.(scope_html) o.(risks)
    o.(risks_html) o.(color) o.(size) o.(z_index) o.(target_row_id) o.(target_week)
    o.(arrow_mid_week) o.(arrow_head_start) o.(arrow_head_end) o.(arrow_direction) o.(x)
    o.(y) o.(width) o.(height) o.(opacity) o.(link_source_id) o.(link_target_id)
    o.(link_source_side) o.(link_source_offset) o.(link_offset_x) o.(link_offset_y) v
    o.(connector_target_id) o.(connector_source_side) o.(connector_source_offset)
    o.(connector_target_side) o.(connector_target_offset).

Definition set_connector_target_id (v : option string) (o : CanvasObject) : CanvasObject :=
  mkCanvasObject
    o.(id) o.(kind) o.(row_id) o.(start_week) o.(end_week) o.(text) o.(text_align)
    o.(text_html) o.(notes) o.(notes_html) o.(scope) o.(scope_html) o.(risks)
    o.(risks_html) o.(color) o.(size) o.(z_index) o.(target_row_id) o.(target_week)
    o.(arrow_mid_week) o.(arrow_head_start) o.(arrow_head_end) o.(arrow_direction) o.(x)
    o.(y) o.(width) o.(height) o.(opacity) o.(link_source_id) o.(link_target_id)
    o.(link_source_side) o.(link_source_offset) o.(link_offset_x) o.(link_offset_y)
    o.(connector_source_id) v o.(connector_source_side) o.(connector_source_offset)
    o.(connector_target_side) o.(connector_target_offset).

Definition set_connector_source_side (v : option string) (o : CanvasObject) : CanvasObject :=
  mkCanvasObject
    o.(id) o.(kind) o.(row_id) o.(start_week) o.(end_week) o.(text) o.(text_align)
    o.(text_html) o.(notes) o.(notes_html) o.(scope) o.(scope_html) o.(risks)
    o.(risks_html) o.(color) o.(size) o.(z_index) o.(target_row_id) o.(target_week)
    o.(arrow_mid_week) o.(arrow_head_start) o.(arrow_head_end) o.(arrow_direction) o.(x)
    o.(y) o.(width) o.(height) o.(opacity) o.(link_source_id) o.(link_target_id)
    o.(link_source_side) o.(link_source_offset) o.(link_offset_x) o.(link_offset_y)
    o.(connector_source_id) o.(connector_target_id) v o.(connector_source_offset)
    o.(connector_target_side) o.(connector_target_offset).

Definition set_connector_target_side (v : option string) (o : CanvasObject) : CanvasObject :=
  mkCanvasObject
    o.(id) o.(kind) o.(row_id) o.(start_week) o.(end_week) o.(text) o.(text_align)
    o.(text_html) o.(notes) o.(notes_html) o.(scope) o.(scope_html) o.(risks)
    o.(risks_html) o.(color) o.(size) o.(z_index) o.(target_row_id) o.(target_week)
    o.(arrow_mid_week) o.(arrow_head_start) o.(arrow_head_end) o.(arrow_direction) o.(x)
    o.(y) o.(width) o.(height) o.(opacity) o.(link_source_id) o.(link_target_id)
    o.(link_source_side) o.(link_source_offset) o.(link_offset_x) o.(link_offset_y)
    o.(connector_source_id) o.(connector_target_id) o.(connector_source_side)
    o.(connector_source_offset) v o.(connector_target_offset).

(** A keyword argument of [dataclasses.replace]: one constructor per field
    of the dataclass. *)
Inductive Change : Type :=
| Ch_id (v : string)
| Ch_kind (v : string)
| Ch_row_id (v : string)
| Ch_start_week (v : Z)
| Ch_end_week (v : Z)
| Ch_text (v : string)
| Ch_text_html (v : option string)
| Ch_notes_html (v : option string)
| Ch_scope_html (v : option string)
| Ch_risks_html (v : option string)
| Ch_color (v : string)
| Ch_size (v : Z)
| Ch_z_index (v : Z)
| Ch_target_row_id (v : option string)
| Ch_target_week (v : option Z)
| Ch_arrow_mid_week (v : option Z)
| Ch_arrow_head_start (v : bool)
| Ch_arrow_head_end (v : bool)
| Ch_arrow_direction (v : string)
| Ch_x (v : option Q)
| Ch_y (v : option Q)
| Ch_width (v : option Q)
| Ch_height (v : option Q)
| Ch_opacity (v : Q)
| Ch_link_source_id (v : option string)
| Ch_link_target_id (v : option string)
| Ch_link_source_side (v : option string)
| Ch_link_source_offset (v : option Q)
| Ch_link_offset_x (v : option Q)
| Ch_link_offset_y (v : option Q)
| Ch_connector_source_offset (v : option Q)
| Ch_connector_target_offset (v : option Q)
| Ch_text_align (v : string)
| Ch_notes (v : string)
| Ch_scope (v : string)
| Ch_risks (v : string)
| Ch_connector_source_id (v : option string)
| Ch_connector_target_id (v : option string)
| Ch_connector_source_side (v : option string)
| Ch_connector_target_side (v : option string).

Definition change_key (c : Change) : string :=
  match c with
  | Ch_id _ => "id"
  | Ch_kind _ => "kind"
  | Ch_row_id _ => "row_id"
  | Ch_start_week _ => "start_week"
  | Ch_end_week _ => "end_week"
  | Ch_text _ => "text"
  | Ch_text_html _ => "text_html"
  | Ch_notes_html _ => "notes_html"
  | Ch_scope_html _ => "scope_html"
  | Ch_risks_html _ => "risks_html"
  | Ch_color _ => "color"
  | Ch_size _ => "size"
  | Ch_z_index _ => "z_index"
  | Ch_target_row_id _ => "target_row_id"
  | Ch_target_week _ => "target_week"
  | Ch_arrow_mid_week _ => "arrow_mid_week"
  | Ch_arrow_head_start _ => "arrow_head_start"
  | Ch_arrow_head_end _ => "arrow_head_end"
  | Ch_arrow_direction _ => "arrow_direction"
  | Ch_x _ => "x"
  | Ch_y _ => "y"
  | Ch_width _ => "width"
  | Ch_height _ => "height"
  | Ch_opacity _ => "opacity"
  | Ch_link_source_id _ => "link_source_id"
  | Ch_link_target_id _ => "link_target_id"
  | Ch_link_source_side _ => "link_source_side"
  | Ch_link_source_offset _ => "link_source_offset"
  | Ch_link_offset_x _ => "link_offset_x"
  | Ch_link_offset_y _ => "link_offset_y"
  | Ch_connector_source_offset _ => "connector_source_offset"
  | Ch_connector_target_offset _ => "connector_target_offset"
  | Ch_text_align _ => "text_align"
  | Ch_notes _ => "notes"
  | Ch_scope _ => "scope"
  | Ch_risks _ => "risks"
  | Ch_connector_source_id _ => "connector_source_id"
  | Ch_connector_target_id _ => "connector_target_id"
  | Ch_connector_source_side _ => "connector_source_side"
  | Ch_connector_target_side _ => "connector_target_side"
  end.

Definition apply_change (c : Change) (o : CanvasObject) : CanvasObject :=
  match c with
  | Ch_id v => set_id v o
  | Ch_kind v => set_kind v o
  | Ch_row_id v => set_row_id v o
  | Ch_start_week v => set_start_week v o
  | Ch_end_week v => set_end_week v o
  | Ch_text v => set_text v o
  | Ch_text_html v => set_text_html v o
  | Ch_notes_html v => set_notes_html v o
  | Ch_scope_html v => set_scope_html v o
  | Ch_risks_html v => set_risks_html v o
  | Ch_color v => set_color v o
  | Ch_size v => set_size v o
  | Ch_z_index v => set_z_index v o
  | Ch_target_row_id v => set_target_row_id v o
  | Ch_target_week v => set_target_week v o
  | Ch_arrow_mid_week v => set_arrow_mid_week v o
  | Ch_arrow_head_start v => set_arrow_head_start v o
  | Ch_arrow_head_end v => set_arrow_head_end v o
  | Ch_arrow_direction v => set_arrow_direction v o
  | Ch_x v => set_x v o
  | Ch_y v => set_y v o
  | Ch_width v => set_width v o
  | Ch_height v => set_height v o
  | Ch_opacity v => set_opacity v o
  | Ch_link_source_id v => set_link_source_id v o
  | Ch_link_target_id v => set_link_target_id v o
  | Ch_link_source_side v => set_link_source_side v o
  | Ch_link_source_offset v => set_link_source_offset v o
  | Ch_link_offset_x v => set_link_offset_x v o
  | Ch_link_offset_y v => set_link_offset_y v o
  | Ch_connector_source_offset v => set_connector_source_offset v o
  | Ch_connector_target_offset v => set_connector_target_offset v o
  | Ch_text_align v => set_text_align v o
  | Ch_notes v => set_notes v o
  | Ch_scope v => set_scope v o
  | Ch_risks v => set_risks v o
  | Ch_connector_source_id v => set_connector_source_id v o
  | Ch_connector_target_id v => set_connector_target_id v o
  | Ch_connector_source_side v => set_connector_source_side v o
  | Ch_connector_target_side v => set_connector_target_side v o
  end.

(** [a == b] as the dataclass compares its fields. *)
Definition CanvasObject_eqb (a b : CanvasObject) : bool :=
  String.eqb a.(id) b.(id)
  && String.eqb a.(kind) b.(kind)
  && String.eqb a.(row_id) b.(row_id)
  && Z.eqb a.(start_week) b.(start_week)
  && Z.eqb a.(end_week) b.(end_week)
  && String.eqb a.(text) b.(text)
  && String.eqb a.(text_align) b.(text_align)
  && option_eqb String.eqb a.(text_html) b.(text_html)
  && String.eqb a.(notes) b.(notes)
  && option_eqb String.eqb a.(notes_html) b.(notes_html)
  && String.eqb a.(scope) b.(scope)
  && option_eqb String.eqb a.(scope_html) b.(scope_html)
  && String.eqb a.(risks) b.(risks)
  && option_eqb String.eqb a.(risks_html) b.(risks_html)
  && String.eqb a.(color) b.(color)
  && Z.eqb a.(size) b.(size)
  && Z.eqb a.(z_index) b.(z_index)
  && option_eqb String.eqb a.(target_row_id) b.(target_row_id)
  && option_eqb Z.eqb a.(target_week) b.(target_week)
  && option_eqb Z.eqb a.(arrow_mid_week) b.(arrow_mid_week)
  && Bool.eqb a.(arrow_head_start) b.(arrow_head_start)
  && Bool.eqb a.(arrow_head_end) b.(arrow_head_end)
  && String.eqb a.(arrow_direction) b.(arrow_direction)
  && option_eqb Qeq_bool a.(x) b.(x)
  && option_eqb Qeq_bool a.(y) b.(y)
  && option_eqb Qeq_bool a.(width) b.(width)
  && option_eqb Qeq_bool a.(height) b.(height)
  && Qeq_bool a.(opacity) b.(opacity)
  && option_eqb String.eqb a.(link_source_id) b.(link_source_id)
  && option_eqb String.eqb a.(link_target_id) b.(link_target_id)
  && option_eqb String.eqb a.(link_source_side) b.(link_source_side)
  && option_eqb Qeq_bool a.(link_source_offset) b.(link_source_offset)
  && option_eqb Qeq_bool a.(link_offset_x) b.(link_offset_x)
  && option_eqb Qeq_bool a.(link_offset_y) b.(link_offset_y)
  && option_eqb String.eqb a.(connector_source_id) b.(connector_source_id)
  && option_eqb String.eqb a.(connector_target_id) b.(connector_target_id)
  && option_eqb String.eqb a.(connector_source_side) b.(connector_source_side)
  && option_eqb Qeq_bool a.(connector_source_offset) b.(connector_source_offset)
  && option_eqb String.eqb a.(connector_target_side) b.(connector_target_side)
  && option_eqb Qeq_bool a.(connector_target_offset) b.(connector_target_offset).

(** [dataclasses.replace(obj, **changes)]. *)
Definition replace (o : CanvasObject) (changes : list Change) : CanvasObject :=
  fold_left (fun acc c => apply_change c acc) changes o.

(** ["key" in changes]. *)
Definition in_changes (key : string) (changes : list Change) : bool :=
  existsb (fun c => String.eqb (change_key c) key) changes.

(** [CanvasObject(id=..., kind=..., row_id=..., start_week=..., end_week=...)]:
    every other field at its dataclass default. *)
Definition CanvasObject_new `{Constants}
    (id' kind' row_id' : string) (start_week' end_week' : Z) : CanvasObject :=
  mkCanvasObject
    id' kind' row_id' start_week' end_week' "" "center" None "" None "" None "" None
    (hd "" DEFAULT_TOPIC_COLORS) DEFAULT_SIZE 0 None None None false true "none"
    None None None None TEXTBOX_DEFAULT_OPACITY None None None None None None
    None None None None None None.

Record ProjectModel : Type := mkProjectModel {
  year : Z;
  topics : list Topic;
  objects : Dict.t CanvasObject;
  classification : string;
  classification_size : Z
}.

Definition with_objects (d : Dict.t CanvasObject) (m : ProjectModel) : ProjectModel :=
  mkProjectModel m.(year) m.(topics) d m.(classification) m.(classification_size).

Definition add_object (obj : CanvasObject) (m : ProjectModel) : ProjectModel :=
  with_objects (Dict.set obj.(id) obj m.(objects)) m.

Definition update_object (obj_id : string) (new_obj : CanvasObject) (m : ProjectModel)
  : ProjectModel :=
  if negb (Dict.contains obj_id m.(objects)) then m
  else with_objects (Dict.set obj_id new_obj m.(objects)) m.

Definition remove_object (obj_id : string) (m : ProjectModel) : ProjectModel :=
  if negb (Dict.contains obj_id m.(objects)) then m
  else with_objects (Dict.del obj_id m.(objects)) m.

(** *** Loading: [from_dict]

    The argument of a [from_dict] is the [dict] that [json.loads] built.
    It is embedded as a record with one optional entry per key the code
    reads, [None] standing for an absent key.  An entry that the code
    compares or converts ([schema_version], [year], the classification,
    and what goes through [int], [float] or [bool]) holds an arbitrary
    JSON scalar, so that the conversion can fail as it does in the code.
    An entry that the code stores as it finds it holds a value of the
    type of the field it lands in; there a JSON [null] is an absent key,
    which is what [data.get] makes of it.  JSON numbers are the integers
    and the finite floats. *)

Inductive JScalar : Type :=
| JNull
| JBool (b : bool)
| JInt (z : Z)
| JFloat (q : Q)
| JString (s : string).

(** [v == n] for a JSON scalar and an [int]: numbers compare by value
    ([True] is 1, [False] is 0), anything else is unequal. *)
Definition scalar_eq_int (v : JScalar) (n : Z) : bool :=
  match v with
  | JInt z => Z.eqb z n
  | JBool b => Z.eqb (if b then 1 else 0) n
  | JFloat q => Qeq_bool q (inject_Z n)
  | JNull | JString _ => false
  end.

(** [int(v)]: a float is truncated, a string is parsed, [None] is
    refused. *)
Definition int_of `{Numerals} (v : JScalar) : result Z :=
  match v with
  | JInt z => Return z
  | JBool b => Return (if b then 1 else 0)
  | JFloat q => Return (Py.int q)
  | JString s =>
      match int_of_str s with
      | Some z => Return z
      | None => Raise (ValueError "invalid literal for int()")
      end
  | JNull => Raise (TypeError "int() argument")
  end.

(** [float(v)]: an [int] beyond the range of the floats is refused. *)
Definition float_of `{Numerals} (v : JScalar) : result Q :=
  match v with
  | JInt z =>
      if (Z.abs z <? 2 ^ 1024 - 2 ^ 970)%Z then Return (inject_Z z)
      else Raise (OverflowError "int too large to convert to float")
  | JBool b => Return (if b then 1%Q else 0%Q)
  | JFloat q => Return q
  | JString s =>
      match float_of_str s with
      | Some q => Return q
      | None => Raise (ValueError "could not convert string to float")
      end
  | JNull => Raise (TypeError "float() argument")
  end.

(** [bool(v)]. *)
Definition truth (v : JScalar) : bool :=
  match v with
  | JNull => false
  | JBool b => b
  | JInt z => negb (Z.eqb z 0)
  | JFloat q => negb (Qeq_bool q 0)
  | JString s => negb (String.eqb s "")
  end.

Record DeliverableData : Type := mkDeliverableData {
  dd_id : option string;
  dd_name : option string
}.

Record TopicData : Type := mkTopicData {
  td_id : option string;
  td_name : option string;
  td_color : option string;
  td_collapsed : option JScalar;
  td_deliverables : option (list DeliverableData)
}.

Record ObjectData : Type := mkObjectData {
  od_id : option string;
  od_kind : option string;
  od_row_id : option string;
  od_start_week : option JScalar;
  od_end_week : option JScalar;
  od_text : option string;
  od_text_align : option string;
  od_text_html : option string;
  od_notes : option string;
  od_notes_html : option string;
  od_scope : option string;
  od_scope_html : option string;
  od_risks : option string;
  od_risks_html : option string;
  od_color : option string;
  od_size : option JScalar;
  od_z_index : option JScalar;
  od_target_row_id : option string;
  od_target_week : option Z;
  od_arrow_mid_week : option Z;
  od_arrow_head_start : option JScalar;
  od_arrow_head_end : option JScalar;
  od_arrow_direction : option string;
  od_x : option Q;
  od_y : option Q;
  od_width : option Q;
  od_height : option Q;
  od_opacity : option JScalar;
  od_link_source_id : option string;
  od_link_target_id : option string;
  od_link_source_side : option string;
  od_link_source_offset : option Q;
  od_link_offset_x : option Q;
  od_link_offset_y : option Q;
  od_connector_source_id : option string;
  od_connector_target_id : option string;
  od_connector_source_side : option string;
  od_connector_source_offset : option Q;
  od_connector_target_side : option string;
  od_connector_target_offset : option Q;
  od_assumptions : option string;
  od_assumptions_html : option string
}.

Record ProjectData : Type := mkProjectData {
  pd_schema_version : option JScalar;
  pd_year : option JScalar;
  pd_classification : option JScalar;
  pd_classification_size : option JScalar;
  pd_topics : option (list TopicData);
  pd_objects : option (list ObjectData);
  pd_view : option (list (string * JScalar))
}.

(** [data.get(key, default)]. *)
Definition get_or {A : Type} (v : option A) (default : A) : A :=
  match v with Some a => a | None => default end.

Definition Deliverable_from_dict (data : DeliverableData) : result Deliverable :=
  bind (item "id" data.(dd_id)) (fun id' =>
  bind (item "name" data.(dd_name)) (fun name' =>
  Return (mkDeliverable id' name'))).

Definition Topic_from_dict (data : TopicData) : result Topic :=
  bind (map_result Deliverable_from_dict (get_or data.(td_deliverables) []))
       (fun deliverables' =>
  bind (item "id" data.(td_id)) (fun id' =>
  bind (item "name" data.(td_name)) (fun name' =>
  Return (mkTopic id' name' (get_or data.(td_color) (hd "" DEFAULT_TOPIC_COLORS))
                  (truth (get_or data.(td_collapsed) (JBool false))) deliverables')))).

(** The arguments of the constructor are evaluated in the order of the
    source: what fails first decides the exception. *)
Definition CanvasObject_from_dict `{Constants} `{Numerals} (data : ObjectData)
  : result CanvasObject :=
  let color' := data.(od_color) in
  let color' :=
    match color', data.(od_kind) with
    | None, Some "textbox" => Some "#FFFFFF"
    | _, _ => color'
    end in
  let arrow_direction' :=
    normalize_arrow_direction (get_or data.(od_arrow_direction) "none") in
  let arrow_direction' :=
    match data.(od_kind) with
    | Some "box" => arrow_direction'
    | _ => "none"
    end in
  bind (item "id" data.(od_id)) (fun id' =>
  bind (item "kind" data.(od_kind)) (fun kind' =>
  bind (item "row_id" data.(od_row_id)) (fun row_id' =>
  bind (item "start_week" data.(od_start_week)) (fun start_week_value =>
  bind (int_of start_week_value) (fun start_week' =>
  bind (int_of (get_or data.(od_end_week) start_week_value)) (fun end_week' =>
  bind (int_of (get_or data.(od_size) (JInt DEFAULT_SIZE))) (fun size' =>
  bind (int_of (get_or data.(od_z_index) (JInt 0))) (fun z_index' =>
  bind (float_of (get_or data.(od_opacity) (JFloat TEXTBOX_DEFAULT_OPACITY)))
       (fun opacity' =>
  Return (mkCanvasObject
    id' kind' row_id' start_week' end_week'
    (get_or data.(od_text) "")
    (get_or data.(od_text_align) "center")
    data.(od_text_html)
    (get_or data.(od_notes) "")
    data.(od_notes_html)
    (match data.(od_scope) with
     | Some s => s
     | None => get_or data.(od_assumptions) ""
     end)
    (match data.(od_scope_html) with
     | Some s => Some s
     | None => data.(od_assumptions_html)
     end)
    (get_or data.(od_risks) "")
    data.(od_risks_html)
    (if truthy color' then get_or color' "" else hd "" DEFAULT_TOPIC_COLORS)
    size' z_index'
    data.(od_target_row_id)
    data.(od_target_week)
    data.(od_arrow_mid_week)
    (truth (get_or data.(od_arrow_head_start) (JBool false)))
    (truth (get_or data.(od_arrow_head_end) (JBool true)))
    arrow_direction'
    data.(od_x) data.(od_y) data.(od_width) data.(od_height)
    opacity'
    data.(od_link_source_id) data.(od_link_target_id) data.(od_link_source_side)
    data.(od_link_source_offset) data.(od_link_offset_x) data.(od_link_offset_y)
    data.(od_connector_source_id) data.(od_connector_target_id)
    data.(od_connector_source_side) data.(od_connector_source_offset)
    data.(od_connector_target_side) data.(od_connector_target_offset))))))))))).

(** [normalize_classification] on a model whose current size is
    [current_size]. *)
Definition normalize_classification `{Constants}
    (current_size : Z) (text' : option string) (size' : option Z) : string * Z :=
  let cleaned := strip (get_or text' "") in
  let cleaned := if String.eqb cleaned "" then DEFAULT_CLASSIFICATION else cleaned in
  let size_value := get_or size' current_size in
  let size_value := Z.max CLASSIFICATION_SIZE_MIN (Z.min CLASSIFICATION_SIZE_MAX size_value) in
  (cleaned, size_value).

(** What [normalize_classification] makes of the text and the size that
    [data.get] hands it: [(text or "").strip()] needs a string unless the
    text is falsy, and a size that [int] refuses counts as absent, as the
    [try]/[except] of the method has it. *)
Definition classification_text (v : option JScalar) : result (option string) :=
  match v with
  | None => Return None
  | Some (JString s) => Return (Some s)
  | Some v' => if truth v' then Raise (AttributeError "strip") else Return None
  end.

Definition classification_size_value `{Numerals} (v : option JScalar) : option Z :=
  match v with
  | None => None
  | Some v' => match int_of v' with Return z => Some z | Raise _ => None end
  end.

Definition ProjectModel_from_dict `{Constants} `{Numerals} (data : ProjectData)
  : result ProjectModel :=
  let schema_version := get_or data.(pd_schema_version) (JInt 0) in
  if negb (scalar_eq_int schema_version SCHEMA_VERSION) then
    Raise (ValueError "Unsupported schema version")
  else
    bind (int_of (get_or data.(pd_year) (JInt 2026))) (fun year' =>
    bind (classification_text data.(pd_classification)) (fun text' =>
    let '(classification', classification_size') :=
      normalize_classification CLASSIFICATION_SIZE_DEFAULT text'
                               (classification_size_value data.(pd_classification_size)) in
    bind (map_result Topic_from_dict (get_or data.(pd_topics) [])) (fun topics' =>
    bind (map_result CanvasObject_from_dict (get_or data.(pd_objects) [])) (fun objs =>
    Return (mkProjectModel
              year' topics'
              (fold_left (fun acc obj => Dict.set obj.(id) obj acc) objs [])
              classification' classification_size'))))).

End Model.

(** ** [layout.py] *)

Module Layout.

#[local] Open Scope Q_scope.

Record RowLayout : Type := mkRowLayout {
  row_id : string;
  name : string;
  kind : string;
  topic_id : string;
  y : Q;
  height : Q;
  indent : Z
}.

(** The attributes of a [Layout] after [rebuild].  [week_width] is the
    [int] handed to the constructor; [label_width] becomes a float once
    the scene resizes the label column. *)
Record t : Type := mkLayout {
  week_width : Z;
  label_width : Q;
  header_height : Q;
  origin_week : Z;
  rows : list RowLayout;
  row_map : Dict.t RowLayout;
  total_height : Q
}.

Definition week_left_x (l : t) (week : Z) : Q :=
  l.(label_width) + inject_Z ((week - l.(origin_week)) * l.(week_width))%Z.

Definition week_center_x (l : t) (week : Z) : Q :=
  week_left_x l week + inject_Z l.(week_width) / 2.

(** The row lookups index [row_map]; [None] stands for the [KeyError] of
    a stale row id. *)
Definition row_top_y (l : t) (rid : string) : option Q :=
  option_map (fun row => l.(header_height) + row.(y)) (Dict.get rid l.(row_map)).

Definition row_center_y (l : t) (rid : string) : option Q :=
  option_map (fun row => l.(header_height) + row.(y) + row.(height) / 2)
             (Dict.get rid l.(row_map)).

Definition row_height (l : t) (rid : string) : option Q :=
  option_map height (Dict.get rid l.(row_map)).

(** [week_from_x], without rounding, as the controller's geometry
    uses it; [Layout64.week_from_x] is the function with binary64
    rounding.  The division raises [ZeroDivisionError] when
    [week_width] is 0; [Qdiv] yields 0 there, so every statement about
    this function assumes a non-zero week width. *)
Definition week_from_x (l : t) (scene_x : Q) (snap : bool) : Z :=
  let x_rel := scene_x - l.(label_width) in
  let ratio := x_rel / inject_Z l.(week_width) in
  let week_offset :=
    if snap then
      if Qle_bool 0 ratio then Py.int (ratio + (1 # 2)) else Py.int (ratio - (1 # 2))
    else Py.floor ratio in
  (week_offset + l.(origin_week))%Z.

End Layout.

(** ** [commands.py] and the undo stack

    The commands are the [QUndoCommand] subclasses of [commands.py] that
    act on canvas objects.  [QUndoStack] itself belongs to Qt; its
    documented behaviour is written out here: [push] runs [redo] at once,
    a macro collects the commands pushed between [beginMacro] and
    [endMacro] as the children of one command, whose [redo] runs them in
    order and whose [undo] runs their [undo] in reverse order. *)

Module Commands.

Import Model.

Inductive QUndoCommand : Type :=
| AddObjectCommand (obj : CanvasObject) (description : string)
| RemoveObjectCommand (obj : CanvasObject) (description : string)
| UpdateObjectCommand (old_obj new_obj : CanvasObject) (description : string)
| MacroCommand (text : string) (children : list QUndoCommand).

Fixpoint redo (c : QUndoCommand) (m : ProjectModel) : ProjectModel :=
  match c with
  | AddObjectCommand obj _ => add_object obj m
  | RemoveObjectCommand obj _ => remove_object obj.(id) m
  | UpdateObjectCommand old_obj new_obj _ => update_object old_obj.(id) new_obj m
  | MacroCommand _ children =>
      (fix run (cs : list QUndoCommand) (m : ProjectModel) : ProjectModel :=
         match cs with
         | [] => m
         | c :: r => run r (redo c m)
         end) children m
  end.

Fixpoint undo (c : QUndoCommand) (m : ProjectModel) : ProjectModel :=
  match c with
  | AddObjectCommand obj _ => remove_object obj.(id) m
  | RemoveObjectCommand obj _ => add_object obj m
  | UpdateObjectCommand old_obj _ _ => update_object old_obj.(id) old_obj m
  | MacroCommand _ children =>
      (fix run (cs : list QUndoCommand) (m : ProjectModel) : ProjectModel :=
         match cs with
         | [] => m
         | c :: r => undo c (run r m)
         end) children m
  end.

(** [redo] of a command sequence, first to last, and [undo] of it, last
    to first. *)
Definition redo_all (cs : list QUndoCommand) (m : ProjectModel) : ProjectModel :=
  fold_left (fun acc c => redo c acc) cs m.

Definition undo_all (cs : list QUndoCommand) (m : ProjectModel) : ProjectModel :=
  fold_right undo m cs.

Record QUndoStack : Type := mkQUndoStack {
  command_list : list QUndoCommand;
  index : nat;
  macro_stack : list (string * list QUndoCommand)
}.

Definition empty_stack : QUndoStack := mkQUndoStack [] 0 [].

(** The bookkeeping half of [push]: where the command is recorded. *)
Definition record_command (c : QUndoCommand) (s : QUndoStack) : QUndoStack :=
  match s.(macro_stack) with
  | (text, children) :: outer =>
      mkQUndoStack s.(command_list) s.(index) ((text, children ++ [c]) :: outer)
  | [] =>
      mkQUndoStack (firstn s.(index) s.(command_list) ++ [c]) (S s.(index)) []
  end.

Definition push (c : QUndoCommand) (sm : QUndoStack * ProjectModel)
  : QUndoStack * ProjectModel :=
  let (s, m) := sm in (record_command c s, redo c m).

Definition beginMacro (text : string) (s : QUndoStack) : QUndoStack :=
  match s.(macro_stack) with
  | [] => mkQUndoStack (firstn s.(index) s.(command_list)) s.(index) [(text, [])]
  | frames => mkQUndoStack s.(command_list) s.(index) ((text, []) :: frames)
  end.

Definition endMacro (s : QUndoStack) : QUndoStack :=
  match s.(macro_stack) with
  | [] => s
  | [(text, children)] =>
      mkQUndoStack (s.(command_list) ++ [MacroCommand text children]) (S s.(index)) []
  | (text, children) :: (text', children') :: outer =>
      mkQUndoStack s.(command_list) s.(index)
                   ((text', children' ++ [MacroCommand text children]) :: outer)
  end.

(** [QUndoStack.undo]: one step back, refused while a macro is open. *)
Definition stack_undo (sm : QUndoStack * ProjectModel) : QUndoStack * ProjectModel :=
  let (s, m) := sm in
  match s.(macro_stack), s.(index) with
  | [], S i =>
      match nth_error s.(command_list) i with
      | Some c => (mkQUndoStack s.(command_list) i [], undo c m)
      | None => (s, m)
      end
  | _, _ => (s, m)
  end.

Definition stack_redo (sm : QUndoStack * ProjectModel) : QUndoStack * ProjectModel :=
  let (s, m) := sm in
  match s.(macro_stack), nth_error s.(command_list) s.(index) with
  | [], Some c => (mkQUndoStack s.(command_list) (S s.(index)) [], redo c m)
  | _, _ => (s, m)
  end.

End Commands.

(** ** [controller.py] *)

Module Controller.

Import Py Model Commands.

Notation "a =? b" := (String.eqb a b) : string_scope.

(** The attributes of a [ProjectController]. *)
Record t : Type := mkController {
  model : ProjectModel;
  undo_stack : QUndoStack;
  layout : option Layout.t;
  connector_default_size : Z;
  connector_default_color : string;
  arrow_default_size : Z;
  arrow_default_color : string
}.

Definition with_stack_model (sm : QUndoStack * ProjectModel) (st : t) : t :=
  mkController (snd sm) (fst sm) st.(layout) st.(connector_default_size)
               st.(connector_default_color) st.(arrow_default_size)
               st.(arrow_default_color).

(** [self.undo_stack.push(cmd)], [beginMacro] and [endMacro] on the
    controller's stack and model. *)
Definition push (c : QUndoCommand) (st : t) : t :=
  with_stack_model (Commands.push c (st.(undo_stack), st.(model))) st.

Definition beginMacro (text : string) (st : t) : t :=
  with_stack_model (Commands.beginMacro text st.(undo_stack), st.(model)) st.

Definition endMacro (st : t) : t :=
  with_stack_model (Commands.endMacro st.(undo_stack), st.(model)) st.

(** [self.undo_stack.undo()] and [redo()], as the window's actions call
    them. *)
Definition undo (st : t) : t :=
  with_stack_model (Commands.stack_undo (st.(undo_stack), st.(model))) st.

Definition redo (st : t) : t :=
  with_stack_model (Commands.stack_redo (st.(undo_stack), st.(model))) st.

Definition set_layout (l : Layout.t) (st : t) : t :=
  mkController st.(model) st.(undo_stack) (Some l) st.(connector_default_size)
               st.(connector_default_color) st.(arrow_default_size)
               st.(arrow_default_color).

Definition _size_scale (size' : Z) : Q :=
  let scale := ((1 # 2) + (1 # 10) * inject_Z size')%Q in
  if ltb scale (3 # 5) then (3 # 5)%Q
  else if ltb 1 scale then 1%Q
  else scale.

Definition _clamp_week (week : Z) : Z := week.

(** The clamp of a side offset shared by the anchor helpers:
    [float(offset or 0.5)] brought into [0, 1]. *)
Definition offset_value (offset : option Q) : Q :=
  let v := or_float offset (1 # 2) in
  let v := if ltb v 0 then 0%Q else v in
  if ltb 1 v then 1%Q else v.

Section WithConstants.
Context `{Constants}.

Definition _object_anchor_point (st : t) (obj : CanvasObject) : option (Q * Q) :=
  match st.(layout) with
  | None => None
  | Some layout =>
    if obj.(kind) =? "textbox" then
      let width' := if_not_none obj.(width) TEXTBOX_MIN_WIDTH in
      let height' := if_not_none obj.(height) TEXTBOX_MIN_HEIGHT in
      let x' := if_not_none obj.(x) 0%Q in
      let y' := if_not_none obj.(y) 0%Q in
      Some (x' + width' / 2, y' + height' / 2)%Q
    else if obj.(kind) =? "milestone" then
      if negb (Dict.contains obj.(row_id) layout.(Layout.row_map)) then None else
      match Layout.row_height layout obj.(row_id),
            Layout.row_center_y layout obj.(row_id) with
      | Some row_height, Some center_y =>
          let size' := (Py.min (inject_Z layout.(Layout.week_width)) row_height
                        * _size_scale obj.(size))%Q in
          let center_x := Layout.week_left_x layout obj.(start_week) in
          Some (center_x, center_y)
      | _, _ => None
      end
    else if obj.(kind) =? "circle" then
      if negb (Dict.contains obj.(row_id) layout.(Layout.row_map)) then None else
      match Layout.row_height layout obj.(row_id),
            Layout.row_center_y layout obj.(row_id) with
      | Some row_height, Some center_y =>
          let size' := (Py.min (inject_Z layout.(Layout.week_width)) row_height
                        * _size_scale obj.(size))%Q in
          let center_x := Layout.week_center_x layout obj.(start_week) in
          Some (center_x, center_y)
      | _, _ => None
      end
    else if obj.(kind) =? "deadline" then
      let center_x := Layout.week_center_x layout obj.(start_week) in
      let center_y := (layout.(Layout.header_height)
                       + layout.(Layout.total_height) / 2)%Q in
      Some (center_x, center_y)
    else if obj.(kind) =? "arrow" then
      if negb (Dict.contains obj.(row_id) layout.(Layout.row_map)) then None else
      let target_row :=
        if truthy obj.(target_row_id) then if_not_none obj.(target_row_id) obj.(row_id)
        else obj.(row_id) in
      if negb (Dict.contains target_row layout.(Layout.row_map)) then None else
      match Layout.row_center_y layout obj.(row_id),
            Layout.row_center_y layout target_row with
      | Some start_y, Some end_y =>
          let start_x := Layout.week_center_x layout obj.(start_week) in
          let target_week' := if_not_none obj.(target_week) obj.(end_week) in
          let end_x := Layout.week_center_x layout target_week' in
          Some ((start_x + end_x) / 2, (start_y + end_y) / 2)%Q
      | _, _ => None
      end
    else
      if negb (Dict.contains obj.(row_id) layout.(Layout.row_map)) then None else
      match Layout.row_height layout obj.(row_id),
            Layout.row_top_y layout obj.(row_id) with
      | Some row_height, Some top_y =>
          let height' := (row_height * _size_scale obj.(size))%Q in
          let width' :=
            inject_Z (Z.max 1 (obj.(end_week) - obj.(start_week) + 1)
                      * layout.(Layout.week_width)) in
          let x' := Layout.week_left_x layout obj.(start_week) in
          let y' := (top_y + (row_height - height') / 2)%Q in
          Some (x' + width' / 2, y' + height' / 2)%Q
      | _, _ => None
      end
  end.

Definition _textbox_anchor_point
    (obj : CanvasObject) (side : option string) (offset : option Q) : Q * Q :=
  let width' := if_not_none obj.(width) TEXTBOX_MIN_WIDTH in
  let height' := if_not_none obj.(height) TEXTBOX_MIN_HEIGHT in
  let x' := if_not_none obj.(x) 0%Q in
  let y' := if_not_none obj.(y) 0%Q in
  let offset_value' := offset_value offset in
  if eq_opt side "left" then (x', y' + height' * offset_value')%Q
  else if eq_opt side "top" then (x' + width' * offset_value', y')%Q
  else if eq_opt side "bottom" then (x' + width' * offset_value', y' + height')%Q
  else (x' + width', y' + height' * offset_value')%Q.

Definition _textbox_pos_for_anchor
    (anchor_x anchor_y width' height' : Q) (side : option string) (offset : option Q)
  : Q * Q :=
  let offset_value' := offset_value offset in
  if eq_opt side "left" then (anchor_x, anchor_y - height' * offset_value')%Q
  else if eq_opt side "top" then (anchor_x - width' * offset_value', anchor_y)%Q
  else if eq_opt side "bottom" then (anchor_x - width' * offset_value', anchor_y - height')%Q
  else (anchor_x - width', anchor_y - height' * offset_value')%Q.

Definition _links_from_source (st : t) (source_id : string) : list CanvasObject :=
  filter (fun obj => (obj.(kind) =? "link") && eq_opt obj.(link_source_id) source_id)
         (Dict.values st.(model).(objects)).

(** [v not in skip_sources] for a source id already known to be truthy. *)
Definition not_in_set (v : option string) (skip_sources : list string) : bool :=
  match v with
  | Some s => negb (str_in s skip_sources)
  | None => true
  end.

Definition _links_for_target (st : t) (target_id : string) (skip_sources : list string)
  : list CanvasObject :=
  filter (fun obj => (obj.(kind) =? "link")
                     && eq_opt obj.(link_target_id) target_id
                     && truthy obj.(link_source_id)
                     && not_in_set obj.(link_source_id) skip_sources)
         (Dict.values st.(model).(objects)).

Definition _next_z_index (st : t) : Z :=
  match Dict.values st.(model).(objects) with
  | [] => 0
  | o :: r => fold_left (fun acc obj => Z.max acc obj.(z_index)) r o.(z_index) + 1
  end.

Definition none_if_empty (v : option string) : option string :=
  match v with
  | Some s => if s =? "" then None else Some s
  | None => None
  end.

(** [max(0.0, min(1.0, float(v)))] for an offset that is present. *)
Definition clamp_offset (v : option Q) : option Q :=
  option_map (fun q => Py.max 0 (Py.min 1 q)) v.

Definition _normalize_object (obj : CanvasObject) : CanvasObject :=
  let start_week' := _clamp_week obj.(start_week) in
  let end_week' := _clamp_week obj.(end_week) in
  let size' := Z.max 1 (Z.min 5 obj.(size)) in
  let z_index' := obj.(z_index) in
  let opacity' := obj.(opacity) in
  let text_html' := none_if_empty obj.(text_html) in
  let notes_html' := none_if_empty obj.(notes_html) in
  let scope_html' := none_if_empty obj.(scope_html) in
  let risks_html' := none_if_empty obj.(risks_html) in
  let arrow_direction' := normalize_arrow_direction obj.(arrow_direction) in
  let arrow_direction' :=
    if negb (obj.(kind) =? "box") then "none" else arrow_direction' in
  let obj :=
    set_arrow_direction arrow_direction'
      (set_risks_html risks_html'
         (set_scope_html scope_html'
            (set_notes_html notes_html' (set_text_html text_html' obj)))) in
  let opacity' := if ltb opacity' 0 then 0%Q else opacity' in
  let opacity' := if ltb 1 opacity' then 1%Q else opacity' in
  let arrow_head_start' := obj.(arrow_head_start) in
  let arrow_head_end' := obj.(arrow_head_end) in
  let arrow_head_end' :=
    if str_in obj.(kind) ["arrow"; "connector"]
       && negb (arrow_head_start' || arrow_head_end')
    then true else arrow_head_end' in
  let common (o : CanvasObject) (end_week'' : Z) : CanvasObject :=
    set_opacity opacity'
      (set_z_index z_index'
         (set_size size' (set_end_week end_week'' (set_start_week start_week' o)))) in
  let heads (o : CanvasObject) : CanvasObject :=
    set_arrow_head_end arrow_head_end' (set_arrow_head_start arrow_head_start' o) in
  if str_in obj.(kind) ["milestone"; "circle"; "deadline"] then
    heads (common obj start_week')
  else if obj.(kind) =? "arrow" then
    let target_week' := if_not_none obj.(target_week) end_week' in
    let target_week' := _clamp_week target_week' in
    let obj := heads (set_target_week (Some target_week') obj) in
    heads (common obj target_week')
  else if obj.(kind) =? "link" then
    let link_offset_x' := or_float obj.(link_offset_x) 0 in
    let link_offset_y' := or_float obj.(link_offset_y) 0 in
    let link_source_offset' := clamp_offset obj.(link_source_offset) in
    set_link_source_offset link_source_offset'
      (set_link_offset_y (Some link_offset_y')
         (set_link_offset_x (Some link_offset_x') (common obj end_week')))
  else if obj.(kind) =? "connector" then
    let source_offset := clamp_offset obj.(connector_source_offset) in
    let target_offset := clamp_offset obj.(connector_target_offset) in
    heads
      (set_connector_target_offset target_offset
         (set_connector_source_offset source_offset (common obj end_week')))
  else if obj.(kind) =? "textbox" then
    let x' := or_float obj.(x) 0 in
    let y' := or_float obj.(y) 0 in
    let width' := or_float obj.(width) TEXTBOX_MIN_WIDTH in
    let height' := or_float obj.(height) TEXTBOX_MIN_HEIGHT in
    let width' := if ltb width' TEXTBOX_MIN_WIDTH then TEXTBOX_MIN_WIDTH else width' in
    let height' := if ltb height' TEXTBOX_MIN_HEIGHT then TEXTBOX_MIN_HEIGHT else height' in
    heads
      (set_height (Some height')
         (set_width (Some width')
            (set_y (Some y') (set_x (Some x') (common obj end_week')))))
  else
    let end_week' := if (end_week' <? start_week')%Z then start_week' else end_week' in
    heads (common obj end_week').

Definition _duplicate_offset (obj : CanvasObject) : Z :=
  let end_week' := if_not_none obj.(target_week) obj.(end_week) in
  let span := Z.abs (end_week' - obj.(start_week)) + 1 in
  Z.max 1 span.

Definition is_empty {A : Type} (l : list A) : bool :=
  match l with [] => true | _ => false end.

Definition add_object (obj : CanvasObject) (description : string) (st : t) : t :=
  let obj :=
    if (obj.(z_index) =? 0)%Z && negb (is_empty st.(model).(objects))
    then set_z_index (_next_z_index st) obj else obj in
  let obj := _normalize_object obj in
  push (AddObjectCommand obj description) st.

Definition push_all (cs : list QUndoCommand) (st : t) : t :=
  fold_left (fun acc c => push c acc) cs st.

Definition remove_object (obj_id : string) (st : t) : t :=
  match Dict.get obj_id st.(model).(objects) with
  | None => st
  | Some obj =>
    let related_links :=
      filter (fun link =>
                (link.(kind) =? "link")
                && (eq_opt link.(link_source_id) obj_id
                    || eq_opt link.(link_target_id) obj_id))
             (Dict.values st.(model).(objects)) in
    let related_connectors :=
      filter (fun connector =>
                (connector.(kind) =? "connector")
                && (eq_opt connector.(connector_source_id) obj_id
                    || eq_opt connector.(connector_target_id) obj_id))
             (Dict.values st.(model).(objects)) in
    if negb (is_empty related_links) || negb (is_empty related_connectors) then
      let st := beginMacro "Remove Object" st in
      let st := push_all (map (fun link => RemoveObjectCommand link "Remove Object")
                              related_links) st in
      let st := push_all (map (fun connector =>
                                 RemoveObjectCommand connector "Remove Object")
                              related_connectors) st in
      let st := push (RemoveObjectCommand obj "Remove Object") st in
      endMacro st
    else push (RemoveObjectCommand obj "Remove Object") st
  end.

(** The four assignments of [update_object] that remember the size and
    colour last given to a connector or an arrow. *)
Definition remember_defaults
    (obj new_obj : CanvasObject) (changes : list Change) (st : t) : t :=
  let cds := if (obj.(kind) =? "connector") && in_changes "size" changes
             then new_obj.(size) else st.(connector_default_size) in
  let ads := if (obj.(kind) =? "arrow") && in_changes "size" changes
             then new_obj.(size) else st.(arrow_default_size) in
  let cdc := if str_in obj.(kind) ["connector"; "arrow"] && in_changes "color" changes
             then new_obj.(color) else st.(connector_default_color) in
  let adc := if (obj.(kind) =? "arrow") && in_changes "color" changes
             then new_obj.(color) else st.(arrow_default_color) in
  mkController st.(model) st.(undo_stack) st.(layout) cds cdc ads adc.

(** Body of the loop [for link in target_links] of [update_object]: the
    update, if any, of the textbox at the source of [link]. *)
Definition target_link_update
    (st : t) (new_target_point : Q * Q) (link : CanvasObject)
  : list (CanvasObject * CanvasObject * string) :=
  if negb (truthy link.(link_source_id)) then [] else
  match link.(link_source_id) with
  | None => []
  | Some source_id =>
    match Dict.get source_id st.(model).(objects) with
    | None => []
    | Some source =>
      if negb (source.(kind) =? "textbox") then [] else
      let anchor_x := (fst new_target_point + or_float link.(link_offset_x) 0)%Q in
      let anchor_y := (snd new_target_point + or_float link.(link_offset_y) 0)%Q in
      let width' := if_not_none source.(width) TEXTBOX_MIN_WIDTH in
      let height' := if_not_none source.(height) TEXTBOX_MIN_HEIGHT in
      let '(new_x, new_y) :=
        _textbox_pos_for_anchor anchor_x anchor_y width' height'
                                link.(link_source_side) link.(link_source_offset) in
      let changes_for_source :=
        [Ch_x (Some new_x); Ch_y (Some new_y)]
        ++ match st.(layout) with
           | Some layout =>
               [Ch_start_week (Layout.week_from_x layout new_x false);
                Ch_end_week (Layout.week_from_x layout (new_x + width')%Q false)]
           | None => []
           end in
      let new_source := _normalize_object (replace source changes_for_source) in
      if negb (CanvasObject_eqb new_source source)
      then [(source, new_source, "Anchor Textbox")] else []
    end
  end.

(** The block [if target_links: ...] of [update_object]. *)
Definition target_updates
    (st : t) (new_obj : CanvasObject) (target_links : list CanvasObject)
  : list (CanvasObject * CanvasObject * string) :=
  if is_empty target_links then [] else
  match _object_anchor_point st new_obj with
  | None => []
  | Some new_target_point => flat_map (target_link_update st new_target_point) target_links
  end.

(** Body of the loop [for link in source_links] of [update_object] and of
    [refresh_anchor_offsets]: the stored offset of [link] recomputed from
    the textbox [source]. *)
Definition source_link_update (st : t) (source : CanvasObject) (link : CanvasObject)
  : list (CanvasObject * CanvasObject) :=
  if negb (truthy link.(link_target_id)) then [] else
  match link.(link_target_id) with
  | None => []
  | Some target_id =>
    match Dict.get target_id st.(model).(objects) with
    | None => []
    | Some target =>
      match _object_anchor_point st target with
      | None => []
      | Some target_point =>
        let source_anchor :=
          _textbox_anchor_point source link.(link_source_side) link.(link_source_offset) in
        let new_offset_x := (fst source_anchor - fst target_point)%Q in
        let new_offset_y := (snd source_anchor - snd target_point)%Q in
        let old_offset_x := or_float link.(link_offset_x) 0 in
        let old_offset_y := or_float link.(link_offset_y) 0 in
        if ltb (1 # 100) (Qabs (new_offset_x - old_offset_x))
           || ltb (1 # 100) (Qabs (new_offset_y - old_offset_y))
        then
          let new_link :=
            set_link_offset_y (Some new_offset_y)
              (set_link_offset_x (Some new_offset_x) link) in
          [(link, _normalize_object new_link)]
        else []
      end
    end
  end.

Definition update_command (u : CanvasObject * CanvasObject * string) : QUndoCommand :=
  let '(old_obj, updated_obj, label) := u in UpdateObjectCommand old_obj updated_obj label.

Definition update_object
    (obj_id : string) (changes : list Change) (description : string)
    (skip_anchor_sources : list string) (defer_link_updates : bool) (st : t) : t :=
  match Dict.get obj_id st.(model).(objects) with
  | None => st
  | Some obj =>
    let new_obj := _normalize_object (replace obj changes) in
    if CanvasObject_eqb new_obj obj then st else
    let st := remember_defaults obj new_obj changes st in
    let skip_sources := skip_anchor_sources in
    let target_links := _links_for_target st obj_id skip_sources in
    let source_links :=
      if obj.(kind) =? "textbox" then _links_from_source st obj_id else [] in
    let updates := (obj, new_obj, description) :: target_updates st new_obj target_links in
    let link_updates :=
      if negb (is_empty source_links) && negb defer_link_updates
      then flat_map (source_link_update st new_obj) source_links else [] in
    if (1 <? List.length updates)%nat || negb (is_empty link_updates) then
      let st := beginMacro description st in
      let st := push_all (map update_command updates) st in
      let st := push_all (map (fun u => UpdateObjectCommand (fst u) (snd u) "Update Anchor")
                              link_updates) st in
      endMacro st
    else push (UpdateObjectCommand obj new_obj description) st
  end.

(** [duplicate_object]; [fresh] is the value [new_id()] returns. *)
Definition duplicate_object (fresh : string) (obj_id : string) (st : t)
  : t * option CanvasObject :=
  match Dict.get obj_id st.(model).(objects) with
  | None => (st, None)
  | Some obj =>
    if obj.(kind) =? "textbox" then
      let width' := or_float obj.(width) TEXTBOX_MIN_WIDTH in
      let padding := Py.max 10 (width' * (1 # 10)) in
      let new_x := (or_float obj.(x) 0 + width' + padding)%Q in
      let cloned :=
        set_z_index (_next_z_index st) (set_x (Some new_x) (set_id fresh obj)) in
      (add_object cloned "Duplicate Object" st, Some cloned)
    else
      let delta := _duplicate_offset obj in
      let new_start := _clamp_week (obj.(start_week) + delta) in
      let new_end := _clamp_week (obj.(end_week) + delta) in
      let target_week' :=
        option_map (fun w => _clamp_week (w + delta)) obj.(target_week) in
      let arrow_mid_week' :=
        option_map (fun w => _clamp_week (w + delta)) obj.(arrow_mid_week) in
      let cloned :=
        set_z_index (_next_z_index st)
          (set_arrow_mid_week arrow_mid_week'
             (set_target_week target_week'
                (set_end_week new_end (set_start_week new_start (set_id fresh obj))))) in
      (add_object cloned "Duplicate Object" st, Some cloned)
  end.

Definition side_or (side : option string) (default : string) : string :=
  match side with
  | Some s => if str_in s ["left"; "right"; "top"; "bottom"] then s else default
  | None => default
  end.

(** [add_anchor_link]; [fresh] is the value [new_id()] returns. *)
Definition add_anchor_link
    (fresh : string) (source_id target_id : string)
    (side : option string) (offset : option Q) (st : t) : t :=
  match Dict.get source_id st.(model).(objects),
        Dict.get target_id st.(model).(objects) with
  | Some source, Some target =>
    if negb (source.(kind) =? "textbox")
       || str_in target.(kind) ["link"; "textbox"; "connector"]
       || (source_id =? target_id)
    then st else
    match st.(layout) with
    | None => st
    | Some _ =>
      let side_value := side_or side "right" in
      let offset_value' := offset_value offset in
      match _object_anchor_point st target with
      | None => st
      | Some target_point =>
        let source_anchor :=
          _textbox_anchor_point source (Some side_value) (Some offset_value') in
        let link_offset_x' := (fst source_anchor - fst target_point)%Q in
        let link_offset_y' := (snd source_anchor - snd target_point)%Q in
        let z_index' := Z.min source.(z_index) target.(z_index) - 1 in
        let z_index' := if (z_index' =? 0)%Z then -1 else z_index' in
        let link_obj :=
          set_link_offset_y (Some link_offset_y')
            (set_link_offset_x (Some link_offset_x')
               (set_link_source_offset (Some offset_value')
                  (set_link_source_side (Some side_value)
                     (set_link_target_id (Some target_id)
                        (set_link_source_id (Some source_id)
                           (set_z_index z_index'
                              (set_size DEFAULT_SIZE
                                 (set_color LINK_LINE_COLOR
                                    (set_text ""
                                       (CanvasObject_new fresh "link" CANVAS_ROW_ID 0 0)))))))))) in
        let existing_links := _links_from_source st source_id in
        let st := beginMacro "Anchor Textbox" st in
        let st := push_all (map (fun link => RemoveObjectCommand link "Remove Object")
                                existing_links) st in
        let st := add_object link_obj "Add Anchor" st in
        endMacro st
      end
    end
  | _, _ => st
  end.

(** Keys of [sorted]: the pair [(z_index, order_index)] in lexicographic
    order. *)
Definition key_le (a b : Z * Z) : bool :=
  (fst a <? fst b)%Z || ((fst a =? fst b)%Z && (snd a <=? snd b)%Z).

(** [sorted(values, key=...)]: a stable sort. *)
Fixpoint insert_by {A : Type} (key : A -> Z * Z) (a : A) (l : list A) : list A :=
  match l with
  | [] => [a]
  | b :: r => if key_le (key a) (key b) then a :: b :: r else b :: insert_by key a r
  end.

Definition sorted {A : Type} (key : A -> Z * Z) (l : list A) : list A :=
  fold_right (insert_by key) [] l.

(** [enumerate(l)]. *)
Definition enumerate {A : Type} (l : list A) : list (Z * A) :=
  combine (map Z.of_nat (seq 0 (List.length l))) l.

Definition _ordered_object_ids (st : t) : list string :=
  if is_empty st.(model).(objects) then [] else
  let order_index : Dict.t Z :=
    fold_left (fun acc p => Dict.set (snd p) (fst p) acc)
              (enumerate (Dict.keys st.(model).(objects))) [] in
  let ordered :=
    sorted (fun obj => (obj.(z_index),
                        match Dict.get obj.(id) order_index with
                        | Some i => i
                        | None => 0
                        end))
           (Dict.values st.(model).(objects)) in
  map id ordered.

Definition _apply_z_order (ordered_ids : list string) (description : string) (st : t) : t :=
  if is_empty ordered_ids then st else
  let st := beginMacro description st in
  let st :=
    fold_left
      (fun acc p =>
         let '(index, obj_id) := p in
         match Dict.get obj_id acc.(model).(objects) with
         | None => acc
         | Some obj =>
             if (obj.(z_index) =? index)%Z then acc
             else update_object obj_id [Ch_z_index index] "Reorder" [] false acc
         end)
      (enumerate ordered_ids) st in
  endMacro st.

(** [order[i], order[j] = order[j], order[i]] for indices within the list. *)
Fixpoint list_set {A : Type} (i : nat) (a : A) (l : list A) : list A :=
  match l, i with
  | [], _ => []
  | _ :: r, O => a :: r
  | b :: r, S i' => b :: list_set i' a r
  end.

Definition swap {A : Type} (i j : nat) (l : list A) : list A :=
  match nth_error l i, nth_error l j with
  | Some a, Some b => list_set j a (list_set i b l)
  | _, _ => l
  end.

Definition in_selected (selected : list string) (obj_id : option string) : bool :=
  match obj_id with
  | Some s => str_in s selected
  | None => false
  end.

Definition reorder_objects (obj_ids : list string) (action : string) (st : t) : t :=
  let selected := filter (fun obj_id => Dict.contains obj_id st.(model).(objects)) obj_ids in
  if is_empty selected then st else
  let ordered_ids := _ordered_object_ids st in
  let selected_set := selected in
  if action =? "front" then
    let new_order :=
      filter (fun obj_id => negb (str_in obj_id selected_set)) ordered_ids
      ++ filter (fun obj_id => str_in obj_id selected_set) ordered_ids in
    _apply_z_order new_order "Bring to Front" st
  else if action =? "back" then
    let new_order :=
      filter (fun obj_id => str_in obj_id selected_set) ordered_ids
      ++ filter (fun obj_id => negb (str_in obj_id selected_set)) ordered_ids in
    _apply_z_order new_order "Send to Back" st
  else if action =? "forward" then
    let order :=
      fold_left
        (fun order index =>
           if in_selected selected_set (nth_error order index)
              && negb (in_selected selected_set (nth_error order (index + 1)))
           then swap index (index + 1) order else order)
        (rev (seq 0 (List.length ordered_ids - 1))) ordered_ids in
    _apply_z_order order "Bring Forward" st
  else if action =? "backward" then
    let order :=
      fold_left
        (fun order index =>
           if in_selected selected_set (nth_error order index)
              && negb (in_selected selected_set (nth_error order (index - 1)))
           then swap index (index - 1) order else order)
        (seq 1 (List.length ordered_ids - 1)) ordered_ids in
    _apply_z_order order "Send Backward" st
  else st.

End WithConstants.
End Controller.

(** ** [items.py]: the anchor helpers the renderer draws links with *)

Module Items.

Import Py Model.

Definition size_scale (size' : Z) : Q :=
  let scale := ((1 # 2) + (1 # 10) * inject_Z size')%Q in
  if ltb scale (3 # 5) then (3 # 5)%Q
  else if ltb 1 scale then 1%Q
  else scale.

Section WithConstants.
Context `{Constants}.

Definition _object_center_for_link (obj : CanvasObject) (layout : Layout.t)
  : option (Q * Q) :=
  if String.eqb obj.(kind) "textbox" then
    let width' := if_not_none obj.(width) TEXTBOX_MIN_WIDTH in
    let height' := if_not_none obj.(height) TEXTBOX_MIN_HEIGHT in
    let x' := if_not_none obj.(x) 0%Q in
    let y' := if_not_none obj.(y) 0%Q in
    Some (x' + width' / 2, y' + height' / 2)%Q
  else if String.eqb obj.(kind) "milestone" then
    if negb (Dict.contains obj.(row_id) layout.(Layout.row_map)) then None else
    match Layout.row_height layout obj.(row_id),
          Layout.row_center_y layout obj.(row_id) with
    | Some row_height, Some center_y =>
        let size' := (Py.min (inject_Z layout.(Layout.week_width)) row_height
                      * size_scale obj.(size))%Q in
        let center_x := Layout.week_left_x layout obj.(start_week) in
        Some (center_x, center_y)
    | _, _ => None
    end
  else if String.eqb obj.(kind) "circle" then
    if negb (Dict.contains obj.(row_id) layout.(Layout.row_map)) then None else
    match Layout.row_height layout obj.(row_id),
          Layout.row_center_y layout obj.(row_id) with
    | Some row_height, Some center_y =>
        let size' := (Py.min (inject_Z layout.(Layout.week_width)) row_height
                      * size_scale obj.(size))%Q in
        let center_x := Layout.week_center_x layout obj.(start_week) in
        Some (center_x, center_y)
    | _, _ => None
    end
  else if String.eqb obj.(kind) "deadline" then
    let center_x := Layout.week_left_x layout obj.(start_week) in
    let center_y := (layout.(Layout.header_height)
                     + layout.(Layout.total_height) / 2)%Q in
    Some (center_x, center_y)
  else if String.eqb obj.(kind) "arrow" then
    if negb (Dict.contains obj.(row_id) layout.(Layout.row_map)) then None else
    let target_row :=
      if truthy obj.(target_row_id) then if_not_none obj.(target_row_id) obj.(row_id)
      else obj.(row_id) in
    if negb (Dict.contains target_row layout.(Layout.row_map)) then None else
    match Layout.row_center_y layout obj.(row_id),
          Layout.row_center_y layout target_row with
    | Some start_y, Some end_y =>
        let start_x := Layout.week_center_x layout obj.(start_week) in
        let target_week' := if_not_none obj.(target_week) obj.(end_week) in
        let end_x := Layout.week_center_x layout target_week' in
        Some ((start_x + end_x) / 2, (start_y + end_y) / 2)%Q
    | _, _ => None
    end
  else
    if negb (Dict.contains obj.(row_id) layout.(Layout.row_map)) then None else
    match Layout.row_height layout obj.(row_id),
          Layout.row_top_y layout obj.(row_id) with
    | Some row_height, Some top_y =>
        let height' := (row_height * size_scale obj.(size))%Q in
        let width' :=
          inject_Z (Z.max 1 (obj.(end_week) - obj.(start_week) + 1)
                    * layout.(Layout.week_width)) in
        let x' := Layout.week_left_x layout obj.(start_week) in
        let y' := (top_y + (row_height - height') / 2)%Q in
        Some (x' + width' / 2, y' + height' / 2)%Q
    | _, _ => None
    end.

End WithConstants.
End Items.

(** ** [persistence.py] *)

Module Persistence.

Import Py Model.

(** [load_project] once the file is read and parsed: [data] is the value
    of [json.loads].  An exception of [from_dict] is not caught here. *)
Definition load_project `{Constants} `{Numerals} (data : ProjectData)
  : result (ProjectModel * list (string * JScalar)) :=
  bind (ProjectModel_from_dict data) (fun model =>
  let view_state := get_or data.(pd_view) [] in
  Return (model, view_state)).

End Persistence.

(** * Further parts of the sources

    ** [model.py] and [persistence.py]: saving

    The [dict] that a [to_dict] builds is the record that the matching
    [from_dict] reads.  A key that [to_dict] leaves out or pops is
    [None]; so is a key it writes with the value [None], which every
    reader fetches with [data.get].  [json.dumps] and [json.loads] keep
    an [int] an [int], a [float] a [float] and a [bool] a [bool]. *)

Module Saving.

Import Py Model.

Definition Deliverable_to_dict (d : Deliverable) : DeliverableData :=
  mkDeliverableData (Some d.(deliverable_id)) (Some d.(deliverable_name)).

Definition Topic_to_dict (t : Topic) : TopicData :=
  mkTopicData (Some t.(topic_id)) (Some t.(topic_name)) (Some t.(topic_color))
              (Some (JBool t.(collapsed)))
              (Some (map Deliverable_to_dict t.(deliverables))).

(** An entry that is popped when the string is empty. *)
Definition unless_empty (s : string) : option string :=
  if String.eqb s "" then None else Some s.

Definition CanvasObject_to_dict `{Constants} (o : CanvasObject) : ObjectData :=
  let arrow_direction' :=
    if String.eqb o.(kind) "box" then normalize_arrow_direction o.(arrow_direction)
    else "none" in
  mkObjectData
    (Some o.(id)) (Some o.(kind)) (Some o.(row_id))
    (Some (JInt o.(start_week))) (Some (JInt o.(end_week)))
    (Some o.(text)) (Some o.(text_align))
    o.(text_html)
    (unless_empty o.(notes)) o.(notes_html)
    (unless_empty o.(scope)) o.(scope_html)
    (unless_empty o.(risks)) o.(risks_html)
    (Some o.(color)) (Some (JInt o.(size))) (Some (JInt o.(z_index)))
    o.(target_row_id) o.(target_week) o.(arrow_mid_week)
    (if o.(arrow_head_start) then Some (JBool o.(arrow_head_start)) else None)
    (if negb o.(arrow_head_end) then Some (JBool o.(arrow_head_end)) else None)
    (if String.eqb arrow_direction' "none" then None else Some arrow_direction')
    o.(x) o.(y) o.(width) o.(height)
    (if negb (Qeq_bool o.(opacity) TEXTBOX_DEFAULT_OPACITY) then Some (JFloat o.(opacity))
     else None)
    o.(link_source_id) o.(link_target_id) o.(link_source_side)
    o.(link_source_offset) o.(link_offset_x) o.(link_offset_y)
    o.(connector_source_id) o.(connector_target_id)
    o.(connector_source_side) o.(connector_source_offset)
    o.(connector_target_side) o.(connector_target_offset)
    None None.

Definition ProjectModel_to_dict `{Constants} (m : ProjectModel) : ProjectData :=
  mkProjectData
    (Some (JInt SCHEMA_VERSION)) (Some (JInt m.(year)))
    (Some (JString m.(classification))) (Some (JInt m.(classification_size)))
    (Some (map Topic_to_dict m.(topics)))
    (Some (map CanvasObject_to_dict (Dict.values m.(objects))))
    None.

(** [save_project] up to [json.dumps]: the payload that is written. *)
Definition save_project `{Constants}
    (model : ProjectModel) (view_state : list (string * JScalar)) : ProjectData :=
  let payload := ProjectModel_to_dict model in
  mkProjectData
    (Some (JInt SCHEMA_VERSION)) payload.(pd_year)
    payload.(pd_classification) payload.(pd_classification_size)
    payload.(pd_topics) payload.(pd_objects)
    (Some view_state).

End Saving.

(** ** [model.py]: topics, deliverables and the classification

    The model's list holds each [Topic] object once, and a method that
    changes a topic it has looked up changes the entry of the list at
    the position where it found it. *)

Module Rows.

Import Py Model.

Definition with_topics (ts : list Topic) (m : ProjectModel) : ProjectModel :=
  mkProjectModel m.(year) ts m.(objects) m.(classification) m.(classification_size).

Definition with_deliverables (ds : list Deliverable) (t : Topic) : Topic :=
  mkTopic t.(topic_id) t.(topic_name) t.(topic_color) t.(collapsed) ds.

(** [l.insert(index, a)]: an index past the end appends, a negative one
    counts from the end. *)
Definition list_insert {A : Type} (index : Z) (a : A) (l : list A) : list A :=
  let n := Z.of_nat (List.length l) in
  let i := if (index <? 0)%Z then Z.max 0 (n + index) else Z.min index n in
  firstn (Z.to_nat i) l ++ a :: skipn (Z.to_nat i) l.

(** What [l.pop(index)] leaves of [l], for an index of [l]. *)
Definition list_pop {A : Type} (index : nat) (l : list A) : list A :=
  firstn index l ++ skipn (S index) l.

(** [l.append(a)] when no index is given, [l.insert(index, a)] otherwise. *)
Definition insert_or_append {A : Type} (index : option Z) (a : A) (l : list A)
  : list A :=
  match index with
  | None => l ++ [a]
  | Some i => list_insert i a l
  end.

(** [for index, a in enumerate(l): if p(a): ...]: the first hit. *)
Fixpoint find_index {A : Type} (p : A -> bool) (l : list A) : option (nat * A) :=
  match l with
  | [] => None
  | a :: r =>
      if p a then Some (O, a)
      else match find_index p r with
           | Some (i, b) => Some (S i, b)
           | None => None
           end
  end.

(** [l[index] = f(l[index])]. *)
Fixpoint change_at {A : Type} (index : nat) (f : A -> A) (l : list A) : list A :=
  match l, index with
  | [], _ => []
  | a :: r, O => f a :: r
  | a :: r, S i => a :: change_at i f r
  end.

Definition is_topic (topic_id' : string) (t : Topic) : bool :=
  String.eqb t.(topic_id) topic_id'.

Definition is_deliverable (deliverable_id' : string) (d : Deliverable) : bool :=
  String.eqb d.(deliverable_id) deliverable_id'.

Definition get_topic (topic_id' : string) (m : ProjectModel) : option Topic :=
  match find_index (is_topic topic_id') m.(topics) with
  | Some (_, topic) => Some topic
  | None => None
  end.

Definition update_topic (topic_id' : string) (new_topic : Topic) (m : ProjectModel)
  : ProjectModel :=
  match find_index (is_topic topic_id') m.(topics) with
  | Some (index, _) => with_topics (change_at index (fun _ => new_topic) m.(topics)) m
  | None => m
  end.

Definition insert_topic (topic : Topic) (index : option Z) (m : ProjectModel)
  : ProjectModel :=
  with_topics (insert_or_append index topic m.(topics)) m.

Definition remove_topic (topic_id' : string) (m : ProjectModel)
  : ProjectModel * option Topic :=
  match find_index (is_topic topic_id') m.(topics) with
  | Some (index, topic) => (with_topics (list_pop index m.(topics)) m, Some topic)
  | None => (m, None)
  end.

Definition insert_deliverable
    (topic_id' : string) (deliverable : Deliverable) (index : option Z)
    (m : ProjectModel) : ProjectModel :=
  match find_index (is_topic topic_id') m.(topics) with
  | None => m
  | Some (pos, _) =>
      with_topics
        (change_at pos
           (fun t => with_deliverables
                       (insert_or_append index deliverable t.(deliverables)) t)
           m.(topics)) m
  end.

(** The double loop over topics and their deliverables that
    [update_deliverable], [remove_deliverable] and [find_deliverable]
    share: the position of the topic in the list, the topic, the index of
    the deliverable in it and the deliverable. *)
Fixpoint locate_from (deliverable_id' : string) (pos : nat) (ts : list Topic)
  : option (nat * Topic * nat * Deliverable) :=
  match ts with
  | [] => None
  | t :: r =>
      match find_index (is_deliverable deliverable_id') t.(deliverables) with
      | Some (index, d) => Some (pos, t, index, d)
      | None => locate_from deliverable_id' (S pos) r
      end
  end.

Definition locate (deliverable_id' : string) (m : ProjectModel)
  : option (nat * Topic * nat * Deliverable) :=
  locate_from deliverable_id' 0 m.(topics).

Definition find_deliverable (deliverable_id' : string) (m : ProjectModel)
  : option (Topic * nat * Deliverable) :=
  match locate deliverable_id' m with
  | Some (_, topic, index, deliverable) => Some (topic, index, deliverable)
  | None => None
  end.

Definition update_deliverable
    (deliverable_id' : string) (new_deliverable : Deliverable) (m : ProjectModel)
  : ProjectModel :=
  match locate deliverable_id' m with
  | Some (pos, _, index, _) =>
      with_topics
        (change_at pos
           (fun t => with_deliverables
                       (change_at index (fun _ => new_deliverable) t.(deliverables)) t)
           m.(topics)) m
  | None => m
  end.

Definition remove_deliverable (deliverable_id' : string) (m : ProjectModel)
  : ProjectModel * option Deliverable :=
  match locate deliverable_id' m with
  | Some (pos, _, index, removed) =>
      (with_topics
         (change_at pos
            (fun t => with_deliverables (list_pop index t.(deliverables)) t)
            m.(topics)) m,
       Some removed)
  | None => (m, None)
  end.

(** [max(0, min(i, n))]. *)
Definition clamp_index (i n : Z) : Z := Z.max 0 (Z.min i n).

Definition move_deliverable (deliverable_id' : string) (new_index : Z) (m : ProjectModel)
  : ProjectModel * bool :=
  match locate deliverable_id' m with
  | None => (m, false)
  | Some (pos, topic, index, deliverable) =>
      match topic.(deliverables) with
      | [] => (m, false)
      | _ =>
        let new_index :=
          clamp_index new_index (Z.of_nat (List.length topic.(deliverables)) - 1) in
        if (new_index =? Z.of_nat index)%Z then (m, false)
        else
          (with_topics
             (change_at pos
                (fun t => with_deliverables
                            (list_insert new_index deliverable
                                         (list_pop index t.(deliverables))) t)
                m.(topics)) m,
           true)
      end
  end.

Definition move_deliverable_to_topic
    (deliverable_id' target_topic_id : string) (target_index : option Z)
    (m : ProjectModel) : ProjectModel * bool :=
  match locate deliverable_id' m with
  | None => (m, false)
  | Some (source_pos, source_topic, source_index, deliverable) =>
    match find_index (is_topic target_topic_id) m.(topics) with
    | None => (m, false)
    | Some (target_pos, target_topic) =>
      if String.eqb source_topic.(topic_id) target_topic_id then
        match target_index with
        | None => (m, false)
        | Some target_index =>
          let new_index :=
            clamp_index target_index
                        (Z.of_nat (List.length source_topic.(deliverables)) - 1) in
          if (new_index =? Z.of_nat source_index)%Z then (m, false)
          else
            (with_topics
               (change_at source_pos
                  (fun t => with_deliverables
                              (list_insert new_index deliverable
                                           (list_pop source_index t.(deliverables))) t)
                  m.(topics)) m,
             true)
        end
      else
        let popped :=
          change_at source_pos
            (fun t => with_deliverables (list_pop source_index t.(deliverables)) t)
            m.(topics) in
        let target_index :=
          match target_index with
          | None => Z.of_nat (List.length target_topic.(deliverables))
          | Some i => i
          end in
        let target_index :=
          clamp_index target_index (Z.of_nat (List.length target_topic.(deliverables))) in
        (with_topics
           (change_at target_pos
              (fun t => with_deliverables
                          (list_insert target_index deliverable t.(deliverables)) t)
              popped) m,
         true)
    end
  end.

Definition toggle_topic_collapsed (topic_id' : string) (m : ProjectModel)
  : ProjectModel :=
  match find_index (is_topic topic_id') m.(topics) with
  | None => m
  | Some (pos, _) =>
      with_topics
        (change_at pos
           (fun t => mkTopic t.(topic_id) t.(topic_name) t.(topic_color)
                             (negb t.(collapsed)) t.(deliverables))
           m.(topics)) m
  end.

Fixpoint find_row_in (row_id' : string) (ts : list Topic)
  : option (string * Topic * option Deliverable) :=
  match ts with
  | [] => None
  | t :: r =>
      if String.eqb t.(topic_id) row_id' then Some ("topic", t, None)
      else match find_index (is_deliverable row_id') t.(deliverables) with
           | Some (_, d) => Some ("deliverable", t, Some d)
           | None => find_row_in row_id' r
           end
  end.

Definition find_row (row_id' : string) (m : ProjectModel)
  : option (string * Topic * option Deliverable) :=
  find_row_in row_id' m.(topics).

Definition topic_for_row (row_id' : string) (m : ProjectModel) : option Topic :=
  match find_row row_id' m with
  | None => None
  | Some (_, topic, _) => Some topic
  end.

(** [set_classification]: [size] is an [int] or [None]. *)
Definition set_classification `{Constants}
    (text' : option string) (size' : option Z) (m : ProjectModel) : ProjectModel :=
  let '(cleaned, size_value) :=
    normalize_classification m.(classification_size) text' size' in
  if String.eqb cleaned m.(classification)
     && (size_value =? m.(classification_size))%Z
  then m
  else mkProjectModel m.(year) m.(topics) m.(objects) cleaned size_value.

Definition classification_label `{Constants} (m : ProjectModel) : string :=
  let cleaned := strip m.(classification) in
  if String.eqb cleaned "" then DEFAULT_CLASSIFICATION else cleaned.

End Rows.

(** ** [commands.py]: the commands on rows and on the classification

    [redo] and [undo] of the [QUndoCommand] subclasses that act on
    topics, deliverables and the classification.  A command holds the
    values its constructor was given. *)

Module RowCommands.

Import Py Model Rows.

Inductive RowCommand : Type :=
| UpdateClassificationCommand (old_text : string) (old_size : Z)
                              (new_text : string) (new_size : Z)
| AddTopicCommand (topic : Topic) (index : option Z)
| UpdateTopicCommand (old_topic new_topic : Topic)
| UpdateDeliverableCommand (old_deliverable new_deliverable : Deliverable)
| ToggleTopicCollapseCommand (tid : string) (was_collapsed : bool)
| AddDeliverableCommand (tid : string) (deliverable : Deliverable) (index : option Z)
| MoveDeliverableCommand (did : string) (old_index new_index : Z)
| MoveDeliverableAcrossTopicsCommand
    (did source_topic_id : string) (source_index : Z)
    (target_topic_id : string) (target_index : Z)
| RemoveDeliverableCommand (tid : string) (deliverable : Deliverable) (index : Z)
                           (removed_objects : list CanvasObject)
| RemoveTopicCommand (topic : Topic) (index : Z) (removed_objects : list CanvasObject).

(** [for obj in removed_objects: model.remove_object(obj.id)] and
    [for obj in removed_objects: model.add_object(obj)]. *)
Definition remove_all (objs : list CanvasObject) (m : ProjectModel) : ProjectModel :=
  fold_left (fun acc obj => remove_object obj.(id) acc) objs m.

Definition add_all (objs : list CanvasObject) (m : ProjectModel) : ProjectModel :=
  fold_left (fun acc obj => add_object obj acc) objs m.

Definition redo `{Constants} (c : RowCommand) (m : ProjectModel) : ProjectModel :=
  match c with
  | UpdateClassificationCommand _ _ new_text new_size =>
      set_classification (Some new_text) (Some new_size) m
  | AddTopicCommand topic index => insert_topic topic index m
  | UpdateTopicCommand old_topic new_topic =>
      update_topic old_topic.(topic_id) new_topic m
  | UpdateDeliverableCommand old_deliverable new_deliverable =>
      update_deliverable old_deliverable.(deliverable_id) new_deliverable m
  | ToggleTopicCollapseCommand tid _ => toggle_topic_collapsed tid m
  | AddDeliverableCommand tid deliverable index =>
      insert_deliverable tid deliverable index m
  | MoveDeliverableCommand did _ new_index => fst (move_deliverable did new_index m)
  | MoveDeliverableAcrossTopicsCommand did _ _ target_topic_id target_index =>
      fst (move_deliverable_to_topic did target_topic_id (Some target_index) m)
  | RemoveDeliverableCommand _ deliverable _ removed_objects =>
      fst (remove_deliverable deliverable.(deliverable_id) (remove_all removed_objects m))
  | RemoveTopicCommand topic _ removed_objects =>
      fst (remove_topic topic.(topic_id) (remove_all removed_objects m))
  end.

Definition undo `{Constants} (c : RowCommand) (m : ProjectModel) : ProjectModel :=
  match c with
  | UpdateClassificationCommand old_text old_size _ _ =>
      set_classification (Some old_text) (Some old_size) m
  | AddTopicCommand topic _ => fst (remove_topic topic.(topic_id) m)
  | UpdateTopicCommand old_topic _ => update_topic old_topic.(topic_id) old_topic m
  | UpdateDeliverableCommand old_deliverable _ =>
      update_deliverable old_deliverable.(deliverable_id) old_deliverable m
  | ToggleTopicCollapseCommand tid was_collapsed =>
      match get_topic tid m with
      | None => m
      | Some topic =>
          if negb (Bool.eqb topic.(collapsed) was_collapsed)
          then toggle_topic_collapsed tid m else m
      end
  | AddDeliverableCommand _ deliverable _ =>
      fst (remove_deliverable deliverable.(deliverable_id) m)
  | MoveDeliverableCommand did old_index _ => fst (move_deliverable did old_index m)
  | MoveDeliverableAcrossTopicsCommand did source_topic_id source_index _ _ =>
      fst (move_deliverable_to_topic did source_topic_id (Some source_index) m)
  | RemoveDeliverableCommand tid deliverable index removed_objects =>
      add_all removed_objects (insert_deliverable tid deliverable (Some index) m)
  | RemoveTopicCommand topic index removed_objects =>
      add_all removed_objects (insert_topic topic (Some index) m)
  end.

End RowCommands.

(** ** [controller.py]: the methods on rows

    Each method is given up to its [self.undo_stack.push(...)]: its value
    here is the command it pushes, [None] when it pushes none, next to
    what it returns.  The stack runs [redo] of the command at once. *)

Module RowController.

Import Py Model Rows RowCommands.

Definition Deliverable_eqb (a b : Deliverable) : bool :=
  String.eqb a.(deliverable_id) b.(deliverable_id)
  && String.eqb a.(deliverable_name) b.(deliverable_name).

Fixpoint deliverables_eqb (a b : list Deliverable) : bool :=
  match a, b with
  | [], [] => true
  | x :: r, y :: s => Deliverable_eqb x y && deliverables_eqb r s
  | _, _ => false
  end.

Definition Topic_eqb (a b : Topic) : bool :=
  String.eqb a.(topic_id) b.(topic_id)
  && String.eqb a.(topic_name) b.(topic_name)
  && String.eqb a.(topic_color) b.(topic_color)
  && Bool.eqb a.(collapsed) b.(collapsed)
  && deliverables_eqb a.(deliverables) b.(deliverables).

(** [v in s] for a value that may be [None] and a set of strings. *)
Definition opt_in (v : option string) (s : list string) : bool :=
  match v with
  | Some a => str_in a s
  | None => false
  end.

Definition _objects_for_rows (st : Controller.t) (row_ids : list string)
  : list CanvasObject :=
  let values := Dict.values st.(Controller.model).(objects) in
  let row_objects :=
    filter (fun obj => negb (String.eqb obj.(kind) "link")
                       && (str_in obj.(row_id) row_ids
                           || opt_in obj.(target_row_id) row_ids))
           values in
  let row_object_ids := map id row_objects in
  let link_objects :=
    filter (fun obj => String.eqb obj.(kind) "link"
                       && (opt_in obj.(link_source_id) row_object_ids
                           || opt_in obj.(link_target_id) row_object_ids))
           values in
  let connector_objects :=
    filter (fun obj => String.eqb obj.(kind) "connector"
                       && (opt_in obj.(connector_source_id) row_object_ids
                           || opt_in obj.(connector_target_id) row_object_ids))
           values in
  row_objects ++ link_objects ++ connector_objects.

(** [add_topic]; [fresh] is the value [new_id()] returns. *)
Definition add_topic (fresh name' : string) (color' : option string) (st : Controller.t)
  : RowCommand * Topic :=
  let topics' := st.(Controller.model).(topics) in
  let color' :=
    match color' with
    | Some c => c
    | None =>
        nth (Nat.modulo (List.length topics') (List.length DEFAULT_TOPIC_COLORS))
            DEFAULT_TOPIC_COLORS ""
    end in
  let topic := mkTopic fresh name' color' false [] in
  (AddTopicCommand topic None, topic).

Definition update_classification `{Constants}
    (text' : string) (size' : option Z) (st : Controller.t) : option RowCommand :=
  let m := st.(Controller.model) in
  let '(new_text, new_size) :=
    normalize_classification m.(classification_size) (Some text') size' in
  let old_text := m.(classification) in
  let old_size := m.(classification_size) in
  if String.eqb new_text old_text && (new_size =? old_size)%Z then None
  else Some (UpdateClassificationCommand old_text old_size new_text new_size).

Definition update_topic (topic : Topic) (st : Controller.t) : option RowCommand :=
  match get_topic topic.(topic_id) st.(Controller.model) with
  | None => None
  | Some current =>
      if Topic_eqb current topic then None
      else Some (UpdateTopicCommand current topic)
  end.

Definition update_deliverable (deliverable : Deliverable) (st : Controller.t)
  : option RowCommand :=
  match find_deliverable deliverable.(deliverable_id) st.(Controller.model) with
  | None => None
  | Some (_, _, current) =>
      if Deliverable_eqb current deliverable then None
      else Some (UpdateDeliverableCommand current deliverable)
  end.

(** [add_deliverable]; [fresh] is the value [new_id()] returns. *)
Definition add_deliverable (fresh tid name' : string) (st : Controller.t)
  : option (RowCommand * Deliverable) :=
  match get_topic tid st.(Controller.model) with
  | None => None
  | Some _ =>
      let deliverable := mkDeliverable fresh name' in
      Some (AddDeliverableCommand tid deliverable None, deliverable)
  end.

Definition toggle_topic_collapsed (tid : string) (st : Controller.t)
  : option RowCommand :=
  match get_topic tid st.(Controller.model) with
  | None => None
  | Some topic => Some (ToggleTopicCollapseCommand tid topic.(collapsed))
  end.

(** [move_deliverable]: the command pushed; the method returns [True]
    exactly when there is one. *)
Definition move_deliverable (did : string) (direction : Z) (st : Controller.t)
  : option RowCommand :=
  let m := st.(Controller.model) in
  match find_deliverable did m with
  | None => None
  | Some (topic, index, _) =>
    match topic.(deliverables) with
    | [] => None
    | _ =>
      match find_index (is_topic topic.(topic_id)) m.(topics) with
      | None => None
      | Some (topic_index, _) =>
        if (direction <? 0)%Z then
          if (0 <? index)%nat then
            Some (MoveDeliverableCommand did (Z.of_nat index) (Z.of_nat index - 1))
          else if (0 <? topic_index)%nat then
            match nth_error m.(topics) (topic_index - 1) with
            | Some target_topic =>
                Some (MoveDeliverableAcrossTopicsCommand
                        did topic.(topic_id) (Z.of_nat index)
                        target_topic.(topic_id)
                        (Z.of_nat (List.length target_topic.(deliverables))))
            | None => None
            end
          else None
        else if (0 <? direction)%Z then
          if (Z.of_nat index <? Z.of_nat (List.length topic.(deliverables)) - 1)%Z then
            Some (MoveDeliverableCommand did (Z.of_nat index) (Z.of_nat index + 1))
          else if (Z.of_nat topic_index <? Z.of_nat (List.length m.(topics)) - 1)%Z then
            match nth_error m.(topics) (topic_index + 1) with
            | Some target_topic =>
                Some (MoveDeliverableAcrossTopicsCommand
                        did topic.(topic_id) (Z.of_nat index)
                        target_topic.(topic_id) 0)
            | None => None
            end
          else None
        else None
      end
    end
  end.

Definition remove_deliverable (did : string) (st : Controller.t) : option RowCommand :=
  match find_deliverable did st.(Controller.model) with
  | None => None
  | Some (topic, index, deliverable) =>
      let removed_objects := _objects_for_rows st [did] in
      Some (RemoveDeliverableCommand topic.(topic_id) deliverable (Z.of_nat index)
                                     removed_objects)
  end.

Definition remove_topic (tid : string) (st : Controller.t) : option RowCommand :=
  match find_index (is_topic tid) st.(Controller.model).(topics) with
  | None => None
  | Some (topic_index, topic) =>
      let row_ids := topic.(topic_id) :: map deliverable_id topic.(deliverables) in
      let removed_objects := _objects_for_rows st row_ids in
      Some (RemoveTopicCommand topic (Z.of_nat topic_index) removed_objects)
  end.

End RowController.

(** ** [layout.py]: the rows

    The constants of [constants.py] that [layout.py] imports are
    parameters.  A [Layout] sets [rows], [row_map], [total_height] and
    its three position tables in [rebuild] only; the tables, which the
    record of the attributes leaves out, are given as functions of
    [rows]. *)

Class LayoutConstants : Type := {
  DEFAULT_WEEK_WIDTH : Z;
  DELIVERABLE_ROW_HEIGHT : Q;
  HEADER_MONTH_HEIGHT : Q;
  HEADER_QUARTER_HEIGHT : Q;
  HEADER_WEEK_HEIGHT : Q;
  HEADER_YEAR_HEIGHT : Q;
  LABEL_WIDTH : Q;
  TOPIC_ROW_HEIGHT : Q
}.

Module LayoutRows.

Import Py Model Layout.

#[local] Open Scope Q_scope.

Section WithConstants.
Context `{LayoutConstants}.

(** The inner loop of [rebuild]: the rows of the deliverables of one
    topic, from [y] on, and the [y] after them. *)
Fixpoint deliverable_rows (tid : string) (ds : list Deliverable) (y' : Q)
  : list RowLayout * Q :=
  match ds with
  | [] => ([], y')
  | d :: r =>
      let deliverable_row :=
        mkRowLayout d.(deliverable_id) d.(deliverable_name) "deliverable" tid
                    y' DELIVERABLE_ROW_HEIGHT 1 in
      let (rows', y_end) := deliverable_rows tid r (y' + DELIVERABLE_ROW_HEIGHT) in
      (deliverable_row :: rows', y_end)
  end.

(** The outer loop of [rebuild]. *)
Fixpoint topic_rows (ts : list Topic) (y' : Q) : list RowLayout * Q :=
  match ts with
  | [] => ([], y')
  | topic :: r =>
      let topic_row :=
        mkRowLayout topic.(Model.topic_id) topic.(topic_name) "topic"
                    topic.(Model.topic_id) y' TOPIC_ROW_HEIGHT 0 in
      let y' := y' + TOPIC_ROW_HEIGHT in
      if topic.(collapsed) then
        let (rows', y_end) := topic_rows r y' in (topic_row :: rows', y_end)
      else
        let (drows, y') := deliverable_rows topic.(Model.topic_id) topic.(deliverables) y' in
        let (rows', y_end) := topic_rows r y' in
        (topic_row :: drows ++ rows', y_end)
  end.

(** [self.row_map[row.row_id] = row], row after row. *)
Definition row_map_of (rows' : list RowLayout) : Dict.t RowLayout :=
  fold_left (fun acc row => Dict.set row.(row_id) row acc) rows' [].

Definition rebuild (model : ProjectModel) (l : Layout.t) : Layout.t :=
  let (rows', y') := topic_rows model.(topics) 0 in
  mkLayout l.(week_width) l.(label_width) l.(header_height) l.(origin_week)
           rows' (row_map_of rows') y'.

(** [Layout(model, week_width)]. *)
Definition Layout_new (model : ProjectModel) (week_width' : Z) : Layout.t :=
  rebuild model
    (mkLayout week_width' LABEL_WIDTH
              (HEADER_YEAR_HEIGHT + HEADER_QUARTER_HEIGHT + HEADER_MONTH_HEIGHT
               + HEADER_WEEK_HEIGHT)
              1 [] [] 0).

End WithConstants.

Definition _row_start_positions (l : Layout.t) : list Q := map y l.(rows).

Definition _row_end_positions (l : Layout.t) : list Q :=
  map (fun row => row.(y) + row.(height)) l.(rows).

(** [self._row_index_map[row.row_id] = index], row after row. *)
Definition _row_index_map (l : Layout.t) : Dict.t nat :=
  fold_left (fun acc ir => Dict.set (snd ir).(row_id) (fst ir) acc)
            (combine (seq 0 (List.length l.(rows))) l.(rows)) [].

(** The loop of [bisect.bisect_right]: [while lo < hi], with [mid] the
    middle, [hi = mid] when [x < a[mid]] and [lo = mid + 1] otherwise.
    Every turn narrows [hi - lo], so [hi - lo] turns are enough. *)
Fixpoint bisect_right_loop (turns : nat) (a : list Q) (x : Q) (lo hi : nat) : nat :=
  match turns with
  | O => lo
  | S turns' =>
      if (lo <? hi)%nat then
        let mid := ((lo + hi) / 2)%nat in
        if ltb x (nth mid a 0) then bisect_right_loop turns' a x lo mid
        else bisect_right_loop turns' a x (mid + 1)%nat hi
      else lo
  end.

Definition bisect_right (a : list Q) (x : Q) : nat :=
  bisect_right_loop (List.length a) a x 0 (List.length a).

Definition row_at_y (l : Layout.t) (scene_y : Q) : option string :=
  let y_rel := scene_y - l.(header_height) in
  if ltb y_rel 0 then None
  else match l.(rows) with
       | [] => None
       | _ =>
         let index := bisect_right (_row_end_positions l) y_rel in
         if (List.length l.(rows) <=? index)%nat then None
         else match nth_error l.(rows) index with
              | None => None
              | Some row =>
                  if Qle_bool row.(y) y_rel && ltb y_rel (row.(y) + row.(height))
                  then Some row.(row_id) else None
              end
       end.

Definition row_index (l : Layout.t) (rid : string) : option nat :=
  Dict.get rid (_row_index_map l).

Definition adjacent_row (l : Layout.t) (rid : string) (direction : Z) : option string :=
  match row_index l rid with
  | None => None
  | Some index =>
      let new_index := (Z.of_nat index + direction)%Z in
      if (new_index <? 0)%Z || (Z.of_nat (List.length l.(rows)) <=? new_index)%Z
      then None
      else option_map row_id (nth_error l.(rows) (Z.to_nat new_index))
  end.

(** [quarter_for_week]; [//] is the floor division. *)
Definition quarter_for_week (week_in_year : Z) : Z :=
  Z.min 4 ((week_in_year - 1) / 13 + 1).

End LayoutRows.

(** ** [controller.py]: connector arrows *)

Module Connectors.

Import Py Model Commands Controller.

(** [max(0.0, min(1.0, float(offset or 0.5)))]. *)
Definition connector_offset (offset : option Q) : Q :=
  Py.max 0 (Py.min 1 (or_float offset (1 # 2))).

(** [add_connector_arrow]; [fresh] is the value [new_id()] returns. *)
Definition add_connector_arrow `{Constants}
    (fresh source_id target_id : string)
    (source_side : option string) (source_offset : option Q)
    (target_side : option string) (target_offset : option Q)
    (st : Controller.t) : Controller.t :=
  match Dict.get source_id st.(model).(objects),
        Dict.get target_id st.(model).(objects) with
  | Some source, Some target =>
    if String.eqb source_id target_id
       || str_in source.(kind) ["link"; "connector"]
       || str_in target.(kind) ["link"; "connector"]
    then st else
    let source_side_value := side_or source_side "right" in
    let target_side_value := side_or target_side "left" in
    let source_offset_value := connector_offset source_offset in
    let target_offset_value := connector_offset target_offset in
    let z_index' := Z.min source.(z_index) target.(z_index) - 1 in
    let z_index' := if (z_index' =? 0)%Z then -1 else z_index' in
    let connector_obj :=
      set_connector_target_offset (Some target_offset_value)
        (set_connector_source_offset (Some source_offset_value)
           (set_z_index z_index'
              (set_size st.(connector_default_size)
                 (set_color st.(connector_default_color)
                    (set_text ""
                       (mkCanvasObject
                          fresh "connector" CANVAS_ROW_ID 0 0 "" "center" None "" None
                          "" None "" None (hd "" DEFAULT_TOPIC_COLORS) DEFAULT_SIZE 0
                          None None None false true "none" None None None None
                          TEXTBOX_DEFAULT_OPACITY None None None None None None
                          (Some source_id) (Some target_id)
                          (Some source_side_value) None
                          (Some target_side_value) None)))))) in
    add_object connector_obj "Add Connector Arrow" st
  | _, _ => st
  end.

End Connectors.

(** ** Floats as the interpreter has them

    Where the result of float arithmetic is turned into an integer, as
    in [Layout.week_from_x], the rounding of the operations decides the
    result.  For these functions a [float] is the rational that an
    IEEE 754 binary64 number stands for, and every operation rounds its
    exact result to the nearest such number, ties to the even one.
    Overflow is not modelled: every statement bounds its operands far
    below 2^1024. *)

Module Binary64.

#[local] Open Scope Q_scope.

(** The [e] with [2^e <= q < 2^(e+1)], for a positive [q]. *)
Definition ilog2 (q : Q) : Z :=
  let e := (Z.log2 (Qnum q) - Z.log2 (Zpos (Qden q)))%Z in
  if Qle_bool (2 ^ e) q then e else (e - 1)%Z.

(** The integer nearest to [q], the even one of two that are equally
    near. *)
Definition round_half_even (q : Q) : Z :=
  let f := Qfloor q in
  let r := q - inject_Z f in
  if Qle_bool r (1 # 2)
  then if Qeq_bool r (1 # 2) then (if Z.even f then f else f + 1)%Z else f
  else (f + 1)%Z.

(** The exponent of the last binary place of the float that [x] rounds
    to: 52 places under the leading one, and never under 2^-1074. *)
Definition last_place (x : Q) : Z := Z.max (ilog2 (Qabs x) - 52) (-1074).

(** The binary64 number nearest to [x]. *)
Definition round (x : Q) : Q :=
  if Qeq_bool x 0 then 0
  else inject_Z (round_half_even (x / 2 ^ last_place x)) * 2 ^ last_place x.

(** Half the distance of 1 to the next float, and half the smallest
    positive float. *)
Definition eps : Q := 1 # (2 ^ 53).
Definition eta : Q := 1 # (2 ^ 1075).

End Binary64.

(** A Python number: an [int], which is exact, or a [float]. *)
Module Number.

#[local] Open Scope Q_scope.

Inductive t : Type :=
| Int (z : Z)
| Float (q : Q).

(** The rational that a number stands for. *)
Definition value (a : t) : Q :=
  match a with
  | Int z => inject_Z z
  | Float q => q
  end.

(** [float(a)]. *)
Definition to_float (a : t) : Q :=
  match a with
  | Int z => Binary64.round (inject_Z z)
  | Float q => q
  end.

(** [a + b], [a - b] and [a * b]: exact on two [int]s, rounded once the
    operands are made floats otherwise. *)
Definition add (a b : t) : t :=
  match a, b with
  | Int x, Int y => Int (x + y)
  | _, _ => Float (Binary64.round (to_float a + to_float b))
  end.

Definition sub (a b : t) : t :=
  match a, b with
  | Int x, Int y => Int (x - y)
  | _, _ => Float (Binary64.round (to_float a - to_float b))
  end.

(** [a / b], a float: the quotient of two [int]s is rounded once. *)
Definition truediv (a b : t) : Q :=
  match a, b with
  | Int x, Int y => Binary64.round (inject_Z x / inject_Z y)
  | _, _ => Binary64.round (to_float a / to_float b)
  end.

End Number.

(** ** [layout.py]: the week columns, with rounding

    [week_width] and [origin_week] are [int]s.  [label_width] is the
    [int] constant [LABEL_WIDTH] until the scene stores the float of a
    resized label column in it. *)

Module Layout64.

#[local] Open Scope Q_scope.

Record columns : Type := mkColumns {
  week_width : Z;
  label_width : Number.t;
  origin_week : Z
}.

Definition week_left_x (c : columns) (week : Z) : Number.t :=
  Number.add c.(label_width) (Number.Int ((week - c.(origin_week)) * c.(week_width))%Z).

Definition week_center_x (c : columns) (week : Z) : Number.t :=
  Number.add (week_left_x c week)
             (Number.Float (Number.truediv (Number.Int c.(week_width)) (Number.Float 2))).

(** [week_from_x]; the division raises [ZeroDivisionError] when
    [week_width] is 0, so every statement assumes a positive week
    width. *)
Definition week_from_x (c : columns) (scene_x : Number.t) (snap : bool) : Z :=
  let x_rel := Number.sub scene_x c.(label_width) in
  let ratio := Number.truediv x_rel (Number.Int c.(week_width)) in
  let week_offset :=
    if snap then
      if Qle_bool 0 ratio then Py.int (Binary64.round (ratio + (1 # 2)))
      else Py.int (Binary64.round (ratio - (1 # 2)))
    else Py.floor ratio in
  (week_offset + c.(origin_week))%Z.

Definition week_from_center_x (c : columns) (scene_x : Number.t) (snap : bool) : Z :=
  week_from_x
    c
    (Number.sub scene_x
                (Number.Float (Number.truediv (Number.Int c.(week_width)) (Number.Float 2))))
    snap.

End Layout64.

(** * Vocabulary of the statements *)

Module Spec.

Import Py Model Commands.

(** The range of weeks, widths and offsets in the statements about
    rounded float arithmetic. *)
Definition span : Z := 2 ^ 40.

(** A [dict] has no key twice. *)
Fixpoint nodupb (l : list string) : bool :=
  match l with
  | [] => true
  | a :: r => negb (str_in a r) && nodupb r
  end.

(** [model.objects] maps every key to an object carrying that key as its
    [id], as [add_object] stores it. *)
Definition well_keyed (d : Dict.t CanvasObject) : bool :=
  nodupb (Dict.keys d) && forallb (fun p => String.eqb (fst p) (snd p).(id)) d.

(** The undo stack between two controller calls: no macro is open and
    the cursor lies within the command list. *)
Definition stack_idle (s : QUndoStack) : bool :=
  Controller.is_empty s.(macro_stack)
  && (s.(index) <=? List.length s.(command_list))%nat.

(** [o] is a link or a connector with [obj_id] at one of its ends. *)
Definition references (obj_id : string) (o : CanvasObject) : bool :=
  (String.eqb o.(kind) "link"
   && (eq_opt o.(link_source_id) obj_id || eq_opt o.(link_target_id) obj_id))
  || (String.eqb o.(kind) "connector"
      && (eq_opt o.(connector_source_id) obj_id
          || eq_opt o.(connector_target_id) obj_id)).

(** The links of the model that start at [source_id]. *)
Definition links_from (source_id : string) (d : Dict.t CanvasObject) : list CanvasObject :=
  filter (fun o => String.eqb o.(kind) "link" && eq_opt o.(link_source_id) source_id)
         (Dict.values d).

(** The links, and the connectors, with [obj_id] at one of their ends, in
    the order of the model. *)
Definition attached_links (obj_id : string) (d : Dict.t CanvasObject) : list CanvasObject :=
  filter (fun o => String.eqb o.(kind) "link"
                   && (eq_opt o.(link_source_id) obj_id
                       || eq_opt o.(link_target_id) obj_id))
         (Dict.values d).

Definition attached_connectors (obj_id : string) (d : Dict.t CanvasObject)
  : list CanvasObject :=
  filter (fun o => String.eqb o.(kind) "connector"
                   && (eq_opt o.(connector_source_id) obj_id
                       || eq_opt o.(connector_target_id) obj_id))
         (Dict.values d).

(** A value that [int] and [float] take: a number, a truth value, or a
    string that the parser reads as a numeral; for [float], an integer
    within the range of the floats. *)
Definition int_ok `{Numerals} (v : JScalar) : bool :=
  match int_of v with Return _ => true | Raise _ => false end.

Definition float_ok `{Numerals} (v : JScalar) : bool :=
  match float_of v with Return _ => true | Raise _ => false end.

(** The entries of a file carry the keys that [from_dict] indexes, and
    the values that it converts are ones the conversion takes. *)
Definition deliverable_data_ok (d : DeliverableData) : bool :=
  match d.(dd_id), d.(dd_name) with
  | Some _, Some _ => true
  | _, _ => false
  end.

Definition topic_data_ok (d : TopicData) : bool :=
  match d.(td_id), d.(td_name) with
  | Some _, Some _ => forallb deliverable_data_ok (get_or d.(td_deliverables) [])
  | _, _ => false
  end.

Definition object_keys_ok (d : ObjectData) : bool :=
  match d.(od_id), d.(od_kind), d.(od_row_id), d.(od_start_week) with
  | Some _, Some _, Some _, Some _ => true
  | _, _, _, _ => false
  end.

Definition object_values_ok `{Constants} `{Numerals} (d : ObjectData) : bool :=
  match d.(od_start_week) with
  | Some start_week_value =>
      int_ok start_week_value
      && int_ok (get_or d.(od_end_week) start_week_value)
      && int_ok (get_or d.(od_size) (JInt DEFAULT_SIZE))
      && int_ok (get_or d.(od_z_index) (JInt 0))
      && float_ok (get_or d.(od_opacity) (JFloat TEXTBOX_DEFAULT_OPACITY))
  | None => true
  end.

Definition object_data_ok `{Constants} `{Numerals} (d : ObjectData) : bool :=
  object_keys_ok d && object_values_ok d.

(** The classification of a file is a string, or something falsy. *)
Definition classification_ok (v : option JScalar) : bool :=
  match classification_text v with Return _ => true | Raise _ => false end.

(** A file is complete: its year converts, its classification is a
    string or falsy, and every topic, deliverable and object entry
    carries its keys and values that convert. *)
Definition project_data_ok `{Constants} `{Numerals} (data : ProjectData) : bool :=
  int_ok (get_or data.(pd_year) (JInt 2026))
  && classification_ok data.(pd_classification)
  && forallb topic_data_ok (get_or data.(pd_topics) [])
  && forallb object_data_ok (get_or data.(pd_objects) []).

(** The first of the keys that [CanvasObject.from_dict] indexes and the
    entry lacks. *)
Definition missing_key (d : ObjectData) : string :=
  match d.(od_id), d.(od_kind), d.(od_row_id) with
  | None, _, _ => "id"
  | Some _, None, _ => "kind"
  | Some _, Some _, None => "row_id"
  | Some _, Some _, Some _ => "start_week"
  end.

(** The commands that remove [objs], one after the other. *)
Definition remove_commands (objs : list CanvasObject) : list QUndoCommand :=
  map (fun o => RemoveObjectCommand o "Remove Object") objs.

(** No link of the model starts and ends at the same object, as the
    guards of [add_anchor_link] see to. *)
Definition no_self_links (d : Dict.t CanvasObject) : bool :=
  forallb (fun o => negb (String.eqb o.(kind) "link"
                          && match o.(link_source_id), o.(link_target_id) with
                             | Some s, Some t => String.eqb s t
                             | _, _ => false
                             end))
          (Dict.values d).

(** The commands that one call of [update_object] pushes once the edit
    is known to change the object: the edit itself, the textboxes that
    follow the edited target, and the links whose offsets follow the
    edited textbox. *)
Definition update_commands `{Constants}
    (st : Controller.t) (obj_id : string) (obj new_obj : CanvasObject)
    (description : string) (skip_anchor_sources : list string)
    (defer_link_updates : bool) : list QUndoCommand :=
  let target_links := Controller._links_for_target st obj_id skip_anchor_sources in
  let source_links :=
    if String.eqb obj.(kind) "textbox" then Controller._links_from_source st obj_id
    else [] in
  map Controller.update_command
      ((obj, new_obj, description) :: Controller.target_updates st new_obj target_links)
  ++ map (fun u => UpdateObjectCommand (fst u) (snd u) "Update Anchor")
         (if negb (Controller.is_empty source_links) && negb defer_link_updates
          then flat_map (Controller.source_link_update st new_obj) source_links
          else []).

(** The key an object command acts on, and the object an update command
    stores. *)
Definition command_key (c : QUndoCommand) : string :=
  match c with
  | UpdateObjectCommand old_obj _ _ => old_obj.(id)
  | AddObjectCommand obj _ | RemoveObjectCommand obj _ => obj.(id)
  | MacroCommand _ _ => ""
  end.

Definition is_update (c : QUndoCommand) : Prop :=
  match c with
  | UpdateObjectCommand _ _ _ => True
  | _ => False
  end.

Definition command_new (c : QUndoCommand) : option CanvasObject :=
  match c with
  | UpdateObjectCommand _ new_obj _ => Some new_obj
  | _ => None
  end.

(** The object an update command puts back. *)
Definition command_old (c : QUndoCommand) : option CanvasObject :=
  match c with
  | UpdateObjectCommand old_obj _ _ => Some old_obj
  | _ => None
  end.

(** What a save followed by a load keeps of an object: all of it, once
    the colour is not empty and the arrow direction is the one a save
    writes. *)
Definition saved_faithfully (o : CanvasObject) : bool :=
  negb (String.eqb o.(color) "")
  && String.eqb o.(arrow_direction)
       (if String.eqb o.(kind) "box" then normalize_arrow_direction o.(arrow_direction)
        else "none").

(** The object a load makes of the entry that a save writes for [o]. *)
Definition reloaded `{Constants} (o : CanvasObject) : CanvasObject :=
  set_opacity (if negb (Qeq_bool o.(opacity) TEXTBOX_DEFAULT_OPACITY) then o.(opacity)
               else TEXTBOX_DEFAULT_OPACITY)
    (set_arrow_direction
       (if String.eqb o.(kind) "box" then normalize_arrow_direction o.(arrow_direction)
        else "none")
       (set_color (if String.eqb o.(color) "" then hd "" DEFAULT_TOPIC_COLORS
                   else o.(color)) o)).

(** Two [objects] dicts with the same keys in the same order and equal
    ([==]) objects under them. *)
Fixpoint objects_eqb (d d' : Dict.t CanvasObject) : bool :=
  match d, d' with
  | [], [] => true
  | (k, o) :: r, (k', o') :: r' =>
      String.eqb k k' && CanvasObject_eqb o o' && objects_eqb r r'
  | _, _ => false
  end.

(** The ids of the topics, and of the deliverables of all topics, in
    the order of the rows. *)
Definition topic_ids (m : ProjectModel) : list string :=
  map topic_id m.(topics).

Definition deliverable_ids (m : ProjectModel) : list string :=
  flat_map (fun t => map deliverable_id t.(deliverables)) m.(topics).

(** An object that is not a link and lies on one of the rows [row_ids],
    or points to one. *)
Definition on_rows (row_ids : list string) (o : CanvasObject) : bool :=
  negb (String.eqb o.(kind) "link")
  && (str_in o.(row_id) row_ids || RowController.opt_in o.(target_row_id) row_ids).

(** The rows lie one under the other from [y0] down to [y_end]: each
    starts where the one before it ends. *)
Fixpoint stacked (y0 : Q) (rows : list Layout.RowLayout) (y_end : Q) : Prop :=
  match rows with
  | [] => (y_end == y0)%Q
  | r :: rest =>
      (r.(Layout.y) == y0)%Q
      /\ stacked (r.(Layout.y) + r.(Layout.height))%Q rest y_end
  end.

(** The ids of the rows that are shown: every topic, followed by its
    deliverables unless it is collapsed. *)
Definition shown_row_ids (m : ProjectModel) : list string :=
  flat_map (fun t => t.(topic_id)
                     :: (if t.(collapsed) then []
                         else map deliverable_id t.(deliverables)))
           m.(topics).

(** The position of [k] in [l], the length of [l] when it is absent. *)
Fixpoint index_of (k : string) (l : list string) : nat :=
  match l with
  | [] => O
  | a :: r => if String.eqb k a then O else S (index_of k r)
  end.

(** Two objects that differ at most in the fields an edit of the z-order
    or an anchor cascade touches. *)
Definition same_identity (a b : CanvasObject) : Prop :=
  a.(id) = b.(id) /\ a.(kind) = b.(kind)
  /\ a.(link_source_id) = b.(link_source_id)
  /\ a.(link_target_id) = b.(link_target_id).

End Spec.

(** * A small document

    The states that the examples below run the controller on.  The values
    given to the constants are placeholders of the right type. *)

Module Demo.

Import Py Model Commands Controller.

Definition constants : Constants := {|
  SCHEMA_VERSION := 1;
  DEFAULT_SIZE := 3;
  DEFAULT_CLASSIFICATION := "UNCLASSIFIED";
  CLASSIFICATION_SIZE_DEFAULT := 10;
  CLASSIFICATION_SIZE_MIN := 6;
  CLASSIFICATION_SIZE_MAX := 24;
  CANVAS_ROW_ID := "__canvas__";
  LINK_LINE_COLOR := "#444444";
  CONNECTOR_DEFAULT_COLOR := "#333333";
  DEADLINE_DEFAULT_COLOR := "#D62728";
  TEXTBOX_DEFAULT_COLOR := "#FFFFFF";
  TEXTBOX_DEFAULT_OPACITY := 1;
  TEXTBOX_NEW_OPACITY := 1;
  TEXTBOX_MIN_WIDTH := 40;
  TEXTBOX_MIN_HEIGHT := 20
|}.

#[local] Existing Instance constants.

(** The numerals of the examples: a string of decimal digits. *)
Fixpoint digits (s : string) (acc : Z) : option Z :=
  match s with
  | EmptyString => Some acc
  | String c r =>
      let n := nat_of_ascii c in
      if (Nat.leb 48 n && Nat.leb n 57)%bool
      then digits r (10 * acc + Z.of_nat (n - 48))
      else None
  end.

Definition numerals : Numerals := {|
  int_of_str := fun s => if String.eqb s "" then None else digits s 0;
  float_of_str := fun s => if String.eqb s "" then None
                           else option_map inject_Z (digits s 0)
|}.

#[local] Existing Instance numerals.

Definition topic_row : Layout.RowLayout :=
  Layout.mkRowLayout "r1" "Alpha" "topic" "r1" 0 30 0.

Definition deliverable_row : Layout.RowLayout :=
  Layout.mkRowLayout "r2" "Design" "deliverable" "r1" 30 24 1.

(** Week 1 starts at x = 200; a week is 40 wide. *)
Definition layout : Layout.t :=
  Layout.mkLayout 40 200 80 1 [topic_row; deliverable_row]
                  [("r1", topic_row); ("r2", deliverable_row)] 54.

(** The columns of [layout], and those of a label column resized to
    200.3. *)
Definition columns : Layout64.columns :=
  Layout64.mkColumns 40 (Number.Int 200) 1.

Definition resized_columns : Layout64.columns :=
  Layout64.mkColumns 40 (Number.Float (Binary64.round (2003 # 10))) 1.

Definition new_document : Controller.t :=
  mkController (mkProjectModel 2025 [] [] "UNCLASSIFIED" 10) empty_stack (Some layout)
               1 "#333333" 1 "#333333".

Definition box : CanvasObject := set_size 5 (CanvasObject_new "B" "box" "r1" 10 12).

Definition milestone : CanvasObject := CanvasObject_new "M" "milestone" "r2" 5 5.

Definition circle : CanvasObject := CanvasObject_new "O" "circle" "r2" 7 7.

Definition deadline : CanvasObject := CanvasObject_new "D" "deadline" "__canvas__" 3 3.

Definition textbox (id' : string) (x' y' : Q) : CanvasObject :=
  set_height (Some 30%Q)
    (set_width (Some 100%Q)
       (set_y (Some y')
          (set_x (Some x') (CanvasObject_new id' "textbox" "__canvas__" 0 0)))).

Definition connector : CanvasObject :=
  set_connector_target_offset (Some (1 # 2))
    (set_connector_source_offset (Some (1 # 2))
       (set_z_index (-1)
          (mkCanvasObject
             "C" "connector" "__canvas__" 0 0 "" "center" None "" None "" None "" None
             "#333333" 1 0 None None None false true "none" None None None None 1
             None None None None None None
             (Some "M") (Some "B") (Some "right") None (Some "left") None))).

(** A box, two textboxes anchored to it, a milestone joined to it by a
    connector, a circle and a deadline, all created through the
    controller. *)
Definition document : Controller.t :=
  add_object connector "Add Connector Arrow"
    (add_anchor_link "L2" "T2" "B" (Some "top") (Some (1 # 4))
       (add_anchor_link "L1" "T1" "B" (Some "right") (Some (1 # 2))
          (add_object deadline "Add Object"
             (add_object circle "Add Object"
                (add_object milestone "Add Object"
                   (add_object (textbox "T2" 700 120) "Add Object"
                      (add_object (textbox "T1" 500 10) "Add Object"
                         (add_object box "Add Object" new_document)))))))).

(** The object the document stores under [k]. *)
Definition stored (k : string) : CanvasObject :=
  match Dict.get k document.(model).(objects) with
  | Some o => o
  | None => box
  end.

(** The box moved ten weeks later and one row down. *)
Definition move_box : list Change :=
  [Ch_start_week 20; Ch_end_week 22; Ch_row_id "r2"].

(** The anchor point of an object, (0, 0) when it does not resolve. *)
Definition anchor_point (st : Controller.t) (o : CanvasObject) : Q * Q :=
  match _object_anchor_point st o with
  | Some p => p
  | None => (0%Q, 0%Q)
  end.

(** A document as a file can hold it: the link of the textbox points
    back at the textbox itself. *)
Definition self_link : CanvasObject :=
  set_link_target_id (Some "T")
    (set_link_source_id (Some "T")
       (set_z_index (-1) (CanvasObject_new "L" "link" "__canvas__" 0 0))).

Definition self_linked_document : Controller.t :=
  mkController
    (mkProjectModel
       2025 []
       [("T", textbox "T" 500 10); ("B", set_z_index 1 box); ("L", self_link)]
       "UNCLASSIFIED" 10)
    empty_stack (Some layout) 1 "#333333" 1 "#333333".

(** A document whose link stores the offset (0, 0) although the anchor
    of the textbox, the middle of its right edge, lies 80 units to the
    right of the centre of the box: the offset of a file written by
    hand, or one that a change of the rows has outdated. *)
Definition stale_link : CanvasObject :=
  _normalize_object
    (set_link_offset_y (Some 0%Q)
       (set_link_offset_x (Some 0%Q)
          (set_link_source_offset (Some (1 # 2))
             (set_link_source_side (Some "right")
                (set_link_target_id (Some "B")
                   (set_link_source_id (Some "T")
                      (set_z_index (-1)
                         (CanvasObject_new "L" "link" "__canvas__" 0 0)))))))).

Definition stale_document : Controller.t :=
  mkController
    (mkProjectModel
       2025 []
       [("B", _normalize_object box); ("T", _normalize_object (textbox "T" 600 80));
        ("L", stale_link)]
       "UNCLASSIFIED" 10)
    empty_stack (Some layout) 1 "#333333" 1 "#333333".

(** A file whose only object carries a size outside 1..5. *)
Definition oversized_data : ObjectData :=
  mkObjectData
    (Some "B") (Some "box") (Some "r1") (Some (JInt 1)) (Some (JInt 2)) None None None
    None None
    None None None None None (Some (JInt 9)) None None None None None None None None None
    None None None None None None None None None None None None None None None
    None None.

Definition saved_file : ProjectData :=
  mkProjectData (Some (JInt 1)) (Some (JInt 2025)) None None (Some []) (Some [oversized_data])
                None.

(** The document as the window sets it up after opening [saved_file]. *)
Definition loaded_document : Controller.t :=
  match ProjectModel_from_dict saved_file with
  | Return m => mkController m empty_stack (Some layout) 1 "#333333" 1 "#333333"
  | Raise _ => new_document
  end.

(** A file of the supported version whose only object entry has no
    "kind". *)
Definition incomplete_data : ObjectData :=
  mkObjectData
    (Some "B") None (Some "r1") (Some (JInt 1)) (Some (JInt 2)) None None None None None
    None None None None None None None None None None None None None None None
    None None None None None None None None None None None None None None None
    None None.

Definition incomplete_file : ProjectData :=
  mkProjectData (Some (JInt 1)) (Some (JInt 2025)) None None (Some []) (Some [incomplete_data])
                None.

(** A file of the supported version whose only object entry has every
    key, but [null] for its size. *)
Definition null_size_data : ObjectData :=
  mkObjectData
    (Some "B") (Some "box") (Some "r1") (Some (JInt 1)) (Some (JInt 2)) None None None
    None None
    None None None None None (Some JNull) None None None None None None None None None
    None None None None None None None None None None None None None None None
    None None.

Definition null_size_file : ProjectData :=
  mkProjectData (Some (JInt 1)) (Some (JInt 2025)) None None (Some [])
                (Some [null_size_data]) None.

(** Files written under another schema version, or with none at all. *)
Definition old_file : ProjectData :=
  mkProjectData (Some (JInt 0)) (Some (JInt 2025)) None None (Some []) (Some []) None.

Definition unversioned_file : ProjectData :=
  mkProjectData None (Some (JInt 2025)) None None (Some []) (Some []) None.

(** A plan with two topics and three deliverables; a box on the first
    topic's row, a milestone on one of its deliverables, a textbox
    anchored to the box, and a circle under the second topic. *)
Definition plan_topics : list Topic :=
  [mkTopic "t1" "Alpha" "#4E79A7" false
           [mkDeliverable "d1" "Design"; mkDeliverable "d2" "Build"];
   mkTopic "t2" "Beta" "#F28E2B" false [mkDeliverable "d3" "Test"]].

Definition plan_link : CanvasObject :=
  set_link_target_id (Some "B")
    (set_link_source_id (Some "T")
       (set_z_index (-1) (CanvasObject_new "L" "link" "__canvas__" 0 0))).

Definition plan : Controller.t :=
  mkController
    (mkProjectModel
       2025 plan_topics
       [("B", CanvasObject_new "B" "box" "t1" 1 2);
        ("M", CanvasObject_new "M" "milestone" "d1" 3 3);
        ("T", textbox "T" 500 10);
        ("L", plan_link);
        ("O", CanvasObject_new "O" "circle" "d3" 4 4)]
       "UNCLASSIFIED" 10)
    empty_stack None 1 "#333333" 1 "#333333".

Definition layout_constants : LayoutConstants := {|
  DEFAULT_WEEK_WIDTH := 40;
  DELIVERABLE_ROW_HEIGHT := 24;
  HEADER_MONTH_HEIGHT := 20;
  HEADER_QUARTER_HEIGHT := 20;
  HEADER_WEEK_HEIGHT := 20;
  HEADER_YEAR_HEIGHT := 20;
  LABEL_WIDTH := 200;
  TOPIC_ROW_HEIGHT := 30
|}.

(** The layout of the plan: five rows, 30, 24, 24, 30 and 24 high. *)
Definition plan_layout : Layout.t :=
  @LayoutRows.Layout_new layout_constants plan.(model) 40.

End Demo.

(** * Properties *)

(** ** Floats and rounding *)

Module PyFacts.
Import Py.

Lemma ltb_lt (a b : Q) : ltb a b = true <-> (a < b)%Q.
Proof.
  unfold ltb. rewrite negb_true_iff. split; intro Hx.
  - apply Qnot_le_lt. intro Hle. apply Qle_bool_iff in Hle. congruence.
  - destruct (Qle_bool b a) eqn:E; [|reflexivity].
    apply Qle_bool_iff in E. exfalso. exact (Qlt_not_le _ _ Hx E).
Qed.

Lemma ltb_ge (a b : Q) : ltb a b = false <-> (b <= a)%Q.
Proof.
  unfold ltb. rewrite negb_false_iff. apply Qle_bool_iff.
Qed.

Lemma Qfloor_unique (q : Q) (k : Z) :
  (inject_Z k <= q)%Q -> (q < inject_Z (k + 1))%Q -> Qfloor q = k.
Proof.
  intros Hlo Hhi.
  pose proof (Qfloor_le q) as H1. pose proof (Qlt_floor q) as H2.
  assert (Ha : (inject_Z k < inject_Z (Qfloor q + 1))%Q) by (eapply Qle_lt_trans; eauto).
  assert (Hb : (inject_Z (Qfloor q) < inject_Z (k + 1))%Q) by (eapply Qle_lt_trans; eauto).
  rewrite <- Zlt_Qlt in Ha, Hb. lia.
Qed.

Lemma Qceiling_unique (q : Q) (k : Z) :
  (inject_Z (k - 1) < q)%Q -> (q <= inject_Z k)%Q -> Qceiling q = k.
Proof.
  intros Hlo Hhi. unfold Qceiling.
  assert (Qfloor (- q) = - k); [|lia].
  apply Qfloor_unique.
  - rewrite inject_Z_opp. apply Qopp_le_compat. exact Hhi.
  - replace (- k + 1) with (- (k - 1)) by lia. rewrite inject_Z_opp.
    apply Qopp_lt_compat. exact Hlo.
Qed.

(** [int] is the floor of a non-negative float and the ceiling of a
    negative one. *)
Lemma int_spec (q : Q) :
  int q = if Qle_bool 0 q then Qfloor q else Qceiling q.
Proof.
  destruct q as [n d]. unfold int, Qceiling, Qfloor, Qle_bool, Qopp. simpl.
  rewrite Z.mul_1_r.
  destruct (Z.leb_spec 0 n) as [Hn | Hn].
  - apply Z.quot_div_nonneg; lia.
  - rewrite <- (Z.opp_involutive n) at 1. rewrite Z.quot_opp_l by lia.
    rewrite Z.quot_div_nonneg by lia. reflexivity.
Qed.

Lemma int_comp (p q : Q) : (p == q)%Q -> int p = int q.
Proof.
  intro Heq. rewrite !int_spec.
  rewrite (Qleb_comp 0%Q 0%Q (Qeq_refl 0%Q) p q Heq).
  rewrite (Qfloor_comp p q Heq), (Qceiling_comp p q Heq). reflexivity.
Qed.

End PyFacts.

(** ** Rounding to binary64 *)

Module Binary64Facts.

Import Binary64 PyFacts.

#[local] Open Scope Q_scope.

Lemma two_neq_0 : ~ 2 == 0.
Proof. discriminate. Qed.

Lemma pow2_pos (e : Z) : 0 < 2 ^ e.
Proof. apply Qpower_0_lt. reflexivity. Qed.

Lemma pow2_succ (e : Z) : 2 ^ (e + 1) == 2 * 2 ^ e.
Proof. rewrite Qpower_plus by exact two_neq_0. change (2 ^ 1) with 2. ring. Qed.

Lemma pow2_Z (n : Z) : (0 <= n)%Z -> inject_Z (2 ^ n) == 2 ^ n.
Proof. intro Hn. rewrite Zpower_Qpower by exact Hn. reflexivity. Qed.

(** [ilog2] brackets a positive rational between two powers of 2. *)
Lemma ilog2_bounds (q : Q) : 0 < q -> 2 ^ ilog2 q <= q /\ q < 2 ^ (ilog2 q + 1).
Proof.
  intro Hq. unfold ilog2. cbv zeta.
  destruct q as [n d]. cbn [Qnum Qden].
  assert (Hn : (0 < n)%Z).
  { unfold Qlt in Hq. cbn in Hq. lia. }
  set (a := Z.log2 n). set (b := Z.log2 (Zpos d)).
  destruct (Z.log2_spec n Hn) as [Ha1 Ha2]. fold a in Ha1, Ha2.
  destruct (Z.log2_spec (Zpos d) eq_refl) as [Hb1 Hb2]. fold b in Hb1, Hb2.
  assert (Ha0 : (0 <= a)%Z) by apply Z.log2_nonneg.
  assert (Hb0 : (0 <= b)%Z) by apply Z.log2_nonneg.
  rewrite Zle_Qle in Ha1, Hb1. rewrite Zlt_Qlt in Ha2, Hb2.
  rewrite pow2_Z in Ha1, Hb1 by assumption.
  rewrite pow2_Z in Ha2, Hb2 by (apply Z.le_le_succ_r; assumption).
  change (Z.succ a) with (a + 1)%Z in Ha2. change (Z.succ b) with (b + 1)%Z in Hb2.
  rewrite pow2_succ in Ha2, Hb2.
  assert (Hsplit : 2 ^ (a - b) * 2 ^ b == 2 ^ a).
  { rewrite <- Qpower_plus by exact two_neq_0. replace (a - b + b)%Z with a by ring.
    reflexivity. }
  pose proof (pow2_pos (a - b)) as Hp. pose proof (pow2_pos b) as Hpb.
  assert (Hq' : (n # d) * inject_Z (Zpos d) == inject_Z n).
  { rewrite (Qmake_Qdiv n d). field. discriminate. }
  set (N := inject_Z n) in *. set (D := inject_Z (Zpos d)) in *.
  set (P := 2 ^ (a - b)) in *. set (Bq := 2 ^ b) in *. set (A := 2 ^ a) in *.
  set (q := n # d) in *.
  assert (Hupper : q < 2 * P).
  { apply Qnot_le_lt. intro Hle.
    assert (H1 : 2 * P * D <= q * D) by (apply Qmult_le_compat_r; lra).
    assert (H2 : 2 * P * Bq <= 2 * P * D)
      by (apply Qmult_le_l; [lra|exact Hb1]).
    nra. }
  assert (Hlower : P < 2 * q).
  { apply Qnot_le_lt. intro Hle.
    assert (H1 : 2 * q * D <= P * D) by (apply Qmult_le_compat_r; lra).
    assert (H2 : P * D < P * (2 * Bq))
      by (apply Qmult_lt_l; [exact Hp|exact Hb2]).
    nra. }
  destruct (Qle_bool P q) eqn:E.
  - apply Qle_bool_iff in E. split; [exact E|]. rewrite pow2_succ. exact Hupper.
  - assert (Hlt : q < P).
    { apply Qnot_le_lt. intro Hle. apply Qle_bool_iff in Hle. congruence. }
    replace (a - b - 1 + 1)%Z with (a - b)%Z by ring. fold P.
    split; [|exact Hlt].
    assert (Hhalf : 2 * 2 ^ (a - b - 1) == P).
    { rewrite <- pow2_succ. replace (a - b - 1 + 1)%Z with (a - b)%Z by ring.
      reflexivity. }
    lra.
Qed.

(** The nearest integer is at most one half away. *)
Lemma round_half_even_error (y : Q) :
  - (1 # 2) <= inject_Z (round_half_even y) - y <= 1 # 2.
Proof.
  unfold round_half_even. cbv zeta.
  pose proof (Qfloor_le y) as H1. pose proof (Qlt_floor y) as H2.
  rewrite inject_Z_plus in H2. change (inject_Z 1) with 1 in H2.
  destruct (Qle_bool (y - inject_Z (Qfloor y)) (1 # 2)) eqn:E.
  - apply Qle_bool_iff in E.
    destruct (Qeq_bool (y - inject_Z (Qfloor y)) (1 # 2)) eqn:E2.
    + apply Qeq_bool_iff in E2. destruct (Z.even (Qfloor y)).
      * lra.
      * rewrite inject_Z_plus. change (inject_Z 1) with 1. lra.
    + lra.
  - assert (Hgt : 1 # 2 < y - inject_Z (Qfloor y)).
    { apply Qnot_le_lt. intro Hle. apply Qle_bool_iff in Hle. congruence. }
    rewrite inject_Z_plus. change (inject_Z 1) with 1. lra.
Qed.

Lemma round_half_even_int (y : Q) (m : Z) : y == inject_Z m -> round_half_even y = m.
Proof.
  intro Hy. unfold round_half_even. cbv zeta.
  assert (Hf : Qfloor y = m) by (rewrite (Qfloor_comp _ _ Hy); apply Qfloor_Z).
  rewrite Hf.
  assert (Hr : y - inject_Z m == 0) by (rewrite Hy; ring).
  replace (Qle_bool (y - inject_Z m) (1 # 2)) with true
    by (symmetry; apply Qle_bool_iff; rewrite Hr; discriminate).
  replace (Qeq_bool (y - inject_Z m) (1 # 2)) with false; [reflexivity|].
  symmetry. apply not_true_is_false. intro Hb. apply Qeq_bool_iff in Hb.
  rewrite Hr in Hb. discriminate Hb.
Qed.

Lemma eps_pos : 0 < eps.
Proof. reflexivity. Qed.

Lemma eta_pos : 0 < eta.
Proof. reflexivity. Qed.

(** A float differs from the number it was rounded from by at most the
    fraction [eps] of that number, or by [eta] near zero. *)
Lemma round_within (x M : Q) :
  - M <= x <= M ->
  x - (M * eps + eta) <= round x <= x + (M * eps + eta).
Proof.
  intros [Hlo Hhi].
  assert (HM : 0 <= M) by lra.
  assert (Heps : 0 <= M * eps) by (apply Qmult_le_0_compat; [exact HM|discriminate]).
  pose proof eta_pos as Heta.
  unfold round. destruct (Qeq_bool x 0) eqn:E0.
  - apply Qeq_bool_iff in E0. lra.
  - assert (Hx : ~ x == 0) by (intro Hx; apply Qeq_bool_iff in Hx; congruence).
    assert (Habs : 0 < Qabs x).
    { destruct (Qlt_le_dec 0 (Qabs x)) as [Hp|Hn]; [exact Hp|].
      exfalso. apply Hx. pose proof (Qabs_nonneg x) as Hnn.
      assert (Hz : Qabs x == 0) by lra.
      apply Qabs_Qle_condition in Hn. lra. }
    assert (HabsM : Qabs x <= M) by (apply Qabs_Qle_condition; split; lra).
    destruct (ilog2_bounds (Qabs x) Habs) as [Hlog _].
    set (e := ilog2 (Qabs x)) in *.
    set (u := 2 ^ last_place x).
    assert (Hu : 0 < u) by apply pow2_pos.
    pose proof (round_half_even_error (x / u)) as [He1 He2].
    set (n := inject_Z (round_half_even (x / u))) in *.
    assert (Hxu : x / u * u == x) by (field; lra).
    assert (Hhalf : u * (1 # 2) <= M * eps + eta).
    { subst u. unfold last_place. fold e.
      destruct (Z.max_spec (e - 52) (-1074)) as [[_ Hm]|[_ Hm]]; rewrite Hm.
      - assert (Hc : 2 ^ (-1074) * (1 # 2) == eta)
          by (apply Qeq_bool_iff; vm_compute; reflexivity).
        rewrite Hc. lra.
      - assert (Hs : 2 ^ (e - 52) * (1 # 2) == 2 ^ e * eps).
        { unfold Z.sub. rewrite Qpower_plus by exact two_neq_0.
          assert (Hc : 2 ^ (-52) * (1 # 2) == eps)
            by (apply Qeq_bool_iff; vm_compute; reflexivity).
          rewrite <- Hc. change (- (52))%Z with (-52)%Z. symmetry. apply Qmult_assoc. }
        rewrite Hs.
        assert (Hle : 2 ^ e * eps <= M * eps)
          by (apply Qmult_le_compat_r; [lra|discriminate]).
        lra. }
    assert (H1 : - (u * (1 # 2)) <= n * u - x).
    { assert (Hm : (- (1 # 2)) * u <= (n - x / u) * u)
        by (apply Qmult_le_compat_r; lra).
      lra. }
    assert (H2 : n * u - x <= u * (1 # 2)).
    { assert (Hm : (n - x / u) * u <= (1 # 2) * u)
        by (apply Qmult_le_compat_r; lra).
      lra. }
    lra.
Qed.

(** An integer below 2^53 is a float. *)
Lemma round_exact (x : Q) (m : Z) :
  x == inject_Z m -> (Z.abs m < 2 ^ 53)%Z -> round x == x.
Proof.
  intros Hx Hm. unfold round. destruct (Qeq_bool x 0) eqn:E0.
  - apply Qeq_bool_iff in E0. symmetry. exact E0.
  - assert (Hm0 : m <> 0%Z).
    { intro Hz. subst m. apply Qeq_bool_iff in Hx. change (inject_Z 0) with 0 in Hx.
      congruence. }
    assert (Habs : Qabs x == inject_Z (Z.abs m)).
    { rewrite Hx. unfold Qabs, inject_Z. reflexivity. }
    assert (H1 : 1 <= Qabs x).
    { rewrite Habs. change 1 with (inject_Z 1). rewrite <- Zle_Qle. lia. }
    assert (H53 : Qabs x < 2 ^ 53).
    { rewrite Habs. rewrite <- (pow2_Z 53) by lia. rewrite <- Zlt_Qlt. exact Hm. }
    destruct (ilog2_bounds (Qabs x)) as [Hlo Hhi]; [lra|].
    set (e := ilog2 (Qabs x)) in *.
    assert (He1 : (e < 53)%Z).
    { apply (Qpower_lt_compat_l_inv 2); [|reflexivity]. lra. }
    assert (He0 : (0 < e + 1)%Z).
    { apply (Qpower_lt_compat_l_inv 2); [|reflexivity]. change (2 ^ 0) with 1. lra. }
    unfold last_place. fold e. rewrite Z.max_l by lia.
    set (s := (52 - e)%Z).
    assert (Hs : (0 <= s)%Z) by (subst s; lia).
    assert (Hinv : 2 ^ (e - 52) * 2 ^ s == 1).
    { rewrite <- Qpower_plus by exact two_neq_0.
      replace (e - 52 + s)%Z with 0%Z by (subst s; ring). reflexivity. }
    pose proof (pow2_pos (e - 52)) as Hu. pose proof (pow2_pos s) as Hus.
    assert (Hy : x / 2 ^ (e - 52) == inject_Z (m * 2 ^ s)).
    { rewrite inject_Z_mult, pow2_Z by exact Hs. rewrite <- Hx.
      apply (Qmult_inj_r _ _ (2 ^ (e - 52))); [lra|].
      transitivity x; [field; lra|].
      rewrite <- Qmult_assoc, (Qmult_comm (2 ^ s)), Hinv. ring. }
    rewrite (round_half_even_int _ _ Hy).
    rewrite inject_Z_mult, pow2_Z by exact Hs. rewrite <- Hx.
    rewrite <- Qmult_assoc, (Qmult_comm (2 ^ s)), Hinv. ring.
Qed.

End Binary64Facts.

(** ** Weeks and canvas x, with rounding *)

Section RoundedColumns.

Import Binary64 Binary64Facts PyFacts Layout64.

#[local] Open Scope Q_scope.

Lemma inject_Z_abs (k : Z) (b : Z) :
  (Z.abs k <= b)%Z -> - inject_Z b <= inject_Z k <= inject_Z b.
Proof.
  intro Hk. rewrite <- inject_Z_opp. rewrite <- !Zle_Qle. lia.
Qed.

Lemma abs_inject_Z (k : Z) (b : Z) :
  - inject_Z b <= inject_Z k <= inject_Z b -> (Z.abs k <= b)%Z.
Proof.
  rewrite <- inject_Z_opp. rewrite <- !Zle_Qle. lia.
Qed.

Lemma span_value : inject_Z Spec.span == 1099511627776.
Proof. reflexivity. Qed.

Lemma small_error : 4398046511104 * eps + eta <= 1 # 1000.
Proof. apply Qle_bool_iff. vm_compute. reflexivity. Qed.

(** A number of magnitude up to 2^42 is rounded to a float within
    1/1000 of it. *)
Lemma round_close (x : Q) :
  - (4398046511104) <= x <= 4398046511104 ->
  x - (1 # 1000) <= round x <= x + (1 # 1000).
Proof.
  intro Hx. pose proof (round_within x _ Hx) as Hr. pose proof small_error as Hs. lra.
Qed.

Lemma round_int (m : Z) : (Z.abs m < 2 ^ 53)%Z -> round (inject_Z m) == inject_Z m.
Proof. intro Hm. apply (round_exact _ m); [reflexivity|exact Hm]. Qed.

Lemma span_small (m : Z) : (Z.abs m <= 4 * Spec.span)%Z -> (Z.abs m < 2 ^ 53)%Z.
Proof. unfold Spec.span. intro Hm. change (2 ^ 53)%Z with 9007199254740992%Z.
  change (4 * 2 ^ 40)%Z with 4398046511104%Z in Hm. lia. Qed.

Lemma to_float_value (a : Number.t) :
  - inject_Z Spec.span <= Number.value a <= inject_Z Spec.span ->
  Number.to_float a == Number.value a.
Proof.
  destruct a as [z|q]; cbn [Number.to_float Number.value]; intro Hz; [|reflexivity].
  apply round_int. apply span_small. apply abs_inject_Z in Hz. unfold Spec.span in *. lia.
Qed.

Lemma div_near (x : Q) (k W : Z) (d : Q) :
  (1 <= W)%Z -> 0 <= d ->
  inject_Z (k * W) - d <= x <= inject_Z (k * W) + d ->
  inject_Z k - d <= x / inject_Z W <= inject_Z k + d.
Proof.
  intros HW Hd [Hlo Hhi].
  assert (HWq : 1 <= inject_Z W) by (change 1 with (inject_Z 1); rewrite <- Zle_Qle; exact HW).
  assert (HW0 : 0 < inject_Z W) by lra.
  rewrite inject_Z_mult in Hlo, Hhi.
  assert (Hd' : 0 <= d * (inject_Z W - 1)) by (apply Qmult_le_0_compat; lra).
  split.
  - apply Qle_shift_div_l; [exact HW0|]. lra.
  - apply Qle_shift_div_r; [exact HW0|]. lra.
Qed.

(** The week offsets in range, as integers and as rationals. *)
Lemma offset_in_span (k W : Z) :
  (1 <= W)%Z -> (Z.abs (k * W) <= Spec.span)%Z -> (Z.abs k <= Spec.span)%Z.
Proof. intros HW Hk. nia. Qed.

(** The ratio that [week_from_x] computes for a float within [d] of the
    left edge of column [k]. *)
Lemma ratio_near (c : columns) (x : Q) (k : Z) (d : Q) :
  (1 <= week_width c <= Spec.span)%Z ->
  - inject_Z Spec.span <= Number.value (label_width c) <= inject_Z Spec.span ->
  (Z.abs (k * week_width c) <= Spec.span)%Z ->
  0 <= d <= 1 # 10 ->
  Number.value (label_width c) + inject_Z (k * week_width c) - d <= x
    <= Number.value (label_width c) + inject_Z (k * week_width c) + d ->
  inject_Z k - (d + (2 # 1000))
  <= Number.truediv (Number.sub (Number.Float x) (label_width c))
                    (Number.Int (week_width c))
  <= inject_Z k + (d + (2 # 1000)).
Proof.
  intros HW HL Hk Hd Hx.
  pose proof (to_float_value _ HL) as Hfl.
  pose proof (inject_Z_abs _ _ Hk) as Hkq.
  pose proof (inject_Z_abs _ _ (offset_in_span _ _ (proj1 HW) Hk)) as Hk1.
  rewrite span_value in HL, Hkq, Hk1.
  cbn [Number.sub Number.truediv Number.to_float].
  set (L := Number.to_float (label_width c)) in *.
  destruct (round_close (x - L)) as [Hr1 Hr2]; [lra|].
  set (xr := round (x - L)) in *.
  assert (Hwf : round (inject_Z (week_width c)) == inject_Z (week_width c)).
  { apply round_int. apply span_small. unfold Spec.span in *. lia. }
  assert (Hq : xr / round (inject_Z (week_width c)) == xr / inject_Z (week_width c))
    by (rewrite Hwf; reflexivity).
  destruct (div_near xr k (week_width c) (d + (1 # 1000))) as [Hq1 Hq2];
    [lia|lra|lra|].
  rewrite <- Hq in Hq1, Hq2.
  set (q := xr / round (inject_Z (week_width c))) in *.
  destruct (round_close q) as [Hv1 Hv2]; [lra|].
  lra.
Qed.

(** The ratio that [week_from_x] computes at the left edge of a
    column. *)
Lemma ratio_of_week_left_x (c : columns) (w : Z) :
  (1 <= week_width c <= Spec.span)%Z ->
  - inject_Z Spec.span <= Number.value (label_width c) <= inject_Z Spec.span ->
  (Z.abs ((w - origin_week c) * week_width c) <= Spec.span)%Z ->
  let ratio := Number.truediv (Number.sub (week_left_x c w) (label_width c))
                              (Number.Int (week_width c)) in
  inject_Z (w - origin_week c) - (1 # 4) <= ratio <= inject_Z (w - origin_week c) + (1 # 4)
  /\ ((exists n : Z, Number.value (label_width c) == inject_Z n) ->
      ratio == inject_Z (w - origin_week c)).
Proof.
  intros HW HL Hk. set (k := (w - origin_week c)%Z) in *.
  assert (HWq : 1 <= inject_Z (week_width c))
    by (change 1 with (inject_Z 1); rewrite <- Zle_Qle; lia).
  assert (Hdiv : inject_Z (k * week_width c) / inject_Z (week_width c) == inject_Z k)
    by (rewrite inject_Z_mult; field; lra).
  assert (Hk53 : (Z.abs k < 2 ^ 53)%Z).
  { apply span_small. pose proof (offset_in_span _ _ (proj1 HW) Hk). unfold Spec.span in *. lia. }
  assert (HkW : round (inject_Z (k * week_width c)) == inject_Z (k * week_width c)).
  { apply round_int. apply span_small. unfold Spec.span in *. lia. }
  assert (Hwf : round (inject_Z (week_width c)) == inject_Z (week_width c)).
  { apply round_int. apply span_small. unfold Spec.span in *. lia. }
  pose proof (inject_Z_abs _ _ Hk) as Hkq.
  unfold week_left_x. fold k.
  destruct (label_width c) as [lz|lq] eqn:EL.
  - cbn [Number.add Number.sub Number.truediv]. cbv zeta.
    replace (lz + k * week_width c - lz)%Z with (k * week_width c)%Z by ring.
    assert (Hr : round (inject_Z (k * week_width c) / inject_Z (week_width c))
                 == inject_Z k).
    { rewrite (round_exact _ k Hdiv Hk53). exact Hdiv. }
    split; [rewrite Hr; lra|]. intros _. exact Hr.
  - cbn [Number.value] in HL. cbn [Number.add Number.to_float]. cbv zeta. split.
    + pose proof (ratio_near c (round (lq + round (inject_Z (k * week_width c)))) k (1 # 1000))
        as Hn.
      rewrite EL in Hn. cbn [Number.value] in Hn.
      destruct Hn as [Hn1 Hn2]; try assumption; [lra| |lra].
      rewrite span_value in HL, Hkq.
      destruct (round_close (lq + round (inject_Z (k * week_width c)))) as [H1 H2];
        [rewrite HkW; lra|].
      lra.
    + intros [n Hn]. cbn [Number.value] in Hn.
      cbn [Number.sub Number.truediv Number.to_float].
      assert (Hn' : (Z.abs n <= Spec.span)%Z).
      { apply abs_inject_Z. rewrite <- Hn. exact HL. }
      assert (H1 : round (lq + round (inject_Z (k * week_width c)))
                   == lq + inject_Z (k * week_width c)).
      { rewrite (round_exact _ (n + k * week_width c)).
        - rewrite HkW. reflexivity.
        - rewrite HkW, Hn, inject_Z_plus. reflexivity.
        - apply span_small. unfold Spec.span in *. lia. }
      assert (H2 : round (round (lq + round (inject_Z (k * week_width c))) - lq)
                   == inject_Z (k * week_width c)).
      { rewrite (round_exact _ (k * week_width c)).
        - rewrite H1. ring.
        - rewrite H1. ring.
        - apply span_small. unfold Spec.span in *. lia. }
      rewrite (round_exact _ k).
      * rewrite H2, Hwf. exact Hdiv.
      * rewrite H2, Hwf. exact Hdiv.
      * exact Hk53.
Qed.

(** What [week_from_x] makes of a ratio that lies near the integer
    [k]. *)
Lemma week_offset_of_ratio (r : Q) (k : Z) :
  (Z.abs k <= Spec.span)%Z ->
  inject_Z k - (1 # 4) <= r <= inject_Z k + (1 # 4) ->
  (if Qle_bool 0 r then Py.int (round (r + (1 # 2))) else Py.int (round (r - (1 # 2))))
  = k
  /\ (Py.floor r = k \/ Py.floor r = (k - 1)%Z)
  /\ (r == inject_Z k -> Py.floor r = k).
Proof.
  intros Hk [Hlo Hhi].
  pose proof (inject_Z_abs k _ Hk) as Hkq. rewrite span_value in Hkq.
  assert (Hk1 : inject_Z (k + 1) == inject_Z k + 1)
    by (rewrite inject_Z_plus; reflexivity).
  assert (Hk0 : inject_Z (k - 1) == inject_Z k - 1)
    by (unfold Z.sub; rewrite inject_Z_plus; reflexivity).
  split; [|split].
  - destruct (Qle_bool 0 r) eqn:E.
    + apply Qle_bool_iff in E.
      assert (Hk_pos : (0 <= k)%Z).
      { destruct (Z.le_gt_cases 0 k) as [H0|H0]; [exact H0|].
        assert (Hq : inject_Z k <= inject_Z (-1)) by (rewrite <- Zle_Qle; lia).
        change (inject_Z (-1)) with (-1) in Hq. lra. }
      assert (Hq : 0 <= inject_Z k) by (change 0 with (inject_Z 0); rewrite <- Zle_Qle; lia).
      destruct (round_close (r + (1 # 2))) as [Hv1 Hv2]; [lra|].
      rewrite int_spec.
      replace (Qle_bool 0 (round (r + (1 # 2)))) with true
        by (symmetry; apply Qle_bool_iff; lra).
      apply Qfloor_unique; [lra|]. rewrite Hk1. lra.
    + assert (Hneg : r < 0).
      { apply Qnot_le_lt. intro Hle. apply Qle_bool_iff in Hle. congruence. }
      assert (Hk_neg : (k <= 0)%Z).
      { destruct (Z.le_gt_cases k 0) as [H0|H0]; [exact H0|].
        assert (Hq : inject_Z 1 <= inject_Z k) by (rewrite <- Zle_Qle; lia).
        change (inject_Z 1) with 1 in Hq. lra. }
      assert (Hq : inject_Z k <= 0) by (change 0 with (inject_Z 0); rewrite <- Zle_Qle; lia).
      destruct (round_close (r - (1 # 2))) as [Hv1 Hv2]; [lra|].
      rewrite int_spec.
      replace (Qle_bool 0 (round (r - (1 # 2)))) with false.
      * apply Qceiling_unique; [rewrite Hk0; lra|lra].
      * symmetry. apply not_true_is_false. intro Hb. apply Qle_bool_iff in Hb. lra.
  - unfold Py.floor. destruct (Qlt_le_dec r (inject_Z k)) as [Hlt|Hge].
    + right. apply Qfloor_unique; [rewrite Hk0; lra|].
      replace (k - 1 + 1)%Z with k by ring. exact Hlt.
    + left. apply Qfloor_unique; [exact Hge|]. rewrite Hk1. lra.
  - intro Hr. unfold Py.floor. rewrite (Qfloor_comp _ _ Hr). apply Qfloor_Z.
Qed.

(** With [snap] the week offset is the integer nearest to the ratio,
    up to the rounding of [ratio + 0.5], and on a tie the integer farther
    from zero. *)
Lemma snap_nearest (r : Q) :
  - inject_Z Spec.span <= r <= inject_Z Spec.span ->
  let n :=
    inject_Z (if Qle_bool 0 r then Py.int (round (r + (1 # 2)))
              else Py.int (round (r - (1 # 2)))) in
  Qabs (r - n) <= 501 # 1000
  /\ (Qabs (r - n) == 1 # 2 -> Qabs r < Qabs n).
Proof.
  intros Hr. rewrite span_value in Hr. cbv zeta.
  destruct (Qle_bool 0 r) eqn:E.
  - apply Qle_bool_iff in E.
    destruct (round_close (r + (1 # 2))) as [Hv1 Hv2]; [lra|].
    rewrite int_spec.
    replace (Qle_bool 0 (round (r + (1 # 2)))) with true
      by (symmetry; apply Qle_bool_iff; lra).
    pose proof (Qfloor_le (round (r + (1 # 2)))) as Hf1.
    pose proof (Qlt_floor (round (r + (1 # 2)))) as Hf2.
    set (v := round (r + (1 # 2))) in *. set (n := Qfloor v) in *.
    assert (Hn1 : inject_Z (n + 1) == inject_Z n + 1)
      by (rewrite inject_Z_plus; reflexivity).
    rewrite Hn1 in Hf2.
    split; [apply Qabs_Qle_condition; split; lra|].
    intro Htie.
    destruct (Qlt_le_dec (r - inject_Z n) 0) as [Hlt|Hge].
    + rewrite Qabs_neg in Htie by lra.
      rewrite (Qabs_pos r), (Qabs_pos (inject_Z n)) by lra. lra.
    + rewrite Qabs_pos in Htie by exact Hge. exfalso.
      assert (Hm : r + (1 # 2) == inject_Z (n + 1)) by (rewrite Hn1; lra).
      assert (Hn0 : inject_Z 0 <= inject_Z (n + 1)).
      { rewrite <- Hm. change (inject_Z 0) with 0. lra. }
      assert (Hv : v == r + (1 # 2)).
      { subst v. apply (round_exact _ (n + 1) Hm). apply span_small.
        assert (Hb : inject_Z (n + 1) <= inject_Z (Spec.span + 1)).
        { rewrite <- Hm, inject_Z_plus, span_value. change (inject_Z 1) with 1. lra. }
        rewrite <- Zle_Qle in Hb, Hn0. unfold Spec.span in *. lia. }
      lra.
  - assert (Hneg : r < 0).
    { apply Qnot_le_lt. intro Hle. apply Qle_bool_iff in Hle. congruence. }
    destruct (round_close (r - (1 # 2))) as [Hv1 Hv2]; [lra|].
    rewrite int_spec.
    replace (Qle_bool 0 (round (r - (1 # 2)))) with false
      by (symmetry; apply not_true_is_false; intro Hb; apply Qle_bool_iff in Hb; lra).
    pose proof (Qle_ceiling (round (r - (1 # 2)))) as Hc1.
    pose proof (Qceiling_lt (round (r - (1 # 2)))) as Hc2.
    set (v := round (r - (1 # 2))) in *. set (n := Qceiling v) in *.
    assert (Hn1 : inject_Z (n - 1) == inject_Z n - 1)
      by (unfold Z.sub; rewrite inject_Z_plus; reflexivity).
    rewrite Hn1 in Hc2.
    split; [apply Qabs_Qle_condition; split; lra|].
    intro Htie.
    destruct (Qlt_le_dec (r - inject_Z n) 0) as [Hlt|Hge].
    + rewrite Qabs_neg in Htie by lra. exfalso.
      assert (Hm : r - (1 # 2) == inject_Z (n - 1)) by (rewrite Hn1; lra).
      assert (Hv : v == r - (1 # 2)).
      { subst v. apply (round_exact _ (n - 1) Hm). apply span_small.
        assert (Hb : inject_Z (- Spec.span - 1) <= inject_Z (n - 1)).
        { rewrite <- Hm. unfold Z.sub. rewrite inject_Z_plus, inject_Z_opp, span_value.
          change (inject_Z (- (1))) with (-1). lra. }
        assert (Hb' : inject_Z (n - 1) <= inject_Z 0).
        { rewrite <- Hm. change (inject_Z 0) with 0. lra. }
        rewrite <- Zle_Qle in Hb, Hb'. unfold Spec.span in *. lia. }
      lra.
    + rewrite Qabs_pos in Htie by exact Hge.
      rewrite (Qabs_neg r), (Qabs_neg (inject_Z n)) by lra. lra.
Qed.

End RoundedColumns.

(** C6, as the code has it with binary64 floats.  For a week width from
    1 to 2^40, a label width of magnitude up to 2^40 and every week
    whose left edge lies within 2^40 of the label column,
    [week_from_x] with [snap] undoes [week_left_x]; without [snap] it
    returns that week or the week before it, and that week when the
    label width is a whole number.  For every [scene_x] whose computed
    week ratio has magnitude up to 2^40, [week_from_x] with [snap]
    returns the integer nearest to the ratio, within the rounding of
    [ratio + 0.5], and on a tie the one farther from zero; without
    [snap] it returns the floor of the computed ratio. *)
Theorem week_from_x_inverts_week_left_x (c : Layout64.columns) :
  (1 <= Layout64.week_width c <= Spec.span) ->
  (- inject_Z Spec.span <= Number.value (Layout64.label_width c) <= inject_Z Spec.span)%Q ->
  (forall w : Z,
      Z.abs ((w - Layout64.origin_week c) * Layout64.week_width c) <= Spec.span ->
      Layout64.week_from_x c (Layout64.week_left_x c w) true = w
      /\ (Layout64.week_from_x c (Layout64.week_left_x c w) false = w
          \/ Layout64.week_from_x c (Layout64.week_left_x c w) false = w - 1)
      /\ ((exists n : Z, Number.value (Layout64.label_width c) == inject_Z n)%Q ->
          Layout64.week_from_x c (Layout64.week_left_x c w) false = w))
  /\ (forall scene_x : Number.t,
        let ratio :=
          Number.truediv (Number.sub scene_x (Layout64.label_width c))
                         (Number.Int (Layout64.week_width c)) in
        let r := inject_Z (Layout64.week_from_x c scene_x true - Layout64.origin_week c) in
        (- inject_Z Spec.span <= ratio <= inject_Z Spec.span)%Q ->
        (Qabs (ratio - r) <= 501 # 1000)%Q
        /\ ((Qabs (ratio - r) == 1 # 2)%Q -> (Qabs ratio < Qabs r)%Q))
  /\ (forall scene_x : Number.t,
        let ratio :=
          Number.truediv (Number.sub scene_x (Layout64.label_width c))
                         (Number.Int (Layout64.week_width c)) in
        let r := Layout64.week_from_x c scene_x false - Layout64.origin_week c in
        (inject_Z r <= ratio)%Q /\ (ratio < inject_Z (r + 1))%Q).
Proof.
  intros HW HL. split; [|split].
  - intros w Hw.
    destruct (ratio_of_week_left_x c w HW HL Hw) as [Hnear Hwhole]. cbv zeta in Hnear, Hwhole.
    destruct (week_offset_of_ratio _ (w - Layout64.origin_week c)
                (offset_in_span _ _ (proj1 HW) Hw) Hnear) as [Hs [Hf Hfw]].
    unfold Layout64.week_from_x. cbv zeta.
    split; [|split].
    + rewrite Hs. ring.
    + destruct Hf as [Hf|Hf]; rewrite Hf; [left|right]; ring.
    + intro Hn. rewrite (Hfw (Hwhole Hn)). ring.
  - intros scene_x ratio r Hr. subst r. unfold Layout64.week_from_x. cbv zeta. fold ratio.
    rewrite Z.add_simpl_r. exact (snap_nearest ratio Hr).
  - intros scene_x ratio r. subst r. unfold Layout64.week_from_x. cbv zeta. fold ratio.
    rewrite Z.add_simpl_r. unfold Py.floor. split.
    + apply Qfloor_le.
    + apply Qlt_floor.
Qed.

(** ** Dictionaries *)

Module DictFacts.
Section DictFacts.
Context {V : Type}.
Implicit Types (d : Dict.t V) (k : string) (v : V).

Lemma contains_true k d : Dict.contains k d = true <-> exists v, Dict.get k d = Some v.
Proof.
    unfold Dict.contains. destruct (Dict.get k d) as [v|]; split; intro Hx.
    - exists v. reflexivity.
    - reflexivity.
    - discriminate.
    - destruct Hx as [v Hv]. discriminate.
Qed.

Lemma contains_false k d : Dict.contains k d = false <-> Dict.get k d = None.
Proof.
    unfold Dict.contains. destruct (Dict.get k d); split; intro Hx; congruence.
Qed.

Lemma get_in_keys k d v : Dict.get k d = Some v -> In k (Dict.keys d).
Proof.
    induction d as [|[k' v'] r IH]; simpl; [discriminate|].
    destruct (String.eqb_spec k k') as [->|Hne]; intro Hg.
    - left. reflexivity.
    - right. apply IH. exact Hg.
Qed.

Lemma get_none_not_in k d : Dict.get k d = None <-> ~ In k (Dict.keys d).
Proof.
    induction d as [|[k' v'] r IH]; simpl.
    - split; [intros _ []|reflexivity].
    - destruct (String.eqb_spec k k') as [->|Hne].
      + split; [discriminate|]. intro Hn. exfalso. apply Hn. left. reflexivity.
      + rewrite IH. split; intro Hn.
        * intros [He|Hi]; [congruence|contradiction].
        * intro Hi. apply Hn. right. exact Hi.
Qed.

Lemma get_in k d v : Dict.get k d = Some v -> In (k, v) d.
Proof.
    induction d as [|[k' v'] r IH]; simpl; [discriminate|].
    destruct (String.eqb_spec k k') as [->|Hne]; intro Hg.
    - left. congruence.
    - right. apply IH. exact Hg.
Qed.

Lemma in_get k d v : NoDup (Dict.keys d) -> In (k, v) d -> Dict.get k d = Some v.
Proof.
    induction d as [|[k' v'] r IH]; simpl; intros Hnd Hin; [contradiction|].
    inversion Hnd as [|? ? Hni Hnd']; subst.
    destruct Hin as [He|Hin].
    - inversion He; subst. rewrite String.eqb_refl. reflexivity.
    - destruct (String.eqb_spec k k') as [->|Hne].
      + exfalso. apply Hni. change (In (fst (k', v)) (map fst r)). apply in_map. exact Hin.
      + apply IH; assumption.
Qed.

Lemma in_values d v : In v (Dict.values d) -> exists k, In (k, v) d.
Proof.
    unfold Dict.values. intro Hin. apply in_map_iff in Hin.
    destruct Hin as [[k v'] [He Hin]]. simpl in He. subst. exists k. exact Hin.
Qed.

Lemma get_in_values k d v : Dict.get k d = Some v -> In v (Dict.values d).
Proof.
    intro Hg. apply get_in in Hg. unfold Dict.values.
    change v with (snd (k, v)). apply in_map. exact Hg.
Qed.

  (** *** [set] *)

Lemma get_set_same k v d : Dict.get k (Dict.set k v d) = Some v.
Proof.
    induction d as [|[k' v'] r IH]; simpl.
    - rewrite String.eqb_refl. reflexivity.
    - destruct (String.eqb_spec k k') as [->|Hne]; simpl.
      + rewrite String.eqb_refl. reflexivity.
      + destruct (String.eqb_spec k k'); [contradiction|]. exact IH.
Qed.

Lemma get_set_other k k' v d : k <> k' -> Dict.get k (Dict.set k' v d) = Dict.get k d.
Proof.
    intro Hne. induction d as [|[k0 v0] r IH]; simpl.
    - destruct (String.eqb_spec k k'); [contradiction|reflexivity].
    - destruct (String.eqb_spec k' k0) as [->|Hne0]; simpl.
      + destruct (String.eqb_spec k k0); [contradiction|reflexivity].
      + destruct (String.eqb_spec k k0); [reflexivity|exact IH].
Qed.

Lemma keys_set_present k v d :
    In k (Dict.keys d) -> Dict.keys (Dict.set k v d) = Dict.keys d.
Proof.
    induction d as [|[k' v'] r IH]; simpl; intro Hin; [contradiction|].
    destruct (String.eqb_spec k k') as [->|Hne]; simpl; [reflexivity|].
    f_equal. apply IH. destruct Hin as [He|Hin]; [congruence|exact Hin].
Qed.

Lemma keys_set_absent k v d :
    ~ In k (Dict.keys d) -> Dict.keys (Dict.set k v d) = Dict.keys d ++ [k].
Proof.
    induction d as [|[k' v'] r IH]; simpl; intro Hni; [reflexivity|].
    destruct (String.eqb_spec k k') as [->|Hne]; simpl.
    - exfalso. apply Hni. left. reflexivity.
    - f_equal. apply IH. intro Hin. apply Hni. right. exact Hin.
Qed.

Lemma nodup_set k v d : NoDup (Dict.keys d) -> NoDup (Dict.keys (Dict.set k v d)).
Proof.
    intro Hnd. destruct (in_dec string_dec k (Dict.keys d)) as [Hin|Hni].
    - rewrite keys_set_present by exact Hin. exact Hnd.
    - rewrite keys_set_absent by exact Hni.
      apply NoDup_rev in Hnd. rewrite <- (rev_involutive (Dict.keys d ++ [k])).
      apply NoDup_rev. rewrite rev_app_distr. simpl. constructor; [|exact Hnd].
      intro Hin. apply in_rev in Hin. contradiction.
Qed.

  (** *** [del] *)

Lemma in_keys_del k k' d :
    In k (Dict.keys (Dict.del k' d)) -> In k (Dict.keys d).
Proof.
    induction d as [|[k0 v0] r IH]; simpl; [tauto|].
    destruct (String.eqb_spec k' k0) as [->|Hne]; simpl.
    - intro Hin. right. exact Hin.
    - intros [He|Hin]; [left; exact He|right; apply IH; exact Hin].
Qed.

Lemma nodup_del k d : NoDup (Dict.keys d) -> NoDup (Dict.keys (Dict.del k d)).
Proof.
    induction d as [|[k0 v0] r IH]; simpl; intro Hnd; [constructor|].
    inversion Hnd as [|? ? Hni Hnd']; subst.
    destruct (String.eqb_spec k k0) as [->|Hne]; simpl; [exact Hnd'|].
    constructor; [|apply IH; exact Hnd'].
    intro Hin. apply Hni. eapply in_keys_del. exact Hin.
Qed.

Lemma get_del_same k d : NoDup (Dict.keys d) -> Dict.get k (Dict.del k d) = None.
Proof.
    induction d as [|[k0 v0] r IH]; simpl; intro Hnd; [reflexivity|].
    inversion Hnd as [|? ? Hni Hnd']; subst.
    destruct (String.eqb_spec k k0) as [->|Hne]; simpl.
    - apply get_none_not_in. exact Hni.
    - destruct (String.eqb_spec k k0); [contradiction|]. apply IH. exact Hnd'.
Qed.

Lemma get_del_other k k' d : k <> k' -> Dict.get k (Dict.del k' d) = Dict.get k d.
Proof.
    intro Hne. induction d as [|[k0 v0] r IH]; simpl; [reflexivity|].
    destruct (String.eqb_spec k' k0) as [->|Hne0]; simpl.
    - destruct (String.eqb_spec k k0); [contradiction|reflexivity].
    - destruct (String.eqb_spec k k0); [reflexivity|exact IH].
Qed.

End DictFacts.
End DictFacts.

(** ** The model primitives and the commands *)

Module ModelFacts.

Import Py Model Commands Spec DictFacts.

Lemma str_in_In (s : string) (l : list string) : str_in s l = true <-> In s l.
Proof.
  unfold str_in. rewrite existsb_exists. split.
  - intros [a [Hin He]]. apply String.eqb_eq in He. subst. exact Hin.
  - intro Hin. exists s. split; [exact Hin|apply String.eqb_refl].
Qed.

Lemma str_in_not_In (s : string) (l : list string) : str_in s l = false <-> ~ In s l.
Proof.
  rewrite <- str_in_In. destruct (str_in s l); split; intro Hx; congruence.
Qed.

Lemma nodupb_NoDup (l : list string) : nodupb l = true <-> NoDup l.
Proof.
  induction l as [|a r IH]; simpl.
  - split; [constructor|reflexivity].
  - rewrite andb_true_iff, negb_true_iff, str_in_not_In, IH. split.
    + intros [Hni Hnd]. constructor; assumption.
    + intro Hnd. inversion Hnd; subst. split; assumption.
Qed.

Lemma well_keyed_NoDup (d : Dict.t CanvasObject) :
  well_keyed d = true -> NoDup (Dict.keys d).
Proof.
  unfold well_keyed. rewrite andb_true_iff. intros [Hnd _].
  apply nodupb_NoDup. exact Hnd.
Qed.

Lemma well_keyed_id (d : Dict.t CanvasObject) (k : string) (o : CanvasObject) :
  well_keyed d = true -> Dict.get k d = Some o -> o.(id) = k.
Proof.
  unfold well_keyed. rewrite andb_true_iff. intros [_ Hall] Hg.
  rewrite forallb_forall in Hall. apply get_in in Hg.
  specialize (Hall _ Hg). simpl in Hall. apply String.eqb_eq in Hall. congruence.
Qed.

Lemma well_keyed_value (d : Dict.t CanvasObject) (o : CanvasObject) :
  well_keyed d = true -> In o (Dict.values d) -> Dict.get o.(id) d = Some o.
Proof.
  intros Hwk Hin. destruct (in_values _ _ Hin) as [k Hk].
  pose proof (in_get _ _ _ (well_keyed_NoDup _ Hwk) Hk) as Hg.
  rewrite (well_keyed_id _ _ _ Hwk Hg). exact Hg.
Qed.

Lemma well_keyed_intro (d : Dict.t CanvasObject) :
  NoDup (Dict.keys d) ->
  (forall k o, Dict.get k d = Some o -> o.(id) = k) ->
  well_keyed d = true.
Proof.
  intros Hnd Hid. unfold well_keyed. apply andb_true_iff. split.
  - apply nodupb_NoDup. exact Hnd.
  - apply forallb_forall. intros [k o] Hin. simpl.
    apply String.eqb_eq. symmetry. apply Hid. apply in_get; assumption.
Qed.

(** *** What the primitives of [ProjectModel] store *)

Lemma get_add_object (o : CanvasObject) (m : ProjectModel) (k : string) :
  Dict.get k (add_object o m).(objects)
  = if String.eqb k o.(id) then Some o else Dict.get k m.(objects).
Proof.
  unfold add_object. simpl. destruct (String.eqb_spec k o.(id)) as [->|Hne].
  - apply get_set_same.
  - apply get_set_other. exact Hne.
Qed.

Lemma get_remove_object (k' : string) (m : ProjectModel) (k : string) :
  NoDup (Dict.keys m.(objects)) ->
  Dict.get k (remove_object k' m).(objects)
  = if String.eqb k k' then None else Dict.get k m.(objects).
Proof.
  intro Hnd. unfold remove_object.
  destruct (Dict.contains k' m.(objects)) eqn:Ec; simpl.
  - destruct (String.eqb_spec k k') as [->|Hne].
    + apply get_del_same. exact Hnd.
    + apply get_del_other. exact Hne.
  - destruct (String.eqb_spec k k') as [->|Hne]; [|reflexivity].
    apply contains_false. exact Ec.
Qed.

Lemma get_update_object (k' : string) (o : CanvasObject) (m : ProjectModel) (k : string) :
  Dict.get k (update_object k' o m).(objects)
  = if String.eqb k k' && Dict.contains k' m.(objects) then Some o
    else Dict.get k m.(objects).
Proof.
  unfold update_object.
  destruct (Dict.contains k' m.(objects)) eqn:Ec; simpl.
  - rewrite andb_true_r. destruct (String.eqb_spec k k') as [->|Hne].
    + apply get_set_same.
    + apply get_set_other. exact Hne.
  - rewrite andb_false_r. reflexivity.
Qed.

Lemma keys_update_object (k' : string) (o : CanvasObject) (m : ProjectModel) :
  Dict.keys (update_object k' o m).(objects) = Dict.keys m.(objects).
Proof.
  unfold update_object.
  destruct (Dict.contains k' m.(objects)) eqn:Ec; simpl; [|reflexivity].
  apply keys_set_present. apply contains_true in Ec. destruct Ec as [v Hv].
  eapply get_in_keys. exact Hv.
Qed.

Lemma nodup_add_object (o : CanvasObject) (m : ProjectModel) :
  NoDup (Dict.keys m.(objects)) -> NoDup (Dict.keys (add_object o m).(objects)).
Proof. intro Hnd. unfold add_object. simpl. apply nodup_set. exact Hnd. Qed.

Lemma nodup_remove_object (k : string) (m : ProjectModel) :
  NoDup (Dict.keys m.(objects)) -> NoDup (Dict.keys (remove_object k m).(objects)).
Proof.
  intro Hnd. unfold remove_object. destruct (Dict.contains k m.(objects)); simpl.
  - apply nodup_del. exact Hnd.
  - exact Hnd.
Qed.

(** *** Macros *)

Lemma redo_macro (text : string) (cs : list QUndoCommand) (m : ProjectModel) :
  redo (MacroCommand text cs) m = redo_all cs m.
Proof.
  unfold redo_all. simpl. revert m.
  induction cs as [|c r IH]; intro m; simpl; [reflexivity|apply IH].
Qed.

Lemma undo_macro (text : string) (cs : list QUndoCommand) (m : ProjectModel) :
  undo (MacroCommand text cs) m = undo_all cs m.
Proof.
  unfold undo_all. simpl.
  induction cs as [|c r IH]; simpl; [reflexivity|]. f_equal. exact IH.
Qed.

Lemma redo_all_app (cs cs' : list QUndoCommand) (m : ProjectModel) :
  redo_all (cs ++ cs') m = redo_all cs' (redo_all cs m).
Proof. unfold redo_all. apply fold_left_app. Qed.

(** *** Runs of [RemoveObjectCommand] *)

Lemma nodup_redo_removes (objs : list CanvasObject) (m : ProjectModel) :
  NoDup (Dict.keys m.(objects)) ->
  NoDup (Dict.keys (redo_all (remove_commands objs) m).(objects)).
Proof.
  revert m. induction objs as [|o r IH]; intros m Hnd; simpl; [exact Hnd|].
  apply IH. apply nodup_remove_object. exact Hnd.
Qed.

Lemma get_redo_removes (objs : list CanvasObject) (m : ProjectModel) (k : string) :
  NoDup (Dict.keys m.(objects)) ->
  Dict.get k (redo_all (remove_commands objs) m).(objects)
  = if str_in k (map id objs) then None else Dict.get k m.(objects).
Proof.
  revert m. induction objs as [|o r IH]; intros m Hnd; [reflexivity|].
  change (redo_all (remove_commands (o :: r)) m)
    with (redo_all (remove_commands r) (remove_object o.(id) m)).
  rewrite IH by (apply nodup_remove_object; exact Hnd).
  rewrite get_remove_object by exact Hnd.
  unfold str_in. simpl. fold (str_in k (map id r)).
  destruct (String.eqb k o.(id)); simpl; destruct (str_in k (map id r)); reflexivity.
Qed.

Lemma get_undo_removes (objs : list CanvasObject) (m : ProjectModel) (k : string) :
  Dict.get k (undo_all (remove_commands objs) m).(objects)
  = match find (fun o => String.eqb k o.(id)) objs with
    | Some o => Some o
    | None => Dict.get k m.(objects)
    end.
Proof.
  induction objs as [|o r IH]; [reflexivity|].
  change (undo_all (remove_commands (o :: r)) m)
    with (add_object o (undo_all (remove_commands r) m)).
  rewrite get_add_object. simpl.
  destruct (String.eqb k o.(id)); [reflexivity|exact IH].
Qed.

(** Removing objects that are stored under their own ids and putting
    them back, last one first, gives back every binding. *)
Lemma get_undo_redo_removes (objs : list CanvasObject) (m : ProjectModel) (k : string) :
  NoDup (Dict.keys m.(objects)) ->
  (forall o, In o objs -> Dict.get o.(id) m.(objects) = Some o) ->
  Dict.get k (undo_all (remove_commands objs)
                       (redo_all (remove_commands objs) m)).(objects)
  = Dict.get k m.(objects).
Proof.
  intros Hnd Hobjs. rewrite get_undo_removes, get_redo_removes by exact Hnd.
  destruct (find (fun o => String.eqb k o.(id)) objs) as [o|] eqn:Ef.
  - apply find_some in Ef. destruct Ef as [Hin He].
    apply String.eqb_eq in He. subst k. symmetry. apply Hobjs. exact Hin.
  - destruct (str_in k (map id objs)) eqn:Es; [|reflexivity].
    apply str_in_In in Es. apply in_map_iff in Es. destruct Es as [o [He Hin]].
    pose proof (find_none _ _ Ef o Hin) as Hn. simpl in Hn.
    rewrite <- He, String.eqb_refl in Hn. discriminate.
Qed.

End ModelFacts.

(** ** The controller's use of the undo stack *)

Module StackFacts.

Import Py Model Commands Spec DictFacts ModelFacts Controller.

Lemma stack_idle_spec (s : QUndoStack) :
  stack_idle s = true <->
  s.(macro_stack) = [] /\ (s.(index) <= List.length s.(command_list))%nat.
Proof.
  unfold stack_idle. rewrite andb_true_iff, Nat.leb_le.
  destruct s.(macro_stack); simpl; split; intros [Ha Hb]; split;
    try reflexivity; try assumption; discriminate.
Qed.

Lemma model_push (c : QUndoCommand) (st : t) :
  (push c st).(model) = Commands.redo c st.(model).
Proof. reflexivity. Qed.

Lemma layout_push (c : QUndoCommand) (st : t) : (push c st).(layout) = st.(layout).
Proof. reflexivity. Qed.

Lemma model_push_all (cs : list QUndoCommand) (st : t) :
  (push_all cs st).(model) = redo_all cs st.(model).
Proof.
  revert st. induction cs as [|c r IH]; intro st; simpl; [reflexivity|].
  unfold push_all in *. simpl. rewrite IH. reflexivity.
Qed.

Lemma layout_push_all (cs : list QUndoCommand) (st : t) :
  (push_all cs st).(layout) = st.(layout).
Proof.
  revert st. induction cs as [|c r IH]; intro st; simpl; [reflexivity|].
  unfold push_all in *. simpl. rewrite IH. reflexivity.
Qed.

Lemma push_all_app (cs cs' : list QUndoCommand) (st : t) :
  push_all (cs ++ cs') st = push_all cs' (push_all cs st).
Proof. unfold push_all. apply fold_left_app. Qed.

(** Commands pushed while a macro is open join the innermost frame. *)
Lemma stack_push_all_in_macro
    (cs : list QUndoCommand) (st : t) (text : string)
    (children : list QUndoCommand) (outer : list (string * list QUndoCommand)) :
  st.(undo_stack).(macro_stack) = (text, children) :: outer ->
  (push_all cs st).(undo_stack)
  = mkQUndoStack st.(undo_stack).(command_list) st.(undo_stack).(index)
                 ((text, children ++ cs) :: outer).
Proof.
  revert st children. induction cs as [|c r IH]; intros st children Hm.
  - simpl. rewrite app_nil_r. rewrite <- Hm. destruct st.(undo_stack); reflexivity.
  - change (push_all (c :: r) st) with (push_all r (push c st)).
    rewrite (IH (push c st) (children ++ [c])).
    + simpl. unfold record_command. rewrite Hm. simpl.
      rewrite <- app_assoc. reflexivity.
    + simpl. unfold record_command. rewrite Hm. reflexivity.
Qed.

(** A macro opened on an idle stack, filled with [cs] and closed, leaves
    one more command on the stack, and its effect on the model is that of
    [cs]. *)
Lemma macro_run (text : string) (cs : list QUndoCommand) (st : t) :
  stack_idle st.(undo_stack) = true ->
  let st' := endMacro (push_all cs (beginMacro text st)) in
  st'.(model) = redo_all cs st.(model)
  /\ st'.(layout) = st.(layout)
  /\ st'.(undo_stack)
     = mkQUndoStack
         (firstn st.(undo_stack).(index) st.(undo_stack).(command_list)
          ++ [MacroCommand text cs])
         (S st.(undo_stack).(index)) [].
Proof.
  intro Hidle. apply stack_idle_spec in Hidle. destruct Hidle as [Hm Hi].
  cbv zeta. split; [|split].
  - unfold endMacro. simpl. rewrite model_push_all. reflexivity.
  - unfold endMacro. simpl. rewrite layout_push_all. reflexivity.
  - unfold endMacro. simpl.
    rewrite (stack_push_all_in_macro cs (beginMacro text st) text [] []).
    + unfold Commands.endMacro. simpl. unfold Commands.beginMacro. rewrite Hm.
      reflexivity.
    + simpl. unfold Commands.beginMacro. rewrite Hm. reflexivity.
Qed.

(** One [undo] after such a macro runs the [undo] of its commands, last
    one first, and moves the cursor back. *)
Lemma undo_after_macro (text : string) (cs : list QUndoCommand) (st st' : t) :
  stack_idle st.(undo_stack) = true ->
  st'.(undo_stack)
  = mkQUndoStack
      (firstn st.(undo_stack).(index) st.(undo_stack).(command_list)
       ++ [MacroCommand text cs])
      (S st.(undo_stack).(index)) [] ->
  (Controller.undo st').(model) = undo_all cs st'.(model)
  /\ (Controller.undo st').(undo_stack).(index) = st.(undo_stack).(index)
  /\ (Controller.undo st').(undo_stack).(macro_stack) = [].
Proof.
  intros Hidle Hs. apply stack_idle_spec in Hidle. destruct Hidle as [Hm Hi].
  unfold Controller.undo, stack_undo. rewrite Hs. simpl.
  rewrite nth_error_app2 by (rewrite length_firstn; lia).
  rewrite length_firstn. rewrite Nat.min_l by exact Hi. rewrite Nat.sub_diag. simpl.
  rewrite <- (undo_macro text). simpl. auto.
Qed.

End StackFacts.

(** ** [remove_object] *)

Section RemoveObject.

Import Py Model Commands Spec DictFacts ModelFacts StackFacts Controller.

Context `{Constants}.

Variable st : Controller.t.
Variable obj_id : string.
Variable obj : CanvasObject.

Let related_links : list CanvasObject :=
  attached_links obj_id st.(model).(objects).

Let related_connectors : list CanvasObject :=
  attached_connectors obj_id st.(model).(objects).

Hypothesis Hkeyed : well_keyed st.(model).(objects) = true.
Hypothesis Hidle : stack_idle st.(undo_stack) = true.
Hypothesis Hget : Dict.get obj_id st.(model).(objects) = Some obj.
Hypothesis Href : existsb (references obj_id) (Dict.values st.(model).(objects)) = true.

Lemma referencing_is_related (o : CanvasObject) :
  In o (Dict.values st.(model).(objects)) -> references obj_id o = true ->
  In o (related_links ++ related_connectors).
Proof.
  intros Hin Hr. unfold references in Hr. apply orb_true_iff in Hr.
  apply in_or_app. destruct Hr as [Hr|Hr]; [left|right];
    apply filter_In; split; assumption.
Qed.

Lemma related_not_empty :
  negb (is_empty related_links) || negb (is_empty related_connectors) = true.
Proof.
  apply existsb_exists in Href. destruct Href as [o [Hin Hr]].
  pose proof (referencing_is_related o Hin Hr) as Hrel.
  destruct related_links; [|reflexivity].
  destruct related_connectors; [contradiction|reflexivity].
Qed.

Lemma remove_object_as_macro :
  remove_object obj_id st
  = endMacro (push_all (remove_commands (related_links ++ related_connectors ++ [obj]))
                       (beginMacro "Remove Object" st)).
Proof.
  unfold remove_object. rewrite Hget.
  pose proof related_not_empty as Hne.
  unfold related_links, related_connectors, attached_links, attached_connectors in *.
  rewrite Hne.
  unfold remove_commands. rewrite !map_app, !push_all_app. reflexivity.
Qed.

Lemma removed_objects_stored (o : CanvasObject) :
  In o (related_links ++ related_connectors ++ [obj]) ->
  Dict.get o.(id) st.(model).(objects) = Some o.
Proof.
  intro Hin. apply in_app_or in Hin. destruct Hin as [Hin|Hin].
  - apply filter_In in Hin. apply well_keyed_value; tauto.
  - apply in_app_or in Hin. destruct Hin as [Hin|[<-|[]]].
    + apply filter_In in Hin. apply well_keyed_value; tauto.
    + rewrite (well_keyed_id _ _ _ Hkeyed Hget). exact Hget.
Qed.

End RemoveObject.

(** C1.  When at least one link or connector references the object,
    [remove_object] records exactly one macro that removes every
    referencing link, every referencing connector and then the object;
    afterwards none of them is in the model, and one [undo] gives back
    every binding of the model as it was, the object and its attachments
    included. *)
Theorem remove_object_macro_is_undone_in_one_step
    `{Constants} (st : Controller.t) (obj_id : string) (obj : Model.CanvasObject) :
  Spec.well_keyed st.(Controller.model).(Model.objects) = true ->
  Spec.stack_idle st.(Controller.undo_stack) = true ->
  Dict.get obj_id st.(Controller.model).(Model.objects) = Some obj ->
  existsb (Spec.references obj_id)
          (Dict.values st.(Controller.model).(Model.objects)) = true ->
  let st' := Controller.remove_object obj_id st in
  st'.(Controller.undo_stack)
  = Commands.mkQUndoStack
      (firstn st.(Controller.undo_stack).(Commands.index)
              st.(Controller.undo_stack).(Commands.command_list)
       ++ [Commands.MacroCommand
             "Remove Object"
             (Spec.remove_commands
                (Spec.attached_links obj_id st.(Controller.model).(Model.objects)
                 ++ Spec.attached_connectors obj_id st.(Controller.model).(Model.objects)
                 ++ [obj]))])
      (S st.(Controller.undo_stack).(Commands.index)) []
  /\ Dict.get obj_id st'.(Controller.model).(Model.objects) = None
  /\ (forall o,
         In o (Dict.values st.(Controller.model).(Model.objects)) ->
         Spec.references obj_id o = true ->
         Dict.get o.(Model.id) st'.(Controller.model).(Model.objects) = None)
  /\ (forall k,
         Dict.get k (Controller.undo st').(Controller.model).(Model.objects)
         = Dict.get k st.(Controller.model).(Model.objects))
  /\ (Controller.undo st').(Controller.undo_stack).(Commands.index)
     = st.(Controller.undo_stack).(Commands.index).
Proof.
  intros Hkeyed Hidle Hget Href st'.
  pose proof (remove_object_as_macro st obj_id obj Hget Href) as Hmacro.
  fold st' in Hmacro. cbv zeta in Hmacro.
  match type of Hmacro with
  | _ = Controller.endMacro (Controller.push_all (Spec.remove_commands ?l) _) =>
      set (objs := l) in *
  end.
  pose proof (StackFacts.macro_run "Remove Object" (Spec.remove_commands objs) st Hidle)
    as Hrun.
  cbv zeta in Hrun. rewrite <- Hmacro in Hrun. destruct Hrun as [Hmodel [_ Hstack]].
  pose proof (ModelFacts.well_keyed_NoDup _ Hkeyed) as Hnd.
  assert (Hstored : forall o, In o objs ->
                      Dict.get o.(Model.id) st.(Controller.model).(Model.objects) = Some o).
  { intros o Hin. eapply removed_objects_stored; eassumption. }
  assert (Hgone : forall o, In o objs ->
                    Dict.get o.(Model.id) st'.(Controller.model).(Model.objects) = None).
  { intros o Hin. rewrite Hmodel, ModelFacts.get_redo_removes by exact Hnd.
    replace (Py.str_in (Model.id o) (map Model.id objs)) with true; [reflexivity|].
    symmetry. apply ModelFacts.str_in_In. apply in_map. exact Hin. }
  split; [|split; [|split; [|split]]].
  - exact Hstack.
  - rewrite <- (ModelFacts.well_keyed_id _ _ _ Hkeyed Hget). apply Hgone.
    subst objs. apply in_or_app. right. apply in_or_app. right. left. reflexivity.
  - intros o Hin Hr. apply Hgone. subst objs.
    pose proof (referencing_is_related st obj_id o Hin Hr) as Hrel.
    rewrite app_assoc. apply in_or_app. left. exact Hrel.
  - intro k.
    destruct (StackFacts.undo_after_macro _ _ st st' Hidle Hstack) as [Hundo _].
    rewrite Hundo, Hmodel. apply ModelFacts.get_undo_redo_removes; assumption.
  - destruct (StackFacts.undo_after_macro _ _ st st' Hidle Hstack) as [_ [Hi _]].
    exact Hi.
Qed.

(** ** Objects: equality, setters and normalization *)

Module ObjectFacts.

Import Py Model Commands Spec Controller PyFacts.

(** Projections through chains of setters, nothing else unfolded. *)
Ltac fields :=
  lazy beta iota zeta delta
    [
       id kind row_id start_week end_week text text_align text_html notes notes_html
       scope scope_html risks risks_html color size z_index target_row_id
       target_week arrow_mid_week arrow_head_start arrow_head_end arrow_direction x
       y width height opacity link_source_id link_target_id link_source_side
       link_source_offset link_offset_x link_offset_y connector_source_id
       connector_target_id connector_source_side connector_source_offset
       connector_target_side connector_target_offset set_id set_kind set_row_id
       set_start_week set_end_week set_text set_text_html set_notes_html
       set_scope_html set_risks_html set_color set_size set_z_index
       set_target_row_id set_target_week set_arrow_mid_week set_arrow_head_start
       set_arrow_head_end set_arrow_direction set_x set_y set_width set_height
       set_opacity set_link_source_id set_link_target_id set_link_source_side
       set_link_source_offset set_link_offset_x set_link_offset_y
       set_connector_source_offset set_connector_target_offset
       set_text_align set_notes set_scope set_risks set_connector_source_id
       set_connector_target_id set_connector_source_side set_connector_target_side
    ].

Ltac fields_in H :=
  lazy beta iota zeta delta
    [
       id kind row_id start_week end_week text text_align text_html notes notes_html
       scope scope_html risks risks_html color size z_index target_row_id
       target_week arrow_mid_week arrow_head_start arrow_head_end arrow_direction x
       y width height opacity link_source_id link_target_id link_source_side
       link_source_offset link_offset_x link_offset_y connector_source_id
       connector_target_id connector_source_side connector_source_offset
       connector_target_side connector_target_offset set_id set_kind set_row_id
       set_start_week set_end_week set_text set_text_html set_notes_html
       set_scope_html set_risks_html set_color set_size set_z_index
       set_target_row_id set_target_week set_arrow_mid_week set_arrow_head_start
       set_arrow_head_end set_arrow_direction set_x set_y set_width set_height
       set_opacity set_link_source_id set_link_target_id set_link_source_side
       set_link_source_offset set_link_offset_x set_link_offset_y
       set_connector_source_offset set_connector_target_offset
       set_text_align set_notes set_scope set_risks set_connector_source_id
       set_connector_target_id set_connector_source_side set_connector_target_side
    ] in H.


Lemma option_eqb_refl {A : Type} (e : A -> A -> bool) (v : option A) :
  (forall a, e a a = true) -> option_eqb e v v = true.
Proof. intro He. destruct v; simpl; auto. Qed.

Lemma Qeq_bool_refl' (q : Q) : Qeq_bool q q = true.
Proof. apply Qeq_bool_iff. reflexivity. Qed.

Lemma CanvasObject_eqb_refl (o : CanvasObject) : CanvasObject_eqb o o = true.
Proof.
  unfold CanvasObject_eqb.
  rewrite !String.eqb_refl, !Z.eqb_refl, !Bool.eqb_reflx, !Qeq_bool_refl'.
  rewrite !(option_eqb_refl String.eqb) by apply String.eqb_refl.
  rewrite !(option_eqb_refl Z.eqb) by apply Z.eqb_refl.
  rewrite !(option_eqb_refl Qeq_bool) by apply Qeq_bool_refl'.
  reflexivity.
Qed.

Lemma option_eqb_Q (a b : option Q) :
  option_eqb Qeq_bool a b = true ->
  match a, b with
  | Some p, Some q => (p == q)%Q
  | None, None => True
  | _, _ => False
  end.
Proof.
  destruct a, b; simpl; intro Hx; try discriminate; auto.
  apply Qeq_bool_iff. exact Hx.
Qed.

(** What [==] on two objects says about the fields used below. *)
Lemma CanvasObject_eqb_fields (a b : CanvasObject) :
  CanvasObject_eqb a b = true ->
  a.(id) = b.(id) /\ a.(kind) = b.(kind) /\ a.(z_index) = b.(z_index)
  /\ option_eqb Qeq_bool a.(x) b.(x) = true
  /\ option_eqb Qeq_bool a.(y) b.(y) = true
  /\ option_eqb Qeq_bool a.(width) b.(width) = true
  /\ option_eqb Qeq_bool a.(height) b.(height) = true.
Proof.
  unfold CanvasObject_eqb. intro Hx.
  repeat match type of Hx with
         | (_ && _) = true =>
             let Hy := fresh "Hf" in
             apply andb_true_iff in Hx; destruct Hx as [Hx Hy]
         end.
  apply String.eqb_eq in Hx.
  repeat match goal with
         | Hy : String.eqb _ _ = true |- _ => apply String.eqb_eq in Hy
         | Hy : Z.eqb _ _ = true |- _ => apply Z.eqb_eq in Hy
         end.
  repeat split; assumption.
Qed.

Section WithConstants.
Context `{Constants}.

(** Normalization leaves the identity of an object alone. *)
Lemma normalize_static (o : CanvasObject) :
  let n := _normalize_object o in
  n.(id) = o.(id) /\ n.(kind) = o.(kind) /\ n.(row_id) = o.(row_id)
  /\ n.(z_index) = o.(z_index) /\ n.(start_week) = o.(start_week)
  /\ n.(link_source_id) = o.(link_source_id)
  /\ n.(link_target_id) = o.(link_target_id)
  /\ n.(link_source_side) = o.(link_source_side)
  /\ n.(connector_source_id) = o.(connector_source_id)
  /\ n.(connector_target_id) = o.(connector_target_id).
Proof.
  cbv zeta. remember (_normalize_object o) as n eqn:Hn.
  destruct o. unfold _normalize_object, _clamp_week, if_not_none in Hn. fields_in Hn.
  fields.
  destruct (str_in kind0 ["milestone"; "circle"; "deadline"]);
    [subst n; repeat split; reflexivity|].
  destruct (kind0 =? "arrow"); [subst n; repeat split; reflexivity|].
  destruct (kind0 =? "link"); [subst n; repeat split; reflexivity|].
  destruct (kind0 =? "connector"); [subst n; repeat split; reflexivity|].
  destruct (kind0 =? "textbox"); subst n; repeat split; reflexivity.
Qed.

Lemma normalize_id (o : CanvasObject) : (_normalize_object o).(id) = o.(id).
Proof. apply (normalize_static o). Qed.

Lemma normalize_kind (o : CanvasObject) : (_normalize_object o).(kind) = o.(kind).
Proof. apply (normalize_static o). Qed.

Lemma normalize_z_index (o : CanvasObject) :
  (_normalize_object o).(z_index) = o.(z_index).
Proof. apply (normalize_static o). Qed.

Lemma normalize_link_source_id (o : CanvasObject) :
  (_normalize_object o).(link_source_id) = o.(link_source_id).
Proof. apply (normalize_static o). Qed.

Lemma normalize_link_target_id (o : CanvasObject) :
  (_normalize_object o).(link_target_id) = o.(link_target_id).
Proof. apply (normalize_static o). Qed.

End WithConstants.
End ObjectFacts.

(** ** [_normalize_object] is idempotent *)

Section NormalizeIdempotent.

Import Py Model Commands Controller PyFacts ObjectFacts.

Context `{Constants}.

Lemma ltb_irrefl (q : Q) : ltb q q = false.
Proof. apply ltb_ge. apply Qle_refl. Qed.

Lemma none_if_empty_idem (v : option string) :
  none_if_empty (none_if_empty v) = none_if_empty v.
Proof.
  destruct v as [s|]; [|reflexivity]. simpl.
  destruct (s =? "") eqn:E; [reflexivity|]. simpl. rewrite E. reflexivity.
Qed.

Lemma normalize_arrow_direction_range (s : string) :
  normalize_arrow_direction s = "none"
  \/ normalize_arrow_direction s = "left"
  \/ normalize_arrow_direction s = "right".
Proof.
  unfold normalize_arrow_direction.
  set (d := lower (strip (if s =? "" then "none" else s))).
  destruct (str_in d ["none"; "left"; "right"]) eqn:E; simpl; [|left; reflexivity].
  unfold str_in in E. simpl in E. rewrite orb_false_r in E.
  apply orb_true_iff in E. destruct E as [E|E].
  - apply String.eqb_eq in E. left. exact E.
  - apply orb_true_iff in E. destruct E as [E|E]; apply String.eqb_eq in E; auto.
Qed.

Lemma normalize_arrow_direction_idem (s : string) :
  normalize_arrow_direction (normalize_arrow_direction s) = normalize_arrow_direction s.
Proof.
  destruct (normalize_arrow_direction_range s) as [E|[E|E]]; rewrite E; reflexivity.
Qed.

(** The clamp of [opacity] into [0, 1]. *)
Lemma opacity_clamp_idem (q : Q) :
  let clamp := fun q : Q =>
    if ltb 1 (if ltb q 0 then 0%Q else q) then 1%Q
    else if ltb q 0 then 0%Q else q in
  clamp (clamp q) = clamp q.
Proof.
  cbv zeta beta.
  destruct (ltb q 0) eqn:A.
  - reflexivity.
  - destruct (ltb 1 q) eqn:B.
    + reflexivity.
    + rewrite A, B. reflexivity.
Qed.

Lemma clamp_offset_idem (v : option Q) : clamp_offset (clamp_offset v) = clamp_offset v.
Proof.
  destruct v as [q|]; [|reflexivity]. unfold clamp_offset. simpl. f_equal.
  unfold Py.min, Py.max.
  destruct (ltb q 1) eqn:A.
  - destruct (ltb 0 q) eqn:B.
    + rewrite A, B. reflexivity.
    + reflexivity.
  - reflexivity.
Qed.

Lemma or_float_zero_idem (v : option Q) :
  or_float (Some (or_float v 0)) 0 = or_float v 0.
Proof.
  destruct v as [q|]; [|reflexivity]. simpl.
  destruct (Qeq_bool q 0) eqn:E; [reflexivity|]. rewrite E. reflexivity.
Qed.

(** The floor under a textbox extent: [float(v or lo)] raised to [lo]. *)
Lemma extent_floor_idem (v : option Q) (lo : Q) :
  let floor := fun v : option Q =>
    if ltb (or_float v lo) lo then lo else or_float v lo in
  floor (Some (floor v)) = floor v.
Proof.
  cbv zeta beta.
  destruct (ltb (or_float v lo) lo) eqn:A.
  - simpl. destruct (Qeq_bool lo 0); rewrite ltb_irrefl; reflexivity.
  - destruct v as [q|]; simpl in *.
    + destruct (Qeq_bool q 0) eqn:E.
      * destruct (Qeq_bool lo 0); rewrite ltb_irrefl; reflexivity.
      * rewrite E, A. reflexivity.
    + destruct (Qeq_bool lo 0); rewrite ltb_irrefl; reflexivity.
Qed.

Lemma size_clamp_idem (s : Z) :
  Z.max 1 (Z.min 5 (Z.max 1 (Z.min 5 s))) = Z.max 1 (Z.min 5 s).
Proof. lia. Qed.

Lemma end_week_floor_idem (a b : Z) :
  (if ((if (b <? a)%Z then a else b) <? a)%Z then a
   else (if (b <? a)%Z then a else b)) = (if (b <? a)%Z then a else b).
Proof.
  destruct (Z.ltb_spec b a) as [Hl|Hl].
  - rewrite Z.ltb_irrefl. reflexivity.
  - destruct (Z.ltb_spec b a); [lia|reflexivity].
Qed.

Ltac norm_fields :=
  repeat first
    [ rewrite none_if_empty_idem
    | rewrite normalize_arrow_direction_idem
    | rewrite size_clamp_idem
    | rewrite clamp_offset_idem
    | rewrite or_float_zero_idem ].

Lemma normalize_twice (o : CanvasObject) :
  _normalize_object (_normalize_object o) = _normalize_object o.
Proof.
  pose proof opacity_clamp_idem as Hop. cbv zeta beta in Hop.
  pose proof extent_floor_idem as Hfl. cbv zeta beta in Hfl.
  remember (_normalize_object o) as n eqn:Hn.
  destruct o.
  unfold _normalize_object, _clamp_week, if_not_none in Hn. fields_in Hn.
  unfold _normalize_object, _clamp_week, if_not_none.
  destruct (str_in kind0 ["milestone"; "circle"; "deadline"]) eqn:E1.
  { subst n. fields. rewrite E1.
    destruct (kind0 =? "box") eqn:Eb; cbn [negb]; norm_fields; rewrite ?Hop;
      destruct (str_in kind0 ["arrow"; "connector"]), arrow_head_start0, arrow_head_end0;
      reflexivity. }
  destruct (kind0 =? "arrow") eqn:E2.
  { subst n. fields. rewrite E1, E2.
    destruct (kind0 =? "box") eqn:Eb; cbn [negb]; norm_fields; rewrite ?Hop;
      destruct (str_in kind0 ["arrow"; "connector"]), arrow_head_start0, arrow_head_end0;
      reflexivity. }
  destruct (kind0 =? "link") eqn:E3.
  { subst n. fields. rewrite E1, E2, E3.
    destruct (kind0 =? "box") eqn:Eb; cbn [negb]; norm_fields; rewrite ?Hop;
      reflexivity. }
  destruct (kind0 =? "connector") eqn:E4.
  { subst n. fields. rewrite E1, E2, E3, E4.
    destruct (kind0 =? "box") eqn:Eb; cbn [negb]; norm_fields; rewrite ?Hop;
      destruct (str_in kind0 ["arrow"; "connector"]), arrow_head_start0, arrow_head_end0;
      reflexivity. }
  destruct (kind0 =? "textbox") eqn:E5.
  { subst n. fields. rewrite E1, E2, E3, E4, E5.
    destruct (kind0 =? "box") eqn:Eb; cbn [negb]; norm_fields; rewrite ?Hop, !Hfl;
      destruct (str_in kind0 ["arrow"; "connector"]), arrow_head_start0, arrow_head_end0;
      reflexivity. }
  subst n. fields. rewrite E1, E2, E3, E4, E5.
  destruct (kind0 =? "box") eqn:Eb; cbn [negb]; norm_fields;
    rewrite ?Hop, ?end_week_floor_idem;
    destruct (str_in kind0 ["arrow"; "connector"]), arrow_head_start0, arrow_head_end0;
    reflexivity.
Qed.

End NormalizeIdempotent.

(** C3.  Normalizing a normalized object changes nothing: the two objects
    are the same value, and in particular equal under the [==] of the
    dataclass. *)
Theorem normalize_object_idempotent `{Constants} (o : Model.CanvasObject) :
  Controller._normalize_object (Controller._normalize_object o)
  = Controller._normalize_object o
  /\ Model.CanvasObject_eqb
       (Controller._normalize_object (Controller._normalize_object o))
       (Controller._normalize_object o) = true.
Proof.
  split.
  - apply normalize_twice.
  - rewrite normalize_twice. apply ObjectFacts.CanvasObject_eqb_refl.
Qed.

(** ** Edits without effect *)

(** C4, as the code has it.  [update_object] compares the normalized
    result of the edit with the stored object and returns at once when
    they are equal: nothing is pushed and the controller is left as it
    was.  With no changes at all this is the case as soon as the stored
    object is already normalized. *)
Theorem update_object_equal_result_is_noop
    `{Constants} (st : Controller.t) (obj_id : string) (obj : Model.CanvasObject) :
  Dict.get obj_id st.(Controller.model).(Model.objects) = Some obj ->
  (forall changes description skip_anchor_sources defer_link_updates,
      Model.CanvasObject_eqb
        (Controller._normalize_object (Model.replace obj changes)) obj = true ->
      Controller.update_object obj_id changes description
                               skip_anchor_sources defer_link_updates st = st)
  /\ (Controller._normalize_object obj = obj ->
      forall description skip_anchor_sources defer_link_updates,
        Controller.update_object obj_id [] description
                                 skip_anchor_sources defer_link_updates st = st).
Proof.
  intro Hget. split.
  - intros changes description skip defer Heq.
    unfold Controller.update_object. rewrite Hget, Heq. reflexivity.
  - intros Hnorm description skip defer.
    unfold Controller.update_object. rewrite Hget. simpl Model.replace.
    rewrite Hnorm, ObjectFacts.CanvasObject_eqb_refl. reflexivity.
Qed.

(** ** [duplicate_object] *)

Section Duplicate.

Import Py Model Commands Spec Controller PyFacts ObjectFacts DictFacts ModelFacts StackFacts.

Context `{Constants}.

Lemma normalize_end_week (o : CanvasObject) :
  (_normalize_object o).(end_week)
  = if str_in o.(kind) ["milestone"; "circle"; "deadline"] then o.(start_week)
    else if o.(kind) =? "arrow" then if_not_none o.(target_week) o.(end_week)
    else if o.(kind) =? "link" then o.(end_week)
    else if o.(kind) =? "connector" then o.(end_week)
    else if o.(kind) =? "textbox" then o.(end_week)
    else if (o.(end_week) <? o.(start_week))%Z then o.(start_week) else o.(end_week).
Proof.
  remember (_normalize_object o) as n eqn:Hn.
  destruct o. unfold _normalize_object, _clamp_week in Hn. fields_in Hn. fields.
  destruct (str_in kind0 ["milestone"; "circle"; "deadline"]); [subst n; reflexivity|].
  destruct (kind0 =? "arrow"); [subst n; reflexivity|].
  destruct (kind0 =? "link"); [subst n; reflexivity|].
  destruct (kind0 =? "connector"); [subst n; reflexivity|].
  destruct (kind0 =? "textbox"); subst n; reflexivity.
Qed.

Lemma normalize_target_week_arrow (o : CanvasObject) :
  str_in o.(kind) ["milestone"; "circle"; "deadline"] = false ->
  (o.(kind) =? "arrow") = true ->
  (_normalize_object o).(target_week) = Some (if_not_none o.(target_week) o.(end_week)).
Proof.
  intros E1 E2.
  remember (_normalize_object o) as n eqn:Hn.
  destruct o. unfold _normalize_object, _clamp_week in Hn. fields_in Hn.
  fields_in E1. fields_in E2. fields.
  rewrite E1, E2 in Hn. subst n. reflexivity.
Qed.

(** What [add_object] stores, and where. *)
Lemma add_object_stores (obj : CanvasObject) (description : string) (st : t) :
  exists z,
    Dict.get obj.(id) (add_object obj description st).(model).(objects)
    = Some (_normalize_object (set_z_index z obj)).
Proof.
  unfold add_object.
  match goal with
  | |- context [AddObjectCommand (_normalize_object ?o') _] => set (obj' := o')
  end.
  assert (Hz : exists z, obj' = set_z_index z obj).
  { subst obj'. destruct ((obj.(z_index) =? 0)%Z && negb (is_empty st.(model).(objects))).
    - eexists. reflexivity.
    - exists obj.(z_index). destruct obj. reflexivity. }
  destruct Hz as [z Hz]. exists z. rewrite model_push. simpl Commands.redo.
  rewrite get_add_object, normalize_id, Hz. simpl.
  rewrite String.eqb_refl. reflexivity.
Qed.

Lemma duplicate_stored_end_week (obj clone : CanvasObject) (delta : Z) :
  _normalize_object obj = obj ->
  clone.(kind) = obj.(kind) ->
  clone.(start_week) = obj.(start_week) + delta ->
  clone.(end_week) = obj.(end_week) + delta ->
  clone.(target_week) = option_map (fun w => w + delta) obj.(target_week) ->
  (_normalize_object clone).(end_week) = obj.(end_week) + delta.
Proof.
  intros Hnorm Hk Hs He Ht.
  pose proof (normalize_end_week obj) as Ho. rewrite Hnorm in Ho.
  rewrite normalize_end_week, Hk, Hs, He, Ht.
  destruct (str_in obj.(kind) ["milestone"; "circle"; "deadline"]) eqn:E1; [lia|].
  destruct (obj.(kind) =? "arrow") eqn:E2.
  { pose proof (normalize_target_week_arrow obj E1 E2) as Htw. rewrite Hnorm in Htw.
    rewrite Htw. simpl. rewrite Htw in Ho. simpl in Ho. lia. }
  destruct (obj.(kind) =? "link"); [reflexivity|].
  destruct (obj.(kind) =? "connector"); [reflexivity|].
  destruct (obj.(kind) =? "textbox"); [reflexivity|].
  destruct (Z.ltb_spec obj.(end_week) obj.(start_week)) as [Hl|Hl];
    destruct (Z.ltb_spec (obj.(end_week) + delta) (obj.(start_week) + delta)); lia.
Qed.

End Duplicate.

(** C7, as the code has it.  The clone of an object that is not a textbox
    carries the new id and has its start and end weeks moved forward by
    [max(1, span)], where [span] is [|end - start| + 1] measured to the
    target week when there is one; what the model then stores under the
    new id starts at the clone's start week and, when the source was
    normalized, ends at the clone's end week.  The clone of a textbox sits
    to the right of its source: its [x] is the source's [x] plus the
    source's width plus [max(10, width / 10)]. *)
Theorem duplicate_object_offsets
    `{Constants} (st : Controller.t) (fresh obj_id : string) (obj : Model.CanvasObject) :
  Dict.get obj_id st.(Controller.model).(Model.objects) = Some obj ->
  let st' := fst (Controller.duplicate_object fresh obj_id st) in
  let delta :=
    Z.max 1 (Z.abs (Py.if_not_none obj.(Model.target_week) obj.(Model.end_week)
                    - obj.(Model.start_week)) + 1) in
  exists clone stored,
    snd (Controller.duplicate_object fresh obj_id st) = Some clone
    /\ Dict.get fresh st'.(Controller.model).(Model.objects) = Some stored
    /\ clone.(Model.id) = fresh
    /\ stored.(Model.id) = fresh
    /\ (String.eqb obj.(Model.kind) "textbox" = false ->
        clone.(Model.start_week) = obj.(Model.start_week) + delta
        /\ clone.(Model.end_week) = obj.(Model.end_week) + delta
        /\ stored.(Model.start_week) = obj.(Model.start_week) + delta
        /\ (Controller._normalize_object obj = obj ->
            stored.(Model.end_week) = obj.(Model.end_week) + delta))
    /\ (String.eqb obj.(Model.kind) "textbox" = true ->
        let width := Py.or_float obj.(Model.width) TEXTBOX_MIN_WIDTH in
        clone.(Model.x)
        = Some (Py.or_float obj.(Model.x) 0 + width + Py.max 10 (width * (1 # 10)))%Q).
Proof.
  intros Hget st' delta. subst st'. unfold Controller.duplicate_object.
  rewrite Hget.
  destruct (String.eqb obj.(Model.kind) "textbox") eqn:Ek.
  - simpl fst. simpl snd.
    match goal with
    | |- context [Controller.add_object ?c _ _] => set (clone := c)
    end.
    destruct (add_object_stores clone "Duplicate Object" st) as [z Hz].
    exists clone, (Controller._normalize_object (Model.set_z_index z clone)).
    split; [reflexivity|]. split; [exact Hz|]. split; [reflexivity|].
    split; [rewrite ObjectFacts.normalize_id; reflexivity|].
    split; [discriminate|]. intros _. reflexivity.
  - simpl fst. simpl snd.
    match goal with
    | |- context [Controller.add_object ?c _ _] => set (clone := c)
    end.
    destruct (add_object_stores clone "Duplicate Object" st) as [z Hz].
    exists clone, (Controller._normalize_object (Model.set_z_index z clone)).
    split; [reflexivity|]. split; [exact Hz|]. split; [reflexivity|].
    split; [rewrite ObjectFacts.normalize_id; reflexivity|].
    split; [|discriminate]. intros _.
    split; [reflexivity|]. split; [reflexivity|].
    split.
    + destruct (ObjectFacts.normalize_static (Model.set_z_index z clone))
        as (_ & _ & _ & _ & Hs & _).
      rewrite Hs. reflexivity.
    + intro Hnorm.
      apply (duplicate_stored_end_week obj (Model.set_z_index z clone) delta Hnorm);
        reflexivity.
Qed.

(** ** The centre used for links *)

Section AnchorCentre.

Import Py Model Commands Controller.

Context `{Constants}.

Variable st : Controller.t.
Variable l : Layout.t.
Hypothesis Hlayout : st.(layout) = Some l.

(** A milestone is anchored at the left edge of its week, by the
    controller and by the renderer alike. *)
Lemma milestone_centre_x (obj : CanvasObject) (p : Q * Q) :
  obj.(kind) = "milestone" ->
  (_object_anchor_point st obj = Some p -> fst p = Layout.week_left_x l obj.(start_week))
  /\ (Items._object_center_for_link obj l = Some p ->
      fst p = Layout.week_left_x l obj.(start_week)).
Proof.
  intro Hk. unfold _object_anchor_point, Items._object_center_for_link.
  rewrite Hlayout, Hk. simpl.
  destruct (negb (Dict.contains obj.(row_id) l.(Layout.row_map)));
    [split; discriminate|].
  destruct (Layout.row_height l obj.(row_id)), (Layout.row_center_y l obj.(row_id));
    split; intro Hp; inversion Hp; reflexivity.
Qed.

(** A circle is anchored at the centre of its week, by both. *)
Lemma circle_centre_x (obj : CanvasObject) (p : Q * Q) :
  obj.(kind) = "circle" ->
  (_object_anchor_point st obj = Some p -> fst p = Layout.week_center_x l obj.(start_week))
  /\ (Items._object_center_for_link obj l = Some p ->
      fst p = Layout.week_center_x l obj.(start_week)).
Proof.
  intro Hk. unfold _object_anchor_point, Items._object_center_for_link.
  rewrite Hlayout, Hk. simpl.
  destruct (negb (Dict.contains obj.(row_id) l.(Layout.row_map)));
    [split; discriminate|].
  destruct (Layout.row_height l obj.(row_id)), (Layout.row_center_y l obj.(row_id));
    split; intro Hp; inversion Hp; reflexivity.
Qed.

(** A deadline is anchored at the left edge of its week by the renderer,
    but at the centre of its week by the controller. *)
Lemma deadline_centre_x (obj : CanvasObject) :
  obj.(kind) = "deadline" ->
  option_map fst (Items._object_center_for_link obj l)
  = Some (Layout.week_left_x l obj.(start_week))
  /\ option_map fst (_object_anchor_point st obj)
     = Some (Layout.week_center_x l obj.(start_week)).
Proof.
  intro Hk. unfold _object_anchor_point, Items._object_center_for_link.
  rewrite Hlayout, Hk. simpl. split; reflexivity.
Qed.

End AnchorCentre.

(** ** Loading *)

Section Loading.

Import Py Model Spec.

Context `{Constants} `{Numerals}.

(** A list is read entry by entry, and the first entry that fails
    decides. *)
Lemma map_result_outcome {A B : Type} (f : A -> result B) (ok : A -> bool) (l : list A) :
  (forall a, match f a with Return _ => ok a = true | Raise _ => ok a = false end) ->
  match map_result f l with
  | Return _ => forallb ok l = true
  | Raise _ => forallb ok l = false
  end.
Proof.
  intro Hf. induction l as [|a r IH]; [reflexivity|].
  cbn [map_result forallb]. specialize (Hf a).
  destruct (f a) as [b|e]; rewrite Hf; cbn [bind andb]; [|reflexivity].
  destruct (map_result f r); exact IH.
Qed.

Lemma map_result_ok {A B : Type} (f : A -> result B) (ok : A -> bool) (l : list A) :
  (forall a, match f a with Return _ => ok a = true | Raise _ => ok a = false end) ->
  forallb ok l = true -> exists bs, map_result f l = Return bs.
Proof.
  intros Hf Hall. pose proof (map_result_outcome f ok l Hf) as Ho.
  destruct (map_result f l) as [bs|e]; [exists bs; reflexivity|congruence].
Qed.

Lemma map_result_fails {A B : Type} (f : A -> result B) (ok : A -> bool) (l : list A) :
  (forall a, match f a with Return _ => ok a = true | Raise _ => ok a = false end) ->
  forallb ok l = false -> exists e, map_result f l = Raise e.
Proof.
  intros Hf Hall. pose proof (map_result_outcome f ok l Hf) as Ho.
  destruct (map_result f l) as [bs|e]; [congruence|exists e; reflexivity].
Qed.

Lemma Deliverable_from_dict_outcome (d : DeliverableData) :
  match Deliverable_from_dict d with
  | Return _ => deliverable_data_ok d = true
  | Raise _ => deliverable_data_ok d = false
  end.
Proof.
  unfold deliverable_data_ok, Deliverable_from_dict.
  destruct d.(dd_id), d.(dd_name); reflexivity.
Qed.

Lemma Topic_from_dict_outcome (d : TopicData) :
  match Topic_from_dict d with
  | Return _ => topic_data_ok d = true
  | Raise _ => topic_data_ok d = false
  end.
Proof.
  unfold topic_data_ok, Topic_from_dict.
  pose proof (map_result_outcome Deliverable_from_dict deliverable_data_ok
                (get_or d.(td_deliverables) []) Deliverable_from_dict_outcome) as Hd.
  destruct (map_result Deliverable_from_dict (get_or d.(td_deliverables) [])) as [ds|e];
    cbn [bind]; rewrite Hd; destruct d.(td_id), d.(td_name); reflexivity.
Qed.

Lemma CanvasObject_from_dict_outcome (d : ObjectData) :
  match CanvasObject_from_dict d with
  | Return _ => object_data_ok d = true
  | Raise _ => object_data_ok d = false
  end.
Proof.
  unfold object_data_ok, object_keys_ok, object_values_ok, CanvasObject_from_dict,
    int_ok, float_ok. cbv zeta.
  destruct d.(od_id); [|reflexivity].
  destruct d.(od_kind); [|reflexivity].
  destruct d.(od_row_id); [|reflexivity].
  destruct d.(od_start_week) as [w|]; [|reflexivity].
  cbn [item bind andb].
  destruct (int_of w); [|reflexivity]. cbn [bind andb].
  destruct (int_of (get_or d.(od_end_week) w)); [|reflexivity]. cbn [bind andb].
  destruct (int_of (get_or d.(od_size) (JInt DEFAULT_SIZE))); [|reflexivity].
  cbn [bind andb].
  destruct (int_of (get_or d.(od_z_index) (JInt 0))); [|reflexivity]. cbn [bind andb].
  destruct (float_of (get_or d.(od_opacity) (JFloat TEXTBOX_DEFAULT_OPACITY)));
    reflexivity.
Qed.

(** Among the files of the supported version, the complete ones load
    and the others raise. *)
Lemma ProjectModel_from_dict_outcome (data : ProjectData) :
  scalar_eq_int (get_or data.(pd_schema_version) (JInt 0)) SCHEMA_VERSION = true ->
  match ProjectModel_from_dict data with
  | Return _ => project_data_ok data = true
  | Raise _ => project_data_ok data = false
  end.
Proof.
  intro Hv. unfold ProjectModel_from_dict, project_data_ok, int_ok, classification_ok.
  cbv zeta. rewrite Hv. cbn [negb].
  destruct (int_of (get_or data.(pd_year) (JInt 2026))); [|reflexivity].
  cbn [bind andb].
  destruct (classification_text data.(pd_classification)); [|reflexivity].
  cbn [bind andb].
  destruct (normalize_classification _ _ _) as [c s].
  pose proof (map_result_outcome Topic_from_dict topic_data_ok
                (get_or data.(pd_topics) []) Topic_from_dict_outcome) as Ht.
  destruct (map_result Topic_from_dict (get_or data.(pd_topics) []));
    rewrite Ht; [|reflexivity]. cbn [bind andb].
  pose proof (map_result_outcome CanvasObject_from_dict object_data_ok
                (get_or data.(pd_objects) []) CanvasObject_from_dict_outcome) as Ho.
  destruct (map_result CanvasObject_from_dict (get_or data.(pd_objects) []));
    rewrite Ho; reflexivity.
Qed.

End Loading.


(** ** [add_anchor_link] *)

Section AnchorLink.

Import Py Model Commands Spec Controller PyFacts ObjectFacts DictFacts ModelFacts StackFacts.

Context `{Constants}.

Lemma filter_values_set {V : Type} (P : V -> bool) (k : string) (v : V) (d : Dict.t V) :
  (forall o, In o (Dict.values d) -> P o = false) ->
  P v = true ->
  filter P (Dict.values (Dict.set k v d)) = [v].
Proof.
  intros Hnone Hv. induction d as [|[k' v'] r IH]; simpl.
  - rewrite Hv. reflexivity.
  - assert (Hr : forall o, In o (Dict.values r) -> P o = false).
    { intros o Hin. apply Hnone. right. exact Hin. }
    destruct (String.eqb k k'); simpl.
    + rewrite Hv. f_equal.
      clear IH. induction r as [|[k0 v0] r0 IH0]; simpl; [reflexivity|].
      rewrite (Hr v0) by (left; reflexivity).
      apply IH0.
      * intros o [<-|Hin]; apply Hnone; [left; reflexivity|right; right; exact Hin].
      * intros o Hin. apply Hr. right. exact Hin.
    + rewrite (Hnone v') by (left; reflexivity). apply IH. exact Hr.
Qed.

(** An object that comes with a z-index other than 0 is stored as it is
    normalized. *)
Lemma add_object_keeps_z (obj : CanvasObject) (description : string) (st : t) :
  obj.(z_index) <> 0 ->
  add_object obj description st
  = push (AddObjectCommand (_normalize_object obj) description) st.
Proof.
  intro Hz. unfold add_object.
  replace (obj.(z_index) =? 0)%Z with false by (symmetry; apply Z.eqb_neq; exact Hz).
  reflexivity.
Qed.

Lemma anchor_point_needs_layout (st : t) (obj : CanvasObject) (p : Q * Q) :
  _object_anchor_point st obj = Some p -> exists l, st.(layout) = Some l.
Proof.
  unfold _object_anchor_point. destruct st.(layout) as [l|]; [|discriminate].
  intros _. exists l. reflexivity.
Qed.

(** Once the links that leave [source_id] are removed, none is left. *)
Lemma no_link_left (st : t) (source_id : string) (o : CanvasObject) :
  well_keyed st.(model).(objects) = true ->
  In o (Dict.values
          (redo_all (remove_commands (links_from source_id st.(model).(objects)))
                    st.(model)).(objects)) ->
  (o.(kind) =? "link") && eq_opt o.(link_source_id) source_id = false.
Proof.
  intros Hkeyed Hin. pose proof (well_keyed_NoDup _ Hkeyed) as Hnd.
  destruct (in_values _ _ Hin) as [k Hk].
  apply in_get in Hk; [|apply nodup_redo_removes; exact Hnd].
  rewrite get_redo_removes in Hk by exact Hnd.
  destruct (str_in k (map id (links_from source_id st.(model).(objects)))) eqn:Es;
    [discriminate|].
  destruct ((o.(kind) =? "link") && eq_opt o.(link_source_id) source_id) eqn:EP;
    [|reflexivity].
  exfalso. apply str_in_not_In in Es. apply Es.
  rewrite <- (well_keyed_id _ _ _ Hkeyed Hk). apply in_map.
  unfold links_from. apply filter_In. split; [|exact EP].
  eapply get_in_values. exact Hk.
Qed.

End AnchorLink.

(** C10.  A call of [add_anchor_link] that passes its guards records one
    macro: the removal of every link that left the source, then the
    addition of the new link.  Afterwards exactly one link of the model
    has that source, the new one. *)
Theorem add_anchor_link_leaves_one_outgoing_link
    `{Constants} (st : Controller.t) (fresh source_id target_id : string)
    (side : option string) (offset : option Q)
    (source target : Model.CanvasObject) (target_point : Q * Q) :
  Spec.well_keyed st.(Controller.model).(Model.objects) = true ->
  Spec.stack_idle st.(Controller.undo_stack) = true ->
  Dict.get source_id st.(Controller.model).(Model.objects) = Some source ->
  Dict.get target_id st.(Controller.model).(Model.objects) = Some target ->
  source.(Model.kind) = "textbox" ->
  Py.str_in target.(Model.kind) ["link"; "textbox"; "connector"] = false ->
  source_id <> target_id ->
  Controller._object_anchor_point st target = Some target_point ->
  let st' := Controller.add_anchor_link fresh source_id target_id side offset st in
  exists link,
    Spec.links_from source_id st'.(Controller.model).(Model.objects) = [link]
    /\ link.(Model.id) = fresh
    /\ link.(Model.link_source_id) = Some source_id
    /\ link.(Model.link_target_id) = Some target_id
    /\ st'.(Controller.undo_stack)
       = Commands.mkQUndoStack
           (firstn st.(Controller.undo_stack).(Commands.index)
                   st.(Controller.undo_stack).(Commands.command_list)
            ++ [Commands.MacroCommand
                  "Anchor Textbox"
                  (Spec.remove_commands
                     (Spec.links_from source_id st.(Controller.model).(Model.objects))
                   ++ [Commands.AddObjectCommand link "Add Anchor"])])
           (S st.(Controller.undo_stack).(Commands.index)) [].
Proof.
  intros Hkeyed Hidle Hsrc Htgt Hsk Htk Hne Hpoint st'.
  destruct (anchor_point_needs_layout st target target_point Hpoint) as [l Hl].
  subst st'. unfold Controller.add_anchor_link.
  rewrite Hsrc, Htgt, Hsk, Htk, Hl, Hpoint.
  replace (String.eqb source_id target_id) with false
    by (symmetry; apply String.eqb_neq; exact Hne).
  cbn [String.eqb Ascii.eqb Bool.eqb negb orb].
  match goal with
  | |- context [Controller.add_object ?o _ _] => set (link_obj := o)
  end.
  assert (Hz : link_obj.(Model.z_index) <> 0).
  { subst link_obj. cbn [Model.z_index Model.set_link_offset_y Model.set_link_offset_x
                         Model.set_link_source_offset Model.set_link_source_side
                         Model.set_link_target_id Model.set_link_source_id
                         Model.set_z_index].
    destruct (Z.eqb_spec (Z.min source.(Model.z_index) target.(Model.z_index) - 1) 0);
      [discriminate|assumption]. }
  rewrite add_object_keeps_z by exact Hz.
  change (Controller._links_from_source st source_id)
    with (Spec.links_from source_id st.(Controller.model).(Model.objects)).
  set (existing := Spec.links_from source_id st.(Controller.model).(Model.objects)).
  set (link := Controller._normalize_object link_obj).
  change (Controller.push (Commands.AddObjectCommand link "Add Anchor")
            (Controller.push_all
               (map (fun link0 => Commands.RemoveObjectCommand link0 "Remove Object")
                    existing)
               (Controller.beginMacro "Anchor Textbox" st)))
    with (Controller.push_all [Commands.AddObjectCommand link "Add Anchor"]
            (Controller.push_all (Spec.remove_commands existing)
               (Controller.beginMacro "Anchor Textbox" st))).
  rewrite <- StackFacts.push_all_app.
  pose proof (StackFacts.macro_run
                "Anchor Textbox"
                (Spec.remove_commands existing
                 ++ [Commands.AddObjectCommand link "Add Anchor"]) st Hidle) as Hrun.
  cbv zeta in Hrun. destruct Hrun as [Hmodel [_ Hstack]].
  exists link.
  assert (Hid : link.(Model.id) = fresh)
    by (subst link; rewrite ObjectFacts.normalize_id; reflexivity).
  assert (Hls : link.(Model.link_source_id) = Some source_id)
    by (subst link; rewrite ObjectFacts.normalize_link_source_id; reflexivity).
  assert (Hlt : link.(Model.link_target_id) = Some target_id)
    by (subst link; rewrite ObjectFacts.normalize_link_target_id; reflexivity).
  assert (Hlk : link.(Model.kind) = "link")
    by (subst link; rewrite ObjectFacts.normalize_kind; reflexivity).
  split; [|split; [exact Hid|split; [exact Hls|split; [exact Hlt|exact Hstack]]]].
  rewrite Hmodel, ModelFacts.redo_all_app. simpl Commands.redo_all at 1.
  unfold Spec.links_from, Model.add_object. simpl Model.objects at 1.
  apply filter_values_set.
  - intros o Hin. eapply no_link_left; eassumption.
  - rewrite Hlk, Hls. simpl. rewrite String.eqb_refl. reflexivity.
Qed.

(** ** What one call of [update_object] does to the model *)

Module UpdateFacts.

Import Py Model Commands Spec Controller PyFacts ObjectFacts DictFacts ModelFacts StackFacts.

Lemma keys_redo_updates (cs : list QUndoCommand) (m : ProjectModel) :
  Forall is_update cs ->
  Dict.keys (redo_all cs m).(objects) = Dict.keys m.(objects).
Proof.
  intro Hall. revert m. induction Hall as [|c r Hc Hr IH]; intro m; [reflexivity|].
  change (redo_all (c :: r) m) with (redo_all r (Commands.redo c m)).
  rewrite IH. destruct c; try contradiction. simpl. apply keys_update_object.
Qed.

Lemma contains_keys {V : Type} (k : string) (d d' : Dict.t V) :
  Dict.keys d = Dict.keys d' -> Dict.contains k d = Dict.contains k d'.
Proof.
  intro Hk.
  destruct (Dict.contains k d) eqn:E, (Dict.contains k d') eqn:E'; try reflexivity.
  - apply contains_true in E. destruct E as [v Hv]. apply get_in_keys in Hv.
    rewrite Hk in Hv. apply contains_false, get_none_not_in in E'. contradiction.
  - apply contains_true in E'. destruct E' as [v Hv]. apply get_in_keys in Hv.
    rewrite <- Hk in Hv. apply contains_false, get_none_not_in in E. contradiction.
Qed.

(** After a run of updates a key holds the new object of the last update
    made under it, if there is one, and what it held before otherwise. *)
Lemma get_redo_updates (cs : list QUndoCommand) (m : ProjectModel) (k : string) :
  Forall is_update cs ->
  Dict.get k (redo_all cs m).(objects)
  = match find (fun c => String.eqb (command_key c) k) (rev cs) with
    | Some c => if Dict.contains k m.(objects) then command_new c
                else None
    | None => Dict.get k m.(objects)
    end.
Proof.
  induction cs as [|c r IH] using rev_ind; intro Hall; [reflexivity|].
  apply Forall_app in Hall. destruct Hall as [Hr Hc].
  inversion Hc as [|? ? Hcu _]; subst.
  rewrite redo_all_app, rev_app_distr. simpl rev. simpl app.
  destruct c as [| |old_obj new_obj label|]; try contradiction.
  change (redo_all [UpdateObjectCommand old_obj new_obj label] (redo_all r m))
    with (Model.update_object old_obj.(id) new_obj (redo_all r m)).
  rewrite get_update_object.
  rewrite (contains_keys _ _ _ (keys_redo_updates r m Hr)).
  simpl find. unfold command_key at 1.
  rewrite (String.eqb_sym k).
  destruct (String.eqb_spec old_obj.(id) k) as [He|Hne]; simpl.
  - subst k. unfold command_new.
    destruct (Dict.contains old_obj.(id) m.(objects)) eqn:Ec; [reflexivity|].
    rewrite IH by exact Hr.
    destruct (find _ (rev r)); [rewrite ?Ec; reflexivity|].
    apply contains_false. exact Ec.
  - apply IH. exact Hr.
Qed.

Section WithConstants.
Context `{Constants}.

Lemma update_commands_are_updates
    (st : t) (obj_id : string) (obj new_obj : CanvasObject) (description : string)
    (skip : list string) (defer : bool) :
  Forall is_update (update_commands st obj_id obj new_obj description skip defer).
Proof.
  unfold update_commands. apply Forall_app. split.
  - apply Forall_forall. intros c Hin. apply in_map_iff in Hin.
    destruct Hin as [[[o n] lbl] [<- _]]. exact I.
  - apply Forall_forall. intros c Hin. apply in_map_iff in Hin.
    destruct Hin as [[o n] [<- _]]. exact I.
Qed.

(** [update_object], once the edit changes the object, runs
    [update_commands] on the model. *)
Lemma update_object_model
    (st : t) (obj_id : string) (changes : list Change) (description : string)
    (skip : list string) (defer : bool) (obj : CanvasObject) :
  Dict.get obj_id st.(model).(objects) = Some obj ->
  let new_obj := _normalize_object (replace obj changes) in
  CanvasObject_eqb new_obj obj = false ->
  let st' := update_object obj_id changes description skip defer st in
  st'.(model)
  = redo_all (update_commands st obj_id obj new_obj description skip defer) st.(model)
  /\ st'.(layout) = st.(layout).
Proof.
  intros Hget new_obj Hneq st'. subst st'. unfold update_object.
  rewrite Hget. fold new_obj. rewrite Hneq.
  unfold update_commands.
  set (st1 := remember_defaults obj new_obj changes st).
  change (_links_for_target st1 obj_id skip) with (_links_for_target st obj_id skip).
  change (_links_from_source st1 obj_id) with (_links_from_source st obj_id).
  change (target_updates st1 new_obj) with (target_updates st new_obj).
  change (source_link_update st1 new_obj) with (source_link_update st new_obj).
  set (updates := (obj, new_obj, description) :: _).
  set (link_updates := if _ && negb defer then _ else _).
  destruct ((1 <? List.length updates)%nat || negb (is_empty link_updates)) eqn:Em.
  - unfold endMacro. simpl model. simpl layout.
    rewrite !model_push_all, !layout_push_all. simpl.
    rewrite redo_all_app. split; reflexivity.
  - apply orb_false_iff in Em. destruct Em as [Eu El].
    rewrite negb_false_iff in El.
    destruct link_updates; [|discriminate].
    assert (Hu : updates = [(obj, new_obj, description)]).
    { subst updates.
      destruct (target_updates st new_obj (_links_for_target st obj_id skip));
        [reflexivity|discriminate]. }
    rewrite Hu. simpl. split; reflexivity.
Qed.

End WithConstants.
End UpdateFacts.

(** ** A textbox follows the target of its link *)

Section AnchorCascade.

Import Py Model Commands Spec Controller PyFacts ObjectFacts DictFacts ModelFacts
       StackFacts UpdateFacts.

Context `{Constants}.

Lemma or_float_some_zero (q : Q) : (or_float (Some q) 0 == q)%Q.
Proof.
  simpl. destruct (Qeq_bool q 0) eqn:E; [|reflexivity].
  apply Qeq_bool_iff in E. symmetry. exact E.
Qed.

Lemma normalize_textbox_geometry (o : CanvasObject) :
  o.(kind) = "textbox" ->
  let n := _normalize_object o in
  n.(x) = Some (or_float o.(x) 0)
  /\ n.(y) = Some (or_float o.(y) 0)
  /\ n.(width)
     = Some (if ltb (or_float o.(width) TEXTBOX_MIN_WIDTH) TEXTBOX_MIN_WIDTH
             then TEXTBOX_MIN_WIDTH else or_float o.(width) TEXTBOX_MIN_WIDTH)
  /\ n.(height)
     = Some (if ltb (or_float o.(height) TEXTBOX_MIN_HEIGHT) TEXTBOX_MIN_HEIGHT
             then TEXTBOX_MIN_HEIGHT else or_float o.(height) TEXTBOX_MIN_HEIGHT).
Proof.
  intro Hk. cbv zeta. remember (_normalize_object o) as n eqn:Hn.
  destruct o. fields_in Hk. subst kind0.
  unfold _normalize_object, _clamp_week in Hn. fields_in Hn.
  change (str_in "textbox" ["milestone"; "circle"; "deadline"]) with false in Hn.
  change ("textbox" =? "arrow") with false in Hn.
  change ("textbox" =? "link") with false in Hn.
  change ("textbox" =? "connector") with false in Hn.
  change ("textbox" =? "textbox") with true in Hn.
  cbv iota in Hn. subst n. fields. repeat split; reflexivity.
Qed.

(** The anchor of a textbox placed by [_textbox_pos_for_anchor] is the
    anchor it was placed for. *)
Lemma anchor_of_placed_textbox
    (o : CanvasObject) (xs ys ws hs w h ax ay : Q)
    (side : option string) (offset : option Q) :
  o.(x) = Some xs -> o.(y) = Some ys -> o.(width) = Some ws -> o.(height) = Some hs ->
  (ws == w)%Q -> (hs == h)%Q ->
  (xs == fst (_textbox_pos_for_anchor ax ay w h side offset))%Q ->
  (ys == snd (_textbox_pos_for_anchor ax ay w h side offset))%Q ->
  (fst (_textbox_anchor_point o side offset) == ax)%Q
  /\ (snd (_textbox_anchor_point o side offset) == ay)%Q.
Proof.
  intros Hx Hy Hw Hh Ews Ehs Exs Eys.
  unfold _textbox_anchor_point, _textbox_pos_for_anchor in *.
  rewrite Hx, Hy, Hw, Hh. unfold if_not_none.
  destruct (eq_opt side "left"); [|destruct (eq_opt side "top");
                                   [|destruct (eq_opt side "bottom")]];
    simpl in *; rewrite ?Exs, ?Eys, ?Ews, ?Ehs; split; ring.
Qed.

Lemma anchor_point_layout (st st' : t) (o : CanvasObject) :
  st'.(layout) = st.(layout) -> _object_anchor_point st' o = _object_anchor_point st o.
Proof. intro Hl. unfold _object_anchor_point. rewrite Hl. reflexivity. Qed.

Variable st : t.
Variables X_id T_id : string.
Variables X T L : CanvasObject.
Variable changes : list Change.
Variable description : string.
Variable skip : list string.
Variable defer : bool.

Let m := st.(model).(objects).
Let X' := _normalize_object (replace X changes).

Hypothesis Hkeyed : well_keyed m = true.
Hypothesis HX : Dict.get X_id m = Some X.
Hypothesis HXkind : (X.(kind) =? "textbox") = false.
Hypothesis HT : Dict.get T_id m = Some T.
Hypothesis HTkind : T.(kind) = "textbox".
Hypothesis HTnorm : _normalize_object T = T.
Hypothesis HTid : T_id <> "".
Hypothesis HL : In L (Dict.values m).
Hypothesis HLkind : L.(kind) = "link".
Hypothesis HLsource : L.(link_source_id) = Some T_id.
Hypothesis HLtarget : L.(link_target_id) = Some X_id.
Hypothesis Hskip : str_in T_id skip = false.
Hypothesis Hone :
  forall L', In L' (Dict.values m) -> L'.(kind) = "link" ->
             L'.(link_source_id) = Some T_id -> L'.(link_target_id) = Some X_id ->
             L' = L.
Hypothesis Hedit : CanvasObject_eqb X' X = false.

Variable P' : Q * Q.
Hypothesis HP' : _object_anchor_point st X' = Some P'.

Let st' := update_object X_id changes description skip defer st.
Let target_links := _links_for_target st X_id skip.
Let ax := (fst P' + or_float L.(link_offset_x) 0)%Q.
Let ay := (snd P' + or_float L.(link_offset_y) 0)%Q.
Let w := if_not_none T.(width) TEXTBOX_MIN_WIDTH.
Let h := if_not_none T.(height) TEXTBOX_MIN_HEIGHT.
Let pos := _textbox_pos_for_anchor ax ay w h L.(link_source_side) L.(link_source_offset).
Let T' :=
  _normalize_object
    (replace T
       ([Ch_x (Some (fst pos)); Ch_y (Some (snd pos))]
        ++ match st.(layout) with
           | Some layout =>
               [Ch_start_week (Layout.week_from_x layout (fst pos) false);
                Ch_end_week (Layout.week_from_x layout (fst pos + w)%Q false)]
           | None => []
           end)).

Lemma L_is_target_link : In L target_links.
Proof.
  unfold target_links, _links_for_target. apply filter_In. split; [exact HL|].
  rewrite HLkind, HLsource, HLtarget. cbn [eq_opt truthy not_in_set].
  rewrite !String.eqb_refl, Hskip.
  replace (T_id =? "") with false by (symmetry; apply String.eqb_neq; exact HTid).
  reflexivity.
Qed.

Lemma X_T_distinct : X_id <> T_id.
Proof.
  intro He. rewrite He in HX. rewrite HT in HX. inversion HX; subst.
  rewrite HTkind in HXkind. discriminate.
Qed.

Lemma target_link_update_L :
  target_link_update st P' L
  = if negb (CanvasObject_eqb T' T) then [(T, T', "Anchor Textbox")] else [].
Proof.
  unfold target_link_update. rewrite HLsource. cbn [truthy].
  replace (T_id =? "") with false by (symmetry; apply String.eqb_neq; exact HTid).
  cbn [negb]. fold m. rewrite HT, HTkind.
  change ("textbox" =? "textbox") with true. cbn [negb].
  fold ax ay w h. fold pos. destruct pos as [nx ny] eqn:Epos. reflexivity.
Qed.

(** Every update of the cascade made under the key of [T] is the one of
    [L]. *)
Lemma cascade_update_of_T (u : CanvasObject * CanvasObject * string) :
  In u (target_updates st X' target_links) ->
  (fst (fst u)).(id) = T_id ->
  u = (T, T', "Anchor Textbox") /\ CanvasObject_eqb T' T = false.
Proof.
  unfold target_updates, target_links. fold m.
  destruct (is_empty (_links_for_target st X_id skip)); [intros []|].
  rewrite HP'. intros Hin Hid.
  apply in_flat_map in Hin. destruct Hin as [l [Hl Hu]].
  assert (Hl' := Hl). unfold _links_for_target in Hl'. apply filter_In in Hl'.
  destruct Hl' as [Hlin Hlp].
  apply andb_true_iff in Hlp. destruct Hlp as [Hlp _].
  apply andb_true_iff in Hlp. destruct Hlp as [Hlp _].
  apply andb_true_iff in Hlp. destruct Hlp as [Hlk Hlt].
  apply String.eqb_eq in Hlk.
  assert (Hlt' : l.(link_target_id) = Some X_id).
  { unfold eq_opt in Hlt. destruct l.(link_target_id) as [t0|]; [|discriminate].
    apply String.eqb_eq in Hlt. congruence. }
  assert (Hls : l.(link_source_id) = Some T_id).
  { unfold target_link_update in Hu.
    destruct (negb (truthy l.(link_source_id))); [contradiction|].
    destruct l.(link_source_id) as [s|]; [|contradiction].
    fold m in Hu. destruct (Dict.get s m) as [source|] eqn:Es; [|contradiction].
    destruct (negb (source.(kind) =? "textbox")); [contradiction|].
    match type of Hu with
    | context [_textbox_pos_for_anchor ?a ?b ?c ?d ?e ?f] =>
        remember (_textbox_pos_for_anchor a b c d e f) as p eqn:Ep;
        destruct p as [nx ny]; clear Ep
    end.
    cbv beta iota in Hu.
    match type of Hu with
    | In _ (if ?c then _ else _) => destruct c; [|contradiction]
    end.
    destruct Hu as [<-|[]]. cbn [fst] in Hid.
    rewrite (well_keyed_id _ _ _ Hkeyed Es) in Hid. congruence. }
  assert (l = L) by (apply Hone; assumption). subst l.
  rewrite target_link_update_L in Hu.
  destruct (CanvasObject_eqb T' T); cbn [negb] in Hu; [contradiction|].
  destruct Hu as [<-|[]]. split; reflexivity.
Qed.

Lemma update_commands_of_edit :
  update_commands st X_id X X' description skip defer
  = map update_command ((X, X', description) :: target_updates st X' target_links).
Proof.
  unfold update_commands. rewrite HXkind. cbn [is_empty negb andb].
  cbn [map]. rewrite app_nil_r. reflexivity.
Qed.

(** What the model holds under the key of [T] after the edit. *)
Lemma stored_textbox_after_edit :
  Dict.get T_id st'.(model).(objects)
  = Some (if CanvasObject_eqb T' T then T else T').
Proof.
  destruct (update_object_model st X_id changes description skip defer X HX Hedit)
    as [Hmodel _].
  fold st' in Hmodel. fold X' in Hmodel. rewrite Hmodel.
  rewrite get_redo_updates by apply update_commands_are_updates.
  rewrite update_commands_of_edit. fold m.
  assert (Hc : Dict.contains T_id m = true)
    by (apply contains_true; eexists; exact HT).
  rewrite Hc.
  destruct (find _ _) as [c|] eqn:Ef.
  - apply find_some in Ef. destruct Ef as [Hin Hkey].
    apply String.eqb_eq in Hkey. apply in_rev in Hin.
    apply in_map_iff in Hin. destruct Hin as [u [Hu Hin]]. subst c.
    destruct Hin as [<-|Hin].
    + cbn [update_command command_key] in Hkey.
      rewrite (well_keyed_id _ _ _ Hkeyed HX) in Hkey.
      exfalso. apply X_T_distinct. exact Hkey.
    + destruct u as [[o n] lbl]. cbn [update_command command_key] in Hkey.
      destruct (cascade_update_of_T _ Hin Hkey) as [Hu Hne].
      inversion Hu; subst. rewrite Hne. reflexivity.
  - destruct (CanvasObject_eqb T' T) eqn:Ee; [exact HT|].
    exfalso.
    assert (Hin : In (UpdateObjectCommand T T' "Anchor Textbox")
                     (rev (map update_command
                               ((X, X', description)
                                :: target_updates st X' target_links)))).
    { apply in_rev. rewrite rev_involutive.
      change (UpdateObjectCommand T T' "Anchor Textbox")
        with (update_command (T, T', "Anchor Textbox")).
      apply in_map. right. unfold target_updates.
      pose proof L_is_target_link as HLin.
      destruct target_links as [|l0 r0] eqn:Etl; [contradiction|].
      cbn [is_empty]. rewrite HP'.
      apply in_flat_map. exists L. split; [exact HLin|].
      rewrite target_link_update_L, Ee. left. reflexivity. }
    pose proof (find_none _ _ Ef _ Hin) as Hn. cbn [command_key] in Hn.
    rewrite (well_keyed_id _ _ _ Hkeyed HT), String.eqb_refl in Hn. discriminate.
Qed.

(** What the model holds under the key of [X] after the edit. *)
Lemma stored_target_after_edit : Dict.get X_id st'.(model).(objects) = Some X'.
Proof.
  destruct (update_object_model st X_id changes description skip defer X HX Hedit)
    as [Hmodel _].
  fold st' in Hmodel. fold X' in Hmodel. rewrite Hmodel.
  rewrite get_redo_updates by apply update_commands_are_updates.
  rewrite update_commands_of_edit. fold m.
  assert (Hc : Dict.contains X_id m = true)
    by (apply contains_true; eexists; exact HX).
  rewrite Hc.
  assert (Hin0 : In (UpdateObjectCommand X X' description)
                    (rev (map update_command
                              ((X, X', description)
                               :: target_updates st X' target_links)))).
  { apply in_rev. rewrite rev_involutive. left. reflexivity. }
  destruct (find _ _) as [c|] eqn:Ef.
  - apply find_some in Ef. destruct Ef as [Hin Hkey].
    apply String.eqb_eq in Hkey. apply in_rev in Hin.
    apply in_map_iff in Hin. destruct Hin as [u [Hu Hin]]. subst c.
    destruct Hin as [<-|Hin]; [reflexivity|].
    exfalso. unfold target_updates in Hin.
    destruct (is_empty target_links); [contradiction|].
    rewrite HP' in Hin. apply in_flat_map in Hin. destruct Hin as [l [_ Hu]].
    unfold target_link_update in Hu.
    destruct (negb (truthy l.(link_source_id))); [contradiction|].
    destruct l.(link_source_id) as [s|]; [|contradiction].
    fold m in Hu. destruct (Dict.get s m) as [source|] eqn:Es; [|contradiction].
    destruct (source.(kind) =? "textbox") eqn:Esk; [|contradiction].
    cbn [negb] in Hu.
    match type of Hu with
    | context [_textbox_pos_for_anchor ?a ?b ?c ?d ?e ?f] =>
        remember (_textbox_pos_for_anchor a b c d e f) as p eqn:Ep;
        destruct p as [nx ny]; clear Ep
    end.
    cbv beta iota in Hu.
    match type of Hu with
    | In _ (if ?c then _ else _) => destruct c; [|contradiction]
    end.
    destruct Hu as [<-|[]]. cbn [update_command command_key] in Hkey.
    rewrite (well_keyed_id _ _ _ Hkeyed Es) in Hkey. subst s.
    rewrite HX in Es. inversion Es; subst. rewrite Esk in HXkind. discriminate.
  - pose proof (find_none _ _ Ef _ Hin0) as Hn. cbn [command_key] in Hn.
    rewrite (well_keyed_id _ _ _ Hkeyed HX), String.eqb_refl in Hn. discriminate.
Qed.

Lemma T_extent : T.(width) = Some w /\ T.(height) = Some h.
Proof.
  destruct (normalize_textbox_geometry T HTkind) as (_ & _ & Hw & Hh).
  rewrite HTnorm in Hw, Hh. unfold w, h. rewrite Hw, Hh. split; reflexivity.
Qed.

(** The geometry of the repositioned textbox. *)
Lemma T'_geometry :
  exists xs ys,
    T'.(x) = Some xs /\ T'.(y) = Some ys
    /\ T'.(width) = Some w /\ T'.(height) = Some h
    /\ (xs == fst pos)%Q /\ (ys == snd pos)%Q.
Proof.
  set (R := replace T _) in T'.
  assert (HRk : R.(kind) = "textbox").
  { subst R. destruct st.(layout); exact HTkind. }
  assert (HRx : R.(x) = Some (fst pos)) by (subst R; destruct st.(layout); reflexivity).
  assert (HRy : R.(y) = Some (snd pos)) by (subst R; destruct st.(layout); reflexivity).
  assert (HRw : R.(width) = T.(width)) by (subst R; destruct st.(layout); reflexivity).
  assert (HRh : R.(height) = T.(height)) by (subst R; destruct st.(layout); reflexivity).
  destruct (normalize_textbox_geometry R HRk) as (Hx & Hy & Hw & Hh).
  destruct (normalize_textbox_geometry T HTkind) as (_ & _ & HTw & HTh).
  rewrite HTnorm in HTw, HTh.
  fold T' in Hx, Hy, Hw, Hh. rewrite HRx in Hx. rewrite HRy in Hy.
  rewrite HRw, <- HTw in Hw. rewrite HRh, <- HTh in Hh.
  destruct T_extent as [Ew Eh].
  exists (or_float (Some (fst pos)) 0), (or_float (Some (snd pos)) 0).
  split; [exact Hx|]. split; [exact Hy|].
  split; [rewrite Hw; exact Ew|]. split; [rewrite Hh; exact Eh|].
  split; apply or_float_some_zero.
Qed.

(** The textbox stored after the edit has its anchor at the anchor point
    of the edited target plus the offset the link stores. *)
Lemma stored_textbox_anchor :
  exists S,
    Dict.get T_id st'.(model).(objects) = Some S
    /\ (fst (_textbox_anchor_point S L.(link_source_side) L.(link_source_offset))
        == ax)%Q
    /\ (snd (_textbox_anchor_point S L.(link_source_side) L.(link_source_offset))
        == ay)%Q.
Proof.
  destruct T'_geometry as (xs & ys & Hx & Hy & Hw & Hh & Exs & Eys).
  exists (if CanvasObject_eqb T' T then T else T').
  split; [exact stored_textbox_after_edit|].
  destruct (CanvasObject_eqb T' T) eqn:Ee.
  - destruct (CanvasObject_eqb_fields _ _ Ee) as (_ & _ & _ & Fx & Fy & Fw & Fh).
    apply option_eqb_Q in Fx, Fy, Fw, Fh.
    rewrite Hx in Fx. rewrite Hy in Fy. rewrite Hw in Fw. rewrite Hh in Fh.
    destruct T.(x) as [tx|] eqn:Etx; [|contradiction].
    destruct T.(y) as [ty|] eqn:Ety; [|contradiction].
    destruct T.(width) as [tw|] eqn:Etw; [|contradiction].
    destruct T.(height) as [th|] eqn:Eth; [|contradiction].
    apply (anchor_of_placed_textbox T tx ty tw th w h ax ay _ _ Etx Ety Etw Eth);
      [ symmetry; exact Fw | symmetry; exact Fh
      | rewrite <- Fx; exact Exs | rewrite <- Fy; exact Eys ].
  - apply (anchor_of_placed_textbox T' xs ys w h w h ax ay _ _ Hx Hy Hw Hh);
      [ reflexivity | reflexivity | exact Exs | exact Eys ].
Qed.

End AnchorCascade.


(** ** One z-index assigned by [update_object] *)

Module ZOrderFacts.

Import Py Model Commands Spec Controller PyFacts ObjectFacts DictFacts ModelFacts
       StackFacts UpdateFacts.

Lemma same_identity_refl (o : CanvasObject) : same_identity o o.
Proof. repeat split. Qed.

Lemma same_identity_trans (a b c : CanvasObject) :
  same_identity a b -> same_identity b c -> same_identity a c.
Proof.
  intros (A1 & A2 & A3 & A4) (B1 & B2 & B3 & B4).
  repeat split; congruence.
Qed.

Lemma no_self_links_spec (d : Dict.t CanvasObject) (o : CanvasObject) (s : string) :
  no_self_links d = true -> In o (Dict.values d) -> o.(kind) = "link" ->
  o.(link_source_id) = Some s -> o.(link_target_id) = Some s -> False.
Proof.
  unfold no_self_links. intros Hall Hin Hk Hs Ht.
  rewrite forallb_forall in Hall. specialize (Hall o Hin).
  rewrite Hk, Hs, Ht, !String.eqb_refl in Hall. discriminate.
Qed.

(** A model whose keys and whose objects' identities are those of a
    well-formed model is well formed. *)
Lemma invariants_preserved (d d' : Dict.t CanvasObject) :
  well_keyed d = true ->
  Dict.keys d' = Dict.keys d ->
  (forall k o', Dict.get k d' = Some o' ->
                exists o, Dict.get k d = Some o /\ same_identity o o') ->
  well_keyed d' = true /\ (no_self_links d = true -> no_self_links d' = true).
Proof.
  intros Hwk Hkeys Hrel. pose proof (well_keyed_NoDup _ Hwk) as Hnd.
  assert (Hnd' : NoDup (Dict.keys d')) by (rewrite Hkeys; exact Hnd).
  split.
  - apply well_keyed_intro; [exact Hnd'|].
    intros k o' Hg. destruct (Hrel k o' Hg) as [o [Ho (Hid & _)]].
    rewrite <- Hid. eapply well_keyed_id; eassumption.
  - intro Hns. unfold no_self_links. apply forallb_forall. intros o' Hin.
    destruct (in_values _ _ Hin) as [k Hk]. apply in_get in Hk; [|exact Hnd'].
    destruct (Hrel k o' Hk) as [o [Ho (_ & Hkind & Hs & Ht)]].
    unfold no_self_links in Hns. rewrite forallb_forall in Hns.
    specialize (Hns o (get_in_values _ _ _ Ho)).
    rewrite <- Hkind, <- Hs, <- Ht. exact Hns.
Qed.

Section WithConstants.
Context `{Constants}.

Lemma normalize_same_identity (o : CanvasObject) :
  same_identity o (_normalize_object o).
Proof.
  destruct (normalize_static o) as (Hid & Hk & _ & _ & _ & Hs & Ht & _).
  repeat split; symmetry; assumption.
Qed.

(** Every command of an edit other than the edit itself updates another
    object of the model and leaves its identity and its z-index alone. *)
Lemma update_commands_secondary
    (st : t) (k : string) (obj new_obj : CanvasObject) (description : string)
    (skip : list string) (defer : bool) (c : QUndoCommand) :
  well_keyed st.(model).(objects) = true ->
  no_self_links st.(model).(objects) = true ->
  Dict.get k st.(model).(objects) = Some obj ->
  In c (update_commands st k obj new_obj description skip defer) ->
  c = UpdateObjectCommand obj new_obj description
  \/ exists old new label,
       c = UpdateObjectCommand old new label
       /\ Dict.get old.(id) st.(model).(objects) = Some old
       /\ old.(id) <> k
       /\ same_identity old new
       /\ new.(z_index) = old.(z_index).
Proof.
  intros Hwk Hns Hget Hin. unfold update_commands in Hin.
  apply in_app_or in Hin. destruct Hin as [Hin|Hin].
  - apply in_map_iff in Hin. destruct Hin as [u [Hu Hin]].
    destruct Hin as [<-|Hin]; [left; symmetry; exact Hu|]. right.
    unfold target_updates in Hin.
    destruct (is_empty (_links_for_target st k skip)); [contradiction|].
    destruct (_object_anchor_point st new_obj) as [p|]; [|contradiction].
    apply in_flat_map in Hin. destruct Hin as [l [Hl Hin]].
    unfold _links_for_target in Hl. apply filter_In in Hl. destruct Hl as [Hlin Hlp].
    apply andb_true_iff in Hlp. destruct Hlp as [Hlp _].
    apply andb_true_iff in Hlp. destruct Hlp as [Hlp _].
    apply andb_true_iff in Hlp. destruct Hlp as [Hlk Hlt].
    apply String.eqb_eq in Hlk.
    assert (Hlt' : l.(link_target_id) = Some k).
    { unfold eq_opt in Hlt. destruct l.(link_target_id) as [t0|]; [|discriminate].
      apply String.eqb_eq in Hlt. congruence. }
    unfold target_link_update in Hin.
    destruct (negb (truthy l.(link_source_id))); [contradiction|].
    destruct l.(link_source_id) as [s|] eqn:Els; [|contradiction].
    destruct (Dict.get s st.(model).(objects)) as [source|] eqn:Es; [|contradiction].
    destruct (negb (source.(kind) =? "textbox")); [contradiction|].
    match type of Hin with
    | context [_textbox_pos_for_anchor ?a ?b ?c ?d ?e ?f] =>
        remember (_textbox_pos_for_anchor a b c d e f) as q eqn:Eq;
        destruct q as [nx ny]; clear Eq
    end.
    cbv beta iota in Hin.
    match type of Hin with
    | In _ (if ?b then _ else _) => destruct b; [|contradiction]
    end.
    destruct Hin as [<-|[]]. subst c. cbn [update_command].
    pose proof (well_keyed_id _ _ _ Hwk Es) as Hsid.
    eexists _, _, _. split; [reflexivity|].
    split; [rewrite Hsid; exact Es|].
    split.
    { intro He. rewrite Hsid in He. rewrite He in Els.
      exact (no_self_links_spec _ l k Hns Hlin Hlk Els Hlt'). }
    split.
    { eapply same_identity_trans; [|apply normalize_same_identity].
      destruct st.(layout); repeat split. }
    rewrite normalize_z_index. destruct st.(layout); reflexivity.
  - right. apply in_map_iff in Hin. destruct Hin as [[link new] [Hc Hin]].
    cbn [fst snd] in Hc. subst c.
    destruct (obj.(kind) =? "textbox") eqn:Ek; [|contradiction].
    match type of Hin with
    | In _ (if ?b then _ else _) => destruct b; [|contradiction]
    end.
    apply in_flat_map in Hin. destruct Hin as [l [Hl Hin]].
    unfold _links_from_source in Hl. apply filter_In in Hl. destruct Hl as [Hlin Hlp].
    apply andb_true_iff in Hlp. destruct Hlp as [Hlk _].
    apply String.eqb_eq in Hlk.
    unfold source_link_update in Hin.
    destruct (negb (truthy l.(link_target_id))); [contradiction|].
    destruct l.(link_target_id) as [tid|]; [|contradiction].
    destruct (Dict.get tid st.(model).(objects)) as [target|]; [|contradiction].
    destruct (_object_anchor_point st target) as [tp|]; [|contradiction].
    match type of Hin with
    | In _ (if ?b then _ else _) => destruct b; [|contradiction]
    end.
    destruct Hin as [Hin|[]]. inversion Hin; subst link new. clear Hin.
    eexists _, _, _. split; [reflexivity|].
    split; [apply well_keyed_value; assumption|].
    split.
    { intro He. pose proof (well_keyed_value _ _ Hwk Hlin) as Hg.
      rewrite He, Hget in Hg. inversion Hg; subst l.
      apply String.eqb_eq in Ek. rewrite Ek in Hlk. discriminate. }
    split.
    { eapply same_identity_trans; [|apply normalize_same_identity].
      repeat split. }
    rewrite normalize_z_index. reflexivity.
Qed.

(** An edit of the z-index alone: the edited object gets the index, every
    other object keeps its own; keys and identities stay. *)
Lemma update_object_z_index (st : t) (k : string) (obj : CanvasObject) (i : Z) :
  well_keyed st.(model).(objects) = true ->
  no_self_links st.(model).(objects) = true ->
  Dict.get k st.(model).(objects) = Some obj ->
  obj.(z_index) <> i ->
  let st' := update_object k [Ch_z_index i] "Reorder" [] false st in
  Dict.keys st'.(model).(objects) = Dict.keys st.(model).(objects)
  /\ st'.(layout) = st.(layout)
  /\ forall k' o',
       Dict.get k' st'.(model).(objects) = Some o' ->
       exists o,
         Dict.get k' st.(model).(objects) = Some o
         /\ same_identity o o'
         /\ o'.(z_index) = if String.eqb k' k then i else o.(z_index).
Proof.
  intros Hwk Hns Hget Hz st'.
  set (new_obj := _normalize_object (replace obj [Ch_z_index i])).
  assert (Hnz : new_obj.(z_index) = i)
    by (subst new_obj; rewrite normalize_z_index; reflexivity).
  assert (Hneq : CanvasObject_eqb new_obj obj = false).
  { destruct (CanvasObject_eqb new_obj obj) eqn:E; [|reflexivity].
    destruct (CanvasObject_eqb_fields _ _ E) as (_ & _ & Hzz & _).
    exfalso. apply Hz. rewrite <- Hzz. exact Hnz. }
  destruct (update_object_model st k [Ch_z_index i] "Reorder" [] false obj Hget Hneq)
    as [Hmodel Hlayout].
  fold st' in Hmodel, Hlayout. fold new_obj in Hmodel.
  set (cmds := update_commands st k obj new_obj "Reorder" [] false) in *.
  assert (Hupd : Forall is_update cmds) by apply update_commands_are_updates.
  pose proof (well_keyed_id _ _ _ Hwk Hget) as Hobjid.
  split; [rewrite Hmodel; apply keys_redo_updates; exact Hupd|].
  split; [exact Hlayout|].
  intros k' o' Hg. rewrite Hmodel, get_redo_updates in Hg by exact Hupd.
  destruct (find _ (rev cmds)) as [c|] eqn:Ef.
  - apply find_some in Ef. destruct Ef as [Hin Hkey].
    apply String.eqb_eq in Hkey. apply in_rev in Hin.
    destruct (Dict.contains k' st.(model).(objects)) eqn:Ec; [|discriminate].
    destruct (update_commands_secondary st k obj new_obj "Reorder" [] false c
                Hwk Hns Hget Hin)
      as [Hc|(old & new & label & Hc & Hold & Hne & Hsame & Hzz)]; subst c.
    + cbn [command_key] in Hkey. cbn [command_new] in Hg. inversion Hg; subst o'.
      rewrite Hobjid in Hkey. subst k'. exists obj.
      split; [exact Hget|]. split.
      * subst new_obj. eapply same_identity_trans; [|apply normalize_same_identity].
        repeat split.
      * rewrite String.eqb_refl. exact Hnz.
    + cbn [command_key] in Hkey. cbn [command_new] in Hg. inversion Hg; subst o'.
      subst k'. exists old. split; [exact Hold|]. split; [exact Hsame|].
      replace (old.(id) =? k) with false
        by (symmetry; apply String.eqb_neq; exact Hne).
      exact Hzz.
  - exists o'. split; [exact Hg|]. split; [apply same_identity_refl|].
    destruct (String.eqb_spec k' k) as [->|Hne]; [|reflexivity].
    exfalso.
    assert (Hin : In (UpdateObjectCommand obj new_obj "Reorder") (rev cmds)).
    { apply in_rev. rewrite rev_involutive. subst cmds. unfold update_commands.
      apply in_or_app. left. left. reflexivity. }
    pose proof (find_none _ _ Ef _ Hin) as Hn. cbn [command_key] in Hn.
    rewrite Hobjid, String.eqb_refl in Hn. discriminate.
Qed.

End WithConstants.
End ZOrderFacts.

(** ** Lists: partitions, adjacent swaps, positions and sorting *)

Module OrderFacts.

Import Py Spec Controller ModelFacts.

Lemma filter_partition_perm {A : Type} (f : A -> bool) (l : list A) :
  Permutation (filter (fun a => negb (f a)) l ++ filter f l) l.
Proof.
  induction l as [|a r IH]; simpl; [constructor|].
  destruct (f a); simpl.
  - apply Permutation_sym. apply Permutation_cons_app. apply Permutation_sym. exact IH.
  - constructor. exact IH.
Qed.

Lemma filter_filter_neg {A : Type} (f : A -> bool) (l : list A) :
  filter (fun a => negb (f a)) (filter f l) = [].
Proof.
  induction l as [|a r IH]; simpl; [reflexivity|].
  destruct (f a) eqn:E; simpl; [rewrite E; simpl|]; exact IH.
Qed.

Lemma filter_idem {A : Type} (f : A -> bool) (l : list A) :
  filter f (filter f l) = filter f l.
Proof.
  induction l as [|a r IH]; simpl; [reflexivity|].
  destruct (f a) eqn:E; simpl; [rewrite E; f_equal|]; exact IH.
Qed.

(** *** Adjacent swaps *)

Lemma swap_cons {A : Type} (i j : nat) (a : A) (r : list A) :
  swap (S i) (S j) (a :: r) = a :: swap i j r.
Proof.
  unfold swap. simpl nth_error.
  destruct (nth_error r i), (nth_error r j); reflexivity.
Qed.

Lemma swap_up_perm {A : Type} (i : nat) (l : list A) :
  Permutation (swap i (S i) l) l.
Proof.
  revert i. induction l as [|a r IH]; intro i.
  - unfold swap. destruct i; reflexivity.
  - destruct i as [|i].
    + unfold swap. simpl. destruct r as [|b r']; simpl; [reflexivity|].
      apply perm_swap.
    + rewrite swap_cons. constructor. apply IH.
Qed.

Lemma swap_down_perm {A : Type} (i : nat) (l : list A) :
  Permutation (swap (S i) i l) l.
Proof.
  revert i. induction l as [|a r IH]; intro i.
  - unfold swap. destruct i; reflexivity.
  - destruct i as [|i].
    + unfold swap. simpl. destruct r as [|b r']; simpl; [reflexivity|].
      apply perm_swap.
    + rewrite swap_cons. constructor. apply IH.
Qed.

Lemma fold_swaps_perm {A : Type}
    (f : list A -> nat -> list A) (indices : list nat) (l : list A) :
  (forall l' i, Permutation (f l' i) l') ->
  Permutation (fold_left f indices l) l.
Proof.
  intro Hf. revert l. induction indices as [|i r IH]; intro l; simpl; [reflexivity|].
  eapply Permutation_trans; [apply IH|apply Hf].
Qed.

(** *** Positions *)

Lemma index_of_map_seq (l : list string) (start : nat) :
  NoDup l -> map (fun k => (start + index_of k l)%nat) l = seq start (List.length l).
Proof.
  revert start. induction l as [|a r IH]; intros start Hnd; [reflexivity|].
  inversion Hnd as [|? ? Hni Hnd']; subst. simpl.
  rewrite String.eqb_refl, Nat.add_0_r. f_equal.
  rewrite <- (IH (S start) Hnd'). apply map_ext_in. intros k Hin.
  destruct (String.eqb_spec k a) as [->|Hne]; [contradiction|]. lia.
Qed.

Lemma nth_index_of (l : list string) (k : string) :
  In k l -> nth (index_of k l) l "" = k.
Proof.
  induction l as [|a r IH]; simpl; [intros []|].
  intros [->|Hin].
  - rewrite String.eqb_refl. reflexivity.
  - destruct (String.eqb_spec k a) as [->|Hne]; [reflexivity|]. apply IH. exact Hin.
Qed.

Lemma map_nth_seq (l : list string) :
  map (fun j => nth j l "") (seq 0 (List.length l)) = l.
Proof.
  induction l as [|a r IH]; [reflexivity|].
  simpl. f_equal. rewrite <- seq_shift, map_map. exact IH.
Qed.

(** *** [sorted] *)

Lemma insert_by_perm {A : Type} (key : A -> Z * Z) (a : A) (l : list A) :
  Permutation (insert_by key a l) (a :: l).
Proof.
  induction l as [|b r IH]; simpl; [reflexivity|].
  destruct (key_le (key a) (key b)); [reflexivity|].
  eapply Permutation_trans; [constructor; exact IH|apply perm_swap].
Qed.

Lemma sorted_perm {A : Type} (key : A -> Z * Z) (l : list A) :
  Permutation (sorted key l) l.
Proof.
  induction l as [|a r IH]; simpl; [constructor|].
  eapply Permutation_trans; [apply insert_by_perm|]. constructor. exact IH.
Qed.

Lemma key_le_total (p q : Z * Z) : key_le p q = false -> key_le q p = true.
Proof.
  unfold key_le. destruct p as [a b], q as [c d]. simpl. intro Hx.
  apply orb_false_iff in Hx. destruct Hx as [H1 H2].
  apply Z.ltb_ge in H1. apply orb_true_iff.
  destruct (Z.eqb_spec a c) as [->|Hne].
  - right. rewrite Z.eqb_refl. simpl in *. apply Z.leb_le. apply Z.leb_gt in H2. lia.
  - left. apply Z.ltb_lt. lia.
Qed.

Lemma key_le_fst (p q : Z * Z) : key_le p q = true -> fst p <= fst q.
Proof.
  unfold key_le. intro Hx. apply orb_true_iff in Hx. destruct Hx as [Hx|Hx].
  - apply Z.ltb_lt in Hx. lia.
  - apply andb_true_iff in Hx. destruct Hx as [Hx _]. apply Z.eqb_eq in Hx. lia.
Qed.

(** The first components along a sorted list never decrease. *)
Lemma insert_by_sorted {A : Type} (key : A -> Z * Z) (a : A) (l : list A) :
  Sorted (fun u v => key_le (key u) (key v) = true) l ->
  Sorted (fun u v => key_le (key u) (key v) = true) (insert_by key a l).
Proof.
  induction l as [|b r IH]; simpl; intro Hs.
  - constructor; constructor.
  - destruct (key_le (key a) (key b)) eqn:E.
    + constructor; [exact Hs|]. constructor. exact E.
    + inversion Hs as [|? ? Hr Hhd]; subst.
      constructor; [apply IH; exact Hr|].
      destruct r as [|c r']; simpl.
      * constructor. apply key_le_total. exact E.
      * destruct (key_le (key a) (key c)).
        -- constructor. apply key_le_total. exact E.
        -- inversion Hhd; subst. constructor. assumption.
Qed.

Lemma sorted_is_sorted {A : Type} (key : A -> Z * Z) (l : list A) :
  Sorted (fun u v => key_le (key u) (key v) = true) (sorted key l).
Proof.
  induction l as [|a r IH]; simpl; [constructor|].
  apply insert_by_sorted. exact IH.
Qed.

Lemma sorted_fst_le {A : Type} (key : A -> Z * Z) (l : list A) :
  Sorted (fun u v => key_le (key u) (key v) = true) l ->
  Sorted Z.le (map (fun u => fst (key u)) l).
Proof.
  induction 1 as [|a r Hr IH Hhd]; simpl; constructor; [exact IH|].
  destruct Hhd as [|b r' Hab]; simpl; constructor.
  apply key_le_fst. exact Hab.
Qed.

(** Two non-decreasing lists of integers with the same elements are the
    same list. *)
Lemma sorted_perm_eq (l1 l2 : list Z) :
  StronglySorted Z.le l1 -> StronglySorted Z.le l2 -> Permutation l1 l2 -> l1 = l2.
Proof.
  revert l2. induction l1 as [|a r1 IH]; intros l2 H1 H2 Hp.
  - apply Permutation_nil in Hp. symmetry. exact Hp.
  - destruct l2 as [|b r2].
    + apply Permutation_sym, Permutation_nil in Hp. discriminate.
    + inversion H1 as [|? ? Hs1 Hf1]; subst. inversion H2 as [|? ? Hs2 Hf2]; subst.
      assert (Hab : a = b).
      { assert (Ha : In a (b :: r2))
          by (eapply Permutation_in; [exact Hp|left; reflexivity]).
        assert (Hb : In b (a :: r1))
          by (eapply Permutation_in; [apply Permutation_sym; exact Hp|left; reflexivity]).
        rewrite Forall_forall in Hf1, Hf2.
        destruct Ha as [Ha|Ha]; [congruence|].
        destruct Hb as [Hb|Hb]; [congruence|].
        specialize (Hf1 _ Hb). specialize (Hf2 _ Ha). lia. }
      subst b. f_equal. apply IH; try assumption.
      eapply Permutation_cons_inv. exact Hp.
Qed.

Lemma seq_Z_sorted (start n : nat) :
  StronglySorted Z.le (map Z.of_nat (seq start n)).
Proof.
  revert start. induction n as [|n IH]; intro start; simpl; constructor.
  - apply IH.
  - apply Forall_forall. intros z Hin. apply in_map_iff in Hin.
    destruct Hin as [j [<- Hj]]. apply in_seq in Hj. lia.
Qed.

(** *** The values of a dictionary along its keys *)

Lemma map_values_keys {V B : Type} (f : V -> B) (g : string -> B) (d : Dict.t V) :
  NoDup (Dict.keys d) ->
  (forall k v, Dict.get k d = Some v -> f v = g k) ->
  map f (Dict.values d) = map g (Dict.keys d).
Proof.
  induction d as [|[k v] r IH]; intros Hnd Hfg; [reflexivity|].
  inversion Hnd as [|? ? Hni Hnd']; subst. simpl. f_equal.
  - apply Hfg. simpl. rewrite String.eqb_refl. reflexivity.
  - apply IH; [exact Hnd'|]. intros k' v' Hg. apply Hfg. simpl.
    destruct (String.eqb_spec k' k) as [->|Hne]; [|exact Hg].
    exfalso. apply Hni. eapply DictFacts.get_in_keys. exact Hg.
Qed.

End OrderFacts.

(** ** [_apply_z_order] and [reorder_objects] *)

Section Reorder.

Import Py Model Commands Spec Controller PyFacts ObjectFacts DictFacts ModelFacts
       StackFacts UpdateFacts ZOrderFacts OrderFacts.

Context `{Constants}.

(** The body of the loop of [_apply_z_order]. *)
Let step : t -> Z * string -> t :=
  fun acc p =>
    let '(index, obj_id) := p in
    match Dict.get obj_id acc.(model).(objects) with
    | None => acc
    | Some obj =>
        if (obj.(z_index) =? index)%Z then acc
        else update_object obj_id [Ch_z_index index] "Reorder" [] false acc
    end.

Lemma step_spec (st : t) (k : string) (i : Z) :
  well_keyed st.(model).(objects) = true ->
  no_self_links st.(model).(objects) = true ->
  Dict.contains k st.(model).(objects) = true ->
  let st' := step st (i, k) in
  Dict.keys st'.(model).(objects) = Dict.keys st.(model).(objects)
  /\ forall k' o',
       Dict.get k' st'.(model).(objects) = Some o' ->
       exists o,
         Dict.get k' st.(model).(objects) = Some o
         /\ same_identity o o'
         /\ o'.(z_index) = if String.eqb k' k then i else o.(z_index).
Proof.
  intros Hwk Hns Hc st'. subst st'. unfold step.
  apply contains_true in Hc. destruct Hc as [obj Hobj]. rewrite Hobj.
  destruct (Z.eqb_spec obj.(z_index) i) as [Hz|Hz].
  - split; [reflexivity|]. intros k' o' Hg. exists o'.
    split; [exact Hg|]. split; [apply same_identity_refl|].
    destruct (String.eqb_spec k' k) as [->|Hne]; [|reflexivity].
    rewrite Hobj in Hg. inversion Hg; subst. reflexivity.
  - destruct (update_object_z_index st k obj i Hwk Hns Hobj Hz) as (Hk & _ & Hrel).
    split; assumption.
Qed.

(** After the loop every listed object carries its position in the list,
    counted from [start]; the others keep their z-index. *)
Lemma loop_spec (ids : list string) (start : nat) (st : t) :
  NoDup ids ->
  (forall k, In k ids -> Dict.contains k st.(model).(objects) = true) ->
  well_keyed st.(model).(objects) = true ->
  no_self_links st.(model).(objects) = true ->
  let st' := fold_left step (combine (map Z.of_nat (seq start (List.length ids))) ids)
                       st in
  Dict.keys st'.(model).(objects) = Dict.keys st.(model).(objects)
  /\ forall k' o',
       Dict.get k' st'.(model).(objects) = Some o' ->
       exists o,
         Dict.get k' st.(model).(objects) = Some o
         /\ same_identity o o'
         /\ o'.(z_index) = if str_in k' ids
                           then Z.of_nat (start + index_of k' ids)
                           else o.(z_index).
Proof.
  revert start st. induction ids as [|k r IH]; intros start st Hnd Hin Hwk Hns.
  - simpl. split; [reflexivity|]. intros k' o' Hg. exists o'.
    split; [exact Hg|]. split; [apply same_identity_refl|reflexivity].
  - inversion Hnd as [|? ? Hni Hnd']; subst.
    cbn [List.length seq map combine fold_left].
    assert (Hck : Dict.contains k st.(model).(objects) = true)
      by (apply Hin; left; reflexivity).
    destruct (step_spec st k (Z.of_nat start) Hwk Hns Hck) as [Hk1 Hrel1].
    set (st1 := step st (Z.of_nat start, k)) in *.
    assert (Hrel1' : forall k0 o', Dict.get k0 st1.(model).(objects) = Some o' ->
                       exists o, Dict.get k0 st.(model).(objects) = Some o
                                 /\ same_identity o o').
    { intros k0 o' Hg. destruct (Hrel1 k0 o' Hg) as [o [Ho [Hs _]]].
      exists o. split; assumption. }
    destruct (invariants_preserved _ _ Hwk Hk1 Hrel1') as [Hwk1 Hns1].
    specialize (Hns1 Hns).
    assert (Hin1 : forall k0, In k0 r -> Dict.contains k0 st1.(model).(objects) = true).
    { intros k0 Hk0. rewrite (contains_keys _ _ _ Hk1). apply Hin. right. exact Hk0. }
    destruct (IH (S start) st1 Hnd' Hin1 Hwk1 Hns1) as [Hk2 Hrel2].
    split; [rewrite Hk2; exact Hk1|].
    intros k' o'' Hg.
    destruct (Hrel2 k' o'' Hg) as [o' [Ho' [Hs2 Hz2]]].
    destruct (Hrel1 k' o' Ho') as [o [Ho [Hs1 Hz1]]].
    exists o. split; [exact Ho|]. split; [eapply same_identity_trans; eassumption|].
    rewrite Hz2. unfold str_in. cbn [existsb index_of].
    fold (str_in k' r).
    destruct (String.eqb_spec k' k) as [->|Hne].
    + replace (str_in k r) with false
        by (symmetry; apply str_in_not_In; exact Hni).
      cbn [orb]. rewrite Hz1, Nat.add_0_r. reflexivity.
    + cbn [orb]. destruct (str_in k' r); [f_equal; lia|exact Hz1].
Qed.

(** [_apply_z_order] on a list without repetition of keys of the model. *)
Lemma apply_z_order_spec (ids : list string) (description : string) (st : t) :
  NoDup ids ->
  (forall k, In k ids -> Dict.contains k st.(model).(objects) = true) ->
  well_keyed st.(model).(objects) = true ->
  no_self_links st.(model).(objects) = true ->
  let st' := _apply_z_order ids description st in
  Dict.keys st'.(model).(objects) = Dict.keys st.(model).(objects)
  /\ forall k' o',
       Dict.get k' st'.(model).(objects) = Some o' ->
       exists o,
         Dict.get k' st.(model).(objects) = Some o
         /\ same_identity o o'
         /\ o'.(z_index) = if str_in k' ids
                           then Z.of_nat (index_of k' ids)
                           else o.(z_index).
Proof.
  intros Hnd Hin Hwk Hns st'. subst st'. unfold _apply_z_order.
  destruct ids as [|k r] eqn:Eids.
  - simpl. split; [reflexivity|]. intros k' o' Hg. exists o'.
    split; [exact Hg|]. split; [apply same_identity_refl|reflexivity].
  - cbn [is_empty]. rewrite <- Eids in *. clear Eids.
    change (objects (model (endMacro ?s))) with (objects (model s)).
    exact (loop_spec ids 0 (beginMacro description st) Hnd Hin Hwk Hns).
Qed.

(** *** The order the objects are stacked in *)

Lemma values_ids_are_keys (d : Dict.t CanvasObject) :
  well_keyed d = true -> map id (Dict.values d) = Dict.keys d.
Proof.
  intro Hwk. rewrite (map_values_keys id (fun k => k) d).
  - apply map_id.
  - apply well_keyed_NoDup. exact Hwk.
  - intros k v Hg. eapply well_keyed_id; eassumption.
Qed.

Lemma ordered_ids_perm (st : t) :
  well_keyed st.(model).(objects) = true ->
  Permutation (_ordered_object_ids st) (Dict.keys st.(model).(objects)).
Proof.
  intro Hwk. unfold _ordered_object_ids.
  destruct (is_empty st.(model).(objects)) eqn:Ee.
  - destruct st.(model).(objects); [constructor|discriminate].
  - rewrite <- (values_ids_are_keys _ Hwk). apply Permutation_map. apply sorted_perm.
Qed.

(** When the z-indices are the positions in [order], sorting by them
    gives [order] back. *)
Lemma ordered_ids_of_positions (st : t) (order : list string) :
  well_keyed st.(model).(objects) = true ->
  Permutation order (Dict.keys st.(model).(objects)) ->
  (forall k o, Dict.get k st.(model).(objects) = Some o ->
               o.(z_index) = Z.of_nat (index_of k order)) ->
  _ordered_object_ids st = order.
Proof.
  intros Hwk Hperm Hz. pose proof (well_keyed_NoDup _ Hwk) as Hnd.
  assert (Hndo : NoDup order)
    by (eapply Permutation_NoDup; [apply Permutation_sym; exact Hperm|exact Hnd]).
  unfold _ordered_object_ids.
  destruct (is_empty st.(model).(objects)) eqn:Ee.
  - destruct st.(model).(objects); [|discriminate].
    apply Permutation_sym, Permutation_nil in Hperm. symmetry. exact Hperm.
  - match goal with
    | |- map id (sorted ?f ?l) = _ => set (key := f); set (vals := l)
    end.
    pose proof (sorted_perm key vals) as Hsp.
    assert (Hzs : map z_index (sorted key vals)
                  = map Z.of_nat (seq 0 (List.length order))).
    { apply sorted_perm_eq.
      - apply Sorted_StronglySorted; [intros a b c; apply Z.le_trans|].
        change (map z_index (sorted key vals))
          with (map (fun u => fst (key u)) (sorted key vals)).
        apply sorted_fst_le. apply sorted_is_sorted.
      - apply seq_Z_sorted.
      - eapply Permutation_trans; [apply Permutation_map; exact Hsp|].
        subst vals.
        rewrite (map_values_keys z_index (fun k => Z.of_nat (index_of k order))
                                 _ Hnd Hz).
        eapply Permutation_trans;
          [apply Permutation_map; apply Permutation_sym; exact Hperm|].
        rewrite <- (index_of_map_seq order 0 Hndo), map_map. reflexivity. }
    assert (Hid : forall o, In o (sorted key vals) ->
                    id o = nth (Z.to_nat o.(z_index)) order "").
    { intros o Hin. apply (Permutation_in _ Hsp) in Hin.
      pose proof (well_keyed_value _ _ Hwk Hin) as Hg.
      rewrite (Hz _ _ Hg), Nat2Z.id. symmetry. apply nth_index_of.
      eapply Permutation_in; [apply Permutation_sym; exact Hperm|].
      eapply get_in_keys. exact Hg. }
    rewrite (map_ext_in _ _ _ Hid).
    rewrite <- (map_map z_index (fun z => nth (Z.to_nat z) order "")).
    rewrite Hzs, map_map.
    rewrite (map_ext _ (fun j => nth j order "")) by (intro j; rewrite Nat2Z.id; reflexivity).
    apply map_nth_seq.
Qed.

(** The order that each action computes is a rearrangement of the
    current one. *)
Lemma new_order_perm (selected ordered : list string) (action : string) :
  str_in action ["front"; "back"; "forward"; "backward"] = true ->
  exists order,
    Permutation order ordered
    /\ (forall st,
           _ordered_object_ids st = ordered ->
           forall obj_ids,
             filter (fun obj_id => Dict.contains obj_id st.(model).(objects)) obj_ids
             = selected ->
             is_empty selected = false ->
             reorder_objects obj_ids action st
             = _apply_z_order order
                 (if action =? "front" then "Bring to Front"
                  else if action =? "back" then "Send to Back"
                  else if action =? "forward" then "Bring Forward"
                  else "Send Backward") st)
    /\ (action = "front" ->
        order = filter (fun k => negb (str_in k selected)) ordered
                ++ filter (fun k => str_in k selected) ordered)
    /\ (action = "back" ->
        order = filter (fun k => str_in k selected) ordered
                ++ filter (fun k => negb (str_in k selected)) ordered).
Proof.
  intro Ha. unfold str_in in Ha. cbn [existsb] in Ha.
  destruct (action =? "front") eqn:E1.
  { apply String.eqb_eq in E1. subst action.
    eexists. split; [apply filter_partition_perm|]. split; [|split].
    - intros st Ho obj_ids Hs He. unfold reorder_objects.
      rewrite Hs, He, Ho. reflexivity.
    - intros _. reflexivity.
    - discriminate. }
  destruct (action =? "back") eqn:E2.
  { apply String.eqb_eq in E2. subst action.
    eexists. split; [|split; [|split]].
    2: { intros st Ho obj_ids Hs He. unfold reorder_objects.
         rewrite Hs, He, Ho. reflexivity. }
    - eapply Permutation_trans; [apply Permutation_app_comm|].
      apply filter_partition_perm.
    - discriminate.
    - intros _. reflexivity. }
  destruct (action =? "forward") eqn:E3.
  { apply String.eqb_eq in E3. subst action.
    eexists. split; [|split; [|split]].
    2: { intros st Ho obj_ids Hs He. unfold reorder_objects.
         rewrite Hs, He, Ho. reflexivity. }
    - apply fold_swaps_perm. intros l' i.
      destruct (_ && _); [|reflexivity].
      rewrite Nat.add_1_r. apply swap_up_perm.
    - discriminate.
    - discriminate. }
  destruct (action =? "backward") eqn:E4; [|discriminate].
  apply String.eqb_eq in E4. subst action.
  eexists. split; [|split; [|split]].
  2: { intros st Ho obj_ids Hs He. unfold reorder_objects.
       rewrite Hs, He, Ho. reflexivity. }
  - apply fold_swaps_perm. intros l' i.
    destruct (_ && _); [|reflexivity].
    destruct i as [|i]; [destruct l'; reflexivity|].
    cbn [Nat.sub]. rewrite Nat.sub_0_r. apply swap_down_perm.
  - discriminate.
  - discriminate.
Qed.

End Reorder.

(** A call with a live selection and one of the four actions: the
    objects and their insertion order stay, the z-indices become
    0 .. n-1, each once, and after "front" and "back" the objects that
    were not selected follow each other as they did before. *)
Lemma reorder_live_selection
    `{Constants} (st : Controller.t) (obj_ids : list string) (action : string) :
  Spec.well_keyed st.(Controller.model).(Model.objects) = true ->
  Spec.no_self_links st.(Controller.model).(Model.objects) = true ->
  existsb (fun k => Dict.contains k st.(Controller.model).(Model.objects)) obj_ids
  = true ->
  Py.str_in action ["front"; "back"; "forward"; "backward"] = true ->
  let st' := Controller.reorder_objects obj_ids action st in
  let n := List.length st.(Controller.model).(Model.objects) in
  Dict.keys st'.(Controller.model).(Model.objects)
  = Dict.keys st.(Controller.model).(Model.objects)
  /\ Permutation (map Model.z_index (Dict.values st'.(Controller.model).(Model.objects)))
                 (map Z.of_nat (seq 0 n))
  /\ (Py.str_in action ["front"; "back"] = true ->
      filter (fun k => negb (Py.str_in k obj_ids)) (Controller._ordered_object_ids st')
      = filter (fun k => negb (Py.str_in k obj_ids)) (Controller._ordered_object_ids st)).
Proof.
  intros Hwk Hns Hsel Haction st' n.
  set (m := st.(Controller.model).(Model.objects)) in *.
  set (selected := filter (fun obj_id => Dict.contains obj_id m) obj_ids).
  set (ordered := Controller._ordered_object_ids st).
  assert (Hne : Controller.is_empty selected = false).
  { apply existsb_exists in Hsel. destruct Hsel as [k [Hin Hc]].
    assert (Hk : In k selected) by (apply filter_In; split; assumption).
    destruct selected; [contradiction|reflexivity]. }
  pose proof (ordered_ids_perm st Hwk) as Hord. fold ordered in Hord. fold m in Hord.
  destruct (new_order_perm selected ordered action Haction)
    as (order & Hperm & Hrun & Hfront & Hback).
  specialize (Hrun st eq_refl obj_ids eq_refl Hne). fold st' in Hrun.
  assert (Hpk : Permutation order (Dict.keys m))
    by (eapply Permutation_trans; eassumption).
  pose proof (ModelFacts.well_keyed_NoDup _ Hwk) as Hnd.
  assert (Hndo : NoDup order)
    by (eapply Permutation_NoDup; [apply Permutation_sym; exact Hpk|exact Hnd]).
  assert (Hin : forall k, In k order -> Dict.contains k m = true).
  { intros k Hk. apply (Permutation_in _ Hpk) in Hk.
    destruct (Dict.contains k m) eqn:Ec; [reflexivity|].
    apply DictFacts.contains_false, DictFacts.get_none_not_in in Ec. contradiction. }
  match type of Hrun with
  | _ = Controller._apply_z_order _ ?d _ =>
      destruct (apply_z_order_spec order d st Hndo Hin Hwk Hns) as [Hkeys Hrel]
  end.
  rewrite <- Hrun in Hkeys, Hrel.
  set (m' := st'.(Controller.model).(Model.objects)) in *.
  assert (Hrel' : forall k o', Dict.get k m' = Some o' ->
                    exists o, Dict.get k m = Some o /\ Spec.same_identity o o').
  { intros k o' Hg. destruct (Hrel k o' Hg) as [o [Ho [Hs _]]].
    exists o. split; assumption. }
  destruct (ZOrderFacts.invariants_preserved m m' Hwk Hkeys Hrel') as [Hwk' _].
  assert (Hz : forall k o', Dict.get k m' = Some o' ->
                 o'.(Model.z_index) = Z.of_nat (Spec.index_of k order)).
  { intros k o' Hg. destruct (Hrel k o' Hg) as [o [Ho [_ Hzz]]].
    replace (Py.str_in k order) with true in Hzz; [exact Hzz|].
    symmetry. apply ModelFacts.str_in_In.
    eapply Permutation_in; [apply Permutation_sym; exact Hpk|].
    eapply DictFacts.get_in_keys. exact Ho. }
  assert (Hpk' : Permutation order (Dict.keys m')) by (rewrite Hkeys; exact Hpk).
  split; [exact Hkeys|]. split.
  - rewrite (OrderFacts.map_values_keys
               Model.z_index (fun k => Z.of_nat (Spec.index_of k order)) m'
               (ModelFacts.well_keyed_NoDup _ Hwk') Hz).
    eapply Permutation_trans;
      [apply Permutation_map; apply Permutation_sym; exact Hpk'|].
    rewrite <- (map_map (fun k => Spec.index_of k order) Z.of_nat).
    pose proof (OrderFacts.index_of_map_seq order 0 Hndo) as Hseq.
    cbn [Nat.add] in Hseq. rewrite Hseq.
    replace (List.length order) with n; [reflexivity|].
    subst n. rewrite (Permutation_length Hpk). unfold Dict.keys. symmetry.
    apply length_map.
  - intro Hfb.
    assert (Hnew : Controller._ordered_object_ids st' = order)
      by (apply ordered_ids_of_positions; assumption).
    rewrite Hnew.
    assert (Hext : forall l, (forall k, In k l -> In k (Dict.keys m)) ->
                     filter (fun k => negb (Py.str_in k obj_ids)) l
                     = filter (fun k => negb (Py.str_in k selected)) l).
    { intros l Hl. apply filter_ext_in. intros k Hk. f_equal.
      destruct (Py.str_in k obj_ids) eqn:Eo.
      - symmetry. apply ModelFacts.str_in_In. apply filter_In.
        split; [apply ModelFacts.str_in_In; exact Eo|].
        apply Hin. eapply Permutation_in; [apply Permutation_sym; exact Hpk|].
        apply Hl. exact Hk.
      - symmetry. apply ModelFacts.str_in_not_In. intro Hs.
        apply filter_In in Hs. destruct Hs as [Hs _].
        apply ModelFacts.str_in_In in Hs. congruence. }
    rewrite (Hext order) by (intros k Hk; exact (Permutation_in k Hpk Hk)).
    rewrite (Hext ordered) by (intros k Hk; exact (Permutation_in k Hord Hk)).
    unfold Py.str_in in Hfb. cbn [existsb] in Hfb.
    destruct (String.eqb_spec action "front") as [Ef|_].
    + rewrite (Hfront Ef), filter_app.
      rewrite OrderFacts.filter_idem.
      rewrite (OrderFacts.filter_filter_neg (fun k => Py.str_in k selected)).
      apply app_nil_r.
    + destruct (String.eqb_spec action "back") as [Eb|_]; [|discriminate].
      rewrite (Hback Eb), filter_app.
      rewrite OrderFacts.filter_idem.
      rewrite (OrderFacts.filter_filter_neg (fun k => Py.str_in k selected)).
      reflexivity.
Qed.

(** A call none of whose ids is in the model, or whose action is not one
    of the four, returns at once. *)
Lemma reorder_returns_early
    `{Constants} (st : Controller.t) (obj_ids : list string) (action : string) :
  existsb (fun k => Dict.contains k st.(Controller.model).(Model.objects)) obj_ids
  = false
  \/ Py.str_in action ["front"; "back"; "forward"; "backward"] = false ->
  Controller.reorder_objects obj_ids action st = st.
Proof.
  intros [Hdead|Hother]; unfold Controller.reorder_objects.
  - replace (filter (fun obj_id => Dict.contains obj_id st.(Controller.model).(Model.objects))
                    obj_ids) with (@nil string); [reflexivity|].
    symmetry. induction obj_ids as [|k r IH]; [reflexivity|].
    simpl in Hdead |- *. apply orb_false_iff in Hdead. destruct Hdead as [Hk Hr].
    rewrite Hk. apply IH. exact Hr.
  - unfold Py.str_in in Hother. cbn [existsb] in Hother.
    repeat (apply orb_false_iff in Hother; destruct Hother as [?E Hother]).
    destruct (Controller.is_empty _); [reflexivity|].
    rewrite E, E0, E1, E2. reflexivity.
Qed.

(** C5, as the code has it.  On a model that stores every object under
    its id and in which no link runs from an object to itself:
    when at least one of the given ids is in the model and the action is
    one of the four, [reorder_objects] leaves the objects and their
    insertion order alone and gives them the z-indices 0 .. n-1, each
    once; after "front" and "back" the objects that were not selected
    follow each other, in the order by (z-index, insertion order), as
    they did before.  When none of the ids is in the model, or the action
    is another one, the call returns at once and changes nothing. *)
Theorem reorder_objects_assigns_dense_z_indices
    `{Constants} (st : Controller.t) (obj_ids : list string) (action : string) :
  Spec.well_keyed st.(Controller.model).(Model.objects) = true ->
  Spec.no_self_links st.(Controller.model).(Model.objects) = true ->
  let st' := Controller.reorder_objects obj_ids action st in
  let n := List.length st.(Controller.model).(Model.objects) in
  let live :=
    existsb (fun k => Dict.contains k st.(Controller.model).(Model.objects)) obj_ids in
  let known := Py.str_in action ["front"; "back"; "forward"; "backward"] in
  (live = true -> known = true ->
   Dict.keys st'.(Controller.model).(Model.objects)
   = Dict.keys st.(Controller.model).(Model.objects)
   /\ Permutation (map Model.z_index (Dict.values st'.(Controller.model).(Model.objects)))
                  (map Z.of_nat (seq 0 n))
   /\ (Py.str_in action ["front"; "back"] = true ->
       filter (fun k => negb (Py.str_in k obj_ids)) (Controller._ordered_object_ids st')
       = filter (fun k => negb (Py.str_in k obj_ids)) (Controller._ordered_object_ids st)))
  /\ (live = false \/ known = false -> st' = st).
Proof.
  intros Hwk Hns st' n live known. split.
  - intros Hlive Hknown.
    exact (reorder_live_selection st obj_ids action Hwk Hns Hlive Hknown).
  - intro Hearly. exact (reorder_returns_early st obj_ids action Hearly).
Qed.

(** * The properties on the small document *)

Section Examples.

Import Py Model Commands Spec Controller.

#[local] Existing Instance Demo.constants.
#[local] Existing Instance Demo.numerals.

(** Removing the box of the document takes its two links and its
    connector along, and one undo brings all four back. *)
Lemma remove_object_example :
  well_keyed Demo.document.(model).(objects) = true
  /\ stack_idle Demo.document.(undo_stack) = true
  /\ existsb (references "B") (Dict.values Demo.document.(model).(objects)) = true
  /\ map (fun k => Dict.get k (remove_object "B" Demo.document).(model).(objects))
         ["B"; "L1"; "L2"; "C"]
     = [None; None; None; None]
  /\ map (fun k => Dict.get k
                     (Controller.undo (remove_object "B" Demo.document)).(model).(objects))
         ["B"; "L1"; "L2"; "C"]
     = map (fun k => Dict.get k Demo.document.(model).(objects))
           ["B"; "L1"; "L2"; "C"]
  /\ (remove_object "B" Demo.document).(undo_stack).(index)
     = S Demo.document.(undo_stack).(index).
Proof.
  assert (H1 : well_keyed Demo.document.(model).(objects) = true)
    by (vm_compute; reflexivity).
  assert (H2 : stack_idle Demo.document.(undo_stack) = true)
    by (vm_compute; reflexivity).
  assert (H3 : Dict.get "B" Demo.document.(model).(objects)
               = Some (_normalize_object Demo.box))
    by (vm_compute; reflexivity).
  assert (H4 : existsb (references "B")
                       (Dict.values Demo.document.(model).(objects)) = true)
    by (vm_compute; reflexivity).
  destruct (remove_object_macro_is_undone_in_one_step
              Demo.document "B" (_normalize_object Demo.box) H1 H2 H3 H4)
    as (Hstack & Hgone & Hrefs & Hback & _).
  split; [exact H1|]. split; [exact H2|]. split; [exact H4|].
  split; [|split].
  - vm_compute. reflexivity.
  - cbn [map]. rewrite (Hback "B"), (Hback "L1"), (Hback "L2"), (Hback "C").
    reflexivity.
  - pose proof (f_equal index Hstack) as Hi. exact Hi.
Defined.

(** An edit with no changes of an object stored by the controller pushes
    nothing. *)
Lemma update_object_noop_example :
  Dict.get "B" Demo.document.(model).(objects) = Some (_normalize_object Demo.box)
  /\ _normalize_object (_normalize_object Demo.box) = _normalize_object Demo.box
  /\ update_object "B" [] "Edit" [] false Demo.document = Demo.document.
Proof.
  assert (H1 : Dict.get "B" Demo.document.(model).(objects)
               = Some (_normalize_object Demo.box))
    by (vm_compute; reflexivity).
  assert (H2 : _normalize_object (_normalize_object Demo.box)
               = _normalize_object Demo.box)
    by (vm_compute; reflexivity).
  split; [exact H1|]. split; [exact H2|].
  apply (proj2 (update_object_equal_result_is_noop
                  Demo.document "B" (_normalize_object Demo.box) H1) H2).
Defined.

(** The same edit of an object that a file brought in with a size of 9
    pushes a command that brings the size down to 5. *)
Lemma update_object_empty_changes_can_push :
  Dict.contains "B" Demo.loaded_document.(model).(objects) = true
  /\ Demo.loaded_document.(undo_stack).(index) = 0%nat
  /\ (update_object "B" [] "Edit" [] false Demo.loaded_document).(undo_stack).(index)
     = 1%nat
  /\ option_map size (Dict.get "B" Demo.loaded_document.(model).(objects)) = Some 9
  /\ option_map size
       (Dict.get "B" (update_object "B" [] "Edit" [] false
                                    Demo.loaded_document).(model).(objects))
     = Some 5
  /\ update_object "B" [] "Edit" [] false Demo.loaded_document <> Demo.loaded_document.
Proof.
  repeat split; try (vm_compute; reflexivity).
  intro Heq. apply (f_equal (fun s => s.(undo_stack).(index))) in Heq.
  vm_compute in Heq. discriminate.
Defined.

(** Week -7 lies left of the origin; its left edge maps back to it. *)
Lemma week_round_trip_example :
  (1 <= Layout64.week_width Demo.columns <= Spec.span)
  /\ (- inject_Z Spec.span <= Number.value (Layout64.label_width Demo.columns)
      <= inject_Z Spec.span)%Q
  /\ Layout64.week_from_x Demo.columns (Layout64.week_left_x Demo.columns (-7)) true = -7.
Proof.
  assert (HW : 1 <= Layout64.week_width Demo.columns <= Spec.span)
    by (split; vm_compute; discriminate).
  assert (HL : (- inject_Z Spec.span <= Number.value (Layout64.label_width Demo.columns)
                <= inject_Z Spec.span)%Q)
    by (split; apply Qle_bool_imp_le; vm_compute; reflexivity).
  split; [exact HW|]. split; [exact HL|].
  destruct (proj1 (week_from_x_inverts_week_left_x Demo.columns HW HL) (-7)) as [Hsnap _].
  - vm_compute. discriminate.
  - exact Hsnap.
Defined.

(** Beyond 2^53 the ratio is no longer the week offset: the left edge
    of week 2^53 + 2 snaps to the week before it.  With a label column
    resized to 200.3 the left edge of week 9 falls, after rounding,
    into week 8. *)
Lemma week_round_trip_is_lost_to_rounding :
  Layout64.week_from_x Demo.columns
    (Layout64.week_left_x Demo.columns (2 ^ 53 + 2)) true = 2 ^ 53 + 1
  /\ Layout64.week_from_x Demo.resized_columns
       (Layout64.week_left_x Demo.resized_columns 9) false = 8.
Proof. split; vm_compute; reflexivity. Defined.

(** The box spanning weeks 10 to 12 is duplicated to weeks 13 to 15. *)
Lemma duplicate_box_example :
  Dict.get "B" Demo.document.(model).(objects) = Some (_normalize_object Demo.box)
  /\ exists clone stored,
       snd (duplicate_object "N" "B" Demo.document) = Some clone
       /\ Dict.get "N" (fst (duplicate_object "N" "B" Demo.document)).(model).(objects)
          = Some stored
       /\ clone.(id) = "N"
       /\ (clone.(start_week), clone.(end_week)) = (13, 15)
       /\ (stored.(start_week), stored.(end_week)) = (13, 15).
Proof.
  assert (H1 : Dict.get "B" Demo.document.(model).(objects)
               = Some (_normalize_object Demo.box))
    by (vm_compute; reflexivity).
  split; [exact H1|].
  destruct (duplicate_object_offsets Demo.document "N" "B" _ H1)
    as (clone & stored & Hc & Hs & Hid & _ & Hweeks & _).
  destruct (Hweeks eq_refl) as (Hcs & Hce & Hss & Hse).
  exists clone, stored. split; [exact Hc|]. split; [exact Hs|]. split; [exact Hid|].
  split.
  - rewrite Hcs, Hce. vm_compute. reflexivity.
  - rewrite Hss, Hse by (vm_compute; reflexivity). vm_compute. reflexivity.
Defined.

(** The milestone at week 5 is duplicated to week 6. *)
Example duplicate_milestone_example :
  option_map (fun o => (o.(start_week), o.(end_week)))
             (snd (duplicate_object "N" "M" Demo.document))
  = Some (6, 6).
Proof. vm_compute. reflexivity. Qed.

(** The textbox at x = 500 of width 100 is duplicated to x = 610: it
    moves by its width and a padding of 10, not by 10. *)
Lemma duplicate_textbox_moves_by_width_and_padding :
  option_map x (Dict.get "T1" Demo.document.(model).(objects)) = Some (Some 500%Q)
  /\ option_map width (Dict.get "T1" Demo.document.(model).(objects))
     = Some (Some 100%Q)
  /\ match snd (duplicate_object "N" "T1" Demo.document) with
     | Some clone =>
         match clone.(x) with
         | Some new_x =>
             Qeq_bool new_x 610 = true
             /\ Qeq_bool (new_x - 500) (Py.max 10 (100 * (1 # 10))) = false
         | None => False
         end
     | None => False
     end.
Proof.
  split; [vm_compute; reflexivity|]. split; [vm_compute; reflexivity|].
  vm_compute. split; reflexivity.
Defined.

(** C8 on the deadline of the document, at week 3: the renderer puts its
    centre at the left edge of the week, x = 280, and the controller at
    the centre of the week, x = 300. *)
Theorem deadline_anchor_point_is_at_week_centre :
  Demo.deadline.(kind) = "deadline"
  /\ Layout.week_left_x Demo.layout 3 == 280
  /\ Layout.week_center_x Demo.layout 3 == 300
  /\ option_map fst (Items._object_center_for_link Demo.deadline Demo.layout)
     = Some (Layout.week_left_x Demo.layout 3)
  /\ option_map fst (_object_anchor_point Demo.document Demo.deadline)
     = Some (Layout.week_center_x Demo.layout 3)
  /\ ~ Layout.week_center_x Demo.layout 3 == Layout.week_left_x Demo.layout 3.
Proof.
  split; [reflexivity|]. split; [vm_compute; reflexivity|].
  split; [vm_compute; reflexivity|].
  destruct (deadline_centre_x Demo.document Demo.layout eq_refl Demo.deadline eq_refl)
    as [Hitems Hcontroller].
  split; [exact Hitems|]. split; [exact Hcontroller|].
  intro Heq. vm_compute in Heq. discriminate.
Qed.



(** Anchoring the first textbox, which is linked to the box, to the
    milestone leaves it with the new link alone. *)
Lemma add_anchor_link_example :
  well_keyed Demo.document.(model).(objects) = true
  /\ stack_idle Demo.document.(undo_stack) = true
  /\ map id (links_from "T1" Demo.document.(model).(objects)) = ["L1"]
  /\ exists link,
       links_from "T1" (add_anchor_link "L3" "T1" "M" (Some "left") None
                                        Demo.document).(model).(objects) = [link]
       /\ link.(id) = "L3"
       /\ link.(link_target_id) = Some "M".
Proof.
  assert (H1 : well_keyed Demo.document.(model).(objects) = true)
    by (vm_compute; reflexivity).
  assert (H2 : stack_idle Demo.document.(undo_stack) = true)
    by (vm_compute; reflexivity).
  split; [exact H1|]. split; [exact H2|]. split; [vm_compute; reflexivity|].
  assert (H3 : Dict.get "T1" Demo.document.(model).(objects)
               = Some (_normalize_object (set_z_index 1 (Demo.textbox "T1" 500 10))))
    by (vm_compute; reflexivity).
  assert (H4 : Dict.get "M" Demo.document.(model).(objects)
               = Some (_normalize_object (set_z_index 3 Demo.milestone)))
    by (vm_compute; reflexivity).
  assert (H5 : exists p,
             _object_anchor_point Demo.document
                                  (_normalize_object (set_z_index 3 Demo.milestone))
             = Some p)
    by (eexists; vm_compute; reflexivity).
  destruct H5 as [p H5].
  destruct (add_anchor_link_leaves_one_outgoing_link
              Demo.document "L3" "T1" "M" (Some "left") None _ _ p
              H1 H2 H3 H4 eq_refl eq_refl ltac:(discriminate) H5)
    as (link & Hl & Hid & _ & Ht & _).
  exists link. split; [exact Hl|]. split; [exact Hid|exact Ht].
Defined.



(** Bringing the box to the front renumbers the nine objects 0 to 8. *)
Lemma reorder_front_example :
  well_keyed Demo.document.(model).(objects) = true
  /\ no_self_links Demo.document.(model).(objects) = true
  /\ Permutation
       (map z_index
            (Dict.values (reorder_objects ["B"] "front" Demo.document).(model).(objects)))
       (map Z.of_nat (seq 0 9))
  /\ filter (fun k => negb (str_in k ["B"]))
            (_ordered_object_ids (reorder_objects ["B"] "front" Demo.document))
     = filter (fun k => negb (str_in k ["B"])) (_ordered_object_ids Demo.document).
Proof.
  assert (H1 : well_keyed Demo.document.(model).(objects) = true)
    by (vm_compute; reflexivity).
  assert (H2 : no_self_links Demo.document.(model).(objects) = true)
    by (vm_compute; reflexivity).
  split; [exact H1|]. split; [exact H2|].
  destruct (proj1 (reorder_objects_assigns_dense_z_indices
                     Demo.document ["B"] "front" H1 H2)
                  ltac:(vm_compute; reflexivity) ltac:(reflexivity))
    as (_ & Hperm & Hrest).
  split; [exact Hperm|]. apply Hrest. reflexivity.
Defined.

(** A call whose ids are all stale, or that names none, returns at once:
    the document keeps its z-indices, three of which are -1.  And the
    two ends of a link have to differ for the renumbering: with the link
    of [Demo.self_linked_document], which runs from the textbox to
    itself, bringing the textbox to the front leaves the textbox and the
    link at z-index 0. *)
Lemma reorder_objects_can_miss_dense_z_indices :
  (map z_index (Dict.values Demo.document.(model).(objects))
   = [0; 1; 2; 3; 4; 5; -1; -1; -1]
   /\ reorder_objects [] "front" Demo.document = Demo.document
   /\ reorder_objects ["gone"] "back" Demo.document = Demo.document
   /\ ~ Permutation
          (map z_index
               (Dict.values (reorder_objects [] "front" Demo.document).(model).(objects)))
          (map Z.of_nat
               (seq 0 (List.length (reorder_objects [] "front"
                                                     Demo.document).(model).(objects)))))
  /\ (well_keyed Demo.self_linked_document.(model).(objects) = true
      /\ map (fun kv => (fst kv, (snd kv).(z_index)))
             (reorder_objects ["T"] "front" Demo.self_linked_document).(model).(objects)
         = [("T", 0); ("B", 1); ("L", 0)]).
Proof.
  split; [|split; vm_compute; reflexivity].
  split; [vm_compute; reflexivity|].
  split; [reflexivity|]. split; [reflexivity|].
  assert (Hzs : map z_index
                    (Dict.values (reorder_objects [] "front"
                                    Demo.document).(model).(objects))
                = [0; 1; 2; 3; 4; 5; -1; -1; -1])
    by (vm_compute; reflexivity).
  assert (Hn : List.length (reorder_objects [] "front" Demo.document).(model).(objects)
               = 9%nat)
    by (vm_compute; reflexivity).
  rewrite Hzs, Hn. intro Hp.
  assert (Hin : In (-1) [0; 1; 2; 3; 4; 5; -1; -1; -1])
    by (do 6 right; left; reflexivity).
  apply (Permutation_in _ Hp) in Hin. cbn in Hin.
  repeat (destruct Hin as [Hin|Hin]; [discriminate Hin|]). contradiction.
Defined.

End Examples.

(** * Further properties of the sources

    ** What [_normalize_object] guarantees about its result *)

Section NormalizeShape.

Import Py Model Commands Controller PyFacts ObjectFacts.

Context `{Constants}.

Lemma none_if_empty_not_empty (v : option string) : none_if_empty v <> Some "".
Proof.
  destruct v as [s|]; simpl; [|discriminate].
  destruct (s =? "") eqn:E; [discriminate|].
  intro Hs. inversion Hs; subst s. discriminate E.
Qed.

Lemma clamp_offset_range (v : option Q) (q : Q) :
  clamp_offset v = Some q -> (0 <= q)%Q /\ (q <= 1)%Q.
Proof.
  destruct v as [p|]; [|discriminate]. unfold clamp_offset. simpl.
  intro Hq. inversion Hq as [Hq']. clear Hq Hq'.
  unfold Py.max, Py.min.
  destruct (ltb p 1) eqn:A.
  - apply ltb_lt in A. destruct (ltb 0 p) eqn:B.
    + apply ltb_lt in B. split; lra.
    + split; lra.
  - assert (B : ltb 0 1 = true) by reflexivity. rewrite B. split; lra.
Qed.

(** Whatever the object, its normal form has a size between 1 and 5,
    no empty rich-text field, and an arrow direction among "none",
    "left" and "right" that is "none" unless the object is a box;
    identity, kind and z-order are those of the object. *)
Theorem normalize_object_ranges (o : CanvasObject) :
  let n := _normalize_object o in
  (1 <= n.(size) <= 5)
  /\ n.(text_html) <> Some ""
  /\ n.(notes_html) <> Some ""
  /\ n.(scope_html) <> Some ""
  /\ n.(risks_html) <> Some ""
  /\ In n.(arrow_direction) ["none"; "left"; "right"]
  /\ (if String.eqb n.(kind) "box" then True
      else n.(arrow_direction) = "none")
  /\ n.(id) = o.(id)
  /\ n.(kind) = o.(kind)
  /\ n.(z_index) = o.(z_index).
Proof.
  cbv zeta. remember (_normalize_object o) as n eqn:Hn.
  destruct o. unfold _normalize_object, _clamp_week, if_not_none in Hn. fields_in Hn.
  assert (Hsize : 1 <= Z.max 1 (Z.min 5 size0) <= 5) by lia.
  pose proof (none_if_empty_not_empty text_html0) as H1.
  pose proof (none_if_empty_not_empty notes_html0) as H2.
  pose proof (none_if_empty_not_empty scope_html0) as H3.
  pose proof (none_if_empty_not_empty risks_html0) as H4.
  assert (Hdir : In (if negb (kind0 =? "box") then "none"
                     else normalize_arrow_direction arrow_direction0)
                    ["none"; "left"; "right"]).
  { destruct (negb (kind0 =? "box")); [left; reflexivity|].
    destruct (normalize_arrow_direction_range arrow_direction0) as [E|[E|E]];
      rewrite E; simpl; auto. }
  assert (Hbox : if kind0 =? "box" then True
                 else (if negb (kind0 =? "box") then "none"
                       else normalize_arrow_direction arrow_direction0) = "none").
  { destruct (kind0 =? "box"); [exact I|reflexivity]. }
  destruct (str_in kind0 ["milestone"; "circle"; "deadline"]);
    [subst n; fields; repeat split; assumption || reflexivity || apply Hsize|].
  destruct (kind0 =? "arrow");
    [subst n; fields; repeat split; assumption || reflexivity || apply Hsize|].
  destruct (kind0 =? "link");
    [subst n; fields; repeat split; assumption || reflexivity || apply Hsize|].
  destruct (kind0 =? "connector");
    [subst n; fields; repeat split; assumption || reflexivity || apply Hsize|].
  destruct (kind0 =? "textbox");
    subst n; fields; repeat split; assumption || reflexivity || apply Hsize.
Qed.

(** The weeks of a normal form: a milestone, a circle and a deadline end
    in the week they start in; an arrow ends in its target week, which is
    set; every kind other than these, links, connectors and textboxes
    never ends before it starts.  An arrow and a connector keep at least
    one arrow head. *)
Theorem normalize_object_weeks (o : CanvasObject) :
  let n := _normalize_object o in
  (str_in o.(kind) ["milestone"; "circle"; "deadline"] = true ->
   n.(end_week) = n.(start_week))
  /\ (o.(kind) = "arrow" -> n.(target_week) = Some n.(end_week))
  /\ (str_in o.(kind) ["milestone"; "circle"; "deadline"; "arrow"; "link";
                       "connector"; "textbox"] = false ->
      n.(start_week) <= n.(end_week))
  /\ (str_in o.(kind) ["arrow"; "connector"] = true ->
      n.(arrow_head_start) || n.(arrow_head_end) = true).
Proof.
  cbv zeta. remember (_normalize_object o) as n eqn:Hn.
  destruct o. unfold _normalize_object, _clamp_week, if_not_none in Hn. fields_in Hn.
  fields.
  assert (Hheads : arrow_head_start0
                   || (if negb (arrow_head_start0 || arrow_head_end0)
                       then true else arrow_head_end0) = true)
    by (destruct arrow_head_start0, arrow_head_end0; reflexivity).
  unfold str_in in Hn |- *. cbn [existsb] in Hn |- *.
  destruct (kind0 =? "milestone") eqn:K1;
    [apply String.eqb_eq in K1; subst kind0; cbn in Hn; subst n; fields; cbn;
     repeat split; intros; try discriminate; reflexivity|].
  destruct (kind0 =? "circle") eqn:K2;
    [apply String.eqb_eq in K2; subst kind0; cbn in Hn; subst n; fields; cbn;
     repeat split; intros; try discriminate; reflexivity|].
  destruct (kind0 =? "deadline") eqn:K3;
    [apply String.eqb_eq in K3; subst kind0; cbn in Hn; subst n; fields; cbn;
     repeat split; intros; try discriminate; reflexivity|].
  destruct (kind0 =? "arrow") eqn:K4;
    [apply String.eqb_eq in K4; subst kind0; cbn in Hn; subst n; fields; cbn;
     repeat split; intros; try discriminate; try reflexivity; exact Hheads|].
  destruct (kind0 =? "link") eqn:K5;
    [apply String.eqb_eq in K5; subst kind0; cbn in Hn; subst n; fields; cbn;
     repeat split; intros; discriminate|].
  destruct (kind0 =? "connector") eqn:K6;
    [apply String.eqb_eq in K6; subst kind0; cbn in Hn; subst n; fields; cbn;
     repeat split; intros; try discriminate; exact Hheads|].
  destruct (kind0 =? "textbox") eqn:K7;
    [apply String.eqb_eq in K7; subst kind0; cbn in Hn; subst n; fields; cbn;
     repeat split; intros; discriminate|].
  cbn [orb andb] in Hn |- *. subst n. fields.
  repeat split; intros; try discriminate.
  - apply String.eqb_neq in K4. contradiction.
  - destruct (end_week0 <? start_week0)%Z eqn:E.
    + lia.
    + apply Z.ltb_ge in E. exact E.
Qed.

(** The geometry of a normal form: a textbox has a position and an
    extent; a link has both pixel offsets; the side offsets of a link
    and of a connector, when set, lie between 0 and 1. *)
Theorem normalize_object_geometry (o : CanvasObject) :
  let n := _normalize_object o in
  (o.(kind) = "textbox" ->
   exists x' y' w h,
     n.(x) = Some x' /\ n.(y) = Some y' /\ n.(width) = Some w /\ n.(height) = Some h)
  /\ (o.(kind) = "link" ->
      (exists dx dy, n.(link_offset_x) = Some dx /\ n.(link_offset_y) = Some dy)
      /\ forall q, n.(link_source_offset) = Some q -> (0 <= q)%Q /\ (q <= 1)%Q)
  /\ (o.(kind) = "connector" ->
      (forall q, n.(connector_source_offset) = Some q -> (0 <= q)%Q /\ (q <= 1)%Q)
      /\ (forall q, n.(connector_target_offset) = Some q -> (0 <= q)%Q /\ (q <= 1)%Q)).
Proof.
  cbv zeta. remember (_normalize_object o) as n eqn:Hn.
  destruct o. unfold _normalize_object, _clamp_week, if_not_none in Hn. fields_in Hn.
  fields.
  split; [|split]; intro Hk; subst kind0; cbn in Hn; subst n; fields.
  - do 4 eexists. repeat split; reflexivity.
  - split; [do 2 eexists; split; reflexivity|].
    intros q Hq. exact (clamp_offset_range _ _ Hq).
  - split; intros q Hq; exact (clamp_offset_range _ _ Hq).
Qed.

End NormalizeShape.

(** ** Weeks, columns and anchor geometry *)

Section Columns.

Import Py PyFacts Binary64 Binary64Facts Layout64.

#[local] Open Scope Q_scope.

Lemma add_float_r (a : Number.t) (q : Q) :
  Number.add a (Number.Float q) = Number.Float (round (Number.to_float a + q)).
Proof. destruct a; reflexivity. Qed.

Lemma sub_float_r (a : Number.t) (q : Q) :
  Number.sub a (Number.Float q) = Number.Float (round (Number.to_float a - q)).
Proof. destruct a; reflexivity. Qed.

(** The left edge of a column, as a float, lies within 1/1000 of the
    exact one. *)
Lemma week_left_x_near (c : columns) (w : Z) :
  (1 <= week_width c <= Spec.span)%Z ->
  - inject_Z Spec.span <= Number.value (label_width c) <= inject_Z Spec.span ->
  (Z.abs ((w - origin_week c) * week_width c) <= Spec.span)%Z ->
  Number.value (label_width c) + inject_Z ((w - origin_week c) * week_width c) - (1 # 1000)
  <= Number.to_float (week_left_x c w)
  <= Number.value (label_width c) + inject_Z ((w - origin_week c) * week_width c) + (1 # 1000).
Proof.
  intros HW HL Hk. set (k := (w - origin_week c)%Z) in *.
  pose proof (inject_Z_abs _ _ Hk) as Hkq.
  unfold week_left_x. fold k.
  destruct (label_width c) as [lz|lq]; cbn [Number.value] in *.
  - cbn [Number.add Number.to_float].
    assert (Hz : (Z.abs lz <= Spec.span)%Z) by (apply abs_inject_Z; exact HL).
    rewrite round_int by (apply span_small; unfold Spec.span in *; lia).
    rewrite inject_Z_plus. lra.
  - cbn [Number.add Number.to_float].
    assert (HkW : round (inject_Z (k * week_width c)) == inject_Z (k * week_width c)).
    { apply round_int. apply span_small. unfold Spec.span in *. lia. }
    rewrite span_value in HL, Hkq.
    destruct (round_close (lq + round (inject_Z (k * week_width c)))) as [H1 H2]; lra.
Qed.

(** With [snap], [week_from_center_x] undoes [week_center_x] for weeks
    and widths up to 2^40; without it the result is that week or the
    week before it. *)
Theorem week_from_center_x_inverts_week_center_x (c : Layout64.columns) (w : Z) :
  (1 <= week_width c <= Spec.span)%Z ->
  - inject_Z Spec.span <= Number.value (label_width c) <= inject_Z Spec.span ->
  (Z.abs ((w - origin_week c) * week_width c) <= Spec.span)%Z ->
  week_from_center_x c (week_center_x c w) true = w
  /\ (week_from_center_x c (week_center_x c w) false = w
      \/ week_from_center_x c (week_center_x c w) false = (w - 1)%Z).
Proof.
  intros HW HL Hk.
  pose proof (week_left_x_near c w HW HL Hk) as Hx1.
  set (k := (w - origin_week c)%Z) in *.
  pose proof (inject_Z_abs _ _ Hk) as Hkq.
  assert (HWq : 1 <= inject_Z (week_width c) <= inject_Z Spec.span)
    by (change 1 with (inject_Z 1); rewrite <- !Zle_Qle; exact HW).
  assert (Hwf : round (inject_Z (week_width c)) == inject_Z (week_width c)).
  { apply round_int. apply span_small. unfold Spec.span in *. lia. }
  unfold week_from_center_x, week_center_x.
  cbn [Number.truediv Number.to_float].
  set (h := round (round (inject_Z (week_width c)) / 2)).
  rewrite add_float_r. cbn [Number.sub Number.to_float].
  set (x1 := Number.to_float (week_left_x c w)) in *.
  pose proof HL as HL'. rewrite span_value in HL', Hkq, HWq.
  assert (Hh : 0 <= h <= 1099511627777).
  { subst h. destruct (round_close (round (inject_Z (week_width c)) / 2)) as [H1 H2].
    - rewrite Hwf. split.
      + apply Qle_shift_div_l; [reflexivity|]. lra.
      + apply Qle_shift_div_r; [reflexivity|]. lra.
    - assert (Hd : round (inject_Z (week_width c)) / 2
                   == inject_Z (week_width c) * (1 # 2)) by (rewrite Hwf; field).
      lra. }
  destruct (round_close (x1 + h)) as [H21 H22]; [lra|].
  set (x2 := round (x1 + h)) in *.
  destruct (round_close (x2 - h)) as [H31 H32]; [lra|].
  set (x3 := round (x2 - h)) in *.
  pose proof (ratio_near c x3 k (3 # 1000) HW HL Hk) as Hn.
  destruct Hn as [Hn1 Hn2]; [lra|lra|].
  set (ratio := Number.truediv (Number.sub (Number.Float x3) (label_width c))
                              (Number.Int (week_width c))) in *.
  assert (Hnear : inject_Z k - (1 # 4) <= ratio <= inject_Z k + (1 # 4)) by lra.
  destruct (week_offset_of_ratio _ k (offset_in_span _ _ (proj1 HW) Hk) Hnear)
    as [Hs [Hf _]].
  unfold week_from_x. cbv zeta. fold ratio. split.
  - rewrite Hs. subst k. ring.
  - destruct Hf as [Hf|Hf]; rewrite Hf; [left|right]; subst k; ring.
Qed.

End Columns.

Section AnchorGeometry.

Import Py Model Commands Controller PyFacts ObjectFacts.

Context `{Constants}.

(** [_size_scale] stays between 0.6 and 1.0, and on the sizes 1 to 5
    that a normal form carries it is 0.5 + 0.1 * size. *)
Theorem size_scale_range (size' : Z) :
  ((3 # 5 <= _size_scale size')%Q /\ (_size_scale size' <= 1)%Q)
  /\ (1 <= size' <= 5 ->
      (_size_scale size' == (1 # 2) + (1 # 10) * inject_Z size')%Q).
Proof.
  unfold _size_scale. cbv zeta.
  set (scale := ((1 # 2) + (1 # 10) * inject_Z size')%Q).
  split.
  - destruct (ltb scale (3 # 5)) eqn:A; [split; lra|].
    apply ltb_ge in A. destruct (ltb 1 scale) eqn:B; [split; lra|].
    apply ltb_ge in B. split; assumption.
  - intros [H1 H5].
    assert (Q1 : (inject_Z 1 <= inject_Z size')%Q) by (rewrite <- Zle_Qle; exact H1).
    assert (Q5 : (inject_Z size' <= inject_Z 5)%Q) by (rewrite <- Zle_Qle; exact H5).
    change (inject_Z 1) with 1%Q in Q1. change (inject_Z 5) with 5%Q in Q5.
    replace (ltb scale (3 # 5)) with false
      by (symmetry; apply ltb_ge; subst scale; lra).
    replace (ltb 1 scale) with false
      by (symmetry; apply ltb_ge; subst scale; lra).
    reflexivity.
Qed.


(** The controller and the renderer agree on the point a link is drawn
    to, for every kind of object but a deadline. *)
Theorem controller_and_renderer_anchor_points_agree
    (st : Controller.t) (layout' : Layout.t) (o : CanvasObject) :
  st.(layout) = Some layout' ->
  o.(kind) <> "deadline" ->
  _object_anchor_point st o = Items._object_center_for_link o layout'.
Proof.
  intros Hl Hk. unfold _object_anchor_point, Items._object_center_for_link.
  rewrite Hl.
  destruct (o.(kind) =? "textbox"); [reflexivity|].
  destruct (o.(kind) =? "milestone"); [reflexivity|].
  destruct (o.(kind) =? "circle"); [reflexivity|].
  destruct (o.(kind) =? "deadline") eqn:E;
    [apply String.eqb_eq in E; contradiction|].
  reflexivity.
Qed.

(** [_next_z_index] is 0 on an empty model and otherwise lies above the
    z-index of every object. *)
Theorem next_z_index_is_above_every_object (st : Controller.t) :
  (st.(model).(objects) = [] -> _next_z_index st = 0)
  /\ (forall o, In o (Dict.values st.(model).(objects)) ->
                o.(z_index) < _next_z_index st).
Proof.
  unfold _next_z_index. split.
  - intro He. rewrite He. reflexivity.
  - assert (Hfold : forall (r : list CanvasObject) (a : Z),
               a <= fold_left (fun acc obj => Z.max acc obj.(z_index)) r a
               /\ forall o, In o r ->
                            o.(z_index)
                            <= fold_left (fun acc obj => Z.max acc obj.(z_index)) r a).
    { induction r as [|b r IH]; intro a; simpl.
      - split; [lia|]. intros o [].
      - destruct (IH (Z.max a b.(z_index))) as [H1 H2]. split; [lia|].
        intros o [Ho|Ho]; [subst o; lia|]. apply H2. exact Ho. }
    destruct (Dict.values st.(model).(objects)) as [|o0 r]; [intros o []|].
    intros o Ho. destruct (Hfold r o0.(z_index)) as [H1 H2].
    destruct Ho as [Ho|Ho]; [subst o; lia|].
    specialize (H2 o Ho). lia.
Qed.

End AnchorGeometry.

(** ** Edits and their undo *)

Module UndoFacts.

Import Py Model Commands Spec Controller PyFacts ObjectFacts DictFacts ModelFacts
       StackFacts UpdateFacts.

Lemma del_set_absent {V : Type} (k : string) (v : V) (d : Dict.t V) :
  ~ In k (Dict.keys d) -> Dict.del k (Dict.set k v d) = d.
Proof.
  induction d as [|[k' v'] r IH]; intro Hn; simpl.
  - rewrite String.eqb_refl. reflexivity.
  - destruct (String.eqb_spec k k') as [He|Hne].
    + exfalso. apply Hn. left. symmetry. exact He.
    + simpl. destruct (String.eqb_spec k k') as [He|_]; [contradiction|].
      f_equal. apply IH. intro Hin. apply Hn. right. exact Hin.
Qed.

Lemma dict_ext {V : Type} (d d' : Dict.t V) :
  NoDup (Dict.keys d) -> Dict.keys d = Dict.keys d' ->
  (forall k, Dict.get k d = Dict.get k d') -> d = d'.
Proof.
  revert d'. induction d as [|[k v] r IH]; intros d' Hnd Hk Hg.
  - destruct d'; [reflexivity|discriminate].
  - destruct d' as [|[k' v'] r']; [discriminate|].
    simpl in Hk. inversion Hk as [[Hkk Hr]]. subst k'.
    inversion Hnd as [|? ? Hnin Hnd']; subst.
    pose proof (Hg k) as Hgk. simpl in Hgk. rewrite String.eqb_refl in Hgk.
    inversion Hgk; subst v'. f_equal.
    apply IH; [exact Hnd'|exact Hr|].
    intro k0. specialize (Hg k0). simpl in Hg.
    destruct (String.eqb_spec k0 k) as [He|Hne]; [|exact Hg].
    subst k0.
    assert (H1 : Dict.get k r = None) by (apply get_none_not_in; exact Hnin).
    assert (H2 : Dict.get k r' = None)
      by (apply get_none_not_in; rewrite <- Hr; exact Hnin).
    rewrite H1, H2. reflexivity.
Qed.

Lemma with_objects_same (m : ProjectModel) : with_objects m.(objects) m = m.
Proof. destruct m. reflexivity. Qed.

(** An update command touches nothing but [objects]. *)
Lemma redo_updates_frame (cs : list QUndoCommand) (m : ProjectModel) :
  Forall is_update cs ->
  redo_all cs m = with_objects (redo_all cs m).(objects) m.
Proof.
  intro Hall. revert m. induction Hall as [|c r Hc Hr IH]; intro m.
  - simpl. symmetry. apply with_objects_same.
  - change (redo_all (c :: r) m) with (redo_all r (Commands.redo c m)).
    rewrite IH at 1. destruct c; try contradiction. simpl Commands.redo.
    unfold Model.update_object. destruct (negb _); reflexivity.
Qed.

Lemma undo_updates_frame (cs : list QUndoCommand) (m : ProjectModel) :
  Forall is_update cs ->
  undo_all cs m = with_objects (undo_all cs m).(objects) m.
Proof.
  intro Hall. induction Hall as [|c r Hc Hr IH].
  - simpl. symmetry. apply with_objects_same.
  - change (undo_all (c :: r) m) with (Commands.undo c (undo_all r m)).
    destruct c; try contradiction. simpl Commands.undo.
    unfold Model.update_object. destruct (negb _).
    + exact IH.
    + rewrite IH at 2. reflexivity.
Qed.

Lemma keys_undo_updates (cs : list QUndoCommand) (m : ProjectModel) :
  Forall is_update cs ->
  Dict.keys (undo_all cs m).(objects) = Dict.keys m.(objects).
Proof.
  intro Hall. induction Hall as [|c r Hc Hr IH]; [reflexivity|].
  change (undo_all (c :: r) m) with (Commands.undo c (undo_all r m)).
  destruct c; try contradiction. simpl. rewrite keys_update_object. exact IH.
Qed.

(** After the undo of a run of updates a key holds the old object of the
    first update made under it, if there is one. *)
Lemma get_undo_updates (cs : list QUndoCommand) (m : ProjectModel) (k : string) :
  Forall is_update cs ->
  Dict.get k (undo_all cs m).(objects)
  = match find (fun c => String.eqb (command_key c) k) cs with
    | Some c => if Dict.contains k m.(objects) then command_old c else None
    | None => Dict.get k m.(objects)
    end.
Proof.
  intro Hall. induction Hall as [|c r Hc Hr IH]; [reflexivity|].
  change (undo_all (c :: r) m) with (Commands.undo c (undo_all r m)).
  destruct c as [| |old_obj new_obj label|]; try contradiction.
  simpl Commands.undo. rewrite get_update_object.
  rewrite (contains_keys _ _ _ (keys_undo_updates r m Hr)).
  simpl find. unfold command_key at 1. rewrite (String.eqb_sym k).
  destruct (String.eqb_spec old_obj.(id) k) as [He|Hne]; simpl.
  - subst k. unfold command_old.
    destruct (Dict.contains old_obj.(id) m.(objects)) eqn:Ec; [reflexivity|].
    rewrite IH. destruct (find _ r); [rewrite ?Ec; reflexivity|].
    apply contains_false. exact Ec.
  - exact IH.
Qed.

(** Undoing a run of updates, each of which recorded as old object the
    one the model held, gives the model back. *)
Lemma undo_redo_updates (cs : list QUndoCommand) (m : ProjectModel) :
  NoDup (Dict.keys m.(objects)) ->
  Forall is_update cs ->
  (forall c, In c cs ->
             exists old, command_old c = Some old
                         /\ Dict.get (command_key c) m.(objects) = Some old) ->
  undo_all cs (redo_all cs m) = m.
Proof.
  intros Hnd Hall Hold.
  rewrite undo_updates_frame by exact Hall.
  rewrite (redo_updates_frame cs m) at 2 by exact Hall.
  assert (Hobj : (undo_all cs (redo_all cs m)).(objects) = m.(objects)).
  { apply dict_ext.
    - rewrite keys_undo_updates, keys_redo_updates by exact Hall. exact Hnd.
    - rewrite keys_undo_updates, keys_redo_updates by exact Hall. reflexivity.
    - intro k. rewrite get_undo_updates by exact Hall.
      rewrite (contains_keys _ _ _ (keys_redo_updates cs m Hall)).
      destruct (find (fun c => String.eqb (command_key c) k) cs) as [c|] eqn:Ef.
      + apply find_some in Ef. destruct Ef as [Hin Hk].
        apply String.eqb_eq in Hk.
        destruct (Hold c Hin) as (old & Ho & Hg). rewrite Hk in Hg.
        rewrite Ho. replace (Dict.contains k m.(objects)) with true; [symmetry; exact Hg|].
        symmetry. apply contains_true. eexists. exact Hg.
      + rewrite get_redo_updates by exact Hall.
        destruct (find (fun c => String.eqb (command_key c) k) (rev cs)) as [c|] eqn:Er;
          [|reflexivity].
        apply find_some in Er. destruct Er as [Hin Hk]. apply in_rev in Hin.
        pose proof (find_none _ _ Ef c Hin) as Hc. simpl in Hc. congruence. }
  rewrite Hobj. destruct m; reflexivity.
Qed.

Section WithConstants.
Context `{Constants}.

(** Every command of an edit records the object the model holds. *)
Lemma update_commands_record_stored
    (st : t) (k : string) (obj new_obj : CanvasObject) (description : string)
    (skip : list string) (defer : bool) (c : QUndoCommand) :
  well_keyed st.(model).(objects) = true ->
  Dict.get k st.(model).(objects) = Some obj ->
  In c (update_commands st k obj new_obj description skip defer) ->
  exists old, command_old c = Some old
              /\ Dict.get (command_key c) st.(model).(objects) = Some old.
Proof.
  intros Hwk Hget Hin. unfold update_commands in Hin.
  apply in_app_or in Hin. destruct Hin as [Hin|Hin].
  - apply in_map_iff in Hin. destruct Hin as ([[old new] label] & Hc & Hin).
    subst c. simpl. exists old. split; [reflexivity|].
    destruct Hin as [Hin|Hin].
    + inversion Hin; subst. rewrite (well_keyed_id _ _ _ Hwk Hget). exact Hget.
    + unfold target_updates in Hin.
      destruct (is_empty _); [contradiction|].
      destruct (_object_anchor_point st new_obj) as [p|]; [|contradiction].
      apply in_flat_map in Hin. destruct Hin as (link & _ & Hin).
      unfold target_link_update in Hin.
      destruct (negb (truthy link.(link_source_id))); [contradiction|].
      destruct link.(link_source_id) as [sid|]; [|contradiction].
      destruct (Dict.get sid st.(model).(objects)) as [source|] eqn:Es; [|contradiction].
      destruct (negb (source.(kind) =? "textbox")); [contradiction|].
      destruct (_textbox_pos_for_anchor _ _ _ _ _ _) as [nx ny].
      cbv beta iota zeta in Hin.
      match type of Hin with In _ (if ?b then _ else _) => destruct b end;
        [|contradiction].
      destruct Hin as [Hin|[]]. inversion Hin; subst.
      rewrite (well_keyed_id _ _ _ Hwk Es). exact Es.
  - apply in_map_iff in Hin. destruct Hin as ([old new] & Hc & Hin).
    subst c. simpl. exists old. split; [reflexivity|].
    destruct (negb (is_empty _) && negb defer); [|contradiction].
    apply in_flat_map in Hin. destruct Hin as (link & Hl & Hin).
    assert (Hlv : In link (Dict.values st.(model).(objects))).
    { destruct (obj.(kind) =? "textbox"); [|contradiction].
      unfold _links_from_source in Hl. apply filter_In in Hl. apply Hl. }
    unfold source_link_update in Hin.
    destruct (negb (truthy link.(link_target_id))); [contradiction|].
    destruct link.(link_target_id) as [tid|]; [|contradiction].
    destruct (Dict.get tid st.(model).(objects)) as [target|]; [|contradiction].
    destruct (_object_anchor_point st target) as [p|]; [|contradiction].
    cbv beta iota zeta in Hin.
    match type of Hin with In _ (if ?b then _ else _) => destruct b end;
      [|contradiction].
    destruct Hin as [Hin|[]]. inversion Hin; subst.
    apply well_keyed_value; assumption.
Qed.

(** The stack after an edit that changes the object: one command more,
    a macro of all the updates or the update alone. *)
Lemma update_object_stack
    (st : t) (obj_id : string) (changes : list Change) (description : string)
    (skip : list string) (defer : bool) (obj : CanvasObject) :
  stack_idle st.(undo_stack) = true ->
  Dict.get obj_id st.(model).(objects) = Some obj ->
  let new_obj := _normalize_object (replace obj changes) in
  CanvasObject_eqb new_obj obj = false ->
  let st' := update_object obj_id changes description skip defer st in
  let cs := update_commands st obj_id obj new_obj description skip defer in
  exists c,
    st'.(undo_stack)
    = mkQUndoStack
        (firstn st.(undo_stack).(index) st.(undo_stack).(command_list) ++ [c])
        (S st.(undo_stack).(index)) []
    /\ (forall m, Commands.undo c m = undo_all cs m)
    /\ (forall m, Commands.redo c m = redo_all cs m).
Proof.
  intros Hidle Hget new_obj Hneq st' cs. subst st' cs. unfold update_object.
  rewrite Hget. fold new_obj. rewrite Hneq.
  unfold update_commands.
  set (st1 := remember_defaults obj new_obj changes st).
  change (_links_for_target st1 obj_id skip) with (_links_for_target st obj_id skip).
  change (_links_from_source st1 obj_id) with (_links_from_source st obj_id).
  change (target_updates st1 new_obj) with (target_updates st new_obj).
  change (source_link_update st1 new_obj) with (source_link_update st new_obj).
  set (updates := (obj, new_obj, description) :: _).
  set (link_updates := if _ && negb defer then _ else _).
  assert (Hidle1 : stack_idle st1.(undo_stack) = true) by exact Hidle.
  destruct ((1 <? List.length updates)%nat || negb (is_empty link_updates)) eqn:Em.
  - rewrite <- push_all_app.
    destruct (macro_run description
                (map update_command updates
                 ++ map (fun u => UpdateObjectCommand (fst u) (snd u) "Update Anchor")
                        link_updates) st1 Hidle1) as (_ & _ & Hs).
    change (undo_stack st1) with (undo_stack st) in Hs.
    eexists. split; [exact Hs|].
    split; intro m; [apply undo_macro|apply redo_macro].
  - apply orb_false_iff in Em. destruct Em as [Eu El].
    rewrite negb_false_iff in El.
    destruct link_updates; [|discriminate].
    assert (Hu : updates = [(obj, new_obj, description)]).
    { subst updates.
      destruct (target_updates st new_obj (_links_for_target st obj_id skip));
        [reflexivity|discriminate]. }
    rewrite Hu. simpl map. simpl app.
    apply stack_idle_spec in Hidle. destruct Hidle as [Hm Hi].
    eexists. split; [|split; intro m; reflexivity].
    unfold push, Commands.push, with_stack_model, record_command. simpl.
    change (macro_stack (undo_stack st1)) with (macro_stack (undo_stack st)).
    rewrite Hm. reflexivity.
Qed.

End WithConstants.
End UndoFacts.

Section UndoOfEdits.

Import Py Model Commands Spec Controller PyFacts ObjectFacts DictFacts ModelFacts
       StackFacts UpdateFacts UndoFacts.

Context `{Constants}.

(** One step back from a stack whose last command is [c], and one step
    forth again. *)
Lemma undo_redo_last_command (st st' : t) (c : QUndoCommand) :
  stack_idle st.(undo_stack) = true ->
  st'.(undo_stack)
  = mkQUndoStack
      (firstn st.(undo_stack).(index) st.(undo_stack).(command_list) ++ [c])
      (S st.(undo_stack).(index)) [] ->
  (Controller.undo st').(model) = Commands.undo c st'.(model)
  /\ (Controller.redo (Controller.undo st')).(model)
     = Commands.redo c (Commands.undo c st'.(model)).
Proof.
  intros Hidle Hs. apply stack_idle_spec in Hidle. destruct Hidle as [_ Hi].
  assert (Hn : nth_error
                 (firstn st.(undo_stack).(index) st.(undo_stack).(command_list) ++ [c])
                 st.(undo_stack).(index) = Some c).
  { rewrite nth_error_app2; rewrite length_firstn, Nat.min_l by exact Hi; [|lia].
    rewrite Nat.sub_diag. reflexivity. }
  unfold Controller.undo, Controller.redo, with_stack_model, stack_undo, stack_redo.
  rewrite Hs. cbn [macro_stack index command_list fst snd model undo_stack].
  rewrite Hn. cbn [macro_stack index command_list fst snd model undo_stack].
  rewrite Hn. split; reflexivity.
Qed.

(** The object that [add_object] stores for [obj]. *)
Lemma add_object_model (obj : CanvasObject) (description : string) (st : t) :
  let lifted :=
    if (obj.(z_index) =? 0)%Z && negb (is_empty st.(model).(objects))
    then set_z_index (_next_z_index st) obj else obj in
  let stored := _normalize_object lifted in
  (add_object obj description st).(model) = Model.add_object stored st.(model)
  /\ stored.(id) = obj.(id)
  /\ (stack_idle st.(undo_stack) = true ->
      (add_object obj description st).(undo_stack)
      = mkQUndoStack
          (firstn st.(undo_stack).(index) st.(undo_stack).(command_list)
           ++ [AddObjectCommand stored description])
          (S st.(undo_stack).(index)) []).
Proof.
  cbv zeta. split; [|split].
  - unfold add_object. rewrite model_push. reflexivity.
  - rewrite normalize_id. destruct (_ && _); [destruct obj|]; reflexivity.
  - intro Hidle. apply stack_idle_spec in Hidle. destruct Hidle as [Hm _].
    unfold add_object, push, Commands.push, with_stack_model, record_command.
    cbn [fst snd undo_stack]. rewrite Hm. reflexivity.
Qed.

(** [add_object] stores under the id of the object its normal form,
    which normalization leaves as it is.  An object handed over with
    z-index 0 comes to lie above every object the model holds.  When the
    id is new, one undo gives the model back and one redo stores the
    object again. *)
Theorem add_object_stores_normal_form_and_undoes
    (obj : CanvasObject) (description : string) (st : t) :
  let st' := add_object obj description st in
  exists stored,
    Dict.get obj.(id) st'.(model).(objects) = Some stored
    /\ _normalize_object stored = stored
    /\ (obj.(z_index) = 0 ->
        forall o, In o (Dict.values st.(model).(objects)) ->
                  o.(z_index) < stored.(z_index))
    /\ (stack_idle st.(undo_stack) = true ->
        Dict.contains obj.(id) st.(model).(objects) = false ->
        (Controller.undo st').(model) = st.(model)
        /\ (Controller.redo (Controller.undo st')).(model) = st'.(model)).
Proof.
  intro st'. destruct (add_object_model obj description st) as (Hm & Hid & Hs).
  cbv zeta in Hm, Hid, Hs. fold st' in Hm, Hs.
  set (lifted := if (obj.(z_index) =? 0)%Z && negb (is_empty st.(model).(objects))
                 then set_z_index (_next_z_index st) obj else obj) in *.
  set (stored := _normalize_object lifted) in *.
  exists stored. split; [|split; [|split]].
  - rewrite Hm, get_add_object, Hid, String.eqb_refl. reflexivity.
  - unfold stored. exact (normalize_twice lifted).
  - intros Hz o Ho. subst stored. rewrite (normalize_z_index lifted). subst lifted.
    rewrite Hz. simpl.
    destruct st.(model).(objects) as [|p r] eqn:Ed; [destruct Ho|].
    simpl. replace (z_index (set_z_index (_next_z_index st) obj))
      with (_next_z_index st) by (destruct obj; reflexivity).
    apply (proj2 (next_z_index_is_above_every_object st)). rewrite Ed. exact Ho.
  - intros Hidle Hnew.
    destruct (undo_redo_last_command st st' _ Hidle (Hs Hidle)) as [Hu Hr].
    assert (Hback : Commands.undo (AddObjectCommand stored description) st'.(model)
                    = st.(model)).
    { rewrite Hm. simpl. unfold Model.remove_object, Model.add_object.
      cbn [objects with_objects]. unfold Dict.contains at 1.
      rewrite get_set_same. cbn [negb].
      rewrite Hid. rewrite del_set_absent.
      - destruct st.(model); reflexivity.
      - apply get_none_not_in, contains_false. exact Hnew. }
    split.
    + rewrite Hu. exact Hback.
    + rewrite Hr, Hback. simpl. symmetry. exact Hm.
Qed.

(** On a model keyed by object ids and with no undo macro open, an
    edit that changes its object is one step of the undo stack, whatever
    it cascades to: one undo gives the model back, and one redo makes the
    edit again. *)
Theorem update_object_is_undone_in_one_step
    (st : t) (obj_id : string) (changes : list Change) (description : string)
    (skip_anchor_sources : list string) (defer_link_updates : bool)
    (obj : CanvasObject) :
  well_keyed st.(model).(objects) = true ->
  stack_idle st.(undo_stack) = true ->
  Dict.get obj_id st.(model).(objects) = Some obj ->
  CanvasObject_eqb (_normalize_object (replace obj changes)) obj = false ->
  let st' := update_object obj_id changes description
                           skip_anchor_sources defer_link_updates st in
  st'.(undo_stack).(index) = S st.(undo_stack).(index)
  /\ (Controller.undo st').(model) = st.(model)
  /\ (Controller.redo (Controller.undo st')).(model) = st'.(model).
Proof.
  intros Hwk Hidle Hget Hneq st'.
  destruct (update_object_stack st obj_id changes description skip_anchor_sources
              defer_link_updates obj Hidle Hget Hneq) as (c & Hs & Hu & Hr).
  destruct (update_object_model st obj_id changes description skip_anchor_sources
              defer_link_updates obj Hget Hneq) as [Hm _].
  cbv zeta in Hs, Hu, Hr, Hm. fold st' in Hs, Hm.
  set (cs := update_commands st obj_id obj (_normalize_object (replace obj changes))
                             description skip_anchor_sources defer_link_updates) in *.
  destruct (undo_redo_last_command st st' c Hidle Hs) as [Hu' Hr'].
  assert (Hall : Forall is_update cs) by apply update_commands_are_updates.
  assert (Hback : undo_all cs (redo_all cs st.(model)) = st.(model)).
  { apply undo_redo_updates; [apply well_keyed_NoDup; exact Hwk|exact Hall|].
    intros c' Hin.
    exact (update_commands_record_stored st obj_id obj _ description
             skip_anchor_sources defer_link_updates c' Hwk Hget Hin). }
  split; [rewrite Hs; reflexivity|]. split.
  - rewrite Hu', Hu, Hm. exact Hback.
  - rewrite Hr', Hu, Hr, Hm, Hback. reflexivity.
Qed.

(** [duplicate_object] stores the normal form of the clone under the new
    id, above every object the model holds, and leaves every other entry
    as it is; one undo takes the clone away again. *)
Theorem duplicate_object_adds_clone_on_top
    (fresh obj_id : string) (obj : CanvasObject) (st : t) :
  Dict.get obj_id st.(model).(objects) = Some obj ->
  let st' := fst (duplicate_object fresh obj_id st) in
  exists cloned stored,
    snd (duplicate_object fresh obj_id st) = Some cloned
    /\ cloned.(id) = fresh
    /\ stored = _normalize_object cloned
    /\ Dict.get fresh st'.(model).(objects) = Some stored
    /\ (forall o, In o (Dict.values st.(model).(objects)) ->
                  o.(z_index) < stored.(z_index))
    /\ (forall k, k <> fresh ->
                  Dict.get k st'.(model).(objects) = Dict.get k st.(model).(objects))
    /\ (stack_idle st.(undo_stack) = true ->
        Dict.contains fresh st.(model).(objects) = false ->
        (Controller.undo st').(model) = st.(model)).
Proof.
  intros Hget st'.
  assert (Hgen : forall cloned,
             cloned.(id) = fresh -> cloned.(z_index) = _next_z_index st ->
             let st1 := add_object cloned "Duplicate Object" st in
             let stored := _normalize_object cloned in
             Dict.get fresh st1.(model).(objects) = Some stored
             /\ (forall o, In o (Dict.values st.(model).(objects)) ->
                           o.(z_index) < stored.(z_index))
             /\ (forall k, k <> fresh ->
                           Dict.get k st1.(model).(objects)
                           = Dict.get k st.(model).(objects))
             /\ (stack_idle st.(undo_stack) = true ->
                 Dict.contains fresh st.(model).(objects) = false ->
                 (Controller.undo st1).(model) = st.(model))).
  { intros cloned Hid Hz st1 stored.
    destruct (add_object_model cloned "Duplicate Object" st) as (Hm & Hid' & Hs).
    cbv zeta in Hm, Hid', Hs. fold st1 in Hm, Hs.
    assert (Hl : (if (cloned.(z_index) =? 0)%Z && negb (is_empty st.(model).(objects))
                  then set_z_index (_next_z_index st) cloned else cloned) = cloned).
    { destruct (_ && _); [|reflexivity]. rewrite <- Hz. destruct cloned; reflexivity. }
    rewrite Hl in Hm, Hid', Hs. fold stored in Hm, Hid', Hs.
    split; [|split; [|split]].
    - rewrite Hm, get_add_object, Hid', Hid, String.eqb_refl. reflexivity.
    - intros o Ho. subst stored. rewrite (normalize_z_index cloned), Hz.
      apply (proj2 (next_z_index_is_above_every_object st)). exact Ho.
    - intros k Hk. rewrite Hm, get_add_object, Hid', Hid.
      destruct (String.eqb_spec k fresh); [contradiction|reflexivity].
    - intros Hidle Hnew.
      destruct (undo_redo_last_command st st1 _ Hidle (Hs Hidle)) as [Hu _].
      rewrite Hu, Hm. simpl. unfold Model.remove_object, Model.add_object.
      cbn [objects with_objects]. unfold Dict.contains at 1.
      rewrite get_set_same. cbn [negb]. rewrite Hid', Hid.
      rewrite del_set_absent.
      + destruct st.(model); reflexivity.
      + apply get_none_not_in, contains_false. exact Hnew. }
  subst st'. unfold duplicate_object. rewrite Hget.
  destruct (obj.(kind) =? "textbox"); cbn [fst snd].
  - eexists. eexists. split; [reflexivity|]. split; [destruct obj; reflexivity|].
    split; [reflexivity|].
    apply Hgen; destruct obj; reflexivity.
  - eexists. eexists. split; [reflexivity|]. split; [destruct obj; reflexivity|].
    split; [reflexivity|].
    apply Hgen; destruct obj; reflexivity.
Qed.

End UndoOfEdits.

(** ** Saving and loading *)

Section SaveAndLoad.

Import Py Model Spec Saving PyFacts ObjectFacts DictFacts ModelFacts.

Context `{Constants} `{Numerals}.

Lemma kind_is_box {A : Type} (k : string) (a b : A) :
  match k with "box" => a | _ => b end = if String.eqb k "box" then a else b.
Proof.
  repeat match goal with
         | |- context [match ?s with EmptyString => _ | String _ _ => _ end] =>
             destruct s as [|[[] [] [] [] [] [] [] []] ?]; try reflexivity
         end.
Qed.

Lemma unless_empty_get (s : string) : get_or (unless_empty s) "" = s.
Proof.
  unfold unless_empty. destruct (String.eqb_spec s ""); [subst s|]; reflexivity.
Qed.

Lemma from_dict_to_dict (o : CanvasObject) :
  CanvasObject_from_dict (CanvasObject_to_dict o) = Return (reloaded o).
Proof.
  destruct o. unfold CanvasObject_from_dict, CanvasObject_to_dict, reloaded.
  fields. cbn [od_id od_kind od_row_id od_start_week od_end_week od_text od_text_align
               od_text_html od_notes od_notes_html od_scope od_scope_html od_risks
               od_risks_html od_color od_size od_z_index od_target_row_id
               od_target_week od_arrow_mid_week od_arrow_head_start od_arrow_head_end
               od_arrow_direction od_x od_y od_width od_height od_opacity
               od_link_source_id od_link_target_id od_link_source_side
               od_link_source_offset od_link_offset_x od_link_offset_y
               od_connector_source_id od_connector_target_id od_connector_source_side
               od_connector_source_offset od_connector_target_side
               od_connector_target_offset od_assumptions od_assumptions_html
               bind item get_or truthy int_of float_of].
  rewrite !unless_empty_get. rewrite kind_is_box.
  replace (match unless_empty scope0 with Some s => s | None => "" end) with scope0
    by (unfold unless_empty; destruct (String.eqb_spec scope0 ""); [subst|]; reflexivity).
  destruct scope_html0, (color0 =? ""), arrow_head_start0, arrow_head_end0,
    (negb (Qeq_bool opacity0 TEXTBOX_DEFAULT_OPACITY));
    cbn [get_or negb bind int_of float_of truth];
    (destruct (kind0 =? "box"); [|reflexivity]);
    (destruct (normalize_arrow_direction_range arrow_direction0) as [E|[E|E]];
     rewrite E; reflexivity).
Qed.

Lemma option_string_eqb_refl (v : option string) : option_eqb String.eqb v v = true.
Proof. apply option_eqb_refl. apply String.eqb_refl. Qed.

Lemma option_Z_eqb_refl (v : option Z) : option_eqb Z.eqb v v = true.
Proof. apply option_eqb_refl. apply Z.eqb_refl. Qed.

Lemma option_Q_eqb_refl (v : option Q) : option_eqb Qeq_bool v v = true.
Proof. apply option_eqb_refl. apply Qeq_bool_refl'. Qed.

Lemma reloaded_eqb (o : CanvasObject) :
  CanvasObject_eqb (reloaded o) o = saved_faithfully o.
Proof.
  destruct o. unfold CanvasObject_eqb, reloaded, saved_faithfully. fields.
  rewrite !String.eqb_refl, !Z.eqb_refl, !option_string_eqb_refl, !option_Z_eqb_refl,
    !option_Q_eqb_refl, !Bool.eqb_reflx.
  cbn [andb]. rewrite !andb_true_r.
  assert (Hop : Qeq_bool (if negb (Qeq_bool opacity0 TEXTBOX_DEFAULT_OPACITY)
                          then opacity0 else TEXTBOX_DEFAULT_OPACITY) opacity0 = true).
  { destruct (Qeq_bool opacity0 TEXTBOX_DEFAULT_OPACITY) eqn:E; cbn [negb].
    - apply Qeq_bool_iff. symmetry. apply Qeq_bool_iff. exact E.
    - apply Qeq_bool_refl'. }
  rewrite Hop, andb_true_r.
  rewrite (String.eqb_sym arrow_direction0). f_equal.
  destruct (String.eqb_spec color0 "") as [He|Hne]; cbn [negb].
  - subst color0. reflexivity.
  - apply String.eqb_refl.
Qed.

Lemma reloaded_id (o : CanvasObject) : (reloaded o).(id) = o.(id).
Proof. destruct o. reflexivity. Qed.

Lemma objects_from_to_dict (l : list CanvasObject) :
  map_result CanvasObject_from_dict (map CanvasObject_to_dict l)
  = Return (map reloaded l).
Proof.
  induction l as [|o r IH]; [reflexivity|].
  cbn [map map_result]. rewrite from_dict_to_dict. cbn [bind]. rewrite IH. reflexivity.
Qed.

Lemma deliverables_from_to_dict (l : list Deliverable) :
  map_result Deliverable_from_dict (map Deliverable_to_dict l) = Return l.
Proof.
  induction l as [|[i n] r IH]; [reflexivity|].
  cbn [map map_result]. unfold Deliverable_from_dict at 1. simpl. rewrite IH. reflexivity.
Qed.

Lemma topics_from_to_dict (l : list Topic) :
  map_result Topic_from_dict (map Topic_to_dict l) = Return l.
Proof.
  induction l as [|[i n c b ds] r IH]; [reflexivity|].
  cbn [map map_result]. unfold Topic_from_dict at 1. simpl.
  rewrite deliverables_from_to_dict. simpl. rewrite IH. reflexivity.
Qed.

(** Building a dict from objects with distinct ids keeps their order. *)
Lemma fold_set_distinct (l : list CanvasObject) (acc : Dict.t CanvasObject) :
  NoDup (Dict.keys acc ++ map id l) ->
  fold_left (fun acc obj => Dict.set obj.(id) obj acc) l acc
  = acc ++ map (fun o => (o.(id), o)) l.
Proof.
  revert acc. induction l as [|o r IH]; intros acc Hnd; simpl.
  - rewrite app_nil_r. reflexivity.
  - assert (Hset : Dict.set o.(id) o acc = acc ++ [(o.(id), o)]).
    { assert (Hnin : ~ In o.(id) (Dict.keys acc)).
      { intro Hin. apply NoDup_remove_2 in Hnd. apply Hnd.
        apply in_or_app. left. exact Hin. }
      clear Hnd IH. induction acc as [|[k v] a IHa]; [reflexivity|].
      simpl. destruct (String.eqb_spec o.(id) k) as [He|Hne].
      - exfalso. apply Hnin. left. symmetry. exact He.
      - f_equal. apply IHa. intro Hin. apply Hnin. right. exact Hin. }
    rewrite Hset. rewrite IH.
    + rewrite <- app_assoc. reflexivity.
    + unfold Dict.keys in *. rewrite map_app. simpl. rewrite <- app_assoc. exact Hnd.
Qed.

Lemma well_keyed_entries (d : Dict.t CanvasObject) :
  well_keyed d = true ->
  d = map (fun o => (o.(id), o)) (Dict.values d) /\ map id (Dict.values d) = Dict.keys d.
Proof.
  unfold well_keyed. intro Hwk. apply andb_true_iff in Hwk. destruct Hwk as [_ Hall].
  induction d as [|[k o] r IH]; [split; reflexivity|].
  simpl in Hall. apply andb_true_iff in Hall. destruct Hall as [Hk Hr].
  apply String.eqb_eq in Hk. destruct (IH Hr) as [IH1 IH2].
  simpl. split.
  - rewrite <- Hk. f_equal. exact IH1.
  - rewrite <- Hk. f_equal. exact IH2.
Qed.

Lemma objects_eqb_reloaded (l : list CanvasObject) :
  objects_eqb (map (fun o => (o.(id), o)) (map reloaded l))
              (map (fun o => (o.(id), o)) l)
  = forallb saved_faithfully l.
Proof.
  induction l as [|o r IH]; [reflexivity|].
  cbn [map objects_eqb forallb]. rewrite reloaded_id, String.eqb_refl, reloaded_eqb, IH.
  reflexivity.
Qed.

(** The entry that a save writes for an object loads again, and what is
    loaded equals the object exactly when its colour is not empty and its
    arrow direction is in the form a save writes; nothing else of an
    object is lost in a file. *)
Theorem object_survives_save_and_load (o : CanvasObject) :
  exists o',
    CanvasObject_from_dict (CanvasObject_to_dict o) = Return o'
    /\ o'.(id) = o.(id)
    /\ CanvasObject_eqb o' o = saved_faithfully o.
Proof.
  exists (reloaded o). split; [apply from_dict_to_dict|].
  split; [apply reloaded_id|apply reloaded_eqb].
Qed.

(** Loading what [save_project] writes gives the view state and a model
    with the same year, classification and topics, the same object ids in
    the same order, and objects equal to the saved ones as far as each
    survives a save. *)
Theorem load_project_after_save_project
    (m : ProjectModel) (view_state : list (string * JScalar)) :
  well_keyed m.(objects) = true ->
  normalize_classification CLASSIFICATION_SIZE_DEFAULT
                           (Some m.(classification)) (Some m.(classification_size))
  = (m.(classification), m.(classification_size)) ->
  exists m',
    Persistence.load_project (save_project m view_state) = Return (m', view_state)
    /\ m'.(year) = m.(year)
    /\ m'.(topics) = m.(topics)
    /\ m'.(classification) = m.(classification)
    /\ m'.(classification_size) = m.(classification_size)
    /\ Dict.keys m'.(objects) = Dict.keys m.(objects)
    /\ objects_eqb m'.(objects) m.(objects)
       = forallb saved_faithfully (Dict.values m.(objects)).
Proof.
  intros Hwk Hcls.
  destruct (well_keyed_entries _ Hwk) as [Hd Hids].
  assert (Hnd : NoDup (Dict.keys m.(objects))) by (apply well_keyed_NoDup; exact Hwk).
  unfold Persistence.load_project, ProjectModel_from_dict, save_project,
    ProjectModel_to_dict.
  cbn [pd_schema_version pd_year pd_classification pd_classification_size pd_topics
       pd_objects pd_view get_or scalar_eq_int].
  rewrite Z.eqb_refl.
  cbn [negb int_of bind classification_text classification_size_value]. rewrite Hcls.
  rewrite topics_from_to_dict. cbn [bind].
  rewrite objects_from_to_dict. cbn [bind].
  rewrite fold_set_distinct.
  2:{ simpl. rewrite map_map.
      rewrite (map_ext (fun o => (reloaded o).(id)) id) by apply reloaded_id.
      rewrite Hids. exact Hnd. }
  eexists. split; [reflexivity|].
  cbn [year topics classification classification_size objects app].
  repeat split.
  - unfold Dict.keys. rewrite !map_map. cbn [fst].
    rewrite (map_ext (fun o => (reloaded o).(id)) id) by apply reloaded_id.
    exact Hids.
  - rewrite Hd at 2. apply objects_eqb_reloaded.
Qed.

(** The entries of a list are read in order: the first one that raises
    ends the reading. *)
Lemma map_result_first_raise {A B : Type} (f : A -> result B)
    (before after : list A) (bad : A) (bs : list B) (e : exception) :
  map_result f before = Return bs -> f bad = Raise e ->
  map_result f (before ++ bad :: after) = Raise e.
Proof.
  revert bs. induction before as [|a r IH]; intros bs Hb Hbad.
  - cbn [app map_result]. rewrite Hbad. reflexivity.
  - cbn [app map_result] in Hb |- *. destruct (f a) as [b|e']; [|discriminate].
    cbn [bind] in Hb |- *.
    destruct (map_result f r) as [bs'|e'] eqn:Er; [|discriminate].
    rewrite (IH bs' eq_refl Hbad). reflexivity.
Qed.

Lemma missing_key_raised (d : ObjectData) :
  object_keys_ok d = false ->
  In (missing_key d) ["id"; "kind"; "row_id"; "start_week"]
  /\ CanvasObject_from_dict d = Raise (KeyError (missing_key d)).
Proof.
  unfold object_keys_ok, missing_key, CanvasObject_from_dict. cbv zeta.
  destruct d.(od_id); [|intros _; split; [simpl; auto|reflexivity]].
  destruct d.(od_kind); [|intros _; split; [simpl; auto|reflexivity]].
  destruct d.(od_row_id); [|intros _; split; [simpl; auto 6|reflexivity]].
  destruct d.(od_start_week); [discriminate|].
  intros _. split; [simpl; auto 6|reflexivity].
Qed.


End SaveAndLoad.

(** ** Topics and deliverables *)

Module RowFacts.

Import Py Model Rows RowCommands Spec.

Section Lists.
Context {A : Type}.

Lemma find_index_some (p : A -> bool) (l : list A) (i : nat) (a : A) :
  find_index p l = Some (i, a) ->
  nth_error l i = Some a /\ p a = true
  /\ forall j b, (j < i)%nat -> nth_error l j = Some b -> p b = false.
Proof.
  revert i. induction l as [|x r IH]; intros i Hf; [discriminate|].
  simpl in Hf. destruct (p x) eqn:Ex.
  - inversion Hf; subst. repeat split; [exact Ex|]. intros j b Hj. lia.
  - destruct (find_index p r) as [[i' b']|] eqn:Er; [|discriminate].
    inversion Hf; subst. destruct (IH i' eq_refl) as (Hn & Hp & Hlt).
    repeat split; [exact Hn|exact Hp|].
    intros j b Hj Hb. destruct j as [|j]; simpl in Hb.
    + inversion Hb; subst. exact Ex.
    + apply (Hlt j b); [lia|exact Hb].
Qed.

Lemma find_index_none (p : A -> bool) (l : list A) :
  find_index p l = None -> forall a, In a l -> p a = false.
Proof.
  induction l as [|x r IH]; intros Hf a Ha; [destruct Ha|].
  simpl in Hf. destruct (p x) eqn:Ex; [discriminate|].
  destruct (find_index p r) as [[i' b']|] eqn:Er; [discriminate|].
  destruct Ha as [Ha|Ha]; [subst; exact Ex|]. apply IH; [reflexivity|exact Ha].
Qed.

Lemma find_index_first (p : A -> bool) (l : list A) (i : nat) (a : A) :
  nth_error l i = Some a -> p a = true ->
  (forall j b, (j < i)%nat -> nth_error l j = Some b -> p b = false) ->
  find_index p l = Some (i, a).
Proof.
  revert i. induction l as [|x r IH]; intros i Hn Hp Hlt.
  - destruct i; discriminate.
  - destruct i as [|i]; simpl in Hn |- *.
    + inversion Hn; subst. rewrite Hp. reflexivity.
    + assert (Hx : p x = false) by (apply (Hlt O x); [lia|reflexivity]).
      rewrite Hx.
      rewrite (IH i Hn Hp); [reflexivity|].
      intros j b Hj Hb. apply (Hlt (S j) b); [lia|exact Hb].
Qed.

Lemma find_index_absent (p : A -> bool) (l : list A) :
  (forall a, In a l -> p a = false) -> find_index p l = None.
Proof.
  induction l as [|x r IH]; intro Hall; [reflexivity|].
  simpl. rewrite (Hall x) by (left; reflexivity).
  rewrite IH; [reflexivity|]. intros a Ha. apply Hall. right. exact Ha.
Qed.

Lemma nth_error_change_at (i j : nat) (f : A -> A) (l : list A) :
  nth_error (change_at i f l) j
  = if (i =? j)%nat then option_map f (nth_error l j) else nth_error l j.
Proof.
  revert i j. induction l as [|x r IH]; intros i j.
  - destruct i, j; simpl; try reflexivity; destruct (_ =? _)%nat; reflexivity.
  - destruct i as [|i], j as [|j]; simpl; try reflexivity. apply IH.
Qed.

Lemma length_change_at (i : nat) (f : A -> A) (l : list A) :
  List.length (change_at i f l) = List.length l.
Proof.
  revert i. induction l as [|x r IH]; intro i; [destruct i; reflexivity|].
  destruct i; simpl; [reflexivity|]. f_equal. apply IH.
Qed.

Lemma change_at_twice (i : nat) (f g : A -> A) (l : list A) :
  change_at i g (change_at i f l) = change_at i (fun a => g (f a)) l.
Proof.
  revert i. induction l as [|x r IH]; intro i; [destruct i; reflexivity|].
  destruct i; simpl; [reflexivity|]. f_equal. apply IH.
Qed.

Lemma change_at_same (i : nat) (f : A -> A) (l : list A) :
  (forall a, nth_error l i = Some a -> f a = a) -> change_at i f l = l.
Proof.
  revert i. induction l as [|x r IH]; intros i Hf; [destruct i; reflexivity|].
  destruct i; simpl.
  - rewrite (Hf x eq_refl). reflexivity.
  - f_equal. apply IH. exact Hf.
Qed.

Lemma change_at_ext (i : nat) (f g : A -> A) (l : list A) :
  (forall a, nth_error l i = Some a -> f a = g a) -> change_at i f l = change_at i g l.
Proof.
  revert i. induction l as [|x r IH]; intros i Hf; [destruct i; reflexivity|].
  destruct i; simpl.
  - rewrite (Hf x eq_refl). reflexivity.
  - f_equal. apply IH. exact Hf.
Qed.

Lemma change_at_swap (i j : nat) (f g : A -> A) (l : list A) :
  i <> j -> change_at i f (change_at j g l) = change_at j g (change_at i f l).
Proof.
  revert i j. induction l as [|x r IH]; intros i j Hne; [destruct i, j; reflexivity|].
  destruct i, j; simpl; try reflexivity; [contradiction|]. f_equal. apply IH. lia.
Qed.

(** [insert] at a position within the list. *)
Lemma list_insert_nat (i : nat) (a : A) (l : list A) :
  (i <= List.length l)%nat ->
  list_insert (Z.of_nat i) a l = firstn i l ++ a :: skipn i l.
Proof.
  intro Hi. unfold list_insert. cbv zeta.
  replace (Z.of_nat i <? 0)%Z with false by (symmetry; apply Z.ltb_ge; lia).
  rewrite Z.min_l by lia. rewrite Nat2Z.id. reflexivity.
Qed.

Lemma pop_insert (i : nat) (a : A) (l : list A) :
  (i <= List.length l)%nat -> list_pop i (list_insert (Z.of_nat i) a l) = l.
Proof.
  intro Hi. rewrite list_insert_nat by exact Hi. unfold list_pop.
  assert (Hl : List.length (firstn i l) = i) by (rewrite length_firstn; lia).
  rewrite firstn_app, Hl, Nat.sub_diag. simpl firstn at 2. rewrite app_nil_r.
  rewrite firstn_firstn, Nat.min_id.
  rewrite skipn_app, Hl.
  rewrite (skipn_all2 (n := S i)) by (rewrite Hl; lia).
  replace (S i - i)%nat with 1%nat by lia. simpl.
  apply firstn_skipn.
Qed.

Lemma insert_pop (i : nat) (a : A) (l : list A) :
  nth_error l i = Some a -> list_insert (Z.of_nat i) a (list_pop i l) = l.
Proof.
  intro Hn.
  assert (Hi : (i < List.length l)%nat) by (apply nth_error_Some; congruence).
  unfold list_pop.
  assert (Hl : List.length (firstn i l) = i) by (rewrite length_firstn; lia).
  rewrite list_insert_nat by (rewrite length_app, Hl; lia).
  rewrite firstn_app, Hl, Nat.sub_diag. simpl firstn at 2. rewrite app_nil_r.
  rewrite firstn_firstn, Nat.min_id.
  rewrite skipn_app, Hl, Nat.sub_diag.
  rewrite (skipn_all2 (n := i)) by (rewrite Hl; lia). simpl.
  rewrite <- (firstn_skipn i l) at 3. f_equal.
  clear Hl. revert i Hn Hi. induction l as [|x r IH]; intros i Hn Hi.
  - destruct i; discriminate.
  - destruct i as [|i]; simpl in *.
    + inversion Hn; subst. reflexivity.
    + apply IH; [exact Hn|lia].
Qed.

Lemma nth_error_insert (i : nat) (a : A) (l : list A) :
  (i <= List.length l)%nat ->
  nth_error (list_insert (Z.of_nat i) a l) i = Some a.
Proof.
  intro Hi. rewrite list_insert_nat by exact Hi.
  rewrite nth_error_app2; rewrite length_firstn, Nat.min_l by lia; [|lia].
  rewrite Nat.sub_diag. reflexivity.
Qed.

Lemma length_pop (i : nat) (l : list A) :
  (i < List.length l)%nat -> List.length (list_pop i l) = (List.length l - 1)%nat.
Proof.
  intro Hi. unfold list_pop. rewrite length_app, length_firstn, length_skipn. lia.
Qed.

Lemma length_insert (i : Z) (a : A) (l : list A) :
  List.length (list_insert i a l) = S (List.length l).
Proof.
  unfold list_insert. cbv zeta.
  set (k := Z.to_nat _). rewrite length_app. simpl. rewrite length_firstn, length_skipn.
  lia.
Qed.

Lemma pop_perm (i : nat) (a : A) (l : list A) :
  nth_error l i = Some a -> Permutation l (a :: list_pop i l).
Proof.
  intro Hn. rewrite <- (insert_pop i a l Hn) at 1.
  assert (Hi : (i < List.length l)%nat) by (apply nth_error_Some; congruence).
  rewrite list_insert_nat by (rewrite length_pop; lia).
  rewrite <- (firstn_skipn i (list_pop i l)) at 3.
  symmetry. apply Permutation_middle.
Qed.

Lemma insert_perm (i : Z) (a : A) (l : list A) :
  Permutation (list_insert i a l) (a :: l).
Proof.
  unfold list_insert. cbv zeta. set (k := Z.to_nat _).
  rewrite <- (firstn_skipn k l) at 3. symmetry. apply Permutation_middle.
Qed.

Lemma in_pop (i : nat) (a : A) (l : list A) : In a (list_pop i l) -> In a l.
Proof.
  unfold list_pop. revert i. induction l as [|x r IH]; intros i Hin.
  - destruct i; simpl in Hin; contradiction.
  - destruct i as [|i]; simpl in Hin.
    + right. exact Hin.
    + destruct Hin as [Hin|Hin]; [left; exact Hin|]. right. apply (IH i). exact Hin.
Qed.

Lemma pop_last (a : A) (l : list A) : list_pop (List.length l) (l ++ [a]) = l.
Proof.
  unfold list_pop. induction l as [|x r IH]; [reflexivity|].
  simpl. f_equal. exact IH.
Qed.

End Lists.
End RowFacts.

Section TopicEdits.

Import Py Model Rows RowCommands Spec RowFacts.

Context `{Constants}.

Lemma with_topics_same (m : ProjectModel) : with_topics m.(topics) m = m.
Proof. destruct m. reflexivity. Qed.

(** Changing a topic in place, without touching its id, keeps it the
    first topic of that id. *)
Lemma find_topic_changed
    (tid : string) (ts : list Topic) (pos : nat) (t : Topic) (f : Topic -> Topic) :
  find_index (is_topic tid) ts = Some (pos, t) ->
  (forall t', (f t').(topic_id) = t'.(topic_id)) ->
  find_index (is_topic tid) (change_at pos f ts) = Some (pos, f t).
Proof.
  intros Hf Hid. destruct (find_index_some _ _ _ _ Hf) as (Hn & Hp & Hlt).
  apply find_index_first.
  - rewrite nth_error_change_at, Nat.eqb_refl, Hn. reflexivity.
  - unfold is_topic in *. rewrite Hid. exact Hp.
  - intros j b Hj Hb. rewrite nth_error_change_at in Hb.
    replace (pos =? j)%nat with false in Hb by (symmetry; apply Nat.eqb_neq; lia).
    apply (Hlt j b Hj Hb).
Qed.

(** [toggle_topic_collapsed] flips the flag of the topic and nothing
    else; done twice it gives the model back, and so does the undo of the
    command the controller pushes for it. *)
Theorem toggle_topic_collapsed_is_undone
    (tid : string) (st : Controller.t) (c : RowCommand) :
  RowController.toggle_topic_collapsed tid st = Some c ->
  let m := st.(Controller.model) in
  (exists t t',
      get_topic tid m = Some t
      /\ get_topic tid (redo c m) = Some t'
      /\ t'.(collapsed) = negb t.(collapsed)
      /\ t'.(deliverables) = t.(deliverables)
      /\ topic_ids (redo c m) = topic_ids m)
  /\ undo c (redo c m) = m
  /\ Rows.toggle_topic_collapsed tid (Rows.toggle_topic_collapsed tid m) = m.
Proof.
  intros Hc m. unfold RowController.toggle_topic_collapsed in Hc. fold m in Hc.
  unfold get_topic in Hc.
  destruct (find_index (is_topic tid) m.(topics)) as [[pos t]|] eqn:Ef; [|discriminate].
  inversion Hc; subst c. clear Hc.
  set (flip := fun t : Topic => mkTopic t.(topic_id) t.(topic_name) t.(topic_color)
                                        (negb t.(collapsed)) t.(deliverables)).
  assert (Hredo : redo (ToggleTopicCollapseCommand tid t.(collapsed)) m
                  = with_topics (change_at pos flip m.(topics)) m).
  { simpl. unfold Rows.toggle_topic_collapsed. rewrite Ef. reflexivity. }
  assert (Hfound : find_index (is_topic tid) (change_at pos flip m.(topics))
                   = Some (pos, flip t)).
  { apply find_topic_changed; [exact Ef|]. intro t'. reflexivity. }
  assert (Hback : Rows.toggle_topic_collapsed tid
                    (with_topics (change_at pos flip m.(topics)) m) = m).
  { unfold Rows.toggle_topic_collapsed. cbn [topics with_topics]. rewrite Hfound.
    fold flip. rewrite change_at_twice.
    rewrite change_at_same.
    - unfold with_topics. destruct m; reflexivity.
    - intros a _. destruct a. unfold flip. simpl. rewrite negb_involutive. reflexivity. }
  split; [|split].
  - exists t, (flip t). split; [unfold get_topic; rewrite Ef; reflexivity|].
    rewrite Hredo. split.
    + unfold get_topic. cbn [topics with_topics]. rewrite Hfound. reflexivity.
    + split; [reflexivity|]. split; [reflexivity|].
      unfold topic_ids. cbn [topics with_topics].
      clear. generalize m.(topics) as ts. intro ts. revert pos.
      induction ts as [|x r IH]; intro pos; [destruct pos; reflexivity|].
      destruct pos; simpl; [reflexivity|]. f_equal. apply IH.
  - rewrite Hredo. simpl. unfold get_topic. cbn [topics with_topics]. rewrite Hfound.
    unfold flip at 1. cbn [collapsed]. rewrite eqb_negb1. cbn [negb]. exact Hback.
  - transitivity (Rows.toggle_topic_collapsed tid
                    (with_topics (change_at pos flip m.(topics)) m)); [|exact Hback].
    f_equal. unfold Rows.toggle_topic_collapsed. rewrite Ef. reflexivity.
Qed.

(** [add_topic] appends a topic without deliverables under the new id,
    in the palette colour of its position when none is given; when the id
    is not yet a topic's, it is the topic found under that id and the
    undo of the command takes it away again. *)
Theorem add_topic_is_undone
    (fresh name' : string) (color' : option string) (st : Controller.t) :
  let m := st.(Controller.model) in
  let c := fst (RowController.add_topic fresh name' color' st) in
  let topic := snd (RowController.add_topic fresh name' color' st) in
  (redo c m).(topics) = m.(topics) ++ [topic]
  /\ topic.(topic_id) = fresh
  /\ topic.(deliverables) = []
  /\ (color' = None -> In topic.(topic_color) DEFAULT_TOPIC_COLORS)
  /\ (~ In fresh (topic_ids m) ->
      get_topic fresh (redo c m) = Some topic /\ undo c (redo c m) = m).
Proof.
  intros m c topic. subst c topic. unfold RowController.add_topic. cbv zeta.
  fold m. cbn [fst snd].
  set (topic := mkTopic fresh name' _ false []).
  split; [reflexivity|]. split; [reflexivity|]. split; [reflexivity|]. split.
  - intro Hc. subst color'. cbn [topic topic_color].
    apply nth_In. apply Nat.mod_upper_bound. discriminate.
  - intro Hnew.
    assert (Hfound : find_index (is_topic fresh) (m.(topics) ++ [topic])
                     = Some (List.length m.(topics), topic)).
    { apply find_index_first.
      - rewrite nth_error_app2 by lia. rewrite Nat.sub_diag. reflexivity.
      - unfold is_topic. apply String.eqb_refl.
      - intros j b Hj Hb. rewrite nth_error_app1 in Hb by exact Hj.
        unfold is_topic. apply String.eqb_neq. intro He. apply Hnew.
        unfold topic_ids. rewrite <- He. apply in_map.
        apply (nth_error_In _ _ Hb). }
    split.
    + simpl. unfold get_topic, insert_topic. cbn [topics with_topics insert_or_append].
      rewrite Hfound. reflexivity.
    + simpl. unfold remove_topic, insert_topic.
      cbn [topics with_topics insert_or_append topic_id topic].
      fold topic. rewrite Hfound. cbn [fst].
      rewrite pop_last. unfold with_topics. destruct m; reflexivity.
Qed.

End TopicEdits.

Section RemoveTopic.

Import Py Model Rows RowCommands Spec RowFacts DictFacts ModelFacts.

Context `{Constants}.

Lemma remove_all_redo (objs : list CanvasObject) (m : ProjectModel) :
  remove_all objs m = Commands.redo_all (remove_commands objs) m.
Proof.
  unfold remove_all, Commands.redo_all, remove_commands. revert m.
  induction objs as [|o r IH]; intro m; [reflexivity|]. simpl. apply IH.
Qed.

Lemma topics_remove_all (objs : list CanvasObject) (m : ProjectModel) :
  (remove_all objs m).(topics) = m.(topics).
Proof.
  unfold remove_all. revert m. induction objs as [|o r IH]; intro m; [reflexivity|].
  simpl. rewrite IH. unfold remove_object. destruct (negb _); reflexivity.
Qed.

Lemma topics_add_all (objs : list CanvasObject) (m : ProjectModel) :
  (add_all objs m).(topics) = m.(topics).
Proof.
  unfold add_all. revert m. induction objs as [|o r IH]; intro m; [reflexivity|].
  simpl. rewrite IH. reflexivity.
Qed.

(** After the objects are added again a key holds the last of them that
    carries it, and what it held otherwise. *)
Lemma get_add_all (objs : list CanvasObject) (m : ProjectModel) (k : string) :
  Dict.get k (add_all objs m).(objects)
  = match find (fun o => String.eqb k o.(id)) (rev objs) with
    | Some o => Some o
    | None => Dict.get k m.(objects)
    end.
Proof.
  unfold add_all. revert m. induction objs as [|o r IH] using rev_ind; intro m;
    [reflexivity|].
  rewrite fold_left_app. simpl fold_left. rewrite get_add_object.
  rewrite rev_app_distr. simpl.
  destruct (String.eqb k o.(id)); [reflexivity|]. apply IH.
Qed.

(** A topic list with distinct ids has no second topic under the id of
    the one taken out. *)
Lemma no_topic_left (ts : list Topic) (index : nat) (t : Topic) :
  NoDup (map topic_id ts) -> nth_error ts index = Some t ->
  find_index (is_topic t.(topic_id)) (list_pop index ts) = None.
Proof.
  intros Hnd Hn. apply find_index_absent. intros a Ha.
  unfold is_topic. apply String.eqb_neq. intro He.
  pose proof (pop_perm index t ts Hn) as Hp.
  apply (Permutation_map topic_id) in Hp.
  apply (Permutation_NoDup Hp) in Hnd. simpl in Hnd.
  inversion Hnd as [|? ? Hnin _]; subst. apply Hnin. rewrite <- He.
  apply in_map. exact Ha.
Qed.

Lemma opt_in_some (v : option string) (s : list string) (a : string) :
  v = Some a -> In a s -> RowController.opt_in v s = true.
Proof. intros Hv Ha. subst v. simpl. apply str_in_In. exact Ha. Qed.

(** What [_objects_for_rows] collects, taken out of the model: the
    objects that stay are those not on the rows and not attached to an
    object on them, and adding the collected objects again gives every
    key what it held. *)
Lemma rows_objects_removed (st : Controller.t) (row_ids : list string) :
  let m := st.(Controller.model) in
  let removed := RowController._objects_for_rows st row_ids in
  let m0 := remove_all removed m in
  well_keyed m.(objects) = true ->
  (forall o, In o (Dict.values m0.(objects)) ->
             In o (Dict.values m.(objects)) /\ on_rows row_ids o = false)
  /\ (forall o r, In o (Dict.values m0.(objects)) ->
                  In r (Dict.values m.(objects)) -> on_rows row_ids r = true ->
                  references r.(id) o = false)
  /\ (forall k o, Dict.get k m.(objects) = Some o ->
                  on_rows row_ids o = false ->
                  (forall r, In r (Dict.values m.(objects)) ->
                             on_rows row_ids r = true ->
                             references r.(id) o = false) ->
                  Dict.get k m0.(objects) = Some o)
  /\ (forall m' k, m'.(objects) = m0.(objects) ->
                   Dict.get k (add_all removed m').(objects) = Dict.get k m.(objects)).
Proof.
  intros m removed m0 Hwk.
  assert (Hkeys : NoDup (Dict.keys m.(objects))) by (apply well_keyed_NoDup; exact Hwk).
  assert (Hm0 : forall k, Dict.get k m0.(objects)
                          = if str_in k (map id removed) then None
                            else Dict.get k m.(objects)).
  { intro k. subst m0. rewrite remove_all_redo. apply get_redo_removes. exact Hkeys. }
  assert (Hnd0 : NoDup (Dict.keys m0.(objects))).
  { subst m0. rewrite remove_all_redo. apply nodup_redo_removes. exact Hkeys. }
  assert (Hin_removed : forall o, In o removed -> In o (Dict.values m.(objects))).
  { intros o Ho. subst removed. unfold RowController._objects_for_rows in Ho.
    fold m in Ho.
    apply in_app_or in Ho. destruct Ho as [Ho|Ho]; [apply filter_In in Ho; apply Ho|].
    apply in_app_or in Ho. destruct Ho as [Ho|Ho]; apply filter_In in Ho; apply Ho. }
  assert (Hrow : forall r, In r (Dict.values m.(objects)) -> on_rows row_ids r = true ->
                           In r removed).
  { intros r Hr Hon. subst removed. unfold RowController._objects_for_rows.
    fold m. apply in_or_app. left. apply filter_In. split; [exact Hr|exact Hon]. }
  assert (Hrow_id : forall r, In r (Dict.values m.(objects)) -> on_rows row_ids r = true ->
                              In r.(id) (map id (filter (on_rows row_ids)
                                                        (Dict.values m.(objects))))).
  { intros r Hr Hon. apply in_map. apply filter_In. split; assumption. }
  assert (Hleft : forall o, In o (Dict.values m0.(objects)) ->
                            In o (Dict.values m.(objects)) /\ ~ In o removed).
  { intros o Ho. apply in_values in Ho. destruct Ho as [k Hk].
    apply in_get in Hk; [|exact Hnd0]. rewrite Hm0 in Hk.
    destruct (str_in k (map id removed)) eqn:Es; [discriminate|].
    split; [apply (get_in_values k); exact Hk|].
    intro Hr. apply str_in_not_In in Es. apply Es.
    rewrite <- (well_keyed_id _ _ _ Hwk Hk). apply in_map. exact Hr. }
  split; [|split; [|split]].
  - intros o Ho. destruct (Hleft o Ho) as [Hv Hnr]. split; [exact Hv|].
    destruct (on_rows row_ids o) eqn:Eon; [|reflexivity].
    exfalso. apply Hnr. apply Hrow; assumption.
  - intros o r Ho Hr Hon. destruct (Hleft o Ho) as [Hv Hnr].
    destruct (references r.(id) o) eqn:Eref; [|reflexivity].
    exfalso. apply Hnr. subst removed. unfold RowController._objects_for_rows.
    fold m. unfold references in Eref.
    apply orb_true_iff in Eref. destruct Eref as [El|Ec].
    + apply andb_true_iff in El. destruct El as [Ek Ee].
      apply in_or_app. right. apply in_or_app. left.
      apply filter_In. split; [exact Hv|]. rewrite Ek. cbn [andb].
      apply orb_true_iff. apply orb_true_iff in Ee. destruct Ee as [Ee|Ee]; [left|right].
      * unfold eq_opt in Ee. destruct o.(link_source_id) as [s|] eqn:Es; [|discriminate].
        apply String.eqb_eq in Ee. subst s.
        apply (opt_in_some _ _ r.(id)); [reflexivity|]. apply Hrow_id; assumption.
      * unfold eq_opt in Ee. destruct o.(link_target_id) as [s|] eqn:Es; [|discriminate].
        apply String.eqb_eq in Ee. subst s.
        apply (opt_in_some _ _ r.(id)); [reflexivity|]. apply Hrow_id; assumption.
    + apply andb_true_iff in Ec. destruct Ec as [Ek Ee].
      apply in_or_app. right. apply in_or_app. right.
      apply filter_In. split; [exact Hv|]. rewrite Ek. cbn [andb].
      apply orb_true_iff. apply orb_true_iff in Ee. destruct Ee as [Ee|Ee]; [left|right].
      * unfold eq_opt in Ee.
        destruct o.(connector_source_id) as [s|] eqn:Es; [|discriminate].
        apply String.eqb_eq in Ee. subst s.
        apply (opt_in_some _ _ r.(id)); [reflexivity|]. apply Hrow_id; assumption.
      * unfold eq_opt in Ee.
        destruct o.(connector_target_id) as [s|] eqn:Es; [|discriminate].
        apply String.eqb_eq in Ee. subst s.
        apply (opt_in_some _ _ r.(id)); [reflexivity|]. apply Hrow_id; assumption.
  - intros k o Hk Hon Href. rewrite Hm0.
    destruct (str_in k (map id removed)) eqn:Es; [|exact Hk].
    exfalso. apply str_in_In in Es. apply in_map_iff in Es.
    destruct Es as (o' & Hid & Ho').
    assert (Ho'v : In o' (Dict.values m.(objects))) by (apply Hin_removed; exact Ho').
    assert (Heq : o' = o).
    { pose proof (well_keyed_value _ _ Hwk Ho'v) as Hg. rewrite Hid, Hk in Hg.
      inversion Hg. reflexivity. }
    subst o'. clear Ho'v Hid.
    subst removed. unfold RowController._objects_for_rows in Ho'. fold m in Ho'.
    apply in_app_or in Ho'. destruct Ho' as [Ho'|Ho'].
    { apply filter_In in Ho'. destruct Ho' as [_ Hc]. fold (on_rows row_ids o) in Hc.
      congruence. }
    assert (Hmember : forall v, RowController.opt_in v
                          (map id (filter (on_rows row_ids) (Dict.values m.(objects))))
                        = true ->
                      exists r, In r (Dict.values m.(objects))
                                /\ on_rows row_ids r = true /\ v = Some r.(id)).
    { intros v Hv. destruct v as [s|]; [|discriminate]. simpl in Hv.
      apply str_in_In in Hv. apply in_map_iff in Hv. destruct Hv as (r & Hr & Hin).
      apply filter_In in Hin. exists r. split; [apply Hin|]. split; [apply Hin|].
      rewrite Hr. reflexivity. }
    apply in_app_or in Ho'. destruct Ho' as [Ho'|Ho'];
      apply filter_In in Ho'; destruct Ho' as [_ Hc];
      apply andb_true_iff in Hc; destruct Hc as [Ek Ee];
      apply orb_true_iff in Ee; destruct Ee as [Ee|Ee];
      destruct (Hmember _ Ee) as (r & Hr & Hon' & Hv);
      specialize (Href r Hr Hon'); unfold references in Href;
      rewrite Ek, Hv in Href; simpl in Href;
      rewrite String.eqb_refl in Href; simpl in Href;
      rewrite ?orb_true_r in Href; discriminate Href.
  - intros m' k Hobj. rewrite get_add_all, Hobj.
    destruct (find (fun o => String.eqb k o.(id)) (rev removed)) as [o|] eqn:Efind.
    + apply find_some in Efind. destruct Efind as [Hin Hk].
      apply String.eqb_eq in Hk. subst k. apply in_rev in Hin.
      symmetry. apply well_keyed_value; [exact Hwk|]. apply Hin_removed. exact Hin.
    + rewrite Hm0.
      destruct (str_in k (map id removed)) eqn:Es; [|reflexivity].
      exfalso. apply str_in_In in Es. apply in_map_iff in Es.
      destruct Es as (o' & Hid & Ho'). apply in_rev in Ho'.
      pose proof (find_none _ _ Efind o' Ho') as Hn. simpl in Hn.
      rewrite Hid, String.eqb_refl in Hn. discriminate Hn.
Qed.

(** [remove_topic] takes the topic away together with every object on
    its rows and every link and connector attached to one of them, and
    nothing else; the undo of the command puts the topic back in its
    place and every object under its key. *)
Theorem remove_topic_takes_its_objects_along
    (tid : string) (st : Controller.t) (c : RowCommand) :
  let m := st.(Controller.model) in
  well_keyed m.(objects) = true ->
  NoDup (topic_ids m) ->
  RowController.remove_topic tid st = Some c ->
  exists topic,
    get_topic tid m = Some topic
    /\ let row_ids := topic.(topic_id) :: map deliverable_id topic.(deliverables) in
       let m1 := redo c m in
       get_topic tid m1 = None
       /\ (forall o, In o (Dict.values m1.(objects)) ->
                     In o (Dict.values m.(objects)) /\ on_rows row_ids o = false)
       /\ (forall o r, In o (Dict.values m1.(objects)) ->
                       In r (Dict.values m.(objects)) -> on_rows row_ids r = true ->
                       references r.(id) o = false)
       /\ (forall k o, Dict.get k m.(objects) = Some o ->
                       on_rows row_ids o = false ->
                       (forall r, In r (Dict.values m.(objects)) ->
                                  on_rows row_ids r = true ->
                                  references r.(id) o = false) ->
                       Dict.get k m1.(objects) = Some o)
       /\ (undo c m1).(topics) = m.(topics)
       /\ forall k, Dict.get k (undo c m1).(objects) = Dict.get k m.(objects).
Proof.
  intros m Hwk Hnd Hc. unfold RowController.remove_topic in Hc. fold m in Hc.
  destruct (find_index (is_topic tid) m.(topics)) as [[index topic]|] eqn:Ef;
    [|discriminate].
  inversion Hc; subst c. clear Hc.
  destruct (find_index_some _ _ _ _ Ef) as (Hnth & Hp & _).
  unfold is_topic in Hp. apply String.eqb_eq in Hp.
  exists topic. split; [unfold get_topic; rewrite Ef; reflexivity|].
  set (row_ids := topic.(topic_id) :: map deliverable_id topic.(deliverables)).
  set (removed := RowController._objects_for_rows st row_ids).
  set (m0 := remove_all removed m).
  destruct (rows_objects_removed st row_ids Hwk) as (Hstay & Hfree & Hkept & Hback).
  fold m in Hstay, Hfree, Hkept, Hback. fold removed in Hstay, Hfree, Hkept, Hback.
  fold m0 in Hstay, Hfree, Hkept, Hback.
  assert (Hfind0 : find_index (is_topic topic.(topic_id)) m0.(topics)
                   = Some (index, topic)).
  { subst m0. rewrite topics_remove_all, Hp. exact Ef. }
  assert (Hm1 : redo (RemoveTopicCommand topic (Z.of_nat index) removed) m
                = with_topics (list_pop index m.(topics)) m0).
  { simpl. fold m0. unfold remove_topic. rewrite Hfind0. cbn [fst].
    subst m0. rewrite topics_remove_all. reflexivity. }
  cbv zeta. rewrite Hm1. cbn [objects topics with_topics].
  split; [|split; [|split; [|split; [|split]]]].
  - unfold get_topic. cbn [topics with_topics]. rewrite <- Hp.
    rewrite no_topic_left; [reflexivity|exact Hnd|exact Hnth].
  - exact Hstay.
  - exact Hfree.
  - exact Hkept.
  - simpl. rewrite topics_add_all. unfold insert_topic.
    cbn [topics with_topics insert_or_append].
    apply insert_pop. exact Hnth.
  - intro k. simpl. apply Hback. reflexivity.
Qed.

End RemoveTopic.

(** ** Moving a deliverable *)

Module MoveFacts.

Import Py Model Rows RowCommands Spec RowFacts.

Lemma in_firstn {A : Type} (n : nat) (a : A) (l : list A) :
  In a (firstn n l) -> In a l.
Proof.
  revert n. induction l as [|x r IH]; intros n Hin; [destruct n; exact Hin|].
  destruct n as [|n]; simpl in Hin; [contradiction|].
  destruct Hin as [Hin|Hin]; [left; exact Hin|right; apply (IH n); exact Hin].
Qed.

Lemma nodup_app_inv {A : Type} (l1 l2 : list A) :
  NoDup (l1 ++ l2) ->
  NoDup l1 /\ NoDup l2 /\ forall a, In a l1 -> ~ In a l2.
Proof.
  intro Hnd. split; [apply (NoDup_app_remove_r _ _ Hnd)|].
  split; [apply (NoDup_app_remove_l _ _ Hnd)|].
  induction l1 as [|x r IH]; intros a Ha; [destruct Ha|].
  simpl in Hnd. inversion Hnd as [|? ? Hnin Hr]; subst.
  destruct Ha as [Ha|Ha].
  - subst a. intro Hin. apply Hnin. apply in_or_app. right. exact Hin.
  - apply IH; assumption.
Qed.

Lemma nodup_flat_map {A B : Type} (f : A -> list B) (l : list A) (i : nat) (a : A) :
  NoDup (flat_map f l) -> nth_error l i = Some a ->
  NoDup (f a)
  /\ forall j b x, j <> i -> nth_error l j = Some b -> In x (f a) -> ~ In x (f b).
Proof.
  revert i. induction l as [|y r IH]; intros i Hnd Hn; [destruct i; discriminate|].
  simpl in Hnd. apply nodup_app_inv in Hnd. destruct Hnd as (Hy & Hr & Hdis).
  destruct i as [|i]; simpl in Hn.
  - inversion Hn; subst. split; [exact Hy|].
    intros j b x Hj Hb Hx Hxb. destruct j as [|j]; [contradiction|]. simpl in Hb.
    apply (Hdis x Hx). apply in_flat_map. exists b.
    split; [apply (nth_error_In _ _ Hb)|exact Hxb].
  - destruct (IH i Hr Hn) as [Ha Hother]. split; [exact Ha|].
    intros j b x Hj Hb Hx Hxb. destruct j as [|j]; simpl in Hb.
    + inversion Hb; subst. apply (Hdis x Hxb). apply in_flat_map. exists a.
      split; [apply (nth_error_In _ _ Hn)|exact Hx].
    + apply (Hother j b x); [lia|exact Hb|exact Hx|exact Hxb].
Qed.

Lemma find_deliverable_id (did : string) (ds : list Deliverable) (i : nat) (d : Deliverable) :
  find_index (is_deliverable did) ds = Some (i, d) ->
  d.(deliverable_id) = did /\ nth_error ds i = Some d
  /\ In did (map deliverable_id ds).
Proof.
  intro Hf. destruct (find_index_some _ _ _ _ Hf) as (Hn & Hp & _).
  unfold is_deliverable in Hp. apply String.eqb_eq in Hp.
  split; [exact Hp|]. split; [exact Hn|].
  rewrite <- Hp. apply in_map. apply (nth_error_In _ _ Hn).
Qed.

Lemma find_deliverable_absent (did : string) (ds : list Deliverable) :
  ~ In did (map deliverable_id ds) -> find_index (is_deliverable did) ds = None.
Proof.
  intro Hn. apply find_index_absent. intros a Ha. unfold is_deliverable.
  apply String.eqb_neq. intro He. apply Hn. rewrite <- He. apply in_map. exact Ha.
Qed.

Lemma find_deliverable_at (ds : list Deliverable) (i : nat) (d : Deliverable) :
  NoDup (map deliverable_id ds) -> nth_error ds i = Some d ->
  find_index (is_deliverable d.(deliverable_id)) ds = Some (i, d).
Proof.
  intros Hnd Hn. apply find_index_first; [exact Hn|apply String.eqb_refl|].
  intros j b Hj Hb. unfold is_deliverable. apply String.eqb_neq. intro He.
  assert (Hij : j = i).
  { apply (proj1 (NoDup_nth_error (map deliverable_id ds)) Hnd).
    - rewrite length_map. apply nth_error_Some. congruence.
    - rewrite !nth_error_map, Hb, Hn. simpl. rewrite He. reflexivity. }
  lia.
Qed.

(** The double loop finds the deliverable in the first topic that holds
    it. *)
Lemma locate_from_some
    (did : string) (p : nat) (ts : list Topic)
    (pos : nat) (t : Topic) (i : nat) (d : Deliverable) :
  locate_from did p ts = Some (pos, t, i, d) ->
  (p <= pos)%nat /\ nth_error ts (pos - p) = Some t
  /\ find_index (is_deliverable did) t.(deliverables) = Some (i, d)
  /\ forall j t', (j < pos - p)%nat -> nth_error ts j = Some t' ->
                  find_index (is_deliverable did) t'.(deliverables) = None.
Proof.
  revert p. induction ts as [|x r IH]; intros p Hl; [discriminate|].
  simpl in Hl.
  destruct (find_index (is_deliverable did) x.(deliverables)) as [[i' d']|] eqn:Ex.
  - inversion Hl; subst. rewrite Nat.sub_diag. repeat split; [lia|exact Ex|].
    intros j t' Hj. lia.
  - destruct (IH (S p) Hl) as (Hp & Hn & Hf & Hlt).
    split; [lia|]. replace (pos - p)%nat with (S (pos - S p)) by lia.
    split; [exact Hn|]. split; [exact Hf|].
    intros j t' Hj Hj'. destruct j as [|j]; simpl in Hj'.
    + inversion Hj'; subst. exact Ex.
    + apply (Hlt j t'); [lia|exact Hj'].
Qed.

Lemma locate_from_first
    (did : string) (p : nat) (ts : list Topic)
    (pos : nat) (t : Topic) (i : nat) (d : Deliverable) :
  nth_error ts pos = Some t ->
  find_index (is_deliverable did) t.(deliverables) = Some (i, d) ->
  (forall j t', (j < pos)%nat -> nth_error ts j = Some t' ->
                find_index (is_deliverable did) t'.(deliverables) = None) ->
  locate_from did p ts = Some ((p + pos)%nat, t, i, d).
Proof.
  revert p pos. induction ts as [|x r IH]; intros p pos Hn Hf Hlt;
    [destruct pos; discriminate|].
  destruct pos as [|pos]; simpl in Hn |- *.
  - inversion Hn; subst. rewrite Hf. rewrite Nat.add_0_r. reflexivity.
  - assert (Hx : find_index (is_deliverable did) x.(deliverables) = None)
      by (apply (Hlt O x); [lia|reflexivity]).
    rewrite Hx.
    rewrite (IH (S p) pos Hn Hf).
    + replace (S p + pos)%nat with (p + S pos)%nat by lia. reflexivity.
    + intros j t' Hj Hj'. apply (Hlt (S j) t'); [lia|exact Hj'].
Qed.

Lemma with_topics_twice (ts ts' : list Topic) (m : ProjectModel) :
  with_topics ts (with_topics ts' m) = with_topics ts m.
Proof. reflexivity. Qed.

Lemma with_deliverables_same (t : Topic) : with_deliverables t.(deliverables) t = t.
Proof. destruct t. reflexivity. Qed.

(** [move_deliverable] once the deliverable is located. *)
Lemma move_deliverable_located
    (did : string) (new_index : Z) (m : ProjectModel)
    (pos : nat) (t : Topic) (i : nat) (d : Deliverable) :
  locate did m = Some (pos, t, i, d) ->
  let n := clamp_index new_index (Z.of_nat (List.length t.(deliverables)) - 1) in
  move_deliverable did new_index m
  = if (n =? Z.of_nat i)%Z then (m, false)
    else (with_topics
            (change_at pos
               (fun t' => with_deliverables
                            (list_insert n d (list_pop i t'.(deliverables))) t')
               m.(topics)) m, true).
Proof.
  intros Hloc n. unfold move_deliverable. rewrite Hloc.
  destruct (locate_from_some _ _ _ _ _ _ _ Hloc) as (_ & _ & Hf & _).
  destruct (find_deliverable_id _ _ _ _ Hf) as (_ & Hn & _).
  destruct t.(deliverables) as [|x r] eqn:Ed; [destruct i; discriminate|].
  reflexivity.
Qed.

Lemma locate_changed
    (did : string) (ts : list Topic) (pos : nat) (t : Topic) (f : Topic -> Topic)
    (j : nat) (d : Deliverable) :
  nth_error ts pos = Some t ->
  (forall k t', (k < pos)%nat -> nth_error ts k = Some t' ->
                find_index (is_deliverable did) t'.(deliverables) = None) ->
  find_index (is_deliverable did) (f t).(deliverables) = Some (j, d) ->
  locate_from did 0 (change_at pos f ts) = Some (pos, f t, j, d).
Proof.
  intros Hn Hlt Hf.
  apply (locate_from_first did 0 (change_at pos f ts) pos (f t) j d).
  - rewrite nth_error_change_at, Nat.eqb_refl, Hn. reflexivity.
  - exact Hf.
  - intros k t' Hk Hk'. rewrite nth_error_change_at in Hk'.
    replace (pos =? k)%nat with false in Hk' by (symmetry; apply Nat.eqb_neq; lia).
    apply (Hlt k t' Hk Hk').
Qed.

(** A deliverable put into a list that does not hold its id is found
    where it was put. *)
Lemma find_inserted (ds : list Deliverable) (j : nat) (d : Deliverable) :
  ~ In d.(deliverable_id) (map deliverable_id ds) ->
  (j <= List.length ds)%nat ->
  find_index (is_deliverable d.(deliverable_id)) (list_insert (Z.of_nat j) d ds)
  = Some (j, d).
Proof.
  intros Hnin Hj. apply find_index_first.
  - apply nth_error_insert. exact Hj.
  - apply String.eqb_refl.
  - intros k b Hk Hb. rewrite list_insert_nat in Hb by exact Hj.
    rewrite nth_error_app1 in Hb by (rewrite length_firstn; lia).
    unfold is_deliverable. apply String.eqb_neq. intro He. apply Hnin.
    rewrite <- He. apply in_map. apply (in_firstn j). apply (nth_error_In _ _ Hb).
Qed.

End MoveFacts.

Section MoveDeliverable.

Import Py Model Rows RowCommands Spec RowFacts MoveFacts.

Lemma topic_ids_change_at (pos : nat) (f : Topic -> Topic) (ts : list Topic) :
  (forall t, (f t).(topic_id) = t.(topic_id)) ->
  map topic_id (change_at pos f ts) = map topic_id ts.
Proof.
  intro Hf. revert pos. induction ts as [|x r IH]; intro pos; [destruct pos; reflexivity|].
  destruct pos; simpl; [rewrite Hf; reflexivity|]. f_equal. apply IH.
Qed.

Lemma not_in_popped (ds : list Deliverable) (i : nat) (d : Deliverable) :
  NoDup (map deliverable_id ds) -> nth_error ds i = Some d ->
  ~ In d.(deliverable_id) (map deliverable_id (list_pop i ds)).
Proof.
  intros Hnd Hn Hin.
  pose proof (pop_perm i d ds Hn) as Hp.
  apply (Permutation_map deliverable_id) in Hp.
  apply (Permutation_NoDup Hp) in Hnd. simpl in Hnd.
  inversion Hnd as [|? ? Hnin _]; subst. contradiction.
Qed.

Lemma move_within
    (did : string) (new_index : Z) (m : ProjectModel)
    (pos : nat) (t : Topic) (i : nat) (d : Deliverable) :
  locate did m = Some (pos, t, i, d) ->
  NoDup (map deliverable_id t.(deliverables)) ->
  let n := clamp_index new_index (Z.of_nat (List.length t.(deliverables)) - 1) in
  let r := move_deliverable did new_index m in
  (n = Z.of_nat i -> r = (m, false))
  /\ (n <> Z.of_nat i ->
      snd r = true
      /\ (exists t',
             locate did (fst r) = Some (pos, t', Z.to_nat n, d)
             /\ Permutation t'.(deliverables) t.(deliverables)
             /\ t'.(topic_id) = t.(topic_id))
      /\ (fst r).(objects) = m.(objects)
      /\ topic_ids (fst r) = topic_ids m
      /\ move_deliverable did (Z.of_nat i) (fst r) = (m, true)).
Proof.
  intros Hloc Hnd n r. subst r.
  rewrite (move_deliverable_located did new_index m pos t i d Hloc). fold n.
  destruct (locate_from_some _ _ _ _ _ _ _ Hloc) as (_ & Ht & Hf & Hbefore).
  rewrite Nat.sub_0_r in Ht, Hbefore.
  destruct (find_deliverable_id _ _ _ _ Hf) as (Hid & Hn & _).
  assert (Hi : (i < List.length t.(deliverables))%nat)
    by (apply nth_error_Some; congruence).
  assert (Hrange : 0 <= n <= Z.of_nat (List.length t.(deliverables)) - 1)
    by (subst n; unfold clamp_index; lia).
  split.
  - intro He. apply Z.eqb_eq in He. rewrite He. reflexivity.
  - intro Hne. apply Z.eqb_neq in Hne. rewrite Hne. cbn [fst snd].
    set (j := Z.to_nat n).
    assert (Hj : n = Z.of_nat j) by (subst j; rewrite Z2Nat.id; lia).
    assert (Hjlen : (j < List.length t.(deliverables))%nat) by lia.
    set (F := fun t' : Topic =>
                with_deliverables (list_insert n d (list_pop i t'.(deliverables))) t').
    assert (Hlenpop : List.length (list_pop i t.(deliverables))
                      = (List.length t.(deliverables) - 1)%nat)
      by (apply length_pop; exact Hi).
    assert (Hfound : find_index (is_deliverable did) (F t).(deliverables)
                     = Some (j, d)).
    { unfold F. cbn [deliverables with_deliverables]. rewrite Hj, <- Hid.
      apply find_inserted; [apply not_in_popped; assumption|lia]. }
    assert (Hloc1 : locate did (with_topics (change_at pos F m.(topics)) m)
                    = Some (pos, F t, j, d)).
    { unfold locate. cbn [topics with_topics].
      apply locate_changed; assumption. }
    split; [reflexivity|]. split; [|split; [reflexivity|split]].
    + exists (F t). split; [exact Hloc1|]. split; [|reflexivity].
      unfold F. cbn [deliverables with_deliverables].
      rewrite insert_perm. symmetry. apply pop_perm. exact Hn.
    + unfold topic_ids. cbn [topics with_topics].
      apply topic_ids_change_at. intro t'. reflexivity.
    + rewrite (move_deliverable_located did (Z.of_nat i) _ pos (F t) j d Hloc1).
      assert (Hlen1 : List.length (F t).(deliverables) = List.length t.(deliverables)).
      { unfold F. cbn [deliverables with_deliverables].
        rewrite length_insert, Hlenpop. lia. }
      rewrite Hlen1.
      assert (Hclamp : clamp_index (Z.of_nat i)
                                   (Z.of_nat (List.length t.(deliverables)) - 1)
                       = Z.of_nat i) by (unfold clamp_index; lia).
      rewrite Hclamp.
      replace (Z.of_nat i =? Z.of_nat j)%Z with false
        by (symmetry; apply Z.eqb_neq; lia).
      cbn [topics with_topics]. rewrite with_topics_twice.
      rewrite change_at_twice. rewrite change_at_same.
      * destruct m; reflexivity.
      * intros a Ha. rewrite Ht in Ha. inversion Ha; subst a.
        unfold F. cbn [deliverables with_deliverables].
        rewrite Hj, pop_insert by lia.
        rewrite insert_pop by exact Hn.
        destruct t; reflexivity.
Qed.

Lemma find_topic_change_at
    (tid : string) (ts : list Topic) (p : nat) (f : Topic -> Topic)
    (k : nat) (t : Topic) :
  (forall t', (f t').(topic_id) = t'.(topic_id)) ->
  find_index (is_topic tid) ts = Some (k, t) ->
  find_index (is_topic tid) (change_at p f ts)
  = Some (k, if (p =? k)%nat then f t else t).
Proof.
  intros Hid Hf. destruct (find_index_some _ _ _ _ Hf) as (Hn & Hp & Hlt).
  apply find_index_first.
  - rewrite nth_error_change_at, Hn. destruct (p =? k)%nat; reflexivity.
  - unfold is_topic in *. destruct (p =? k)%nat; [rewrite Hid|]; exact Hp.
  - intros j b Hj Hb. rewrite nth_error_change_at in Hb.
    destruct (p =? j)%nat.
    + destruct (nth_error ts j) as [b'|] eqn:Eb; [|discriminate].
      simpl in Hb. inversion Hb; subst b. unfold is_topic. rewrite Hid.
      apply (Hlt j b' Hj Eb).
    + apply (Hlt j b Hj Hb).
Qed.

Lemma find_topic_at (ts : list Topic) (pos : nat) (t : Topic) :
  NoDup (map topic_id ts) -> nth_error ts pos = Some t ->
  find_index (is_topic t.(topic_id)) ts = Some (pos, t).
Proof.
  intros Hnd Hn. apply find_index_first; [exact Hn|apply String.eqb_refl|].
  intros j b Hj Hb. unfold is_topic. apply String.eqb_neq. intro He.
  assert (Hij : j = pos).
  { apply (proj1 (NoDup_nth_error (map topic_id ts)) Hnd).
    - rewrite length_map. apply nth_error_Some. congruence.
    - rewrite !nth_error_map, Hb, Hn. simpl. rewrite He. reflexivity. }
  lia.
Qed.

(** Moving a deliverable into another topic, and back to where it
    was. *)
Lemma move_across
    (did tidT : string) (m : ProjectModel)
    (spos tpos : nat) (S T : Topic) (i j : nat) (d : Deliverable) :
  locate did m = Some (spos, S, i, d) ->
  find_index (is_topic tidT) m.(topics) = Some (tpos, T) ->
  find_index (is_topic S.(topic_id)) m.(topics) = Some (spos, S) ->
  S.(topic_id) <> tidT ->
  NoDup (deliverable_ids m) ->
  (j <= List.length T.(deliverables))%nat ->
  let r := move_deliverable_to_topic did tidT (Some (Z.of_nat j)) m in
  snd r = true
  /\ locate did (fst r)
     = Some (tpos, with_deliverables (list_insert (Z.of_nat j) d T.(deliverables)) T, j, d)
  /\ (fst r).(objects) = m.(objects)
  /\ topic_ids (fst r) = topic_ids m
  /\ move_deliverable_to_topic did S.(topic_id) (Some (Z.of_nat i)) (fst r) = (m, true).
Proof.
  intros Hloc Htgt Hsrc Hne Hnd Hj r. subst r.
  destruct (locate_from_some _ _ _ _ _ _ _ Hloc) as (_ & HS & Hf & Hbefore).
  rewrite Nat.sub_0_r in HS, Hbefore.
  destruct (find_deliverable_id _ _ _ _ Hf) as (Hid & Hn & Hin).
  destruct (find_index_some _ _ _ _ Htgt) as (HT & HTid & _).
  unfold is_topic in HTid. apply String.eqb_eq in HTid.
  assert (Hpos : spos <> tpos).
  { intro He. subst tpos. rewrite HS in HT. inversion HT; subst T. contradiction. }
  destruct (nodup_flat_map _ _ _ _ Hnd HS) as [HndS Hdis].
  assert (Hi : (i < List.length S.(deliverables))%nat)
    by (apply nth_error_Some; congruence).
  set (popf := fun t' : Topic =>
                 with_deliverables (list_pop i t'.(deliverables)) t').
  set (insf := fun t' : Topic =>
                 with_deliverables (list_insert (Z.of_nat j) d t'.(deliverables)) t').
  assert (Hmove : move_deliverable_to_topic did tidT (Some (Z.of_nat j)) m
                  = (with_topics (change_at tpos insf (change_at spos popf m.(topics))) m,
                     true)).
  { unfold move_deliverable_to_topic. rewrite Hloc, Htgt.
    replace (S.(topic_id) =? tidT)%string with false
      by (symmetry; apply String.eqb_neq; exact Hne).
    unfold clamp_index.
    replace (Z.max 0 (Z.min (Z.of_nat j) (Z.of_nat (List.length T.(deliverables)))))
      with (Z.of_nat j) by lia.
    reflexivity. }
  rewrite Hmove. cbn [fst snd objects topics with_topics].
  set (base := change_at spos popf m.(topics)).
  assert (HbaseT : nth_error base tpos = Some T).
  { subst base. rewrite nth_error_change_at.
    replace (spos =? tpos)%nat with false by (symmetry; apply Nat.eqb_neq; exact Hpos).
    exact HT. }
  assert (Hnone : forall k t', nth_error base k = Some t' -> k <> tpos ->
                               find_index (is_deliverable did) t'.(deliverables) = None).
  { intros k t' Hk Hkt. subst base. rewrite nth_error_change_at in Hk.
    destruct (Nat.eqb_spec spos k) as [He|Hnek].
    - subst k. rewrite HS in Hk. simpl in Hk. inversion Hk; subst t'.
      unfold popf. cbn [deliverables with_deliverables].
      apply find_deliverable_absent. rewrite <- Hid. apply not_in_popped; assumption.
    - apply find_deliverable_absent.
      apply (Hdis k t' did); [congruence|exact Hk|exact Hin]. }
  assert (HnotT : ~ In d.(deliverable_id) (map deliverable_id T.(deliverables))).
  { rewrite Hid. apply (Hdis tpos T did); [congruence|exact HT|exact Hin]. }
  assert (Hloc1 : locate_from did 0 (change_at tpos insf base)
                  = Some (tpos, insf T, j, d)).
  { apply locate_changed; [exact HbaseT| |].
    - intros k t' Hk Hk'. apply (Hnone k t' Hk'). lia.
    - unfold insf. cbn [deliverables with_deliverables]. rewrite <- Hid.
      apply find_inserted; assumption. }
  split; [reflexivity|]. split; [exact Hloc1|]. split; [reflexivity|]. split.
  - unfold topic_ids. cbn [topics with_topics]. subst base.
    rewrite !topic_ids_change_at; [reflexivity| |]; intro t'; reflexivity.
  - unfold move_deliverable_to_topic, locate. cbn [topics with_topics].
    rewrite Hloc1.
    assert (Hfs : find_index (is_topic S.(topic_id)) (change_at tpos insf base)
                  = Some (spos, popf S)).
    { rewrite (find_topic_change_at _ base tpos insf spos (popf S)).
      - replace (tpos =? spos)%nat with false
          by (symmetry; apply Nat.eqb_neq; congruence).
        reflexivity.
      - intro t'. reflexivity.
      - subst base.
        rewrite (find_topic_change_at _ m.(topics) spos popf spos S);
          [rewrite Nat.eqb_refl; reflexivity|intro t'; reflexivity|exact Hsrc]. }
    rewrite Hfs.
    replace ((insf T).(topic_id) =? S.(topic_id))%string with false.
    2:{ symmetry. apply String.eqb_neq. unfold insf. cbn [topic_id with_deliverables].
        rewrite HTid. congruence. }
    assert (Hlen : List.length (popf S).(deliverables)
                   = (List.length S.(deliverables) - 1)%nat).
    { unfold popf. cbn [deliverables with_deliverables]. apply length_pop. exact Hi. }
    rewrite Hlen.
    assert (Hclamp : clamp_index (Z.of_nat i)
                                 (Z.of_nat (List.length S.(deliverables) - 1))
                     = Z.of_nat i) by (unfold clamp_index; lia).
    rewrite Hclamp. f_equal. rewrite with_topics_twice.
    rewrite change_at_twice.
    rewrite (change_at_same tpos _ base).
    2:{ intros a Ha. rewrite HbaseT in Ha. inversion Ha; subst a.
        unfold insf. cbn [deliverables with_deliverables].
        rewrite pop_insert by exact Hj. destruct T; reflexivity. }
    subst base. rewrite change_at_twice. rewrite change_at_same.
    + destruct m; reflexivity.
    + intros a Ha. rewrite HS in Ha. inversion Ha; subst a.
      unfold popf. cbn [deliverables with_deliverables].
      rewrite insert_pop by exact Hn. destruct S; reflexivity.
Qed.

(** [move_deliverable] of the model puts the deliverable at the index it
    is given, brought into the range of the topic's list: it answers
    [False] and changes nothing when that is where the deliverable is;
    otherwise the deliverable is found at that index of the same topic,
    whose deliverables are the same as before in another order, and
    moving it to its old index gives the model back. *)
Theorem move_deliverable_moves_and_returns
    (did : string) (new_index : Z) (m : ProjectModel)
    (pos : nat) (t : Topic) (i : nat) (d : Deliverable) :
  locate did m = Some (pos, t, i, d) ->
  NoDup (map deliverable_id t.(deliverables)) ->
  let n := clamp_index new_index (Z.of_nat (List.length t.(deliverables)) - 1) in
  let r := move_deliverable did new_index m in
  (n = Z.of_nat i -> r = (m, false))
  /\ (n <> Z.of_nat i ->
      snd r = true
      /\ (exists t',
             locate did (fst r) = Some (pos, t', Z.to_nat n, d)
             /\ Permutation t'.(deliverables) t.(deliverables)
             /\ t'.(topic_id) = t.(topic_id))
      /\ (fst r).(objects) = m.(objects)
      /\ topic_ids (fst r) = topic_ids m
      /\ move_deliverable did (Z.of_nat i) (fst r) = (m, true)).
Proof.
  intros Hloc Hnd.
  exact (move_within did new_index m pos t i d Hloc Hnd).
Qed.

(** The controller's [move_deliverable] moves the deliverable by one
    row: up or down within its topic, or, from the first or last place
    of its topic, to the end of the topic before or the start of the
    topic after.  Objects and topic ids stay, and the undo of the command
    it pushes gives the model back. *)
Theorem controller_move_deliverable_is_undone
    `{Constants} (did : string) (direction : Z) (st : Controller.t) (c : RowCommand) :
  let m := st.(Controller.model) in
  NoDup (topic_ids m) ->
  NoDup (deliverable_ids m) ->
  RowController.move_deliverable did direction st = Some c ->
  exists pos t i d pos' t' i',
    locate did m = Some (pos, t, i, d)
    /\ locate did (redo c m) = Some (pos', t', i', d)
    /\ (direction < 0 ->
        (pos' = pos /\ S i' = i)
        \/ (i = O /\ S pos' = pos /\ S i' = List.length t'.(deliverables)))
    /\ (0 < direction ->
        (pos' = pos /\ i' = S i)
        \/ (S i = List.length t.(deliverables) /\ pos' = S pos /\ i' = O))
    /\ (redo c m).(objects) = m.(objects)
    /\ topic_ids (redo c m) = topic_ids m
    /\ undo c (redo c m) = m.
Proof.
  intros m Hts Hds Hc. unfold RowController.move_deliverable in Hc. fold m in Hc.
  unfold find_deliverable in Hc.
  destruct (locate did m) as [[[[pos t] i] d]|] eqn:Hloc; [|discriminate].
  destruct (locate_from_some _ _ _ _ _ _ _ Hloc) as (_ & Ht & Hf & _).
  rewrite Nat.sub_0_r in Ht.
  destruct (find_deliverable_id _ _ _ _ Hf) as (Hid & Hn & _).
  assert (Hi : (i < List.length t.(deliverables))%nat)
    by (apply nth_error_Some; congruence).
  destruct (nodup_flat_map _ _ _ _ Hds Ht) as [Hndt _].
  pose proof (find_topic_at _ _ _ Hts Ht) as Hsrc.
  rewrite Hsrc in Hc.
  destruct t.(deliverables) as [|x0 r0] eqn:Ed; [destruct i; discriminate|].
  rewrite <- Ed in *. clear x0 r0 Ed.
  exists pos, t, i, d.
  destruct (direction <? 0)%Z eqn:Edn.
  - apply Z.ltb_lt in Edn.
    destruct (0 <? i)%nat eqn:Ei.
    + apply Nat.ltb_lt in Ei. inversion Hc; subst c. clear Hc.
      destruct (move_within did (Z.of_nat i - 1) m pos t i d Hloc Hndt) as [_ Hmv].
      assert (Hclamp : clamp_index (Z.of_nat i - 1)
                                   (Z.of_nat (List.length t.(deliverables)) - 1)
                       = Z.of_nat i - 1) by (unfold clamp_index; lia).
      cbv zeta in Hmv. rewrite Hclamp in Hmv.
      destruct Hmv as (_ & (t' & Hl' & _ & _) & Hobj & Hids & Hback); [lia|].
      exists pos, t', (Z.to_nat (Z.of_nat i - 1)).
      split; [reflexivity|]. split; [exact Hl'|]. split; [intros _; left; lia|].
      split; [lia|]. split; [exact Hobj|]. split; [exact Hids|].
      simpl. simpl in Hback. rewrite Hback. reflexivity.
    + apply Nat.ltb_ge in Ei. assert (i = O) by lia. subst i.
      destruct (0 <? pos)%nat eqn:Ep; [|discriminate].
      apply Nat.ltb_lt in Ep.
      destruct (nth_error m.(topics) (pos - 1)) as [T|] eqn:ET; [|discriminate].
      inversion Hc; subst c. clear Hc.
      pose proof (find_topic_at _ _ _ Hts ET) as Htgt.
      assert (Hne : t.(topic_id) <> T.(topic_id)).
      { intro He. rewrite <- He in Htgt. rewrite Hsrc in Htgt. inversion Htgt. lia. }
      destruct (move_across did T.(topic_id) m pos (pos - 1) t T O
                            (List.length T.(deliverables)) d
                            Hloc Htgt Hsrc Hne Hds (Nat.le_refl _))
        as (_ & Hl' & Hobj & Hids & Hback).
      exists (pos - 1)%nat,
             (with_deliverables
                (list_insert (Z.of_nat (List.length T.(deliverables))) d
                             T.(deliverables)) T),
             (List.length T.(deliverables)).
      split; [reflexivity|]. split; [exact Hl'|]. split.
      * intros _. right. split; [reflexivity|]. split; [lia|].
        cbn [deliverables with_deliverables]. rewrite length_insert. reflexivity.
      * split; [lia|]. split; [exact Hobj|]. split; [exact Hids|].
        simpl. simpl in Hback. rewrite Hback. reflexivity.
  - apply Z.ltb_ge in Edn.
    destruct (0 <? direction)%Z eqn:Edp; [|discriminate].
    apply Z.ltb_lt in Edp.
    destruct (Z.of_nat i <? Z.of_nat (List.length t.(deliverables)) - 1)%Z eqn:Ei.
    + apply Z.ltb_lt in Ei. inversion Hc; subst c. clear Hc.
      destruct (move_within did (Z.of_nat i + 1) m pos t i d Hloc Hndt) as [_ Hmv].
      assert (Hclamp : clamp_index (Z.of_nat i + 1)
                                   (Z.of_nat (List.length t.(deliverables)) - 1)
                       = Z.of_nat i + 1) by (unfold clamp_index; lia).
      cbv zeta in Hmv. rewrite Hclamp in Hmv.
      destruct Hmv as (_ & (t' & Hl' & _ & _) & Hobj & Hids & Hback); [lia|].
      exists pos, t', (Z.to_nat (Z.of_nat i + 1)).
      split; [reflexivity|]. split; [exact Hl'|]. split; [lia|].
      split; [intros _; left; lia|]. split; [exact Hobj|]. split; [exact Hids|].
      simpl. simpl in Hback. rewrite Hback. reflexivity.
    + apply Z.ltb_ge in Ei.
      destruct (Z.of_nat pos <? Z.of_nat (List.length m.(topics)) - 1)%Z eqn:Ep;
        [|discriminate].
      destruct (nth_error m.(topics) (pos + 1)) as [T|] eqn:ET; [|discriminate].
      inversion Hc; subst c. clear Hc.
      pose proof (find_topic_at _ _ _ Hts ET) as Htgt.
      assert (Hne : t.(topic_id) <> T.(topic_id)).
      { intro He. rewrite <- He in Htgt. rewrite Hsrc in Htgt. inversion Htgt. lia. }
      destruct (move_across did T.(topic_id) m pos (pos + 1) t T i O d
                            Hloc Htgt Hsrc Hne Hds (Nat.le_0_l _))
        as (_ & Hl' & Hobj & Hids & Hback).
      exists (pos + 1)%nat,
             (with_deliverables (list_insert (Z.of_nat 0) d T.(deliverables)) T), O.
      split; [reflexivity|]. split; [exact Hl'|]. split; [lia|]. split.
      * intros _. right. split; [lia|]. split; [lia|reflexivity].
      * split; [exact Hobj|]. split; [exact Hids|].
        simpl. simpl in Hback. rewrite Hback. reflexivity.
Qed.

End MoveDeliverable.

(** ** The rows of the layout *)

Section RowsOfLayout.

Import Py Model Spec LayoutRows PyFacts DictFacts ModelFacts.

Context `{LayoutConstants}.

Lemma stacked_app (y0 y1 y2 : Q) (a b : list Layout.RowLayout) :
  stacked y0 a y1 -> stacked y1 b y2 -> stacked y0 (a ++ b) y2.
Proof.
  revert y0. induction a as [|r a IH]; intros y0 Ha Hb; simpl in *.
  - destruct b as [|r' b]; simpl in *.
    + rewrite Hb. exact Ha.
    + destruct Hb as [Hy Hb]. split; [rewrite Hy; exact Ha|exact Hb].
  - destruct Ha as [Hy Ha]. split; [exact Hy|]. apply IH; assumption.
Qed.

Lemma deliverable_rows_spec (tid : string) (ds : list Deliverable) (y0 : Q) :
  let rows := fst (deliverable_rows tid ds y0) in
  let y_end := snd (deliverable_rows tid ds y0) in
  stacked y0 rows y_end
  /\ map Layout.row_id rows = map deliverable_id ds
  /\ Forall (fun r => r.(Layout.kind) = "deliverable"
                      /\ r.(Layout.height) = DELIVERABLE_ROW_HEIGHT
                      /\ r.(Layout.topic_id) = tid) rows.
Proof.
  revert y0. induction ds as [|d r IH]; intro y0; simpl.
  - split; [reflexivity|]. split; [reflexivity|constructor].
  - specialize (IH (y0 + DELIVERABLE_ROW_HEIGHT)%Q). cbv zeta in IH.
    destruct (deliverable_rows tid r (y0 + DELIVERABLE_ROW_HEIGHT)%Q) as [rows y1].
    simpl in *. destruct IH as (Hs & Hm & Hf).
    split; [split; [reflexivity|exact Hs]|].
    split; [f_equal; exact Hm|].
    constructor; [split; [reflexivity|split; reflexivity]|exact Hf].
Qed.

Lemma topic_rows_spec (ts : list Topic) (y0 : Q) :
  let rows := fst (topic_rows ts y0) in
  let y_end := snd (topic_rows ts y0) in
  stacked y0 rows y_end
  /\ map Layout.row_id rows
     = flat_map (fun t => t.(topic_id)
                          :: (if t.(collapsed) then []
                              else map deliverable_id t.(deliverables))) ts
  /\ Forall (fun r => (r.(Layout.kind) = "topic"
                       /\ r.(Layout.height) = TOPIC_ROW_HEIGHT)
                      \/ (r.(Layout.kind) = "deliverable"
                          /\ r.(Layout.height) = DELIVERABLE_ROW_HEIGHT)) rows.
Proof.
  revert y0. induction ts as [|t r IH]; intro y0; simpl.
  - split; [reflexivity|]. split; [reflexivity|constructor].
  - destruct t.(collapsed).
    + specialize (IH (y0 + TOPIC_ROW_HEIGHT)%Q). cbv zeta in IH.
      destruct (topic_rows r (y0 + TOPIC_ROW_HEIGHT)%Q) as [rows y1].
      simpl in *. destruct IH as (Hs & Hm & Hf).
      split; [split; [reflexivity|exact Hs]|].
      split; [f_equal; exact Hm|].
      constructor; [left; split; reflexivity|exact Hf].
    + pose proof (deliverable_rows_spec t.(topic_id) t.(deliverables)
                                        (y0 + TOPIC_ROW_HEIGHT)%Q) as Hd.
      cbv zeta in Hd.
      destruct (deliverable_rows t.(topic_id) t.(deliverables)
                                 (y0 + TOPIC_ROW_HEIGHT)%Q) as [drows y1].
      specialize (IH y1). cbv zeta in IH.
      destruct (topic_rows r y1) as [rows y2].
      simpl in *. destruct Hd as (Hds & Hdm & Hdf). destruct IH as (Hs & Hm & Hf).
      split; [split; [reflexivity|apply (stacked_app _ y1); assumption]|].
      split; [rewrite map_app, Hdm, Hm; reflexivity|].
      constructor; [left; split; reflexivity|].
      apply Forall_app. split; [|exact Hf].
      apply Forall_forall. intros x Hx.
      rewrite Forall_forall in Hdf. destruct (Hdf x Hx) as (Hk & Hh & _).
      right. split; assumption.
Qed.

(** What the dict built row after row holds. *)
Lemma row_map_of_spec (rows : list Layout.RowLayout) (acc : Dict.t Layout.RowLayout) :
  let d := fold_left (fun acc row => Dict.set row.(Layout.row_id) row acc) rows acc in
  forall rid,
    Dict.get rid d
    = match find (fun r => String.eqb rid r.(Layout.row_id)) (rev rows) with
      | Some r => Some r
      | None => Dict.get rid acc
      end.
Proof.
  revert acc. induction rows as [|r rows IH] using rev_ind; intros acc d rid;
    [reflexivity|].
  subst d. rewrite fold_left_app. simpl fold_left.
  rewrite rev_app_distr. simpl.
  destruct (String.eqb_spec rid r.(Layout.row_id)) as [He|Hne].
  - subst rid. apply get_set_same.
  - rewrite get_set_other by exact Hne. apply IH.
Qed.

(** A new layout shows every topic and, unless the topic is collapsed,
    its deliverables, in the order of the model; the rows are stacked
    without gap or overlap from 0 down to [total_height], a topic row
    [TOPIC_ROW_HEIGHT] high and a deliverable row
    [DELIVERABLE_ROW_HEIGHT]; [row_map] holds rows of the list under
    their ids, and every row when the ids are distinct. *)
Theorem layout_rows_are_stacked (model : ProjectModel) (week_width' : Z) :
  let l := Layout_new model week_width' in
  l.(Layout.week_width) = week_width'
  /\ l.(Layout.origin_week) = 1
  /\ map Layout.row_id l.(Layout.rows) = shown_row_ids model
  /\ stacked 0 l.(Layout.rows) l.(Layout.total_height)
  /\ Forall (fun r => (r.(Layout.kind) = "topic"
                       /\ r.(Layout.height) = TOPIC_ROW_HEIGHT)
                      \/ (r.(Layout.kind) = "deliverable"
                          /\ r.(Layout.height) = DELIVERABLE_ROW_HEIGHT))
            l.(Layout.rows)
  /\ (forall rid r, Dict.get rid l.(Layout.row_map) = Some r ->
                    In r l.(Layout.rows) /\ r.(Layout.row_id) = rid)
  /\ (NoDup (shown_row_ids model) ->
      forall r, In r l.(Layout.rows) ->
                Dict.get r.(Layout.row_id) l.(Layout.row_map) = Some r).
Proof.
  intro l. subst l. unfold Layout_new, rebuild.
  pose proof (topic_rows_spec model.(topics) 0) as Hspec. cbv zeta in Hspec.
  destruct (topic_rows model.(topics) 0) as [rows y_end].
  cbn [fst snd] in Hspec. destruct Hspec as (Hs & Hm & Hf).
  cbn [Layout.week_width Layout.origin_week Layout.rows Layout.row_map
       Layout.total_height].
  split; [reflexivity|]. split; [reflexivity|]. split; [exact Hm|].
  split; [exact Hs|]. split; [exact Hf|].
  unfold row_map_of. split.
  - intros rid r Hg. rewrite (row_map_of_spec rows [] rid) in Hg.
    destruct (find (fun r0 => String.eqb rid r0.(Layout.row_id)) (rev rows))
      as [r0|] eqn:Ef; [|discriminate].
    inversion Hg; subst r0. apply find_some in Ef. destruct Ef as [Hin He].
    apply String.eqb_eq in He. split; [apply in_rev; exact Hin|symmetry; exact He].
  - intros Hnd r Hr. rewrite (row_map_of_spec rows [] r.(Layout.row_id)).
    fold (shown_row_ids model) in Hm. rewrite <- Hm in Hnd.
    destruct (find (fun r0 => String.eqb r.(Layout.row_id) r0.(Layout.row_id))
                   (rev rows)) as [r0|] eqn:Ef.
    + apply find_some in Ef. destruct Ef as [Hin He]. apply String.eqb_eq in He.
      apply in_rev in Hin. f_equal.
      destruct (In_nth_error _ _ Hr) as [i Hi].
      destruct (In_nth_error _ _ Hin) as [j Hj].
      assert (Hij : i = j).
      { apply (proj1 (NoDup_nth_error (map Layout.row_id rows)) Hnd).
        - rewrite length_map. apply nth_error_Some. congruence.
        - rewrite !nth_error_map, Hi, Hj. simpl. rewrite He. reflexivity. }
      subst j. congruence.
    + exfalso. apply in_rev in Hr.
      pose proof (find_none _ _ Ef r Hr) as Hn. simpl in Hn.
      rewrite String.eqb_refl in Hn. discriminate Hn.
Qed.

End RowsOfLayout.

Section RowAtY.

Import Py Model Spec LayoutRows PyFacts.

#[local] Open Scope Q_scope.

(** [bisect_right] on a list in ascending order: everything before the
    index it returns is at most [x], everything from it on is above. *)
Lemma bisect_right_loop_spec (a : list Q) (x : Q) :
  (forall i j, (i <= j < List.length a)%nat -> nth i a 0 <= nth j a 0) ->
  forall (turns lo hi : nat),
    (lo <= hi <= List.length a)%nat -> (hi - lo <= turns)%nat ->
    (forall k, (k < lo)%nat -> nth k a 0 <= x) ->
    (forall k, (hi <= k < List.length a)%nat -> x < nth k a 0) ->
    let p := bisect_right_loop turns a x lo hi in
    (lo <= p <= hi)%nat
    /\ (forall k, (k < p)%nat -> nth k a 0 <= x)
    /\ (forall k, (p <= k < List.length a)%nat -> x < nth k a 0).
Proof.
  intro Hsorted. induction turns as [|turns IH]; intros lo hi Hb Ht Hlo Hhi;
    cbn [bisect_right_loop]; cbv zeta.
  - assert (lo = hi) by lia. subst hi. split; [lia|]. split; assumption.
  - destruct (lo <? hi)%nat eqn:El.
    + apply Nat.ltb_lt in El.
      assert (Hmid : (lo <= (lo + hi) / 2 < hi)%nat).
      { split.
        - apply Nat.div_le_lower_bound; lia.
        - apply Nat.Div0.div_lt_upper_bound; lia. }
      set (mid := ((lo + hi) / 2)%nat) in *. clearbody mid.
      destruct (ltb x (nth mid a 0)) eqn:Ex.
      * apply ltb_lt in Ex.
        assert (Hhi' : forall k, (mid <= k < List.length a)%nat -> x < nth k a 0).
        { intros k Hk. apply (Qlt_le_trans _ (nth mid a 0)); [exact Ex|].
          apply Hsorted. lia. }
        destruct (IH lo mid ltac:(lia) ltac:(lia) Hlo Hhi') as (Hp & H1 & H2).
        split; [lia|]. split; assumption.
      * apply ltb_ge in Ex.
        assert (Hlo' : forall k, (k < mid + 1)%nat -> nth k a 0 <= x).
        { intros k Hk. apply (Qle_trans _ (nth mid a 0)); [|exact Ex].
          apply Hsorted. lia. }
        destruct (IH (mid + 1)%nat hi ltac:(lia) ltac:(lia) Hlo' Hhi) as (Hp & H1 & H2).
        split; [lia|]. split; assumption.
    + apply Nat.ltb_ge in El. assert (lo = hi) by lia. subst hi.
      split; [lia|]. split; assumption.
Qed.

Lemma bisect_right_spec (a : list Q) (x : Q) :
  (forall i j, (i <= j < List.length a)%nat -> nth i a 0 <= nth j a 0) ->
  let p := bisect_right a x in
  (p <= List.length a)%nat
  /\ (forall k, (k < p)%nat -> nth k a 0 <= x)
  /\ (forall k, (p <= k < List.length a)%nat -> x < nth k a 0).
Proof.
  intro Hsorted. unfold bisect_right.
  destruct (bisect_right_loop_spec a x Hsorted (List.length a) 0 (List.length a)
              ltac:(lia) ltac:(lia)
              (fun k (Hk : (k < 0)%nat) => ltac:(lia))
              (fun k (Hk : (List.length a <= k < List.length a)%nat) => ltac:(lia)))
    as (Hp & H1 & H2).
  split; [lia|]. split; assumption.
Qed.

(** Where the rows of a stack lie. *)
Lemma stacked_rows (rows : list Layout.RowLayout) (y0 y_end : Q) :
  stacked y0 rows y_end ->
  (forall r, In r rows -> 0 < r.(Layout.height)) ->
  y0 <= y_end
  /\ forall k r, nth_error rows k = Some r ->
       y0 <= r.(Layout.y) /\ r.(Layout.y) + r.(Layout.height) <= y_end
       /\ (forall k' r', (k < k')%nat -> nth_error rows k' = Some r' ->
                         r.(Layout.y) + r.(Layout.height) <= r'.(Layout.y)).
Proof.
  revert y0. induction rows as [|r0 rows IH]; intros y0 Hs Hh; simpl in Hs.
  - split; [rewrite Hs; apply Qle_refl|]. intros k r Hk. destruct k; discriminate.
  - destruct Hs as [Hy Hs].
    assert (Hh0 : 0 < r0.(Layout.height)) by (apply Hh; left; reflexivity).
    destruct (IH _ Hs (fun r Hr => Hh r (or_intror Hr))) as [Hle Hrows].
    split; [lra|].
    intros k r Hk. destruct k as [|k]; simpl in Hk.
    + inversion Hk; subst r0. split; [lra|]. split; [exact Hle|].
      intros k' r' Hk' Hr'. destruct k' as [|k']; [lia|]. simpl in Hr'.
      destruct (Hrows k' r' Hr') as (Hge & _). exact Hge.
    + destruct (Hrows k r Hk) as (Hge & Hend & Hafter).
      split; [lra|]. split; [exact Hend|].
      intros k' r' Hk' Hr'. destruct k' as [|k']; [lia|]. simpl in Hr'.
      apply (Hafter k' r'); [lia|exact Hr'].
Qed.

Lemma match_nonempty {A B : Type} (rows : list A) (u v : B) :
  rows <> [] -> match rows with [] => u | _ :: _ => v end = v.
Proof. destruct rows; [contradiction|reflexivity]. Qed.

Variable l : Layout.t.
Hypothesis Hstacked : stacked 0 l.(Layout.rows) l.(Layout.total_height).
Hypothesis Hheights : forall r, In r l.(Layout.rows) -> 0 < r.(Layout.height).

Lemma end_position (k : nat) (r : Layout.RowLayout) :
  nth_error l.(Layout.rows) k = Some r ->
  nth k (_row_end_positions l) 0 = r.(Layout.y) + r.(Layout.height).
Proof.
  intro Hk. unfold _row_end_positions.
  apply nth_error_nth. rewrite nth_error_map, Hk. reflexivity.
Qed.

Lemma end_positions_ascend (i j : nat) :
  (i <= j < List.length (_row_end_positions l))%nat ->
  nth i (_row_end_positions l) 0 <= nth j (_row_end_positions l) 0.
Proof.
  intro Hij. unfold _row_end_positions in Hij. rewrite length_map in Hij.
  destruct (nth_error l.(Layout.rows) i) as [ri|] eqn:Ei;
    [|apply nth_error_None in Ei; lia].
  destruct (nth_error l.(Layout.rows) j) as [rj|] eqn:Ej;
    [|apply nth_error_None in Ej; lia].
  rewrite (end_position i ri Ei), (end_position j rj Ej).
  destruct (Nat.eq_dec i j) as [He|Hne].
  - subst j. rewrite Ei in Ej. inversion Ej. apply Qle_refl.
  - destruct (stacked_rows _ _ _ Hstacked Hheights) as [_ Hrows].
    destruct (Hrows i ri Ei) as (_ & _ & Hafter).
    pose proof (Hafter j rj ltac:(lia) Ej) as Hle.
    pose proof (Hheights rj (nth_error_In _ _ Ej)) as Hpos. lra.
Qed.

(** [row_at_y] names the row that holds [y]: for rows stacked from 0
    with positive heights, a point between the top of a row and its
    bottom, the bottom left out, gives the id of that row; a point above
    the rows or at or below their end gives [None]. *)
Theorem row_at_y_names_the_row :
  (forall k r scene_y,
      nth_error l.(Layout.rows) k = Some r ->
      l.(Layout.header_height) + r.(Layout.y) <= scene_y ->
      scene_y < l.(Layout.header_height) + r.(Layout.y) + r.(Layout.height) ->
      row_at_y l scene_y = Some r.(Layout.row_id))
  /\ (forall scene_y, scene_y < l.(Layout.header_height) -> row_at_y l scene_y = None)
  /\ (forall scene_y,
         l.(Layout.header_height) + l.(Layout.total_height) <= scene_y ->
         row_at_y l scene_y = None).
Proof.
  destruct (stacked_rows _ _ _ Hstacked Hheights) as [Htotal Hrows].
  assert (Hlen : List.length (_row_end_positions l) = List.length l.(Layout.rows))
    by (unfold _row_end_positions; apply length_map).
  split; [|split].
  - intros k r scene_y Hk Htop Hbottom.
    destruct (Hrows k r Hk) as (Hge & Hend & Hafter).
    assert (Hklen : (k < List.length l.(Layout.rows))%nat)
      by (apply nth_error_Some; congruence).
    unfold row_at_y. cbv zeta.
    set (y_rel := scene_y - l.(Layout.header_height)).
    replace (ltb y_rel 0) with false by (symmetry; apply ltb_ge; subst y_rel; lra).
    rewrite match_nonempty by (intro Hnil; rewrite Hnil in Hklen; simpl in Hklen; lia).
    destruct (bisect_right_spec (_row_end_positions l) y_rel end_positions_ascend)
      as (Hp & Hbelow & Habove).
    set (p := bisect_right (_row_end_positions l) y_rel) in *.
    assert (Hpk : p = k).
    { destruct (Nat.lt_trichotomy p k) as [Hlt|[He|Hgt]]; [|exact He|].
      - exfalso. pose proof (Habove p ltac:(lia)) as Hx.
        destruct (nth_error l.(Layout.rows) p) as [rp|] eqn:Ep;
          [|apply nth_error_None in Ep; lia].
        rewrite (end_position p rp Ep) in Hx.
        destruct (Hrows p rp Ep) as (_ & _ & Hafterp).
        pose proof (Hafterp k r Hlt Hk). subst y_rel. lra.
      - exfalso. pose proof (Hbelow k Hgt) as Hx.
        rewrite (end_position k r Hk) in Hx. subst y_rel. lra. }
    rewrite Hpk.
    replace (List.length l.(Layout.rows) <=? k)%nat with false
      by (symmetry; apply Nat.leb_gt; exact Hklen).
    rewrite Hk.
    replace (Qle_bool r.(Layout.y) y_rel) with true
      by (symmetry; apply Qle_bool_iff; subst y_rel; lra).
    replace (ltb y_rel (r.(Layout.y) + r.(Layout.height))) with true
      by (symmetry; apply ltb_lt; subst y_rel; lra).
    reflexivity.
  - intros scene_y Hy. unfold row_at_y. cbv zeta.
    replace (ltb (scene_y - l.(Layout.header_height)) 0) with true
      by (symmetry; apply ltb_lt; lra).
    reflexivity.
  - intros scene_y Hy. unfold row_at_y. cbv zeta.
    set (y_rel := scene_y - l.(Layout.header_height)).
    destruct (ltb y_rel 0); [reflexivity|].
    destruct (Nat.eq_dec (List.length l.(Layout.rows)) 0) as [Hz|Hnz].
    { apply length_zero_iff_nil in Hz. rewrite Hz. reflexivity. }
    rewrite match_nonempty by (intro Hnil; rewrite Hnil in Hnz; apply Hnz; reflexivity).
    destruct (bisect_right_spec (_row_end_positions l) y_rel end_positions_ascend)
      as (Hp & Hbelow & Habove).
    set (p := bisect_right (_row_end_positions l) y_rel) in *.
    destruct (List.length l.(Layout.rows) <=? p)%nat eqn:El; [reflexivity|].
    exfalso. apply Nat.leb_gt in El.
    pose proof (Habove p ltac:(lia)) as Hx.
    destruct (nth_error l.(Layout.rows) p) as [rp|] eqn:Ep;
      [|apply nth_error_None in Ep; lia].
    rewrite (end_position p rp Ep) in Hx.
    destruct (Hrows p rp Ep) as (_ & Hendp & _). subst y_rel. lra.
Qed.

End RowAtY.

Section RowNeighbours.

Import Py Model Spec LayoutRows PyFacts DictFacts ModelFacts.

(** The index map built row after row, counting from [p]: a row id
    that is not in the list keeps what it had, and with distinct ids each
    row gets its own position. *)
Lemma row_index_map_absent
    (rs : list Layout.RowLayout) (p : nat) (acc : Dict.t nat) (rid : string) :
  ~ In rid (map Layout.row_id rs) ->
  Dict.get rid
    (fold_left (fun acc ir => Dict.set (snd ir).(Layout.row_id) (fst ir) acc)
               (combine (seq p (List.length rs)) rs) acc)
  = Dict.get rid acc.
Proof.
  revert p acc. induction rs as [|x r IH]; intros p acc Hn; [reflexivity|].
  simpl. rewrite IH by (intro Hin; apply Hn; right; exact Hin).
  apply get_set_other. intro He. apply Hn. left. symmetry. exact He.
Qed.

Lemma row_index_map_present
    (rs : list Layout.RowLayout) (p : nat) (acc : Dict.t nat)
    (k : nat) (r : Layout.RowLayout) :
  NoDup (map Layout.row_id rs) -> nth_error rs k = Some r ->
  Dict.get r.(Layout.row_id)
    (fold_left (fun acc ir => Dict.set (snd ir).(Layout.row_id) (fst ir) acc)
               (combine (seq p (List.length rs)) rs) acc)
  = Some (p + k)%nat.
Proof.
  revert p acc k. induction rs as [|x rest IH]; intros p acc k Hnd Hk;
    [destruct k; discriminate|].
  simpl in Hnd. inversion Hnd as [|? ? Hnin Hrest]; subst.
  destruct k as [|k]; simpl in Hk |- *.
  - inversion Hk; subst x. rewrite row_index_map_absent by exact Hnin.
    cbn [fst snd]. rewrite get_set_same. f_equal. lia.
  - rewrite (IH (S p) _ k Hrest Hk). f_equal. lia.
Qed.

(** With distinct row ids, [row_index] gives each row its position in
    the list and [adjacent_row] steps from a row to the row that many
    places further down, or up for a negative step; it gives [None] when
    the step leaves the list or the row id is not a row's. *)
Theorem adjacent_row_steps_to_the_neighbour (l : Layout.t) :
  NoDup (map Layout.row_id l.(Layout.rows)) ->
  (forall k r, nth_error l.(Layout.rows) k = Some r ->
               row_index l r.(Layout.row_id) = Some k)
  /\ (forall k r k' r',
         nth_error l.(Layout.rows) k = Some r ->
         nth_error l.(Layout.rows) k' = Some r' ->
         adjacent_row l r.(Layout.row_id) (Z.of_nat k' - Z.of_nat k)
         = Some r'.(Layout.row_id))
  /\ (forall k r direction,
         nth_error l.(Layout.rows) k = Some r ->
         Z.of_nat k + direction < 0
         \/ Z.of_nat (List.length l.(Layout.rows)) <= Z.of_nat k + direction ->
         adjacent_row l r.(Layout.row_id) direction = None)
  /\ (forall rid direction,
         ~ In rid (map Layout.row_id l.(Layout.rows)) ->
         row_index l rid = None /\ adjacent_row l rid direction = None).
Proof.
  intro Hnd.
  assert (Hindex : forall k r, nth_error l.(Layout.rows) k = Some r ->
                               row_index l r.(Layout.row_id) = Some k).
  { intros k r Hk. unfold row_index, _row_index_map.
    rewrite (row_index_map_present _ 0 [] k r Hnd Hk). reflexivity. }
  split; [exact Hindex|]. split; [|split].
  - intros k r k' r' Hk Hk'. unfold adjacent_row. rewrite (Hindex k r Hk). cbv zeta.
    assert (Hlt : (k' < List.length l.(Layout.rows))%nat)
      by (apply nth_error_Some; congruence).
    replace (Z.of_nat k + (Z.of_nat k' - Z.of_nat k)) with (Z.of_nat k') by lia.
    replace (Z.of_nat k' <? 0)%Z with false by (symmetry; apply Z.ltb_ge; lia).
    replace (Z.of_nat (List.length l.(Layout.rows)) <=? Z.of_nat k')%Z with false
      by (symmetry; apply Z.leb_gt; lia).
    cbn [orb]. rewrite Nat2Z.id, Hk'. reflexivity.
  - intros k r direction Hk Hout. unfold adjacent_row. rewrite (Hindex k r Hk). cbv zeta.
    destruct Hout as [Hout|Hout].
    + replace (Z.of_nat k + direction <? 0)%Z with true
        by (symmetry; apply Z.ltb_lt; exact Hout).
      reflexivity.
    + replace (Z.of_nat (List.length l.(Layout.rows)) <=? Z.of_nat k + direction)%Z
        with true by (symmetry; apply Z.leb_le; exact Hout).
      rewrite orb_true_r. reflexivity.
  - intros rid direction Hn.
    assert (Hnone : row_index l rid = None).
    { unfold row_index, _row_index_map.
      rewrite (row_index_map_absent _ 0 [] rid Hn). reflexivity. }
    split; [exact Hnone|]. unfold adjacent_row. rewrite Hnone. reflexivity.
Qed.

End RowNeighbours.

(** ** New links *)

Section NewLink.

Import Py Model Commands Spec Controller PyFacts ObjectFacts DictFacts ModelFacts
       StackFacts.

Context `{Constants}.

Lemma offset_value_range (offset : option Q) :
  (0 <= offset_value offset)%Q /\ (offset_value offset <= 1)%Q.
Proof.
  unfold offset_value. cbv zeta.
  set (v := or_float offset (1 # 2)).
  destruct (ltb v 0) eqn:A.
  - replace (ltb 1 0) with false by reflexivity. split; lra.
  - apply ltb_ge in A. destruct (ltb 1 v) eqn:B; [split; lra|].
    apply ltb_ge in B. split; assumption.
Qed.

Lemma ltb_comp (a a' b b' : Q) : (a == a')%Q -> (b == b')%Q -> ltb a b = ltb a' b'.
Proof.
  intros Ha Hb. unfold ltb. f_equal.
  destruct (Qle_bool b a) eqn:E, (Qle_bool b' a') eqn:E'; try reflexivity.
  - apply Qle_bool_iff in E. rewrite Ha, Hb in E. apply Qle_bool_iff in E. congruence.
  - apply Qle_bool_iff in E'. rewrite <- Ha, <- Hb in E'. apply Qle_bool_iff in E'.
    congruence.
Qed.

Lemma offset_value_comp (q q' : Q) :
  (q == q')%Q -> (offset_value (Some q) == offset_value (Some q'))%Q.
Proof.
  intro Hq. unfold offset_value, or_float. cbv zeta.
  assert (Hz : Qeq_bool q 0 = Qeq_bool q' 0).
  { destruct (Qeq_bool q 0) eqn:E, (Qeq_bool q' 0) eqn:E'; try reflexivity.
    - apply Qeq_bool_iff in E. rewrite Hq in E. apply Qeq_bool_iff in E. congruence.
    - apply Qeq_bool_iff in E'. rewrite <- Hq in E'. apply Qeq_bool_iff in E'.
      congruence. }
  rewrite <- Hz. destruct (Qeq_bool q 0); [reflexivity|].
  rewrite (ltb_comp q q' 0 0 Hq (Qeq_refl 0)).
  destruct (ltb q' 0).
  - reflexivity.
  - rewrite (ltb_comp 1 1 q q' (Qeq_refl 1) Hq). destruct (ltb 1 q'); [reflexivity|exact Hq].
Qed.

Lemma clamp_offset_fixed (q : Q) :
  (0 <= q)%Q -> (q <= 1)%Q ->
  exists q', clamp_offset (Some q) = Some q' /\ (q' == q)%Q.
Proof.
  intros H0 H1. unfold clamp_offset. simpl. eexists. split; [reflexivity|].
  unfold Py.max, Py.min.
  destruct (ltb q 1) eqn:A.
  - destruct (ltb 0 q) eqn:B; [reflexivity|]. apply ltb_ge in B. lra.
  - apply ltb_ge in A. replace (ltb 0 1) with true by reflexivity. lra.
Qed.

Lemma textbox_anchor_point_comp
    (o : CanvasObject) (side : option string) (q q' : Q) :
  (q == q')%Q ->
  (fst (_textbox_anchor_point o side (Some q))
   == fst (_textbox_anchor_point o side (Some q')))%Q
  /\ (snd (_textbox_anchor_point o side (Some q))
      == snd (_textbox_anchor_point o side (Some q')))%Q.
Proof.
  intro Hq. pose proof (offset_value_comp q q' Hq) as Hv.
  unfold _textbox_anchor_point. cbv zeta.
  destruct (eq_opt side "left"); [|destruct (eq_opt side "top");
                                   [|destruct (eq_opt side "bottom")]];
    simpl; rewrite Hv; split; reflexivity.
Qed.

Lemma or_float_some (q : Q) : (or_float (Some q) 0 == q)%Q.
Proof.
  simpl. destruct (Qeq_bool q 0) eqn:E; [|reflexivity].
  apply Qeq_bool_iff in E. rewrite E. reflexivity.
Qed.

Lemma side_or_valid (side : option string) (default : string) :
  In default ["left"; "right"; "top"; "bottom"] ->
  In (side_or side default) ["left"; "right"; "top"; "bottom"].
Proof.
  intro Hd. unfold side_or. destruct side as [s|]; [|exact Hd].
  destruct (str_in s ["left"; "right"; "top"; "bottom"]) eqn:E; [|exact Hd].
  apply str_in_In. exact E.
Qed.

(** The link that a successful [add_anchor_link] stores under the new id
    runs from the textbox to the target, on one of the four sides and at
    an offset between 0 and 1; its pixel offsets are those from the
    target's anchor point to the textbox's anchor at that side and
    offset; it lies below both its ends in z-order; and the textbox and
    the target are stored as before. *)
Theorem add_anchor_link_records_the_placement
    (st : Controller.t) (fresh source_id target_id : string)
    (side : option string) (offset : option Q)
    (source target : CanvasObject) (target_point : Q * Q) :
  well_keyed st.(model).(objects) = true ->
  stack_idle st.(undo_stack) = true ->
  Dict.contains fresh st.(model).(objects) = false ->
  Dict.get source_id st.(model).(objects) = Some source ->
  Dict.get target_id st.(model).(objects) = Some target ->
  source.(kind) = "textbox" ->
  str_in target.(kind) ["link"; "textbox"; "connector"] = false ->
  source_id <> target_id ->
  _object_anchor_point st target = Some target_point ->
  let st' := add_anchor_link fresh source_id target_id side offset st in
  exists link side' offset',
    Dict.get fresh st'.(model).(objects) = Some link
    /\ link.(kind) = "link"
    /\ link.(link_source_id) = Some source_id
    /\ link.(link_target_id) = Some target_id
    /\ link.(link_source_side) = Some side'
    /\ In side' ["left"; "right"; "top"; "bottom"]
    /\ link.(link_source_offset) = Some offset'
    /\ ((0 <= offset')%Q /\ (offset' <= 1)%Q)
    /\ (let A := _textbox_anchor_point source link.(link_source_side)
                                       link.(link_source_offset) in
        (or_float link.(link_offset_x) 0 == fst A - fst target_point)%Q
        /\ (or_float link.(link_offset_y) 0 == snd A - snd target_point)%Q)
    /\ link.(z_index) < source.(z_index)
    /\ link.(z_index) < target.(z_index)
    /\ Dict.get source_id st'.(model).(objects) = Some source
    /\ Dict.get target_id st'.(model).(objects) = Some target.
Proof.
  intros Hkeyed Hidle Hfresh Hsrc Htgt Hsk Htk Hne Hpoint st'.
  destruct (anchor_point_needs_layout st target target_point Hpoint) as [l Hl].
  subst st'. unfold add_anchor_link.
  rewrite Hsrc, Htgt, Hsk, Htk, Hl, Hpoint.
  replace (String.eqb source_id target_id) with false
    by (symmetry; apply String.eqb_neq; exact Hne).
  cbn [String.eqb Ascii.eqb Bool.eqb negb orb].
  match goal with
  | |- context [add_object ?o _ _] => set (link_obj := o)
  end.
  set (zi := Z.min source.(z_index) target.(z_index) - 1) in *.
  set (z' := if (zi =? 0)%Z then -1 else zi) in *.
  assert (Hzv : link_obj.(z_index) = z') by reflexivity.
  assert (Hz : link_obj.(z_index) <> 0).
  { rewrite Hzv. subst z'. destruct (Z.eqb_spec zi 0); [discriminate|assumption]. }
  rewrite add_object_keeps_z by exact Hz.
  change (_links_from_source st source_id)
    with (links_from source_id st.(model).(objects)).
  set (existing := links_from source_id st.(model).(objects)).
  set (link := _normalize_object link_obj).
  change (push (AddObjectCommand link "Add Anchor")
            (push_all
               (map (fun link0 => RemoveObjectCommand link0 "Remove Object") existing)
               (beginMacro "Anchor Textbox" st)))
    with (push_all [AddObjectCommand link "Add Anchor"]
            (push_all (remove_commands existing) (beginMacro "Anchor Textbox" st))).
  rewrite <- push_all_app.
  pose proof (macro_run "Anchor Textbox"
                (remove_commands existing ++ [AddObjectCommand link "Add Anchor"])
                st Hidle) as Hrun.
  cbv zeta in Hrun. destruct Hrun as [Hmodel _].
  assert (Hnd : NoDup (Dict.keys st.(model).(objects)))
    by (apply well_keyed_NoDup; exact Hkeyed).
  assert (Hid : link.(id) = fresh) by (subst link; rewrite normalize_id; reflexivity).
  assert (Hget : forall k,
             Dict.get k (redo_all (remove_commands existing
                                   ++ [AddObjectCommand link "Add Anchor"])
                                  st.(model)).(objects)
             = if String.eqb k fresh then Some link
               else if str_in k (map id existing) then None
                    else Dict.get k st.(model).(objects)).
  { intro k. rewrite redo_all_app.
    change (redo_all [AddObjectCommand link "Add Anchor"] ?m)
      with (Model.add_object link m).
    rewrite get_add_object, Hid. destruct (String.eqb k fresh); [reflexivity|].
    apply get_redo_removes. exact Hnd. }
  assert (Hkept : forall k o, Dict.get k st.(model).(objects) = Some o ->
                              o.(kind) <> "link" ->
                              Dict.get k (redo_all (remove_commands existing
                                             ++ [AddObjectCommand link "Add Anchor"])
                                            st.(model)).(objects) = Some o).
  { intros k o Hk Hkind. rewrite Hget.
    destruct (String.eqb_spec k fresh) as [He|_].
    - subst k. apply contains_false in Hfresh. congruence.
    - destruct (str_in k (map id existing)) eqn:Es; [|exact Hk].
      exfalso. apply str_in_In in Es. apply in_map_iff in Es.
      destruct Es as (o' & Hid' & Hin). unfold existing, links_from in Hin.
      apply filter_In in Hin. destruct Hin as [Hv Hp].
      pose proof (well_keyed_value _ _ Hkeyed Hv) as Hg. rewrite Hid', Hk in Hg.
      inversion Hg; subst o'. apply andb_true_iff in Hp. destruct Hp as [Hp _].
      apply String.eqb_eq in Hp. contradiction. }
  pose proof (offset_value_range offset) as Hrange.
  destruct (clamp_offset_fixed (offset_value offset) (proj1 Hrange) (proj2 Hrange))
    as (q' & Hclamp & Hq').
  assert (Hfields :
            link.(kind) = "link"
            /\ link.(link_source_id) = Some source_id
            /\ link.(link_target_id) = Some target_id
            /\ link.(link_source_side) = Some (side_or side "right")
            /\ link.(link_source_offset) = clamp_offset (Some (offset_value offset))
            /\ link.(z_index) = z'
            /\ link.(link_offset_x)
               = Some (or_float
                         (Some (fst (_textbox_anchor_point
                                       source (Some (side_or side "right"))
                                       (Some (offset_value offset)))
                                - fst target_point)%Q) 0)
            /\ link.(link_offset_y)
               = Some (or_float
                         (Some (snd (_textbox_anchor_point
                                       source (Some (side_or side "right"))
                                       (Some (offset_value offset)))
                                - snd target_point)%Q) 0)).
  { subst link link_obj. unfold _normalize_object, CanvasObject_new, _clamp_week.
    fields. cbn. fields. repeat split; reflexivity. }
  destruct Hfields as (Fk & Fs & Ft & Fside & Foff & Fz & Fx & Fy).
  exists link, (side_or side "right"), q'.
  rewrite Hmodel.
  split; [rewrite Hget, String.eqb_refl; reflexivity|].
  split; [exact Fk|]. split; [exact Fs|]. split; [exact Ft|]. split; [exact Fside|].
  split; [apply side_or_valid; simpl; auto|].
  split; [rewrite Foff; exact Hclamp|].
  split; [split; rewrite Hq'; apply Hrange|].
  split.
  - cbv zeta. rewrite Fside, Foff, Hclamp, Fx, Fy.
    destruct (textbox_anchor_point_comp source (Some (side_or side "right")) q'
                                        (offset_value offset) Hq') as [Hax Hay].
    rewrite Hax, Hay. split.
    + rewrite or_float_some. apply or_float_some.
    + rewrite or_float_some. apply or_float_some.
  - split; [rewrite Fz; subst z'; destruct (Z.eqb_spec zi 0); subst zi; lia|].
    split; [rewrite Fz; subst z'; destruct (Z.eqb_spec zi 0); subst zi; lia|].
    split.
    + apply Hkept; [exact Hsrc|]. rewrite Hsk. discriminate.
    + apply Hkept; [exact Htgt|]. intro Hk. rewrite Hk in Htk. discriminate Htk.
Qed.

End NewLink.

(** ** New connectors *)

Section NewConnector.

Import Py Model Commands Spec Controller Connectors PyFacts ObjectFacts DictFacts
       ModelFacts StackFacts UndoFacts.

Context `{Constants}.

Lemma connector_offset_range (offset : option Q) :
  (0 <= connector_offset offset)%Q /\ (connector_offset offset <= 1)%Q.
Proof.
  unfold connector_offset, Py.max, Py.min.
  set (v := or_float offset (1 # 2)).
  destruct (ltb v 1) eqn:A.
  - apply ltb_lt in A. destruct (ltb 0 v) eqn:B.
    + apply ltb_lt in B. split; lra.
    + split; lra.
  - replace (ltb 0 1) with true by reflexivity. split; lra.
Qed.

(** The connector that a successful [add_connector_arrow] stores under
    the new id joins the two objects, on one of the four sides each and
    at offsets between 0 and 1, carries the size, brought into 1..5, and
    the colour last given to a connector, keeps an arrow head, and lies
    below both its ends in z-order; every other entry stays, and one
    undo takes the connector away again. *)
Theorem add_connector_arrow_stores_connector
    (st : Controller.t) (fresh source_id target_id : string)
    (source_side : option string) (source_offset : option Q)
    (target_side : option string) (target_offset : option Q)
    (source target : CanvasObject) :
  stack_idle st.(undo_stack) = true ->
  Dict.contains fresh st.(model).(objects) = false ->
  Dict.get source_id st.(model).(objects) = Some source ->
  Dict.get target_id st.(model).(objects) = Some target ->
  source_id <> target_id ->
  str_in source.(kind) ["link"; "connector"] = false ->
  str_in target.(kind) ["link"; "connector"] = false ->
  let st' := add_connector_arrow fresh source_id target_id source_side source_offset
                                 target_side target_offset st in
  exists c s_side t_side s_off t_off,
    Dict.get fresh st'.(model).(objects) = Some c
    /\ c.(kind) = "connector"
    /\ c.(connector_source_id) = Some source_id
    /\ c.(connector_target_id) = Some target_id
    /\ c.(connector_source_side) = Some s_side
    /\ c.(connector_target_side) = Some t_side
    /\ In s_side ["left"; "right"; "top"; "bottom"]
    /\ In t_side ["left"; "right"; "top"; "bottom"]
    /\ c.(connector_source_offset) = Some s_off
    /\ c.(connector_target_offset) = Some t_off
    /\ ((0 <= s_off)%Q /\ (s_off <= 1)%Q)
    /\ ((0 <= t_off)%Q /\ (t_off <= 1)%Q)
    /\ c.(size) = Z.max 1 (Z.min 5 st.(connector_default_size))
    /\ c.(color) = st.(connector_default_color)
    /\ c.(arrow_head_start) || c.(arrow_head_end) = true
    /\ c.(z_index) < source.(z_index)
    /\ c.(z_index) < target.(z_index)
    /\ (forall k, k <> fresh ->
                  Dict.get k st'.(model).(objects) = Dict.get k st.(model).(objects))
    /\ (Controller.undo st').(model) = st.(model).
Proof.
  intros Hidle Hfresh Hsrc Htgt Hne Hsk Htk st'.
  subst st'. unfold add_connector_arrow.
  rewrite Hsrc, Htgt, Hsk, Htk.
  replace (String.eqb source_id target_id) with false
    by (symmetry; apply String.eqb_neq; exact Hne).
  cbn [orb]. cbv zeta.
  match goal with
  | |- context [add_object ?o _ _] => set (connector_obj := o)
  end.
  set (zi := Z.min source.(z_index) target.(z_index) - 1) in *.
  set (z' := if (zi =? 0)%Z then -1 else zi) in *.
  assert (Hzv : connector_obj.(z_index) = z') by reflexivity.
  assert (Hz : connector_obj.(z_index) <> 0).
  { rewrite Hzv. subst z'. destruct (Z.eqb_spec zi 0); [discriminate|assumption]. }
  destruct (add_object_model connector_obj "Add Connector Arrow" st)
    as (Hm & Hid & Hs).
  cbv zeta in Hm, Hid, Hs.
  assert (Hl : (if (connector_obj.(z_index) =? 0)%Z
                   && negb (is_empty st.(model).(objects))
                then set_z_index (_next_z_index st) connector_obj
                else connector_obj) = connector_obj).
  { replace (connector_obj.(z_index) =? 0)%Z with false
      by (symmetry; apply Z.eqb_neq; exact Hz). reflexivity. }
  rewrite Hl in Hm, Hid, Hs.
  set (c := _normalize_object connector_obj) in *.
  assert (Hcid : c.(id) = fresh) by (rewrite Hid; reflexivity).
  pose proof (connector_offset_range source_offset) as Hrs.
  pose proof (connector_offset_range target_offset) as Hrt.
  destruct (clamp_offset_fixed _ (proj1 Hrs) (proj2 Hrs)) as (qs & Hcs & Hqs).
  destruct (clamp_offset_fixed _ (proj1 Hrt) (proj2 Hrt)) as (qt & Hct & Hqt).
  assert (Hfields :
            c.(kind) = "connector"
            /\ c.(connector_source_id) = Some source_id
            /\ c.(connector_target_id) = Some target_id
            /\ c.(connector_source_side) = Some (side_or source_side "right")
            /\ c.(connector_target_side) = Some (side_or target_side "left")
            /\ c.(connector_source_offset)
               = clamp_offset (Some (connector_offset source_offset))
            /\ c.(connector_target_offset)
               = clamp_offset (Some (connector_offset target_offset))
            /\ c.(size) = Z.max 1 (Z.min 5 st.(connector_default_size))
            /\ c.(color) = st.(connector_default_color)
            /\ c.(arrow_head_start) || c.(arrow_head_end) = true
            /\ c.(z_index) = z').
  { subst c connector_obj. unfold _normalize_object, _clamp_week.
    fields. cbn. fields. repeat split; reflexivity. }
  destruct Hfields as (Fk & Fs & Ft & Fss & Fts & Fso & Fto & Fsz & Fc & Fh & Fz).
  exists c, (side_or source_side "right"), (side_or target_side "left"), qs, qt.
  rewrite Hm.
  split; [rewrite get_add_object, Hcid, String.eqb_refl; reflexivity|].
  split; [exact Fk|]. split; [exact Fs|]. split; [exact Ft|].
  split; [exact Fss|]. split; [exact Fts|].
  split; [apply side_or_valid; simpl; auto|].
  split; [apply side_or_valid; simpl; auto|].
  split; [rewrite Fso; exact Hcs|]. split; [rewrite Fto; exact Hct|].
  split; [split; rewrite Hqs; apply Hrs|].
  split; [split; rewrite Hqt; apply Hrt|].
  split; [exact Fsz|]. split; [exact Fc|]. split; [exact Fh|].
  split; [rewrite Fz; subst z'; destruct (Z.eqb_spec zi 0); subst zi; lia|].
  split; [rewrite Fz; subst z'; destruct (Z.eqb_spec zi 0); subst zi; lia|].
  split.
  - intros k Hk. rewrite get_add_object, Hcid.
    destruct (String.eqb_spec k fresh); [contradiction|reflexivity].
  - destruct (undo_redo_last_command st _ _ Hidle (Hs Hidle)) as [Hu _].
    rewrite Hu, Hm. simpl. unfold Model.remove_object, Model.add_object.
    cbn [objects with_objects]. unfold Dict.contains at 1.
    rewrite get_set_same. cbn [negb]. rewrite Hcid.
    rewrite del_set_absent.
    + destruct st.(model); reflexivity.
    + apply get_none_not_in, contains_false. exact Hfresh.
Qed.

End NewConnector.

(** ** The classification *)

Section Classification.

Import Py Model Rows RowCommands Spec.

Context `{Constants}.

Lemma rstrip_idem (s : string) : rstrip (rstrip s) = rstrip s.
Proof.
  induction s as [|c r IH]; [reflexivity|].
  simpl. destruct (rstrip r) as [|c' r'] eqn:Er.
  - destruct (is_space c) eqn:Ec; [reflexivity|]. simpl. rewrite Ec. reflexivity.
  - simpl. simpl in IH. rewrite IH. reflexivity.
Qed.

(** A string that does not start with a space still does not once the
    spaces at its end are gone. *)
Lemma lstrip_rstrip (s : string) : lstrip s = s -> lstrip (rstrip s) = rstrip s.
Proof.
  destruct s as [|c r]; [reflexivity|]. intro Hl. simpl in Hl.
  destruct (is_space c) eqn:Ec.
  - exfalso. assert (Hlen : (String.length (lstrip r) <= String.length r)%nat).
    { clear. induction r as [|c r IH]; [simpl; lia|].
      simpl. destruct (is_space c); simpl; lia. }
    rewrite Hl in Hlen. simpl in Hlen. lia.
  - simpl. destruct (rstrip r) as [|c' r'].
    + rewrite Ec. simpl. rewrite Ec. reflexivity.
    + simpl. rewrite Ec. reflexivity.
Qed.

Lemma lstrip_idem (s : string) : lstrip (lstrip s) = lstrip s.
Proof.
  induction s as [|c r IH]; [reflexivity|].
  simpl. destruct (is_space c) eqn:Ec; [exact IH|]. simpl. rewrite Ec. reflexivity.
Qed.

Lemma strip_idem (s : string) : strip (strip s) = strip s.
Proof.
  unfold strip. rewrite (lstrip_rstrip (lstrip s)) by apply lstrip_idem.
  apply rstrip_idem.
Qed.

Lemma classification_normal_form
    (current_size other_size : Z) (text' : option string) (size' : option Z) :
  CLASSIFICATION_SIZE_MIN <= CLASSIFICATION_SIZE_MAX ->
  strip DEFAULT_CLASSIFICATION = DEFAULT_CLASSIFICATION ->
  DEFAULT_CLASSIFICATION <> "" ->
  let r := normalize_classification current_size text' size' in
  fst r <> ""
  /\ strip (fst r) = fst r
  /\ CLASSIFICATION_SIZE_MIN <= snd r <= CLASSIFICATION_SIZE_MAX
  /\ normalize_classification other_size (Some (fst r)) (Some (snd r)) = r.
Proof.
  intros Hb Hd Hne r. subst r. unfold normalize_classification. cbv zeta.
  cbn [fst snd get_or].
  set (cleaned := strip (get_or text' "")).
  assert (Hc : strip cleaned = cleaned) by apply strip_idem.
  set (c := if String.eqb cleaned "" then DEFAULT_CLASSIFICATION else cleaned).
  assert (Hcne : c <> "").
  { subst c. destruct (String.eqb_spec cleaned ""); assumption. }
  assert (Hcs : strip c = c).
  { subst c. destruct (String.eqb cleaned ""); assumption. }
  split; [exact Hcne|]. split; [exact Hcs|]. split; [lia|].
  rewrite Hcs.
  replace (String.eqb c "") with false by (symmetry; apply String.eqb_neq; exact Hcne).
  f_equal. lia.
Qed.

(** What [normalize_classification] returns is a classification in
    normal form: the text is stripped and not empty, the size lies
    between the two bounds, and normalizing it again changes nothing. *)
Theorem normalize_classification_gives_normal_form
    (current_size other_size : Z) (text' : option string) (size' : option Z) :
  CLASSIFICATION_SIZE_MIN <= CLASSIFICATION_SIZE_MAX ->
  strip DEFAULT_CLASSIFICATION = DEFAULT_CLASSIFICATION ->
  DEFAULT_CLASSIFICATION <> "" ->
  let r := normalize_classification current_size text' size' in
  fst r <> ""
  /\ strip (fst r) = fst r
  /\ CLASSIFICATION_SIZE_MIN <= snd r <= CLASSIFICATION_SIZE_MAX
  /\ normalize_classification other_size (Some (fst r)) (Some (snd r)) = r.
Proof.
  intros Hb Hd Hne.
  exact (classification_normal_form current_size other_size text' size' Hb Hd Hne).
Qed.

(** [update_classification] pushes nothing exactly when the normal form
    of what it is given is the classification the model has; the command
    it pushes otherwise sets that normal form and touches nothing else,
    and its undo gives the model back. *)
Theorem update_classification_is_undone
    (text' : string) (size' : option Z) (st : Controller.t) :
  let m := st.(Controller.model) in
  CLASSIFICATION_SIZE_MIN <= CLASSIFICATION_SIZE_MAX ->
  strip DEFAULT_CLASSIFICATION = DEFAULT_CLASSIFICATION ->
  DEFAULT_CLASSIFICATION <> "" ->
  normalize_classification m.(classification_size)
                           (Some m.(classification)) (Some m.(classification_size))
  = (m.(classification), m.(classification_size)) ->
  let r := normalize_classification m.(classification_size) (Some text') size' in
  match RowController.update_classification text' size' st with
  | None => r = (m.(classification), m.(classification_size))
  | Some c =>
      r <> (m.(classification), m.(classification_size))
      /\ redo c m
         = mkProjectModel m.(year) m.(topics) m.(objects) (fst r) (snd r)
      /\ undo c (redo c m) = m
  end.
Proof.
  intros m Hb Hd Hne Hcur r.
  destruct (classification_normal_form
              m.(classification_size) m.(classification_size) (Some text') size'
              Hb Hd Hne) as (_ & _ & _ & Hidem).
  fold r in Hidem.
  unfold RowController.update_classification. fold m. fold r.
  destruct r as [new_text new_size] eqn:Er. cbn [fst snd] in *.
  destruct (String.eqb new_text m.(classification)
            && (new_size =? m.(classification_size))%Z) eqn:Esame.
  - apply andb_true_iff in Esame. destruct Esame as [E1 E2].
    apply String.eqb_eq in E1. apply Z.eqb_eq in E2. subst. reflexivity.
  - assert (Hdiff : (new_text, new_size) <> (m.(classification), m.(classification_size))).
    { intro He. inversion He; subst.
      rewrite String.eqb_refl, Z.eqb_refl in Esame. discriminate Esame. }
    split; [exact Hdiff|].
    assert (Hredo : redo (UpdateClassificationCommand
                            m.(classification) m.(classification_size)
                            new_text new_size) m
                    = mkProjectModel m.(year) m.(topics) m.(objects) new_text new_size).
    { simpl. unfold set_classification. rewrite Hidem, Esame. reflexivity. }
    split; [exact Hredo|].
    rewrite Hredo. simpl. unfold set_classification.
    cbn [classification classification_size year topics objects].
    assert (Hcur' : normalize_classification new_size (Some m.(classification))
                                             (Some m.(classification_size))
                    = (m.(classification), m.(classification_size))).
    { unfold normalize_classification in Hcur |- *. exact Hcur. }
    rewrite Hcur'.
    replace (String.eqb m.(classification) new_text
             && (m.(classification_size) =? new_size)%Z) with false.
    + destruct m; reflexivity.
    + symmetry. rewrite String.eqb_sym, Z.eqb_sym. exact Esame.
Qed.

End Classification.

(** ** Adding, changing and removing rows *)

Section DeliverableEdits.

Import Py Model Rows RowCommands Spec RowFacts MoveFacts DictFacts ModelFacts.

Context `{Constants}.

Lemma locate_from_none (did : string) (p : nat) (ts : list Topic) :
  (forall t, In t ts -> find_index (is_deliverable did) t.(deliverables) = None) ->
  locate_from did p ts = None.
Proof.
  revert p. induction ts as [|x r IH]; intros p Hall; [reflexivity|].
  simpl. rewrite (Hall x (or_introl eq_refl)). apply IH.
  intros t Ht. apply Hall. right. exact Ht.
Qed.

Lemma not_a_deliverable (did : string) (m : ProjectModel) (t : Topic) :
  ~ In did (deliverable_ids m) -> In t m.(topics) ->
  find_index (is_deliverable did) t.(deliverables) = None.
Proof.
  intros Hn Ht. apply find_deliverable_absent. intro Hin. apply Hn.
  unfold deliverable_ids. apply in_flat_map. exists t. split; assumption.
Qed.

Lemma find_appended (ds : list Deliverable) (d : Deliverable) :
  ~ In d.(deliverable_id) (map deliverable_id ds) ->
  find_index (is_deliverable d.(deliverable_id)) (ds ++ [d]) = Some (List.length ds, d).
Proof.
  intro Hn. apply find_index_first.
  - rewrite nth_error_app2 by lia. rewrite Nat.sub_diag. reflexivity.
  - apply String.eqb_refl.
  - intros j b Hj Hb. rewrite nth_error_app1 in Hb by exact Hj.
    unfold is_deliverable. apply String.eqb_neq. intro He. apply Hn.
    rewrite <- He. apply in_map. apply (nth_error_In _ _ Hb).
Qed.

Lemma get_topic_other
    (tid : string) (ts : list Topic) (pos : nat) (t : Topic) (f : Topic -> Topic) :
  NoDup (map topic_id ts) -> nth_error ts pos = Some t ->
  (forall t', (f t').(topic_id) = t'.(topic_id)) ->
  tid <> t.(topic_id) ->
  find_index (is_topic tid) (change_at pos f ts) = find_index (is_topic tid) ts.
Proof.
  intros Hnd Hn Hid Hne.
  destruct (find_index (is_topic tid) ts) as [[k t0]|] eqn:Ef.
  - rewrite (find_topic_change_at tid ts pos f k t0 Hid Ef).
    destruct (Nat.eqb_spec pos k) as [Hk|Hk]; [|reflexivity].
    exfalso. subst k. destruct (find_index_some _ _ _ _ Ef) as (Hn' & Hp & _).
    rewrite Hn in Hn'. inversion Hn'; subst t0.
    unfold is_topic in Hp. apply String.eqb_eq in Hp. congruence.
  - apply find_index_absent. intros a Ha.
    apply In_nth_error in Ha. destruct Ha as [j Hj].
    rewrite nth_error_change_at in Hj.
    pose proof (find_index_none _ _ Ef) as Hall.
    destruct (pos =? j)%nat.
    + destruct (nth_error ts j) as [b|] eqn:Eb; [|discriminate].
      simpl in Hj. inversion Hj; subst a. unfold is_topic. rewrite Hid.
      apply (Hall b). apply (nth_error_In _ _ Eb).
    + apply (Hall a). apply (nth_error_In _ _ Hj).
Qed.

(** [add_deliverable] puts a deliverable with the new id and the given
    name at the end of the topic and touches nothing else; when the id is
    not yet a deliverable's, it is the deliverable found under that id,
    and the undo of the command takes it away again. *)
Theorem add_deliverable_is_undone
    (fresh tid name' : string) (st : Controller.t) :
  let m := st.(Controller.model) in
  match RowController.add_deliverable fresh tid name' st with
  | None => get_topic tid m = None
  | Some (c, d) =>
      d.(deliverable_id) = fresh /\ d.(deliverable_name) = name'
      /\ (exists t t',
             get_topic tid m = Some t
             /\ get_topic tid (redo c m) = Some t'
             /\ t' = with_deliverables (t.(deliverables) ++ [d]) t
             /\ (~ In fresh (deliverable_ids m) ->
                 find_deliverable fresh (redo c m)
                 = Some (t', List.length t.(deliverables), d)))
      /\ topic_ids (redo c m) = topic_ids m
      /\ (redo c m).(objects) = m.(objects)
      /\ (~ In fresh (deliverable_ids m) -> undo c (redo c m) = m)
  end.
Proof.
  intro m. unfold RowController.add_deliverable. fold m. unfold get_topic.
  destruct (find_index (is_topic tid) m.(topics)) as [[pos t]|] eqn:Ef; [|reflexivity].
  set (d := mkDeliverable fresh name').
  set (f := fun t0 : Topic => with_deliverables (t0.(deliverables) ++ [d]) t0).
  assert (Hredo : redo (AddDeliverableCommand tid d None) m
                  = with_topics (change_at pos f m.(topics)) m).
  { simpl. unfold insert_deliverable. rewrite Ef. reflexivity. }
  rewrite Hredo. cbn [topics objects with_topics].
  destruct (find_index_some _ _ _ _ Ef) as (Hn & _ & _).
  assert (Hloc : ~ In fresh (deliverable_ids m) ->
                 locate fresh (with_topics (change_at pos f m.(topics)) m)
                 = Some (pos, f t, List.length t.(deliverables), d)).
  { intro Hfresh. unfold locate. cbn [topics with_topics].
    apply locate_changed; [exact Hn| |].
    - intros k t' _ Hk. apply (not_a_deliverable fresh m t' Hfresh).
      apply (nth_error_In _ _ Hk).
    - subst f. cbn [deliverables with_deliverables].
      apply (find_appended t.(deliverables) d). cbn [deliverable_id d].
      intro Hin. apply Hfresh. unfold deliverable_ids. apply in_flat_map.
      exists t. split; [apply (nth_error_In _ _ Hn)|exact Hin]. }
  split; [reflexivity|]. split; [reflexivity|].
  split; [|split; [|split]].
  - exists t, (f t). split; [reflexivity|].
    rewrite (find_topic_changed tid m.(topics) pos t f Ef) by reflexivity.
    split; [reflexivity|]. split; [reflexivity|].
    intro Hfresh. unfold find_deliverable. rewrite (Hloc Hfresh). reflexivity.
  - unfold topic_ids. cbn [topics with_topics].
    apply topic_ids_change_at. reflexivity.
  - reflexivity.
  - intro Hfresh. simpl. unfold remove_deliverable. cbn [deliverable_id d].
    rewrite (Hloc Hfresh). cbn [fst topics with_topics].
    rewrite with_topics_twice, change_at_twice.
    rewrite change_at_same; [apply with_topics_same|].
    intros a Ha. rewrite Hn in Ha. inversion Ha; subst a.
    subst f. cbn [deliverables with_deliverables topic_id topic_name topic_color
                  collapsed].
    rewrite pop_last. destruct t. reflexivity.
Qed.

(** [remove_deliverable] takes the deliverable away together with
    every object on its row and every link and connector attached to one
    of them, and nothing else; the undo of the command puts the
    deliverable back in its place and every object under its key. *)
Theorem remove_deliverable_takes_its_objects_along
    (did : string) (st : Controller.t) (c : RowCommand) :
  let m := st.(Controller.model) in
  well_keyed m.(objects) = true ->
  NoDup (topic_ids m) ->
  NoDup (deliverable_ids m) ->
  RowController.remove_deliverable did st = Some c ->
  exists topic index d,
    find_deliverable did m = Some (topic, index, d)
    /\ let m1 := redo c m in
       find_deliverable did m1 = None
       /\ get_topic topic.(topic_id) m1
          = Some (with_deliverables (list_pop index topic.(deliverables)) topic)
       /\ (forall tid, tid <> topic.(topic_id) -> get_topic tid m1 = get_topic tid m)
       /\ topic_ids m1 = topic_ids m
       /\ (forall o, In o (Dict.values m1.(objects)) ->
                     In o (Dict.values m.(objects)) /\ on_rows [did] o = false)
       /\ (forall o r, In o (Dict.values m1.(objects)) ->
                       In r (Dict.values m.(objects)) -> on_rows [did] r = true ->
                       references r.(id) o = false)
       /\ (forall k o, Dict.get k m.(objects) = Some o ->
                       on_rows [did] o = false ->
                       (forall r, In r (Dict.values m.(objects)) ->
                                  on_rows [did] r = true ->
                                  references r.(id) o = false) ->
                       Dict.get k m1.(objects) = Some o)
       /\ (undo c m1).(topics) = m.(topics)
       /\ forall k, Dict.get k (undo c m1).(objects) = Dict.get k m.(objects).
Proof.
  intros m Hwk Hnd Hndd Hc. unfold RowController.remove_deliverable in Hc. fold m in Hc.
  unfold find_deliverable in Hc |- *.
  destruct (locate did m) as [[[[pos topic] index] d]|] eqn:Eloc; [|discriminate].
  inversion Hc; subst c. clear Hc.
  exists topic, index, d. split; [reflexivity|].
  unfold locate in Eloc.
  destruct (locate_from_some _ _ _ _ _ _ _ Eloc) as (_ & Hn & Hf & Hbefore).
  rewrite Nat.sub_0_r in Hn, Hbefore.
  destruct (find_deliverable_id _ _ _ _ Hf) as (Hdid & Hnd_i & Hin_t).
  set (removed := RowController._objects_for_rows st [did]).
  set (m0 := remove_all removed m).
  destruct (rows_objects_removed st [did] Hwk) as (Hstay & Hfree & Hkept & Hback).
  fold m in Hstay, Hfree, Hkept, Hback. fold removed in Hstay, Hfree, Hkept, Hback.
  fold m0 in Hstay, Hfree, Hkept, Hback.
  set (f := fun t : Topic => with_deliverables (list_pop index t.(deliverables)) t).
  assert (Hm1 : redo (RemoveDeliverableCommand topic.(topic_id) d (Z.of_nat index) removed) m
                = with_topics (change_at pos f m.(topics)) m0).
  { simpl. fold m0. unfold remove_deliverable, locate.
    subst m0. rewrite topics_remove_all, Hdid, Eloc. reflexivity. }
  cbv zeta. rewrite Hm1. cbn [objects topics with_topics].
  destruct (nodup_flat_map _ _ _ _ Hndd Hn) as [Hnd_t Hother].
  assert (Hft : find_index (is_topic topic.(topic_id)) m.(topics) = Some (pos, topic))
    by (apply find_topic_at; [exact Hnd|exact Hn]).
  split; [|split; [|split; [|split; [|split; [|split; [|split; [|split]]]]]]].
  - unfold locate. cbn [topics with_topics]. rewrite locate_from_none; [reflexivity|].
    intros t Ht. apply In_nth_error in Ht. destruct Ht as [j Hj].
    rewrite nth_error_change_at in Hj. apply find_deliverable_absent.
    destruct (Nat.eqb_spec pos j) as [Hpj|Hpj].
    + subst j. rewrite Hn in Hj. simpl in Hj. inversion Hj; subst t.
      subst f. cbn [deliverables with_deliverables]. rewrite <- Hdid.
      apply not_in_popped; [exact Hnd_t|exact Hnd_i].
    + apply (Hother j t did); [congruence|exact Hj|exact Hin_t].
  - unfold get_topic. cbn [topics with_topics].
    rewrite (find_topic_changed _ _ _ _ f Hft) by reflexivity. reflexivity.
  - intros tid Hne. unfold get_topic. cbn [topics with_topics].
    rewrite (get_topic_other tid m.(topics) pos topic f Hnd Hn); [reflexivity| |exact Hne].
    reflexivity.
  - unfold topic_ids. cbn [topics with_topics]. apply topic_ids_change_at. reflexivity.
  - exact Hstay.
  - exact Hfree.
  - exact Hkept.
  - simpl. rewrite topics_add_all. unfold insert_deliverable.
    cbn [topics with_topics].
    rewrite (find_topic_changed _ _ _ _ f Hft) by reflexivity.
    cbn [topics with_topics]. rewrite change_at_twice.
    apply change_at_same. intros a Ha. rewrite Hn in Ha. inversion Ha; subst a.
    subst f. cbn [deliverables with_deliverables insert_or_append topic_id topic_name
                  topic_color collapsed].
    rewrite (insert_pop index d topic.(deliverables) Hnd_i). destruct topic. reflexivity.
  - intro k. simpl. apply Hback. unfold insert_deliverable.
    cbn [topics with_topics].
    rewrite (find_topic_changed _ _ _ _ f Hft) by reflexivity. reflexivity.
Qed.

End DeliverableEdits.

Section RowUpdates.

Import Py Model Rows RowCommands Spec RowFacts MoveFacts.

Context `{Constants}.

Lemma Deliverable_eqb_eq (a b : Deliverable) :
  RowController.Deliverable_eqb a b = true <-> a = b.
Proof.
  unfold RowController.Deliverable_eqb. destruct a as [ia na], b as [ib nb].
  cbn [deliverable_id deliverable_name]. rewrite andb_true_iff, !String.eqb_eq.
  split; [intros [-> ->]; reflexivity|intro E; inversion E; split; reflexivity].
Qed.

Lemma deliverables_eqb_eq (a b : list Deliverable) :
  RowController.deliverables_eqb a b = true <-> a = b.
Proof.
  revert b. induction a as [|x r IH]; intros [|y s]; simpl;
    try (split; [discriminate|discriminate]); [split; reflexivity|].
  rewrite andb_true_iff, Deliverable_eqb_eq, IH.
  split; [intros [-> ->]; reflexivity|intro E; inversion E; split; reflexivity].
Qed.

Lemma Topic_eqb_eq (a b : Topic) : RowController.Topic_eqb a b = true <-> a = b.
Proof.
  unfold RowController.Topic_eqb. destruct a as [ia na ca fa da], b as [ib nb cb fb db].
  cbn [topic_id topic_name topic_color collapsed deliverables].
  rewrite !andb_true_iff, !String.eqb_eq, Bool.eqb_true_iff, deliverables_eqb_eq.
  split; [intros [[[[-> ->] ->] ->] ->]; reflexivity|].
  intro E; inversion E; repeat split; reflexivity.
Qed.

(** Changing one entry of a list in a way the test does not see leaves
    the first hit of the test where it was. *)
Lemma find_index_change_at
    {A : Type} (p : A -> bool) (f : A -> A) (i : nat) (l : list A) :
  (forall a, nth_error l i = Some a -> p (f a) = p a) ->
  find_index p (change_at i f l)
  = match find_index p l with
    | Some (k, a) => Some (k, if (i =? k)%nat then f a else a)
    | None => None
    end.
Proof.
  revert i. induction l as [|x r IH]; intros i Hp; [destruct i; reflexivity|].
  destruct i as [|i]; simpl.
  - rewrite (Hp x eq_refl). destruct (p x); [reflexivity|].
    destruct (find_index p r) as [[k a]|]; reflexivity.
  - destruct (p x); [reflexivity|].
    rewrite (IH i) by (intros a Ha; apply Hp; exact Ha).
    destruct (find_index p r) as [[k a]|]; reflexivity.
Qed.

(** [update_topic] and [update_deliverable] of the controller push
    nothing when the row is unknown or is already what they are given;
    the command they push otherwise puts the given topic, or deliverable,
    in the place of the one that has its id, leaves the other rows and
    the objects alone, and its undo gives the model back. *)
Theorem row_updates_are_undone (st : Controller.t) :
  let m := st.(Controller.model) in
  (forall topic,
      match RowController.update_topic topic st with
      | None => get_topic topic.(topic_id) m = None
                \/ get_topic topic.(topic_id) m = Some topic
      | Some c =>
          (exists current, get_topic topic.(topic_id) m = Some current
                           /\ current <> topic)
          /\ get_topic topic.(topic_id) (redo c m) = Some topic
          /\ (forall tid, tid <> topic.(topic_id) ->
                          get_topic tid (redo c m) = get_topic tid m)
          /\ topic_ids (redo c m) = topic_ids m
          /\ (redo c m).(objects) = m.(objects)
          /\ undo c (redo c m) = m
      end)
  /\ (forall d,
         match RowController.update_deliverable d st with
         | None => find_deliverable d.(deliverable_id) m = None
                   \/ exists t i, find_deliverable d.(deliverable_id) m = Some (t, i, d)
         | Some c =>
             exists t i current,
               find_deliverable d.(deliverable_id) m = Some (t, i, current)
               /\ current <> d
               /\ find_deliverable d.(deliverable_id) (redo c m)
                  = Some (with_deliverables
                            (change_at i (fun _ => d) t.(deliverables)) t, i, d)
               /\ topic_ids (redo c m) = topic_ids m
               /\ (redo c m).(objects) = m.(objects)
               /\ undo c (redo c m) = m
         end).
Proof.
  intro m. split.
  - intro topic. unfold RowController.update_topic. fold m. unfold get_topic.
    destruct (find_index (is_topic topic.(topic_id)) m.(topics)) as [[pos current]|] eqn:Ef;
      [|left; reflexivity].
    destruct (RowController.Topic_eqb current topic) eqn:Eeq.
    { right. apply Topic_eqb_eq in Eeq. subst current. reflexivity. }
    destruct (find_index_some _ _ _ _ Ef) as (Hn & Hp & _).
    unfold is_topic in Hp. apply String.eqb_eq in Hp.
    assert (Hredo : redo (UpdateTopicCommand current topic) m
                    = with_topics (change_at pos (fun _ => topic) m.(topics)) m).
    { simpl. unfold update_topic. rewrite Hp, Ef. reflexivity. }
    rewrite Hredo. cbn [topics objects with_topics].
    assert (Hfind : forall tid,
               find_index (is_topic tid) (change_at pos (fun _ => topic) m.(topics))
               = match find_index (is_topic tid) m.(topics) with
                 | Some (k, a) => Some (k, if (pos =? k)%nat then topic else a)
                 | None => None
                 end).
    { intro tid. apply (find_index_change_at (is_topic tid) (fun _ => topic)).
      intros a Ha. rewrite Hn in Ha. inversion Ha; subst a.
      unfold is_topic. rewrite Hp. reflexivity. }
    split; [|split; [|split; [|split; [|split]]]].
    + exists current. split; [reflexivity|]. intro E.
      apply Topic_eqb_eq in E. congruence.
    + rewrite Hfind, Ef, Nat.eqb_refl. reflexivity.
    + intros tid Hne. rewrite Hfind.
      destruct (find_index (is_topic tid) m.(topics)) as [[k a]|] eqn:Ek; [|reflexivity].
      destruct (Nat.eqb_spec pos k) as [Hk|Hk]; [|reflexivity].
      exfalso. subst k. destruct (find_index_some _ _ _ _ Ek) as (Hn' & Hp' & _).
      rewrite Hn in Hn'. inversion Hn'; subst a.
      unfold is_topic in Hp'. apply String.eqb_eq in Hp'. congruence.
    + unfold topic_ids. cbn [topics with_topics].
      clear - Hn Hp. revert pos Hn.
      induction m.(topics) as [|x r IH]; intros pos Hn; [destruct pos; reflexivity|].
      destruct pos as [|pos]; simpl in Hn |- *.
      * inversion Hn; subst x. rewrite Hp. reflexivity.
      * f_equal. apply IH. exact Hn.
    + reflexivity.
    + simpl. unfold update_topic. cbn [topics with_topics].
      rewrite Hfind, Hp, Ef.
      rewrite with_topics_twice, change_at_twice.
      rewrite change_at_same; [apply with_topics_same|].
      intros a Ha. rewrite Hn in Ha. inversion Ha. reflexivity.
  - intro d. unfold RowController.update_deliverable. fold m. unfold find_deliverable.
    destruct (locate d.(deliverable_id) m) as [[[[pos t] i] current]|] eqn:Eloc;
      [|left; reflexivity].
    destruct (RowController.Deliverable_eqb current d) eqn:Eeq.
    { right. apply Deliverable_eqb_eq in Eeq. subst current. exists t, i. reflexivity. }
    unfold locate in Eloc.
    destruct (locate_from_some _ _ _ _ _ _ _ Eloc) as (_ & Hn & Hf & Hbefore).
    rewrite Nat.sub_0_r in Hn, Hbefore.
    destruct (find_deliverable_id _ _ _ _ Hf) as (Hdid & Hni & _).
    set (f := fun t0 : Topic =>
                with_deliverables (change_at i (fun _ => d) t0.(deliverables)) t0).
    assert (Hredo : redo (UpdateDeliverableCommand current d) m
                    = with_topics (change_at pos f m.(topics)) m).
    { simpl. unfold update_deliverable, locate. rewrite Hdid, Eloc. reflexivity. }
    assert (Hloc : locate_from d.(deliverable_id) 0 (change_at pos f m.(topics))
                   = Some (pos, f t, i, d)).
    { apply locate_changed; [exact Hn|exact Hbefore|].
      subst f. cbn [deliverables with_deliverables].
      rewrite (find_index_change_at (is_deliverable d.(deliverable_id)) (fun _ => d)).
      - rewrite Hf, Nat.eqb_refl. reflexivity.
      - intros a Ha. rewrite Hni in Ha. inversion Ha; subst a.
        unfold is_deliverable. rewrite Hdid. reflexivity. }
    exists t, i, current. rewrite Hredo. cbn [topics objects with_topics].
    split; [reflexivity|]. split; [intro E; apply Deliverable_eqb_eq in E; congruence|].
    split; [|split; [|split]].
    + unfold locate. cbn [topics with_topics]. rewrite Hloc. reflexivity.
    + unfold topic_ids. cbn [topics with_topics]. apply topic_ids_change_at. reflexivity.
    + reflexivity.
    + simpl. unfold update_deliverable, locate. cbn [topics with_topics].
      rewrite Hdid, Hloc. cbn [topics with_topics].
      rewrite with_topics_twice, change_at_twice.
      rewrite change_at_same; [apply with_topics_same|].
      intros a Ha. rewrite Hn in Ha. inversion Ha; subst a.
      subst f. cbn [deliverables with_deliverables topic_id topic_name topic_color
                    collapsed].
      rewrite change_at_twice.
      rewrite change_at_same; [destruct t; reflexivity|].
      intros b Hb. rewrite Hni in Hb. inversion Hb. reflexivity.
Qed.

End RowUpdates.

(** ** The further properties on the small document *)

Section MoreExamples.

Import Py Model Commands Spec Controller Saving Rows Connectors ModelFacts.

#[local] Existing Instance Demo.constants.
#[local] Existing Instance Demo.numerals.

(** A milestone handed over with an end week of its own ends in its
    start week once normalized. *)
Lemma normalize_milestone_example :
  let n := _normalize_object (set_end_week 9 Demo.milestone) in
  n.(end_week) = n.(start_week).
Proof.
  apply (proj1 (normalize_object_weeks (set_end_week 9 Demo.milestone))).
  reflexivity.
Defined.

Lemma normalize_textbox_example :
  let n := _normalize_object (set_width (Some 5%Q) (Demo.textbox "T" 5 5)) in
  exists x' y' w h,
    n.(x) = Some x' /\ n.(y) = Some y' /\ n.(width) = Some w /\ n.(height) = Some h.
Proof.
  apply (proj1 (normalize_object_geometry
                  (set_width (Some 5%Q) (Demo.textbox "T" 5 5)))).
  reflexivity.
Defined.

(** The centre of week 7 maps back to week 7. *)
Lemma week_center_round_trip_example :
  Layout64.week_from_center_x Demo.columns (Layout64.week_center_x Demo.columns 7) true = 7.
Proof.
  apply (week_from_center_x_inverts_week_center_x Demo.columns 7).
  - split; vm_compute; discriminate.
  - split; apply Qle_bool_imp_le; vm_compute; reflexivity.
  - vm_compute. discriminate.
Defined.

Lemma size_scale_example :
  (_size_scale 3 == (1 # 2) + (1 # 10) * inject_Z 3)%Q.
Proof. apply (proj2 (size_scale_range 3)). lia. Defined.

Lemma anchor_points_agree_example :
  _object_anchor_point Demo.document Demo.box
  = Items._object_center_for_link Demo.box Demo.layout.
Proof.
  apply (controller_and_renderer_anchor_points_agree Demo.document Demo.layout Demo.box).
  - vm_compute. reflexivity.
  - intro Hk. discriminate Hk.
Defined.

Lemma next_z_index_example :
  (Demo.stored "O").(z_index) < _next_z_index Demo.document.
Proof.
  apply (proj2 (next_z_index_is_above_every_object Demo.document)).
  vm_compute. do 4 right. left. reflexivity.
Defined.

(** A new box is added and taken back by one undo. *)
Lemma add_object_undo_example :
  (Controller.undo
     (add_object (CanvasObject_new "N" "box" "r1" 1 2) "Add Object"
                 Demo.document)).(model)
  = Demo.document.(model).
Proof.
  destruct (add_object_stores_normal_form_and_undoes
              (CanvasObject_new "N" "box" "r1" 1 2) "Add Object" Demo.document)
    as (stored & _ & _ & _ & Hundo).
  assert (Hidle : stack_idle Demo.document.(undo_stack) = true)
    by (vm_compute; reflexivity).
  assert (Hnew : Dict.contains (CanvasObject_new "N" "box" "r1" 1 2).(id)
                               Demo.document.(model).(objects) = false)
    by (vm_compute; reflexivity).
  destruct (Hundo Hidle Hnew) as [Hu _]. exact Hu.
Defined.

(** Moving the box drags both textboxes along; one undo puts all three
    back. *)
Lemma update_object_undo_example :
  let st' := update_object "B" Demo.move_box "Move" [] false Demo.document in
  st'.(undo_stack).(index) = S Demo.document.(undo_stack).(index)
  /\ (Controller.undo st').(model) = Demo.document.(model)
  /\ (Controller.redo (Controller.undo st')).(model) = st'.(model).
Proof.
  apply (update_object_is_undone_in_one_step
           Demo.document "B" Demo.move_box "Move" [] false (Demo.stored "B"));
    vm_compute; reflexivity.
Defined.

Lemma duplicate_object_example :
  let st' := fst (duplicate_object "B2" "B" Demo.document) in
  exists cloned stored,
    snd (duplicate_object "B2" "B" Demo.document) = Some cloned
    /\ cloned.(id) = "B2"
    /\ stored = _normalize_object cloned
    /\ Dict.get "B2" st'.(model).(objects) = Some stored
    /\ (forall o, In o (Dict.values Demo.document.(model).(objects)) ->
                  o.(z_index) < stored.(z_index))
    /\ (forall k, k <> "B2" ->
                  Dict.get k st'.(model).(objects)
                  = Dict.get k Demo.document.(model).(objects))
    /\ (stack_idle Demo.document.(undo_stack) = true ->
        Dict.contains "B2" Demo.document.(model).(objects) = false ->
        (Controller.undo st').(model) = Demo.document.(model)).
Proof.
  apply (duplicate_object_adds_clone_on_top "B2" "B" (Demo.stored "B") Demo.document).
  vm_compute. reflexivity.
Defined.

Lemma save_and_load_example :
  exists m',
    Persistence.load_project (save_project Demo.document.(model) [])
    = Return (m', [])
    /\ m'.(year) = Demo.document.(model).(year)
    /\ m'.(topics) = Demo.document.(model).(topics)
    /\ m'.(classification) = Demo.document.(model).(classification)
    /\ m'.(classification_size) = Demo.document.(model).(classification_size)
    /\ Dict.keys m'.(objects) = Dict.keys Demo.document.(model).(objects)
    /\ objects_eqb m'.(objects) Demo.document.(model).(objects)
       = forallb saved_faithfully (Dict.values Demo.document.(model).(objects)).
Proof.
  apply (load_project_after_save_project Demo.document.(model) []);
    vm_compute; reflexivity.
Defined.


(** Collapsing the first topic of the plan, and undoing it. *)
Lemma toggle_topic_example :
  exists c,
    RowController.toggle_topic_collapsed "t1" Demo.plan = Some c
    /\ RowCommands.undo c (RowCommands.redo c Demo.plan.(model)) = Demo.plan.(model).
Proof.
  assert (Hsome : exists c, RowController.toggle_topic_collapsed "t1" Demo.plan = Some c)
    by (vm_compute; eexists; reflexivity).
  destruct Hsome as [c Hc]. exists c. split; [exact Hc|].
  exact (proj1 (proj2 (toggle_topic_collapsed_is_undone "t1" Demo.plan c Hc))).
Defined.

Lemma add_topic_example :
  let c := fst (RowController.add_topic "t3" "Gamma" None Demo.plan) in
  let topic := snd (RowController.add_topic "t3" "Gamma" None Demo.plan) in
  get_topic "t3" (RowCommands.redo c Demo.plan.(model)) = Some topic
  /\ RowCommands.undo c (RowCommands.redo c Demo.plan.(model)) = Demo.plan.(model).
Proof.
  apply (proj2 (proj2 (proj2 (proj2
           (add_topic_is_undone "t3" "Gamma" None Demo.plan))))).
  intro Hin. simpl in Hin. destruct Hin as [Hin|[Hin|[]]]; discriminate Hin.
Defined.

(** Removing the first topic of the plan takes the box, the milestone
    and the link along; the undo brings all of them back. *)
Lemma remove_topic_example :
  exists c,
    RowController.remove_topic "t1" Demo.plan = Some c
    /\ get_topic "t1" (RowCommands.redo c Demo.plan.(model)) = None
    /\ (RowCommands.undo c (RowCommands.redo c Demo.plan.(model))).(topics)
       = Demo.plan.(model).(topics)
    /\ forall k,
         Dict.get k (RowCommands.undo c (RowCommands.redo c Demo.plan.(model))).(objects)
         = Dict.get k Demo.plan.(model).(objects).
Proof.
  assert (Hsome : exists c, RowController.remove_topic "t1" Demo.plan = Some c)
    by (vm_compute; eexists; reflexivity).
  destruct Hsome as [c Hc]. exists c. split; [exact Hc|].
  assert (Hwk : well_keyed Demo.plan.(model).(objects) = true)
    by (vm_compute; reflexivity).
  assert (Hnd : NoDup (topic_ids Demo.plan.(model)))
    by (apply nodupb_NoDup; vm_compute; reflexivity).
  destruct (remove_topic_takes_its_objects_along "t1" Demo.plan c Hwk Hnd Hc)
    as (topic & _ & Hnone & _ & _ & _ & Htopics & Hobjects).
  split; [exact Hnone|]. split; [exact Htopics|exact Hobjects].
Defined.

(** The first deliverable of the first topic moved to the second place,
    and back. *)
Lemma move_deliverable_example :
  move_deliverable "d1" 0 (fst (move_deliverable "d1" 1 Demo.plan.(model)))
  = (Demo.plan.(model), true).
Proof.
  assert (Hloc : locate "d1" Demo.plan.(model)
                 = Some (O, mkTopic "t1" "Alpha" "#4E79A7" false
                                    [mkDeliverable "d1" "Design";
                                     mkDeliverable "d2" "Build"],
                         O, mkDeliverable "d1" "Design"))
    by (vm_compute; reflexivity).
  assert (Hnd : NoDup (map deliverable_id
                           (mkTopic "t1" "Alpha" "#4E79A7" false
                                    [mkDeliverable "d1" "Design";
                                     mkDeliverable "d2" "Build"]).(deliverables)))
    by (apply nodupb_NoDup; vm_compute; reflexivity).
  destruct (move_deliverable_moves_and_returns "d1" 1 Demo.plan.(model) _ _ _ _ Hloc Hnd)
    as [_ Hmoved].
  assert (Hne : clamp_index 1 (Z.of_nat (List.length
                  (mkTopic "t1" "Alpha" "#4E79A7" false
                           [mkDeliverable "d1" "Design";
                            mkDeliverable "d2" "Build"]).(deliverables)) - 1)
                <> Z.of_nat 0)
    by (intro Hn; discriminate Hn).
  destruct (Hmoved Hne) as (_ & _ & _ & _ & Hback). exact Hback.
Defined.

(** The deliverable of the second topic moved up: it becomes the last
    of the first topic, and the undo brings it back. *)
Lemma controller_move_deliverable_example :
  exists c,
    RowController.move_deliverable "d3" (-1) Demo.plan = Some c
    /\ RowCommands.undo c (RowCommands.redo c Demo.plan.(model)) = Demo.plan.(model).
Proof.
  assert (Hsome : exists c, RowController.move_deliverable "d3" (-1) Demo.plan = Some c)
    by (vm_compute; eexists; reflexivity).
  destruct Hsome as [c Hc]. exists c. split; [exact Hc|].
  assert (Hts : NoDup (topic_ids Demo.plan.(model)))
    by (apply nodupb_NoDup; vm_compute; reflexivity).
  assert (Hds : NoDup (deliverable_ids Demo.plan.(model)))
    by (apply nodupb_NoDup; vm_compute; reflexivity).
  destruct (controller_move_deliverable_is_undone "d3" (-1) Demo.plan c Hts Hds Hc)
    as (pos & t & i & d & pos' & t' & i' & _ & _ & _ & _ & _ & _ & Hundo).
  exact Hundo.
Defined.

Lemma layout_rows_example :
  map Layout.row_id Demo.plan_layout.(Layout.rows) = shown_row_ids Demo.plan.(model).
Proof.
  exact (proj1 (proj2 (proj2 (@layout_rows_are_stacked Demo.layout_constants
                                Demo.plan.(model) 40)))).
Defined.

(** y = 120 lies in the second row of the plan, which spans 110 to
    134. *)
Lemma row_at_y_example :
  LayoutRows.row_at_y Demo.plan_layout 120 = Some "d1".
Proof.
  assert (Hs : stacked 0 Demo.plan_layout.(Layout.rows)
                       Demo.plan_layout.(Layout.total_height))
    by (vm_compute; repeat split).
  assert (Hall : forallb (fun r => ltb 0 r.(Layout.height))
                         Demo.plan_layout.(Layout.rows) = true)
    by (vm_compute; reflexivity).
  assert (Hh : forall r, In r Demo.plan_layout.(Layout.rows) ->
                         (0 < r.(Layout.height))%Q).
  { intros r Hr. apply PyFacts.ltb_lt.
    exact (proj1 (forallb_forall _ _) Hall r Hr). }
  apply (proj1 (row_at_y_names_the_row Demo.plan_layout Hs Hh) 1%nat
               (Layout.mkRowLayout "d1" "Design" "deliverable" "t1" 30 24 1) 120%Q).
  - vm_compute. reflexivity.
  - apply Qle_bool_imp_le. vm_compute. reflexivity.
  - vm_compute. reflexivity.
Defined.

(** The first textbox of the document anchored anew, to the milestone. *)
Lemma add_anchor_link_placement_example :
  let st' := add_anchor_link "L3" "T1" "M" (Some "left") (Some (1 # 4)) Demo.document in
  exists link side' offset',
    Dict.get "L3" st'.(model).(objects) = Some link
    /\ link.(kind) = "link"
    /\ link.(link_source_id) = Some "T1"
    /\ link.(link_target_id) = Some "M"
    /\ link.(link_source_side) = Some side'
    /\ In side' ["left"; "right"; "top"; "bottom"]
    /\ link.(link_source_offset) = Some offset'
    /\ ((0 <= offset')%Q /\ (offset' <= 1)%Q)
    /\ (let A := _textbox_anchor_point (Demo.stored "T1") link.(link_source_side)
                                       link.(link_source_offset) in
        (or_float link.(link_offset_x) 0
         == fst A - fst (Demo.anchor_point Demo.document (Demo.stored "M")))%Q
        /\ (or_float link.(link_offset_y) 0
            == snd A - snd (Demo.anchor_point Demo.document (Demo.stored "M")))%Q)
    /\ link.(z_index) < (Demo.stored "T1").(z_index)
    /\ link.(z_index) < (Demo.stored "M").(z_index)
    /\ Dict.get "T1" st'.(model).(objects) = Some (Demo.stored "T1")
    /\ Dict.get "M" st'.(model).(objects) = Some (Demo.stored "M").
Proof.
  apply (add_anchor_link_records_the_placement
           Demo.document "L3" "T1" "M" (Some "left") (Some (1 # 4))
           (Demo.stored "T1") (Demo.stored "M")
           (Demo.anchor_point Demo.document (Demo.stored "M")));
    first [ vm_compute; reflexivity | intro Hc; discriminate Hc ].
Defined.

(** A connector from the circle to the box of the document. *)
Lemma add_connector_arrow_example :
  (Controller.undo
     (add_connector_arrow "C2" "O" "B" (Some "top") None None (Some 2%Q)
                          Demo.document)).(model)
  = Demo.document.(model).
Proof.
  assert (Hidle : stack_idle Demo.document.(undo_stack) = true)
    by (vm_compute; reflexivity).
  assert (Hfresh : Dict.contains "C2" Demo.document.(model).(objects) = false)
    by (vm_compute; reflexivity).
  assert (Hsrc : Dict.get "O" Demo.document.(model).(objects) = Some (Demo.stored "O"))
    by (vm_compute; reflexivity).
  assert (Htgt : Dict.get "B" Demo.document.(model).(objects) = Some (Demo.stored "B"))
    by (vm_compute; reflexivity).
  assert (Hne : "O" <> "B") by (intro Hc; discriminate Hc).
  assert (Hsk : str_in (Demo.stored "O").(kind) ["link"; "connector"] = false)
    by (vm_compute; reflexivity).
  assert (Htk : str_in (Demo.stored "B").(kind) ["link"; "connector"] = false)
    by (vm_compute; reflexivity).
  destruct (add_connector_arrow_stores_connector
              Demo.document "C2" "O" "B" (Some "top") None None (Some 2%Q)
              (Demo.stored "O") (Demo.stored "B")
              Hidle Hfresh Hsrc Htgt Hne Hsk Htk)
    as (c & s1 & s2 & o1 & o2 & Hrest).
  exact (proj2 (proj2 (proj2 (proj2 (proj2 (proj2 (proj2 (proj2 (proj2 (proj2
           (proj2 (proj2 (proj2 (proj2 (proj2 (proj2 (proj2 (proj2 Hrest)))))))))))))))))).
Defined.

Lemma normalize_classification_example :
  let r := normalize_classification 10 (Some "  secret ") (Some 99) in
  fst r <> ""
  /\ strip (fst r) = fst r
  /\ CLASSIFICATION_SIZE_MIN <= snd r <= CLASSIFICATION_SIZE_MAX
  /\ normalize_classification 12 (Some (fst r)) (Some (snd r)) = r.
Proof.
  apply (normalize_classification_gives_normal_form 10 12 (Some "  secret ") (Some 99)).
  - vm_compute. intro Hc. discriminate Hc.
  - vm_compute. reflexivity.
  - intro Hc. discriminate Hc.
Defined.

Lemma update_classification_example :
  exists c,
    RowController.update_classification "SECRET" None Demo.plan = Some c
    /\ RowCommands.undo c (RowCommands.redo c Demo.plan.(model)) = Demo.plan.(model).
Proof.
  assert (Hsome : exists c,
             RowController.update_classification "SECRET" None Demo.plan = Some c)
    by (vm_compute; eexists; reflexivity).
  destruct Hsome as [c Hc]. exists c. split; [exact Hc|].
  assert (Hb : CLASSIFICATION_SIZE_MIN <= CLASSIFICATION_SIZE_MAX)
    by (vm_compute; intro Hn; discriminate Hn).
  assert (Hd : strip DEFAULT_CLASSIFICATION = DEFAULT_CLASSIFICATION)
    by (vm_compute; reflexivity).
  assert (Hne : DEFAULT_CLASSIFICATION <> "") by (intro Hn; discriminate Hn).
  assert (Hcur : normalize_classification
                   Demo.plan.(model).(classification_size)
                   (Some Demo.plan.(model).(classification))
                   (Some Demo.plan.(model).(classification_size))
                 = (Demo.plan.(model).(classification),
                    Demo.plan.(model).(classification_size)))
    by (vm_compute; reflexivity).
  pose proof (update_classification_is_undone "SECRET" None Demo.plan Hb Hd Hne Hcur)
    as Hu.
  cbv zeta in Hu. rewrite Hc in Hu. exact (proj2 (proj2 Hu)).
Defined.

(** The first deliverable of the plan removed, with the milestone on
    its row, and put back. *)
Lemma remove_deliverable_example :
  exists c,
    RowController.remove_deliverable "d1" Demo.plan = Some c
    /\ find_deliverable "d1" (RowCommands.redo c Demo.plan.(model)) = None
    /\ (RowCommands.undo c (RowCommands.redo c Demo.plan.(model))).(topics)
       = Demo.plan.(model).(topics)
    /\ forall k,
         Dict.get k (RowCommands.undo c (RowCommands.redo c Demo.plan.(model))).(objects)
         = Dict.get k Demo.plan.(model).(objects).
Proof.
  assert (Hsome : exists c, RowController.remove_deliverable "d1" Demo.plan = Some c)
    by (vm_compute; eexists; reflexivity).
  destruct Hsome as [c Hc]. exists c. split; [exact Hc|].
  assert (Hwk : well_keyed Demo.plan.(model).(objects) = true)
    by (vm_compute; reflexivity).
  assert (Hts : NoDup (topic_ids Demo.plan.(model)))
    by (apply nodupb_NoDup; vm_compute; reflexivity).
  assert (Hds : NoDup (deliverable_ids Demo.plan.(model)))
    by (apply nodupb_NoDup; vm_compute; reflexivity).
  destruct (remove_deliverable_takes_its_objects_along "d1" Demo.plan c Hwk Hts Hds Hc)
    as (topic & index & d & _ & Hnone & _ & _ & _ & _ & _ & _ & Htopics & Hobjects).
  split; [exact Hnone|]. split; [exact Htopics|exact Hobjects].
Defined.

(** The row under the first topic of the plan is its first
    deliverable. *)
Lemma adjacent_row_example :
  LayoutRows.adjacent_row Demo.plan_layout "t1" 1 = Some "d1".
Proof.
  assert (Hnd : NoDup (map Layout.row_id Demo.plan_layout.(Layout.rows)))
    by (apply nodupb_NoDup; vm_compute; reflexivity).
  apply (proj1 (proj2 (adjacent_row_steps_to_the_neighbour Demo.plan_layout Hnd))
               0%nat (Layout.mkRowLayout "t1" "Alpha" "topic" "t1" 0 30 0)
               1%nat (Layout.mkRowLayout "d1" "Design" "deliverable" "t1" 30 24 1)).
  - vm_compute. reflexivity.
  - vm_compute. reflexivity.
Defined.

End MoreExamples.
